(* ===== verification/_CoqProject ===== *)
-Q . S2P
Prelude.v
Schema.v
Permission.v
StockModel.v
Ledger.v
BalanceSpec.v
ExitOrderModel.v
Base64.v
OsService.v
Reports.v
ExitOrderController.v
Catalog.v
StockController.v
Engine.v
Products.v
Pdf.v
Dashboard.v
Users.v
Frontend.v
Activate.v
Avatar.v
Http.v
Interleaving.v
Batches.v
Server.v
