(* ===== verification/Prelude.v ===== *)
(** * Estoque: a verification development of the stock ledger back end

    The repository (src/Backend/src, an Express + MySQL service, and
    src/Frontend/src, a React client) tracks quantities of products held in
    warehouses ("estoques") that belong to organisational units
    ("unidades"); every change of a quantity is recorded as a movement
    ("movimentação") of type ENTRADA or SAIDA, and a batch of exits
    produces an exit order ("OS de saída") rendered as a PDF that can later
    be signed.

    ** How the program is put together

    - [middlewares/authMiddleware.js] resolves the caller (the JWT payload
      [req.user]: id, name, role, unit_id, warehouse_id) and gates routes
      by role ([requireRole], [requireMinRole], [ROLE_RANK]).
    - [controllers/stockController.js] is the movement engine: single entry
      ([stockEntryController]), batch exit with exit order
      ([stockExitController]) and batch entry
      ([stockEntryBatchController]); it checks the caller with
      [ensureWarehouseWritePermission], opens a transaction on one pooled
      connection, and calls the balance store
      ([models/stockModel.js]: [getCurrentStock], [upsertStock],
      [decreaseStock]) and the movement log
      ([models/movementModel.js]: [registerMovement]) for each item.
    - [models/exitOrderModel.js] stores exit orders;
      [controllers/exitOrderController.js] lists and signs them, calling
      the PDF renderer [services/osService.js].
    - [models/movementModel.js] also holds the two read-only reports.
    - [app.js] mounts nine routers (routes/*.js) that put [authRequired],
      role gates and, for avatars, the multer middleware
      [middlewares/uploadAvatar.js] in front of the handlers; errors go
      to [middlewares/errorMiddleware.js].
    - The React client (src/Frontend/src) calls the server through
      [api/api.js] ([request] and the [api] object); [App.jsx] routes
      between pages behind [PrivateRoute]; [components/ActivateAccount.jsx]
      activates an invited account; [components/common/Pagination.jsx]
      draws the page buttons of the lists.

    ** Files of this development and what they model

    - [Prelude] (this file): the state-and-error monad in which handlers
      are written ([M], scope [est_scope]), the JavaScript coercions the
      code relies on ([js_or_null_id], [js_lt], [js_falsy_Z]), generic list
      and sum lemmas, the tactics and the hint databases [estoque] and
      [estoque_rw].
    - [Schema]: the MySQL tables as lists of rows in primary-key order
      with their AUTO_INCREMENT counters ([db]), the transaction of the
      pooled connection ([session]: the state queries see and the
      snapshot taken by [beginTransaction]; ROLLBACK restores the rows and
      keeps the counters), thrown errors ([js_error]), the Express reply
      ([reply], [errorHandler]) and the frame predicate [preserves].
    - [Permission]: [ROLE_RANK], [requireRole], [requireMinRole],
      [ensureWarehouseWritePermission], [ensureWarehouseReadPermission];
      the spec's gate [spec_authorize_write] and the refinement theorem.
    - [StockModel]: the balance store and the movement log
      ([getCurrentStock], [upsertStock], [decreaseStock],
      [registerMovement]), the well-formedness of [stock] ([stock_wf]: ids
      distinct and below the counter, one row per pair) and of the log.
    - [Ledger]: the ledger invariant [ledger_ok] (each row holds the net of
      its pair's movements, whose previous/new quantities chain from 0; every
      movement's pair has a row) and its step lemma.
    - [BalanceSpec]: the spec's contract of the engine over an abstract
      balance map ([spec_entry], [spec_exit], [spec_batch]) and the
      abstraction [abs_balances] of the stock table.
    - [Base64]: the signature image of a signed order: the removal of
      the data-URL header by the code's regular expression and Node's
      base64 decoder with its shifts and masks ([signature_bytes]), and
      the browser's encoder as the reference of the round trip.
    - [ExitOrderModel], [OsService]: the exit-order table and the PDF
      renderer, whose document and file writing are the interface
      [Renderer]; [addSignatureToPdf] writes the decoded signature to
      signature-<movement>.png before the signed document.
    - [Pdf]: the pdfkit calls of [generateExitOS] and
      [addSignatureToPdf] as lists of drawing commands ([exit_doc],
      [signed_doc]): title, order data, the table with [drawTableHeader]
      ([table_header]), [checkNewPage] ([check_new_page]) and the rows at
      the code's coordinates in thousandths of a point, quantities as
      [toLocaleString("pt-BR")] with two decimals ([toLocaleString_ptBR2]),
      the declaration, the page-break tests and the signature image; the
      instance [pdfkit] of [Renderer] writes them to the file.
    - [Reports]: [listStockReport], [listMovementReport],
      [listExitOrdersWithDetails] and the report handlers.
    - [ExitOrderController]: listing and signing exit orders.
    - [StockController]: the three handlers of the movement engine, each
      the whole try/catch/rollback of the source.
    - [Catalog]: units and warehouses ([Units], [Warehouses]: every model
      function and handler of unitModel.js, unitController.js,
      warehouseModel.js and warehouseController.js), mysql2's placeholder
      binding ([bind_params]) and the referential integrity [refs_ok].
    - [Engine]: the three stock routes (role gate, then handler) as a
      transition relation on sessions and its reachable states.
    - [Products]: productModel.js and productController.js: the SKU
      ["P-" + String(id).padStart(5, "0")] written out ([sku_of]), the
      three statements of [createProduct], the scoped listing and barcode
      lookup, the update and the deletion guard; the product references
      [product_refs_ok].
    - [Dashboard]: dashboardModel.js and dashboardController.js: the six
      queries of [getDashboardSummary] with the warehouse scope, the
      grouping by month and by warehouse, and the handler; the calendar is
      a parameter.
    - [Users]: userModel.js, the handlers of authController.js and
      userController.js: accounts, the invitation and activation flow
      ([inviteUser], [setPassword]), administration and profile updates,
      and the unrouted [loginController]; hashing and tokens are the
      interface [Crypto].
    - [Frontend]: the client: [Pagination] and [goTo]; the route tables
      of [App] with [PrivateRoute] and [resolve], which follows the
      [<Navigate>] redirects with fuel; [request_fetch] and
      [request_result] (api.js's [request]), every function of [api] as
      [api_request]; the query decoding of [URLSearchParams]
      ([params_get]) and [encodeURIComponent]; [handleSubmit] of
      ActivateAccount.
    - [Activate]: ActivateAccount.jsx as a state machine of its hooks
      ([on_event], [sys_step], [sys_run]) with the call in flight, and the
      view its JSX renders ([view_of]).
    - [Avatar]: multer's [single("avatar")] with [fileFilter] and the
      [filename] callback ([single_avatar], [avatar_filename]); Node's
      [path.extname], library code the callback calls, is written out as
      [extname] so that the callback runs; the disk is the list of stored
      paths.
    - [Http]: app.js and the routers: the table [routes], Express's
      matching ([dispatch]), the middleware chain ([run_gates],
      [authRequired]), the decoding of the request into each handler's
      arguments ([handler]) and the whole application [app] over the
      database and the disk; [call_server] composes a client call with
      it.  [verifyToken] (utils/jwt.js, absent) is a parameter.
    - [Interleaving]: two exits, or two entries, on two connections as
      schedules of their read and write phases.
    - [Batches]: any number of multi-item batch exits, one transaction
      each, interleaved statement by statement ([txn_step],
      [run_batches]) under InnoDB's REPEATABLE READ: consistent reads from
      the read view ([read_view]), exclusive row locks taken by the UPDATE
      and held to COMMIT or ROLLBACK ([lock_holder]), waits and deadlock
      detection with the victim chosen by weight, and the rollback of a
      failing or victim batch from its undo log ([abort]).
    - [Server]: server.js: the module evaluation order, [dotenv_config]
      (a union of [gmap]s), [PORT], [start] with its probe, listen and
      exit, and the running process as the step relation [step] whose
      serving steps answer with a handler such as [Http.app].

    ** What the theorems show

    - Functional behaviour of each store operation on every branch
      ([StockModel.upsertStock_spec], [StockModel.decreaseStock_spec]).
    - Refinement of the handlers into the spec's balance map: entry, batch
      entry and batch exit commit exactly the spec's balances and one
      movement per item ([StockController.*_refines],
      [StockController.stockExitController_commits]).
    - Atomicity: a failing batch leaves every table's rows as they were
      ([StockController.*_all_or_nothing]); a permission error changes
      nothing ([StockController.handlers_permission_denied]).
    - The ledger invariant in every reachable state, by rule induction
      over the engine's transitions, on every path of every handler
      ([Engine.reachable_ledger]); the stock report agrees with it
      ([Reports.listStockReport_consistent]).
    - Scoping of the views ([Reports.listMovementReport_scope],
      [Reports.listExitOrdersWithDetails_scope]) and the effect of signing
      ([ExitOrderController.signExitOrderController_signs]), and a refused
      caller crashing the process through the rejection nobody awaits
      ([ExitOrderController.signExitOrderController_denied_crashes]); the signature
      file holds exactly the bytes the browser encoded
      ([Base64.signature_bytes_roundtrip], checked group by group over all
      256 x 256 byte pairs by [vm_compute]).
    - Interleavings: the serial schedule of two exits is the code's two
      steps and keeps the invariant; with both reads first the second
      write overwrites the first ([Interleaving.exits_lost_update]); of two
      first entries of a pair read before either writes, the second INSERT
      hits the table's unique key and its quantity is lost
      ([Interleaving.entries_duplicate_fails]).
    - Batches: a batch running alone in the concurrent model does what
      [exit_loop] does, committing its movement ids or rolling back to
      the rows it started from ([Batches.solo_exit_refines]); under every
      interleaving no balance becomes negative
      ([Batches.batches_stock_nonneg]); two batches taking two products
      in opposite orders deadlock, the victim answering 500 with MySQL's
      message while the other commits what it would have done alone
      ([Batches.opposite_batches_deadlock]).
    - PDF: the quantity text reads back to the quantity
      ([Pdf.toLocaleString_ptBR2_roundtrip]); both documents print one
      row per item in order with its product, quantity and warehouse
      ([Pdf.printed_rows_list_items]), every row between the header and
      the bottom margin ([Pdf.printed_rows_in_page]); rows after a page
      break are in bold ([Pdf.rows_after_break_bold]).
    - Catalog: the deletion guards keep referential integrity
      ([Catalog.deletions_keep_refs]); the unit update never succeeds, its
      statement having one placeholder more than values
      ([Catalog.updateUnitController_fails]); warehouse writes are not
      gated ([Catalog.updateWarehouseController_any_caller]).
    - Products: the SKU reads back to its id, so SKUs are unique
      ([Products.sku_of_roundtrip]); creation and deletion keep the
      engine's invariant and the product references
      ([Products.createProductController_inv],
      [Products.deleteProductController_keeps_refs]); an update keeps the
      SKU; the lookups are scoped to the caller's unit; and a balance the
      engine recorded for a product id not yet created makes the creation
      of that product fail on the unique key after its row is inserted
      ([Products.createProductController_duplicate_fails]).
    - Dashboard: its stock total is the net of the movements in scope
      ([Dashboard.getDashboardSummary_total_is_net], a consequence of the
      ledger invariant); its month counts and chart are consistent
      ([Dashboard.getDashboardSummary_months]); it is not limited to the
      caller's unit ([Dashboard.dashboardSummaryController_unscoped]).
    - Users: an invitation activates an account once
      ([Users.invite_activates_once]); a pending invitation survives a
      password change and can replace it
      ([Users.invite_survives_password_change]); creating an account with
      a password always fails, [hashPassword] not being in the module's
      scope ([Users.createUserController_password_fails]).
    - Client and server: every function of the client's [api] reaches
      the handler it is written for and the id it puts in the path is
      read back ([Http.api_calls_reach_handlers]); no handler but login,
      set-password and the root runs without a valid token
      ([Http.app_requires_token]); every refusal of the middlewares is a
      401/403/500 with a message the client throws
      ([Http.gates_refusal_type]); the invitation link round-trips its
      token and e-mail ([Http.invite_link_roundtrip]); an invited account
      can always be activated and then log in, across the client, the
      router and the server ([Http.activation_end_to_end]); an uploaded
      avatar is stored and served, a non-image refused with 500
      ([Http.avatar_upload_served]); the stored name keeps the upload's
      extension ([Avatar.avatar_filename_keeps_extension]).
    - Start-up: the server listens on [PORT] exactly when the probe and
      [listen] succeed; a failing probe or a synchronous throw exits 1
      logging the error as a database error, and an asynchronous listen
      error ('error' event, e.g. EADDRINUSE) crashes the process as an
      uncaught exception under Express 4 and leaves it idle, having logged
      that it runs, under Express 5 ([Server.start_up]); a process that
      answers a request has called [listen]
      ([Server.served_after_listen]).
    - Front end: the pagination window has at most seven items, in
      order, with the current page ([Frontend.Pagination_bounds]); every
      location settles within three renders
      ([Frontend.App_resolve_terminates]); three routes ignore their role
      restriction ([Frontend.App_role_prop_ignored]); the headers of every
      call ([Frontend.api_fetch_headers]); the activation form never has
      two calls in flight, its buttons being disabled exactly while one is
      pending ([Activate.no_double_submit]).
    - Findings: negative quantities accepted by entries and exits, the
      signing handler not awaiting its permission check (any caller can
      sign), roles outside [ROLE_RANK] passing rank comparisons, callers
      and warehouses without a unit matching each other, the lost update,
      the deadlock of batches sharing products in opposite orders.

    One definition uses fuel: [Frontend.resolve], the chain of client
    redirects, which [Frontend.App_resolve_terminates] shows settles
    within three renders whatever the path and the user (the longest
    chain is a refused role: /users, /dashboard, /), so fuel 3 is enough
    and more fuel changes nothing.  Every other loop of the code is a loop
    over a list (the request's items, the pages 1..totalPages, the parts
    of a form, the characters of a string) and is modelled by structural
    recursion on it; the schedules of [Interleaving] and [Batches] are
    finite lists of events.  [Batches.waits_for] follows the chain of
    waits with fuel the number of transactions: a chain that reaches the
    requester does so before it visits a transaction twice, so that fuel
    finds every cycle through the requester, and a chain that loops
    elsewhere stops when the fuel runs out.

    ** Plan (in order of importance)

    1. Balance store, movement log, movement engine (done).
    2. Ledger invariant and refinement to an abstract balance map (done).
    3. Exit order builder and the signature handler; PDF renderer as an
       interface (done).
    4. Reports and their scoping, dashboard counts (done).
    5. Catalog: units and warehouses with their deletion guards and the
       unit update's parameter binding (done); products with the SKU
       derivation and its round trip (done).
    6. Users and the invitation / activation flow, the unrouted
       loginController (done; JWT verification is the parameter
       [verifyToken]).
    7. Interleavings of two exits and of two entries; of any number of
       multi-item batch exits with row locks, deadlocks and rollback
       (done).
    8. The front end: pagination, router, api.js, ActivateAccount (done).
    9. The HTTP wiring: routes, middlewares, request decoding, avatar
       upload, and compositions of client and server (done).
    10. Server start-up, the activation form's state machine, the
        signature image's decoding (done).
    11. PDF layout: the pdfkit calls, the table's coordinates, fonts and
        page breaks (done; the cursor after flowing text is a parameter).

    ** Modelling choices

    - Quantities are integers ([Z], minor units), as the spec asks; the
      code's [Number(...)] coercions are the identity on them.
    - Every table is a list of rows in primary-key order; an INSERT appends
      a row whose id is the table's AUTO_INCREMENT counter, which it then
      increments; an UPDATE ... WHERE id = ? maps over the rows.
    - Handlers run one at a time ([Engine]); queries issued on the pool
      while no transaction is open read the committed state, which is the
      only state there is in that case.  Two requests on two connections
      are modelled separately ([Interleaving], [Batches]).
    - In [Batches] the victim of a deadlock is the requester unless the
      holder of the requested row weighs less, the rule of InnoDB's
      [DeadlockChecker::select_victim]; the weight counts undo records
      and row locks.  The lock wait timeout
      ([innodb_lock_wait_timeout]) is not modelled: a waiting statement
      waits until the schedule runs its holder to its end.
    - Collaborators the code only calls are interfaces: the PDF writer
      ([Renderer], implemented by [Pdf.pdfkit] over the byte stream
      [write_doc]), Node's [path.relative] ([PathLib]), hashing and token
      signing ([Crypto], from files the repository imports but does not
      contain), the server's
      collation for ORDER BY on names and for string equality, and
      [LIKE] (parameters of the definitions that use them).
    - JSON bodies are the tree [jvalue] that [JSON.stringify] writes and
      [express.json()] reads back; numbers in them are integers, and a
      malformed body is not representable.
    - Strings are ASCII ([String.string]): [trim] removes ASCII white
      space and [handleSubmit]'s length test counts characters as bytes.
    - Node 15 and later end the process on an unhandled promise rejection:
      a handler's reply is [Answered] or [Crashed] ([node_reply]); the turn
      at which a promise nobody awaits settles, relative to the handler's
      own awaits, is the input [settle] of [Http.env].  Whether
      app.listen forwards the server's 'error' event (Express 5) or leaves
      it unhandled (Express 4) is the parameter [express5] of [Server].
    - The balances table has the spec's UNIQUE key (product_id,
      warehouse_id) (spec.md; the repository holds no schema): an INSERT
      of a pair already present fails with ER_DUP_ENTRY.
    - An identifier a module neither imports nor declares is a
      ReferenceError when evaluated ([Users.in_scope]): hashPassword in
      createUserController and jwt in the unrouted loginController.
    - The client's routes in App.jsx are all static paths, and
      [Frontend.match_route] matches the location against them exactly:
      React Router's case-insensitive matching and its tolerance of a
      trailing "/" are not modelled (locations are the ones the client's
      own links produce).
    - The ActivateAccount form includes what the browser does with its
      markup: a [disabled] button cannot submit and a [required] empty
      input stops the submission.
    - Not modelled: JWT signing/verification and bcrypt (the interface
      [Crypto] and the parameter [verifyToken]: their code is in files the
      repository imports but does not contain); pdfkit's text layout
      (line wrapping and font metrics, hence the cursor [doc.y] after
      flowing text, which [Pdf] takes as the parameter [table_top], and
      the bytes of the PDF file, the parameter [write_doc]); the server's
      time zone in [Date.toLocaleString] (the parameter [date_text]);
      config/db.js (absent: the pool is the session), HEAD requests and
      the [cors]/[morgan] middlewares (library behaviour that decides no
      reply of the handlers), CSS and React's scheduling of renders. *)

From stdpp Require Export base list gmap strings sorting.
From Stdlib Require Export ZArith Lia.

Set Default Proof Using "Type".

Create HintDb estoque discriminated.
Create Rewrite HintDb estoque_rw.

(** ** Outcomes and the state-and-error monad *)

(** The result of a computation that may throw, as [async] code does:
    either a value or the thrown object. *)
Inductive outcome (E A : Type) : Type :=
| Ok (a : A)
| Err (e : E).
Arguments Ok {E A} a.
Arguments Err {E A} e.

(** A computation over a state [S] that can throw an [E].  The state is
    returned also when it throws: writes done before the throw are still
    there (inside an open transaction) until somebody rolls them back. *)
Definition M (S E A : Type) : Type := S -> outcome E A * S.

Section Monad.
Context {S E : Type}.

Definition ret {A} (a : A) : M S E A := fun s => (Ok a, s).

Definition bind {A B} (c : M S E A) (k : A -> M S E B) : M S E B :=
  fun s => match c s with
         | (Ok a, s') => k a s'
         | (Err e, s') => (Err e, s')
         end.

Definition throw {A} (e : E) : M S E A := fun s => (Err e, s).

Definition get_state : M S E S := fun s => (Ok s, s).

Definition modify_state (f : S -> S) : M S E unit := fun s => (Ok tt, f s).

Lemma bind_ret_l {A B} (a : A) (k : A -> M S E B) s :
  bind (ret a) k s = k a s.
Proof. reflexivity. Qed.

Lemma bind_assoc {A B C} (c : M S E A) (k : A -> M S E B)
  (k' : B -> M S E C) s :
  bind (bind c k) k' s = bind c (fun a => bind (k a) k') s.
Proof. unfold bind. by destruct (c s) as [[a|e] s']. Qed.

Lemma bind_Ok {A B} (c : M S E A) (k : A -> M S E B) s a s' :
  c s = (Ok a, s') -> bind c k s = k a s'.
Proof. unfold bind. by intros ->. Qed.

Lemma bind_Err {A B} (c : M S E A) (k : A -> M S E B) s e s' :
  c s = (Err e, s') -> bind c k s = (Err e, s').
Proof. unfold bind. by intros ->. Qed.

(** Inversion of a bind that succeeded or failed. *)
Lemma bind_inv {A B} (c : M S E A) (k : A -> M S E B) s r s'' :
  bind c k s = (r, s'') ->
  (exists a s', c s = (Ok a, s') /\ k a s' = (r, s''))
  \/ (exists e, c s = (Err e, s'') /\ r = Err e).
Proof.
  unfold bind. destruct (c s) as [[a|e] s']; intros H.
  - left. eauto.
  - right. inversion H; eauto.
Qed.
End Monad.

#[export] Hint Rewrite @bind_ret_l @bind_assoc : estoque_rw.

Declare Scope est_scope.
Delimit Scope est_scope with est.
Notation "x <- c ;; k" := (bind c (fun x => k))
  (at level 60, c at next level, right associativity) : est_scope.
Notation "c ;;; k" := (bind c (fun _ => k))
  (at level 60, right associativity) : est_scope.

(** ** JavaScript coercions used by the code *)

(** [user_id || null]: an id is falsy when it is 0 (or absent). *)
Definition js_or_null_id (o : option Z) : option Z :=
  match o with
  | Some 0%Z | None => None
  | Some z => Some z
  end.

(** [Number(x)] of a nullable integer column: [Number(null) = 0]. *)
Definition js_number (o : option Z) : Z :=
  match o with Some z => z | None => 0%Z end.

(** [a < b] on values looked up in a JS object: a missing key gives
    [undefined], [Number(undefined)] is NaN and every comparison with NaN
    is false. *)
Definition js_lt (a b : option Z) : bool :=
  match a, b with
  | Some x, Some y => (x <? y)%Z
  | _, _ => false
  end.

(** [!x] on a number: falsy exactly when it is 0. *)
Definition js_falsy_Z (z : Z) : bool := (z =? 0)%Z.

(** [!s] for a string that may be missing: [undefined] and [""] are
    falsy. *)
Definition js_falsy_string (o : option string) : bool :=
  match o with Some v => String.eqb v "" | None => true end.

(** A field of a JSON body: absent ([undefined]), [null], or a value. *)
Inductive jsfield (A : Type) := Undefined | Null | Defined (a : A).
Arguments Undefined {A}.
Arguments Null {A}.
Arguments Defined {A} a.

(** ** Sums over lists *)

Fixpoint sumZ {A} (f : A -> Z) (l : list A) : Z :=
  match l with
  | [] => 0%Z
  | x :: l' => (f x + sumZ f l')%Z
  end.

Lemma sumZ_app {A} (f : A -> Z) l1 l2 :
  sumZ f (l1 ++ l2) = (sumZ f l1 + sumZ f l2)%Z.
Proof. induction l1 as [|x l1 IH]; simpl; lia. Qed.

Lemma sumZ_ext {A} (f g : A -> Z) l :
  (forall x, In x l -> f x = g x) -> sumZ f l = sumZ g l.
Proof.
  induction l as [|x l IH]; intros H; simpl; [done|].
  rewrite (H x) by (left; done). rewrite IH; [done|]. intros y Hy. apply H. by right.
Qed.

Lemma sumZ_filter_false {A} (f : A -> Z) (P : A -> bool) l :
  (forall x, In x l -> P x = false) -> sumZ f (List.filter P l) = 0%Z.
Proof.
  induction l as [|x l IH]; intros H; simpl; [done|].
  rewrite (H x) by (left; done). apply IH. intros y Hy. apply H. by right.
Qed.

#[export] Hint Rewrite @sumZ_app : estoque_rw.

(** ** Lists of rows *)

(** [UPDATE t SET ... WHERE id = ?] on a list of rows. *)
Definition update_where {A} (P : A -> bool) (f : A -> A) (l : list A) : list A :=
  map (fun r => if P r then f r else r) l.

Lemma update_where_length {A} (P : A -> bool) f (l : list A) :
  length (update_where P f l) = length l.
Proof. apply length_map. Qed.

Lemma find_app_None {A} (P : A -> bool) l1 l2 :
  find P l1 = None -> find P (l1 ++ l2) = find P l2.
Proof. induction l1 as [|x l1 IH]; simpl; [done|]. by destruct (P x). Qed.

Lemma find_app_Some {A} (P : A -> bool) l1 l2 x :
  find P l1 = Some x -> find P (l1 ++ l2) = Some x.
Proof. induction l1 as [|y l1 IH]; simpl; [done|]. by destruct (P y). Qed.

Lemma filter_app_eq {A} (P : A -> bool) l1 l2 :
  List.filter P (l1 ++ l2) = List.filter P l1 ++ List.filter P l2.
Proof. apply List.filter_app. Qed.

#[export] Hint Rewrite @filter_app_eq : estoque_rw.

Lemma find_map_preserve {A} (P : A -> bool) (g : A -> A) l :
  (forall x, P (g x) = P x) -> find P (map g l) = option_map g (find P l).
Proof.
  intros HP. induction l as [|x l IH]; simpl; [done|]. rewrite HP.
  by destruct (P x).
Qed.

Lemma NoDup_map_in_inj {A B} (f : A -> B) l x y :
  NoDup (map f l) -> In x l -> In y l -> f x = f y -> x = y.
Proof.
  induction l as [|z l IH]; simpl; [done|].
  intros Hnd Hx Hy Hf. apply NoDup_cons in Hnd as [Hz Hnd].
  destruct Hx as [<-|Hx], Hy as [<-|Hy]; try done.
  - exfalso. apply Hz, list_elem_of_In. rewrite Hf. apply in_map_iff; eauto.
  - exfalso. apply Hz, list_elem_of_In. rewrite <- Hf. apply in_map_iff; eauto.
  - by apply IH.
Qed.

Lemma in_take {A} n (l : list A) x : x ∈ take n l -> x ∈ l.
Proof. intros Hx. apply elem_of_take in Hx as (i & Hi & _). by eapply list_elem_of_lookup_2. Qed.

(** The characters of a concatenation of strings. *)
Lemma list_ascii_app a b :
  String.list_ascii_of_string (a +:+ b) = String.list_ascii_of_string a ++ String.list_ascii_of_string b.
Proof.
  induction a as [|c a IH]; [done|].
  change (String c a +:+ b) with (String c (a +:+ b)). cbn [String.list_ascii_of_string]. by rewrite IH.
Qed.

(** ** Tactics *)

(** Split the bind at the head of a hypothesis [H : bind c k s = (r, s')]
    into the case where [c] succeeded and the case where it threw. *)
Ltac bind_inv H :=
  let a := fresh "a" in let s := fresh "s" in let Hc := fresh "Hc" in
  let e := fresh "e" in
  destruct (bind_inv _ _ _ _ _ H) as [(a & s & Hc & H) | (e & Hc & ->)].

(** Case on every boolean test on integers in the goal. *)
Ltac z_cases :=
  repeat match goal with
  | |- context [(?x =? ?y)%Z] => destruct (Z.eqb_spec x y)
  | |- context [(?x <? ?y)%Z] => destruct (Z.ltb_spec x y)
  | |- context [(?x <=? ?y)%Z] => destruct (Z.leb_spec x y)
  | |- context [(?x >? ?y)%Z] => rewrite (Z.gtb_ltb x y)
  end.

(** Decide a closed proposition by computation. *)
Ltac decide_prop := apply (bool_decide_unpack _); vm_compute; reflexivity.
