(* ===== verification/Schema.v ===== *)
(** * Schema: the MySQL state the handlers read and write

    The tables the models under src/Backend/src/models query, each a list
    of rows in primary-key order with its AUTO_INCREMENT counter; the
    pooled connection's transaction ([session]); the errors the code
    throws ([js_error], built as [new Error(msg)] with an optional
    [statusCode]); the JSON replies of the handlers and the error
    middleware [errorHandler] (middlewares/errorMiddleware.js).

    InnoDB does not give back AUTO_INCREMENT values on ROLLBACK, so
    [rollback_to] restores the rows of every table and keeps the counters;
    [db_rows_eq] is the equality of the rows, the state a client can
    observe. *)

From S2P Require Import Prelude.

Open Scope Z_scope.

(** ** Rows *)

Record unit_row := mkUnit {
  un_id : Z;
  un_name : string;
  un_acronym : option string;
  un_description : option string
}.

Record warehouse := mkWarehouse {
  wh_id : Z;
  wh_name : string;
  wh_description : option string;
  wh_unit_id : option Z
}.

Record product := mkProduct {
  pr_id : Z;
  pr_name : string;
  pr_unit : option string;
  pr_sku : option string;
  pr_barcode : option string;
  pr_description : option string
}.

(** [stock(id, product_id, warehouse_id, quantity)] *)
Record stock_row := mkStock {
  st_id : Z;
  st_product : Z;
  st_warehouse : Z;
  st_quantity : Z
}.

(** The [type] column of [stock_movements]: the strings "ENTRADA" and
    "SAIDA" are the only ones the code writes. *)
Inductive mtype := ENTRADA | SAIDA.

#[export] Instance mtype_eq_dec : EqDecision mtype.
Proof. solve_decision. Defined.

(** The change of balance a movement of this type and quantity records. *)
Definition signed_qty (t : mtype) (q : Z) : Z :=
  match t with ENTRADA => q | SAIDA => - q end.

(** [stock_movements(id, product_id, warehouse_id, user_id, type,
    quantity, previous_qty, new_qty, description, created_at)] *)
Record movement := mkMovement {
  mv_id : Z;
  mv_product : Z;
  mv_warehouse : Z;
  mv_user : option Z;
  mv_type : mtype;
  mv_quantity : Z;
  mv_previous : Z;
  mv_new : Z;
  mv_description : option string;
  mv_created_at : Z
}.

(** One element of [items_json]: [{ product, quantity, warehouse }]. *)
Record exit_item := mkExitItem {
  it_product : string;
  it_quantity : Z;
  it_warehouse : string
}.

(** [exit_orders(id, movement_id, client_name, client_document,
    declaration, pdf_path, items_json, signature_image, created_at)] *)
Record exit_order := mkExitOrder {
  eo_id : Z;
  eo_movement_id : Z;
  eo_client_name : string;
  eo_client_document : option string;
  eo_declaration : string;
  eo_pdf_path : option string;
  eo_items : list exit_item;
  eo_signature_image : option string;
  eo_created_at : Z
}.

Record user_row := mkUser {
  us_id : Z;
  us_name : string;
  us_email : string;
  us_password_hash : option string;
  us_role : string;
  us_matricula : option string;
  us_unit_id : option Z;
  us_warehouse_id : option Z;
  us_avatar_url : option string;
  us_invite_token_hash : option string;
  us_invite_expires_at : option Z;
  us_created_at : Z
}.

(** ** Tables *)

Record table (A : Type) := mkTable {
  rows : list A;
  next_id : Z
}.
Arguments mkTable {A} rows next_id.
Arguments rows {A} t.
Arguments next_id {A} t.

(** [INSERT]: the new row gets the AUTO_INCREMENT value as its id
    ([result.insertId]). *)
Definition tbl_insert {A} (mk : Z -> A) (t : table A) : Z * table A :=
  (next_id t, mkTable (rows t ++ [mk (next_id t)]) (next_id t + 1)).

(** [UPDATE t SET ... WHERE <P>]. *)
Definition tbl_update {A} (P : A -> bool) (f : A -> A) (t : table A) : table A :=
  mkTable (update_where P f (rows t)) (next_id t).

Record db := mkDb {
  units : table unit_row;
  warehouses : table warehouse;
  products : table product;
  stock : table stock_row;
  movements : table movement;
  exit_orders : table exit_order;
  users : table user_row;
  clock : Z   (** [CURRENT_TIMESTAMP], the default of [created_at] *)
}.

Definition set_warehouses (t : table warehouse) (d : db) : db :=
  mkDb (units d) t (products d) (stock d) (movements d) (exit_orders d) (users d) (clock d).
Definition set_products (t : table product) (d : db) : db :=
  mkDb (units d) (warehouses d) t (stock d) (movements d) (exit_orders d) (users d) (clock d).
Definition set_stock (t : table stock_row) (d : db) : db :=
  mkDb (units d) (warehouses d) (products d) t (movements d) (exit_orders d) (users d) (clock d).
Definition set_movements (t : table movement) (d : db) : db :=
  mkDb (units d) (warehouses d) (products d) (stock d) t (exit_orders d) (users d) (clock d).
Definition set_exit_orders (t : table exit_order) (d : db) : db :=
  mkDb (units d) (warehouses d) (products d) (stock d) (movements d) t (users d) (clock d).
Definition set_units (t : table unit_row) (d : db) : db :=
  mkDb t (warehouses d) (products d) (stock d) (movements d) (exit_orders d) (users d) (clock d).
Definition set_users (t : table user_row) (d : db) : db :=
  mkDb (units d) (warehouses d) (products d) (stock d) (movements d) (exit_orders d) t (clock d).

(** The rows of every table agree: what a client of the database sees. *)
Definition db_rows_eq (d1 d2 : db) : Prop :=
  rows (units d1) = rows (units d2) /\
  rows (warehouses d1) = rows (warehouses d2) /\
  rows (products d1) = rows (products d2) /\
  rows (stock d1) = rows (stock d2) /\
  rows (movements d1) = rows (movements d2) /\
  rows (exit_orders d1) = rows (exit_orders d2) /\
  rows (users d1) = rows (users d2).

(** ROLLBACK: the rows of the snapshot, the counters of now. *)
Definition restore_table {A} (snap cur : table A) : table A :=
  mkTable (rows snap) (next_id cur).

Definition rollback_to (snap cur : db) : db :=
  mkDb (restore_table (units snap) (units cur))
       (restore_table (warehouses snap) (warehouses cur))
       (restore_table (products snap) (products cur))
       (restore_table (stock snap) (stock cur))
       (restore_table (movements snap) (movements cur))
       (restore_table (exit_orders snap) (exit_orders cur))
       (restore_table (users snap) (users cur))
       (clock cur).

(** ** The connection and its transaction *)

(** [sdb] is the state queries see; [snapshot] is the state saved by
    [conn.beginTransaction()] while a transaction is open. *)
Record session := mkSession {
  sdb : db;
  snapshot : option db
}.

(** ** Errors and replies *)

(** [const err = new Error(message); err.statusCode = code; throw err]. *)
Record js_error := mkError {
  statusCode : option Z;
  message : string;
  err_code : option string   (** [err.code] *)
}.

Definition http_error (code : Z) (msg : string) : js_error := mkError (Some code) msg None.
Definition plain_error (msg : string) : js_error := mkError None msg None.

(** A computation of a handler: it reads and writes the session and may
    throw. *)
Abbreviation St := (M session js_error).

(** The JSON bodies the handlers send. *)
Inductive body :=
| JMessage (msg : string)                     (** [{ message }] *)
| JError (msg : string)                       (** [{ error }] *)
| JMessageId (msg : string) (movement_id : Z) (** [{ message, movement_id }] *)
| JSuccess                                    (** [{ success: true }] *)
| JRows {A : Type} (rs : list A)              (** an array of rows *)
| JObject {A : Type} (x : A)                  (** one row as an object *)
| JEnd.                                       (** [res.end()]: no body *)

Record reply := mkReply {
  status : Z;
  payload : body
}.

(** [res.json(x)] answers 200. *)
Definition json (b : body) : reply := mkReply 200 b.

(** [errorHandler]: [res.status(err.statusCode || 500).json({ error:
    err.message || "Erro interno do servidor" })]. *)
Definition errorHandler (e : js_error) : reply :=
  mkReply (match statusCode e with Some c => if Z.eqb c 0 then 500 else c | None => 500 end)
          (JError (if String.eqb (message e) ""%string then "Erro interno do servidor"%string else message e)).

(** ** Session primitives *)

Definition read_db : St db := fun s => (Ok (sdb s), s).

Definition write_db (f : db -> db) : St unit :=
  fun s => (Ok tt, mkSession (f (sdb s)) (snapshot s)).

(** [conn.beginTransaction()] *)
Definition beginTransaction : St unit :=
  fun s => (Ok tt, mkSession (sdb s) (Some (sdb s))).

(** [conn.commit()] *)
Definition commit : St unit :=
  fun s => (Ok tt, mkSession (sdb s) None).

(** [conn.rollback()]: without an open transaction it does nothing. *)
Definition rollback (s : session) : session :=
  match snapshot s with
  | Some snap => mkSession (rollback_to snap (sdb s)) None
  | None => s
  end.

(** The [try { ... } catch (err) { await conn.rollback(); next(err); }]
    of the stock handlers (the [finally conn.release()] gives the
    connection back and changes nothing). *)
Definition try_rollback (c : St reply) (s : session) : reply * session :=
  match c s with
  | (Ok r, s') => (r, s')
  | (Err e, s') => (errorHandler e, rollback s')
  end.

(** [try { ... } catch (err) { next(err); }] of the handlers that use no
    transaction. *)
Definition try_next (c : St reply) (s : session) : reply * session :=
  match c s with
  | (Ok r, s') => (r, s')
  | (Err e, s') => (errorHandler e, s')
  end.

(** ** Frames *)

(** [c] leaves the observation [f] of the session as it found it, on
    every run (the run may throw). *)
Definition preserves {A Y} (f : session -> Y) (c : St A) : Prop :=
  forall s, f (snd (c s)) = f s.

(** ** Lemmas on the rows *)

#[export] Instance db_rows_eq_equiv : Equivalence db_rows_eq.
Proof.
  split.
  - intros d. repeat split.
  - intros d1 d2 H. unfold db_rows_eq in *. intuition congruence.
  - intros d1 d2 d3 H1 H2. unfold db_rows_eq in *. intuition congruence.
Qed.

Lemma rollback_to_rows snap cur : db_rows_eq (rollback_to snap cur) snap.
Proof. repeat split. Qed.

Lemma tbl_insert_rows {A} (mk : Z -> A) t :
  rows (snd (tbl_insert mk t)) = rows t ++ [mk (next_id t)].
Proof. reflexivity. Qed.

Lemma tbl_insert_next {A} (mk : Z -> A) t :
  next_id (snd (tbl_insert mk t)) = next_id t + 1.
Proof. reflexivity. Qed.

#[export] Hint Resolve rollback_to_rows : estoque.

(** ** Frame lemmas *)

Section Frames.
Context {Y : Type} (f : session -> Y).

Lemma preserves_ret {A} (a : A) : preserves f (ret a).
Proof. intros s. reflexivity. Qed.

Lemma preserves_throw {A} (e : js_error) : preserves f (throw (A:=A) e).
Proof. intros s. reflexivity. Qed.

Lemma preserves_read_db : preserves f read_db.
Proof. intros s. reflexivity. Qed.

Lemma preserves_bind {A B} (c : St A) (k : A -> St B) :
  preserves f c -> (forall a, preserves f (k a)) -> preserves f (bind c k).
Proof.
  intros Hc Hk s. unfold bind. specialize (Hc s).
  destruct (c s) as [[a|e] s'] eqn:E; simpl in *; [|done].
  by rewrite Hk.
Qed.

Lemma preserves_write_db (g : db -> db) :
  (forall s, f (mkSession (g (sdb s)) (snapshot s)) = f s) -> preserves f (write_db g).
Proof. intros H s. apply H. Qed.

Lemma preserves_run {A} (c : St A) s r s' :
  preserves f c -> c s = (r, s') -> f s' = f s.
Proof. intros H E. specialize (H s). by rewrite E in H. Qed.
End Frames.

#[export] Hint Resolve preserves_ret preserves_throw preserves_read_db : estoque.

(** Prove a frame goal by following the binds of the computation. *)
Ltac frame :=
  repeat match goal with
  | |- preserves _ (bind _ _) => apply preserves_bind; [|intros ?]
  | |- preserves _ (match ?x with _ => _ end) => destruct x
  | |- preserves _ (if ?b then _ else _) => destruct b
  | |- preserves _ (ret _) => apply preserves_ret
  | |- preserves _ (throw _) => apply preserves_throw
  | |- preserves _ read_db => apply preserves_read_db
  | |- preserves _ (write_db _) => apply preserves_write_db; intros ?; reflexivity
  end; eauto with estoque.

(** ** Transactions *)

Lemma beginTransaction_run s :
  beginTransaction s = (Ok tt, mkSession (sdb s) (Some (sdb s))).
Proof. reflexivity. Qed.

(** A body that throws inside the transaction throws out of it. *)
Lemma begin_body_err {A B} (body : St A) (k : A -> St B) s e s1 :
  body (mkSession (sdb s) (Some (sdb s))) = (Err e, s1) ->
  bind beginTransaction (fun _ => bind body k) s = (Err e, s1).
Proof. intros H. unfold bind at 1. simpl. by rewrite (bind_Err _ _ _ _ _ H). Qed.

Lemma try_rollback_err c s e s1 :
  c s = (Err e, s1) -> try_rollback c s = (errorHandler e, rollback s1).
Proof. unfold try_rollback. by intros ->. Qed.

Lemma try_rollback_ok c s r s1 :
  c s = (Ok r, s1) -> try_rollback c s = (r, s1).
Proof. unfold try_rollback. by intros ->. Qed.

(** ROLLBACK of the transaction begun on [snap] gives back its rows and
    closes it. *)
Lemma rollback_restores s1 snap :
  snapshot s1 = Some snap ->
  db_rows_eq (sdb (rollback s1)) snap /\ snapshot (rollback s1) = None.
Proof. unfold rollback. intros ->. split; [apply rollback_to_rows|done]. Qed.

Lemma rollback_none s : snapshot s = None -> rollback s = s.
Proof. unfold rollback. by intros ->. Qed.

(** A computation that only reads, run successfully, returns the session
    it was given. *)
Lemma run_readonly {A} (c : St A) s a :
  snd (c s) = s -> fst (c s) = Ok a -> c s = (Ok a, s).
Proof. destruct (c s) as [r s']. simpl. by intros -> ->. Qed.

Lemma commit_run s : commit s = (Ok tt, mkSession (sdb s) None).
Proof. reflexivity. Qed.
