(* ===== verification/Permission.v ===== *)
(** * Permission: roles, route gates and the warehouse permission checks

    Models middlewares/authMiddleware.js ([ROLE_RANK], [requireRole],
    [requireMinRole]) and the two checks of controllers/stockController.js
    ([ensureWarehouseWritePermission], [ensureWarehouseReadPermission]).
    The caller is the decoded JWT payload [req.user] ([principal]); the
    token itself is not modelled.

    Roles are the strings stored in [users.role].  [ROLE_RANK] is a JS
    object, so a role that is not one of its four keys ranks [undefined],
    and [undefined < n] is false: [js_lt] in the prelude.

    The spec's gate ([spec_authorize_write]) is stated over the four
    known roles; [ensureWarehouseWritePermission_refines] relates the code
    to it. *)

From S2P Require Import Prelude Schema.

Open Scope Z_scope.
Open Scope est_scope.

(** ** The caller *)

(** [req.user]: [{ id, name, role, unit_id, warehouse_id }] as signed by
    [login] (controllers/authController.js). *)
Record principal := mkPrincipal {
  u_id : Z;
  u_name : string;
  u_role : string;
  u_unit_id : option Z;
  u_warehouse_id : option Z
}.

(** ** ROLE_RANK *)

Definition ROLE_RANK (role : string) : option Z :=
  if String.eqb role "user" then Some 1
  else if String.eqb role "supervisor" then Some 2
  else if String.eqb role "admin" then Some 3
  else if String.eqb role "super_admin" then Some 4
  else None.

(** ** Route gates: [None] is [next()], [Some r] is the reply sent. *)

Definition requireRole (roles : list string) (user : option principal) : option reply :=
  match user with
  | None => Some (mkReply 401 (JError "Não autenticado"))
  | Some u =>
      if existsb (String.eqb (u_role u)) roles then None
      else Some (mkReply 403 (JError "Permissão negada"))
  end.

Definition requireMinRole (minRole : string) (user : option principal) : option reply :=
  match user with
  | None => Some (mkReply 401 (JError "Não autenticado"))
  | Some u =>
      if js_lt (ROLE_RANK (u_role u)) (ROLE_RANK minRole)
      then Some (mkReply 403 (JError "Permissão negada"))
      else None
  end.

(** ** The warehouse checks *)

(** [SELECT unit_id FROM warehouses WHERE id = ?], [rows[0]]. *)
Definition find_warehouse (warehouse_id : Z) (d : db) : option warehouse :=
  find (fun w => wh_id w =? warehouse_id) (rows (warehouses d)).

(** [Number(wh.unit_id) !== Number(unit_id)] *)
Definition unit_mismatch (wh : warehouse) (u : principal) : bool :=
  negb (js_number (wh_unit_id wh) =? js_number (u_unit_id u)).

Definition check_warehouse_unit (u : principal) (warehouse_id : Z) : St unit :=
  d <- read_db ;;
  match find_warehouse warehouse_id d with
  | None => throw (http_error 404 "Estoque não encontrado")
  | Some wh =>
      if unit_mismatch wh u
      then throw (http_error 403 "Você não tem permissão nesta unidade")
      else ret tt
  end.

Definition ensureWarehouseWritePermission (u : principal) (warehouse_id : Z) : St unit :=
  if String.eqb (u_role u) "super_admin" then ret tt
  else if js_lt (ROLE_RANK (u_role u)) (ROLE_RANK "supervisor")
  then throw (http_error 403 "Você não tem permissão para alterar este estoque")
  else check_warehouse_unit u warehouse_id.

Definition ensureWarehouseReadPermission (u : principal) (warehouse_id : Z) : St unit :=
  if String.eqb (u_role u) "super_admin" then ret tt
  else check_warehouse_unit u warehouse_id.

(** ** The spec's gate *)

Inductive role := RUser | RSupervisor | RAdmin | RSuperAdmin.

#[export] Instance role_eq_dec : EqDecision role.
Proof. solve_decision. Defined.

Definition role_name (r : role) : string :=
  match r with
  | RUser => "user"
  | RSupervisor => "supervisor"
  | RAdmin => "admin"
  | RSuperAdmin => "super_admin"
  end.

(** The spec's rank: [user < supervisor < admin < super_admin]. *)
Definition rank (r : role) : Z :=
  match r with RUser => 1 | RSupervisor => 2 | RAdmin => 3 | RSuperAdmin => 4 end.

Inductive gate_error := Forbidden | NotFound.

(** [authorizeWrite(requester, warehouseId)] of the spec: the top role
    bypasses; below supervisor is Forbidden; an unknown warehouse is
    NotFound; a warehouse of another unit is Forbidden.  A requester with
    no unit belongs to no unit.  [wh] is the looked-up warehouse's owning
    unit, [None] when there is no such warehouse. *)
Definition spec_authorize_write (r : role) (unit : option Z)
    (wh : option (option Z)) : option gate_error :=
  if decide (r = RSuperAdmin) then None
  else if (rank r <? rank RSupervisor) then Some Forbidden
  else match wh with
       | None => Some NotFound
       | Some owner =>
           match owner, unit with
           | Some o, Some x => if o =? x then None else Some Forbidden
           | _, _ => Some Forbidden
           end
       end.

(** The gate's verdict as the code computes it: [Ok] is [None], a thrown
    403 is [Forbidden], a thrown 404 is [NotFound]. *)
Definition verdict (o : outcome js_error unit) : option gate_error :=
  match o with
  | Ok _ => None
  | Err e => if bool_decide (statusCode e = Some 404) then Some NotFound else Some Forbidden
  end.

(** ** Lemmas *)

Lemma ROLE_RANK_role_name r : ROLE_RANK (role_name r) = Some (rank r).
Proof. by destruct r. Qed.

Lemma check_warehouse_unit_state u w s :
  snd (check_warehouse_unit u w s) = s.
Proof.
  unfold check_warehouse_unit, bind, read_db, throw, ret; simpl.
  destruct (find_warehouse w (sdb s)) as [wh|]; [|done].
  by destruct (unit_mismatch wh u).
Qed.

(** The checks only read: the session after them is the one before. *)
Lemma ensureWarehouseWritePermission_state u w s :
  snd (ensureWarehouseWritePermission u w s) = s.
Proof.
  unfold ensureWarehouseWritePermission.
  destruct (String.eqb _ _); [done|].
  destruct (js_lt _ _); [done|]. apply check_warehouse_unit_state.
Qed.

Lemma ensureWarehouseReadPermission_state u w s :
  snd (ensureWarehouseReadPermission u w s) = s.
Proof.
  unfold ensureWarehouseReadPermission.
  destruct (String.eqb _ _); [done|]. apply check_warehouse_unit_state.
Qed.

#[export] Hint Resolve ensureWarehouseWritePermission_state
  ensureWarehouseReadPermission_state check_warehouse_unit_state : estoque.

Lemma check_warehouse_unit_verdict u x w s :
  u_unit_id u = Some x -> x <> 0 ->
  verdict (fst (check_warehouse_unit u w s)) =
  match option_map wh_unit_id (find_warehouse w (sdb s)) with
  | None => Some NotFound
  | Some owner =>
      match owner, u_unit_id u with
      | Some o, Some y => if o =? y then None else Some Forbidden
      | _, _ => Some Forbidden
      end
  end.
Proof.
  intros Hu Hx. unfold check_warehouse_unit, bind, read_db, throw, ret; simpl.
  destruct (find_warehouse w (sdb s)) as [wh|]; simpl; [|done].
  unfold unit_mismatch, js_number. rewrite Hu.
  destruct (wh_unit_id wh) as [o|]; z_cases; simpl; done || lia.
Qed.

(** ** Properties *)

(** C15: on the four roles of [ROLE_RANK], for a caller who belongs to a
    unit, [ensureWarehouseWritePermission] decides exactly as the spec's
    [authorizeWrite]: super_admin passes, [user] is Forbidden, an unknown
    warehouse is NotFound, a warehouse of another unit is Forbidden; and
    it never changes the state. *)
Theorem ensureWarehouseWritePermission_refines r u x w s :
  u_role u = role_name r -> u_unit_id u = Some x -> x <> 0 ->
  verdict (fst (ensureWarehouseWritePermission u w s)) =
    spec_authorize_write r (u_unit_id u)
      (option_map wh_unit_id (find_warehouse w (sdb s)))
  /\ snd (ensureWarehouseWritePermission u w s) = s.
Proof.
  intros Hr Hu Hx. split; [|apply ensureWarehouseWritePermission_state].
  unfold ensureWarehouseWritePermission, spec_authorize_write.
  rewrite Hr, ROLE_RANK_role_name.
  destruct r; simpl; try done; by rewrite (check_warehouse_unit_verdict u x).
Qed.

Lemma ensureWarehouseWritePermission_refines_witness :
  let u := mkPrincipal 7 "Ana" "supervisor" (Some 1) None in
  let d := mkDb (mkTable [] 1) (mkTable [mkWarehouse 3 "Central" None (Some 2)] 4)
             (mkTable [] 1) (mkTable [] 1) (mkTable [] 1) (mkTable [] 1)
             (mkTable [] 1) 0 in
  verdict (fst (ensureWarehouseWritePermission u 3 (mkSession d None))) = Some Forbidden /\
  (verdict (fst (ensureWarehouseWritePermission u 3 (mkSession d None))) =
     spec_authorize_write RSupervisor (u_unit_id u)
       (option_map wh_unit_id (find_warehouse 3 d))
   /\ snd (ensureWarehouseWritePermission u 3 (mkSession d None)) = mkSession d None).
Proof.
  intros u d. split; [reflexivity|].
  apply (ensureWarehouseWritePermission_refines RSupervisor u 1); reflexivity || lia.
Defined.

(** A role outside [ROLE_RANK] (such as "comum", the default role
    [register] gives) ranks [undefined], and [undefined < 2] is false: the
    rank check of [ensureWarehouseWritePermission] never rejects it, the
    caller goes straight to the unit check. *)
Theorem ensureWarehouseWritePermission_unknown_role u w :
  ROLE_RANK (u_role u) = None ->
  ensureWarehouseWritePermission u w = check_warehouse_unit u w.
Proof.
  intros H. unfold ensureWarehouseWritePermission.
  destruct (String.eqb (u_role u) "super_admin") eqn:E.
  - apply String.eqb_eq in E. by rewrite E in H.
  - by rewrite H.
Qed.

Lemma ensureWarehouseWritePermission_unknown_role_witness :
  ROLE_RANK "comum" = None /\
  ensureWarehouseWritePermission (mkPrincipal 9 "Bia" "comum" (Some 1) None) 3 =
  check_warehouse_unit (mkPrincipal 9 "Bia" "comum" (Some 1) None) 3.
Proof.
  split; [reflexivity|].
  apply ensureWarehouseWritePermission_unknown_role. reflexivity.
Defined.

(** The same hole in [requireMinRole]: a role outside [ROLE_RANK]
    passes [requireMinRole m] for every [m], so the unit routes guarded by
    [requireMinRole("admin")] let it through. *)
Theorem requireMinRole_unknown_role u m :
  ROLE_RANK (u_role u) = None -> requireMinRole m (Some u) = None.
Proof. intros H. unfold requireMinRole. by rewrite H. Qed.

Lemma requireMinRole_unknown_role_witness :
  ROLE_RANK "comum" = None /\
  requireMinRole "admin" (Some (mkPrincipal 9 "Bia" "comum" (Some 1) None)) = None.
Proof. split; [reflexivity|]. apply requireMinRole_unknown_role. reflexivity. Defined.

(** A caller without a unit ([unit_id] null) and a warehouse without a
    unit (the spec's super-scope warehouse) compare equal, since
    [Number(null) = 0] on both sides: a supervisor of no unit may write
    into a super-scope warehouse, which the spec's gate forbids. *)
Theorem ensureWarehouseWritePermission_null_units u w wh s :
  u_role u = "supervisor" -> u_unit_id u = None ->
  find_warehouse w (sdb s) = Some wh -> wh_unit_id wh = None ->
  fst (ensureWarehouseWritePermission u w s) = Ok tt /\
  spec_authorize_write RSupervisor (u_unit_id u) (Some (wh_unit_id wh)) = Some Forbidden.
Proof.
  intros Hr Hu Hf Hw. rewrite Hu, Hw. split; [|reflexivity].
  unfold ensureWarehouseWritePermission. rewrite Hr. simpl.
  unfold check_warehouse_unit, bind, read_db; simpl. rewrite Hf.
  unfold unit_mismatch, js_number. by rewrite Hu, Hw.
Qed.

Lemma ensureWarehouseWritePermission_null_units_witness :
  let u := mkPrincipal 5 "Caio" "supervisor" None None in
  let wh := mkWarehouse 1 "Almoxarifado geral" None None in
  let s := mkSession (mkDb (mkTable [] 1) (mkTable [wh] 2) (mkTable [] 1) (mkTable [] 1)
                           (mkTable [] 1) (mkTable [] 1) (mkTable [] 1) 0) None in
  fst (ensureWarehouseWritePermission u 1 s) = Ok tt /\
  spec_authorize_write RSupervisor (u_unit_id u) (Some (wh_unit_id wh)) = Some Forbidden.
Proof.
  intros u wh s.
  apply (ensureWarehouseWritePermission_null_units u 1 wh s); reflexivity.
Defined.
