(* ===== verification/StockModel.v ===== *)
(** * StockModel: the balance store and the movement log

    Models src/Backend/src/models/stockModel.js ([getCurrentStock],
    [upsertStock], [decreaseStock]) and [registerMovement] of
    src/Backend/src/models/movementModel.js.  All of them run on the
    connection the caller passes ([conn]), so inside the caller's
    transaction: here, on the session.

    [balance d p w] is what [getCurrentStock] reads: the quantity of the
    first row of [stock] for the pair, in primary-key order.  The lemmas
    give each operation's effect on [balance], on the other pairs and on
    the other tables, on every branch; they need the stock ids to be
    distinct and below the AUTO_INCREMENT counter ([stock_wf]), which
    every operation preserves.  The balances are unique on
    [(product_id, warehouse_id)], as the spec's persisted layout says
    (the repository contains no schema): an INSERT of a pair that has a
    row fails ([dup_entry]). *)

From S2P Require Import Prelude Schema.

Open Scope Z_scope.
Open Scope est_scope.

(** ** Balance store *)

(** [WHERE product_id = ? AND warehouse_id = ?] *)
Definition stock_key (product_id warehouse_id : Z) (r : stock_row) : bool :=
  (st_product r =? product_id) && (st_warehouse r =? warehouse_id).

Definition find_stock (product_id warehouse_id : Z) (d : db) : option stock_row :=
  find (stock_key product_id warehouse_id) (rows (stock d)).

Definition balance (d : db) (product_id warehouse_id : Z) : option Z :=
  option_map st_quantity (find_stock product_id warehouse_id d).

(** [SELECT id, quantity FROM stock WHERE product_id = ? AND
    warehouse_id = ?], [rows[0] || null]. *)
Definition getCurrentStock (product_id warehouse_id : Z) : St (option stock_row) :=
  d <- read_db ;;
  ret (find_stock product_id warehouse_id d).

(** The error of an INSERT that would give a pair a second row: the
    balances are unique on [(product_id, warehouse_id)] (the spec's
    persisted layout; the repository has no schema, so the key's name in
    MySQL's message is not known).  It carries no [statusCode]. *)
Definition dup_entry : js_error := plain_error "Duplicate entry for key (product_id, warehouse_id)".

(** [INSERT INTO stock (product_id, warehouse_id, quantity) VALUES (?, ?, ?)],
    answering [result.insertId], or failing on the unique key. *)
Definition insert_stock (product_id warehouse_id quantity : Z) : St Z :=
  d <- read_db ;;
  match find_stock product_id warehouse_id d with
  | Some _ => throw dup_entry
  | None =>
      let '(id, t) := tbl_insert (fun id => mkStock id product_id warehouse_id quantity) (stock d) in
      write_db (set_stock t) ;;;
      ret id
  end.

Definition with_quantity (q : Z) (r : stock_row) : stock_row :=
  mkStock (st_id r) (st_product r) (st_warehouse r) q.

(** [UPDATE stock SET quantity = ? WHERE id = ?] *)
Definition update_stock_quantity (id quantity : Z) : St unit :=
  write_db (fun d => set_stock (tbl_update (fun r => st_id r =? id) (with_quantity quantity) (stock d)) d).

(** The object [{ id, previous_qty, new_qty }] both writers return. *)
Record stock_change := mkChange {
  ch_id : Z;
  previous_qty : Z;
  new_qty : Z
}.

Definition upsertStock (product_id warehouse_id quantity : Z) : St stock_change :=
  current <- getCurrentStock product_id warehouse_id ;;
  match current with
  | None =>
      id <- insert_stock product_id warehouse_id quantity ;;
      ret (mkChange id 0 quantity)
  | Some cur =>
      let previous_qty := st_quantity cur in
      let new_qty := previous_qty + quantity in
      update_stock_quantity (st_id cur) new_qty ;;;
      ret (mkChange (st_id cur) previous_qty new_qty)
  end.

Definition decreaseStock (product_id warehouse_id quantity : Z) : St stock_change :=
  current <- getCurrentStock product_id warehouse_id ;;
  match current with
  | None => throw (plain_error "Não há estoque para esse produto nesse local")
  | Some cur =>
      let previous_qty := st_quantity cur in
      let qty := quantity in
      if qty >? previous_qty
      then throw (http_error 400 "Quantidade maior que o estoque disponível")
      else
        let new_qty := previous_qty - qty in
        update_stock_quantity (st_id cur) new_qty ;;;
        ret (mkChange (st_id cur) previous_qty new_qty)
  end.

(** ** Movement log *)

(** [INSERT INTO stock_movements (product_id, warehouse_id, user_id, type,
    quantity, previous_qty, new_qty, description) VALUES (...)] with
    [user_id || null]; [created_at] takes the database clock. *)
Definition registerMovement (product_id warehouse_id : Z) (user_id : option Z)
    (type : mtype) (quantity previous_qty new_qty : Z)
    (description : option string) : St Z :=
  d <- read_db ;;
  let '(id, t) :=
    tbl_insert (fun id => mkMovement id product_id warehouse_id (js_or_null_id user_id)
                            type quantity previous_qty new_qty description (clock d))
               (movements d) in
  write_db (set_movements t) ;;;
  ret id.

(** ** Derived states and well-formedness *)

(** The pair a stock row holds the balance of. *)
Definition stock_pair (r : stock_row) : Z * Z := (st_product r, st_warehouse r).

(** Row ids are distinct and below the AUTO_INCREMENT counter, and no two
    rows hold the same pair (the table is unique on [(product_id,
    warehouse_id)]). *)
Definition stock_wf (d : db) : Prop :=
  NoDup (map st_id (rows (stock d))) /\
  Forall (fun r => st_id r < next_id (stock d)) (rows (stock d)) /\
  NoDup (map stock_pair (rows (stock d))).

(** Movement ids increase along the table and stay below the counter. *)
Definition movement_ids_ok (d : db) : Prop :=
  StronglySorted Z.lt (map mv_id (rows (movements d))) /\
  Forall (fun m => mv_id m < next_id (movements d)) (rows (movements d)).

#[export] Instance stock_wf_dec d : Decision (stock_wf d).
Proof. unfold stock_wf. apply _. Defined.

#[export] Instance movement_ids_ok_dec d : Decision (movement_ids_ok d).
Proof. unfold movement_ids_ok. apply _. Defined.

(** The state after an INSERT into [stock] and after an UPDATE of one
    row's quantity. *)
Definition stock_after_insert (p w q : Z) (d : db) : db :=
  set_stock (snd (tbl_insert (fun id => mkStock id p w q) (stock d))) d.

Definition stock_after_update (id q : Z) (d : db) : db :=
  set_stock (tbl_update (fun r => st_id r =? id) (with_quantity q) (stock d)) d.

(** The state after an INSERT into [stock_movements]. *)
Definition movements_after_insert (p w : Z) (user_id : option Z) (type : mtype)
    (q prev new : Z) (description : option string) (d : db) : db :=
  set_movements
    (snd (tbl_insert (fun id => mkMovement id p w (js_or_null_id user_id) type q prev new
                                   description (clock d)) (movements d))) d.

(** The AUTO_INCREMENT counters of the engine's tables never go back:
    ROLLBACK keeps them. *)
Definition counters_le (d d' : db) : Prop :=
  next_id (stock d) <= next_id (stock d') /\ next_id (movements d) <= next_id (movements d').

(** ** A small database for the examples

    Unit 1 owns warehouse 1 ("Central"); products 1 and 2; product 1 has
    a balance of 10 in warehouse 1, entered by one ENTRADA movement. *)
Definition demo_db : db :=
  mkDb (mkTable [mkUnit 1 "Sede" (Some "SD") None] 2)
       (mkTable [mkWarehouse 1 "Central" None (Some 1)] 2)
       (mkTable [mkProduct 1 "Parafuso" (Some "UN") (Some "P-00001") None None;
                 mkProduct 2 "Porca" (Some "UN") (Some "P-00002") None None] 3)
       (mkTable [mkStock 1 1 1 10] 2)
       (mkTable [mkMovement 1 1 1 (Some 7) ENTRADA 10 0 10 None 50] 2)
       (mkTable [] 1)
       (mkTable [mkUser 7 "Ana" "ana@example.com" None "supervisor" None (Some 1) None None
                   None None 10] 8)
       100.

Definition demo_session : session := mkSession demo_db None.

(** ** Generic lemmas on finding and updating rows *)

Lemma stock_key_with_quantity p w q r :
  stock_key p w (with_quantity q r) = stock_key p w r.
Proof. reflexivity. Qed.

Lemma stock_key_true p w r :
  stock_key p w r = true -> st_product r = p /\ st_warehouse r = w.
Proof. unfold stock_key. rewrite andb_true_iff, !Z.eqb_eq. done. Qed.

(** ** The effect of an INSERT into [stock] *)

Lemma find_stock_None_pair p w d :
  find_stock p w d = None -> (p, w) ∉ map stock_pair (rows (stock d)).
Proof.
  intros Hn Hin. apply list_elem_of_In, in_map_iff in Hin as (r & Hr & Hin).
  pose proof (find_none _ _ Hn r Hin) as Hk. unfold stock_key, stock_pair in *.
  injection Hr as Hp Hw. rewrite Hp, Hw, !Z.eqb_refl in Hk. done.
Qed.

Lemma stock_wf_insert p w q d :
  find_stock p w d = None -> stock_wf d -> stock_wf (stock_after_insert p w q d).
Proof.
  intros Hn [Hnd [Hlt Hpairs]]. unfold stock_after_insert, stock_wf; simpl. split_and!.
  - rewrite map_app. simpl. apply NoDup_app. split; [done|]. split.
    + intros x Hx Hin. apply list_elem_of_singleton in Hin as ->.
      apply list_elem_of_In, in_map_iff in Hx as (r & Hr & Hin).
      rewrite List.Forall_forall in Hlt. apply Hlt in Hin. lia.
    + apply NoDup_singleton.
  - apply Forall_app. split.
    + eapply Forall_impl; [exact Hlt|]. simpl. lia.
    + constructor; simpl; [lia|constructor].
  - rewrite map_app. simpl. apply NoDup_app. split; [done|]. split.
    + intros x Hx Hin. apply list_elem_of_singleton in Hin as ->.
      by apply (find_stock_None_pair p w d Hn).
    + apply NoDup_singleton.
Qed.

Lemma balance_insert_same p w q d :
  find_stock p w d = None -> balance (stock_after_insert p w q d) p w = Some q.
Proof.
  intros H. unfold balance, find_stock, stock_after_insert in *; simpl.
  rewrite find_app_None by done. simpl. unfold stock_key; simpl.
  by rewrite !Z.eqb_refl.
Qed.

Lemma balance_insert_other p w q d p' w' :
  (p', w') <> (p, w) -> balance (stock_after_insert p w q d) p' w' = balance d p' w'.
Proof.
  intros Hne. unfold balance, find_stock, stock_after_insert; simpl.
  destruct (find (stock_key p' w') (rows (stock d))) eqn:E.
  - by rewrite (find_app_Some _ _ _ _ E).
  - rewrite find_app_None by done. simpl. unfold stock_key; simpl.
    destruct (Z.eqb_spec p p'), (Z.eqb_spec w w'); subst; simpl; done || congruence.
Qed.

(** ** The effect of an UPDATE of one row's quantity *)

Lemma stock_wf_update id q d :
  stock_wf d -> stock_wf (stock_after_update id q d).
Proof.
  intros [Hnd [Hlt Hpairs]]. unfold stock_after_update, stock_wf, tbl_update, update_where; simpl.
  rewrite !map_map.
  assert (Hid : forall r, st_id (if st_id r =? id then with_quantity q r else r) = st_id r)
    by (intros r; by destruct (st_id r =? id)).
  assert (Hp : forall r, stock_pair (if st_id r =? id then with_quantity q r else r) = stock_pair r)
    by (intros r; by destruct (st_id r =? id)).
  rewrite (map_ext _ st_id Hid), (map_ext _ stock_pair Hp). split_and!; [done| |done].
  apply Forall_map. eapply Forall_impl; [exact Hlt|]. intros r. by rewrite Hid.
Qed.

Lemma find_stock_update p w id q d :
  find_stock p w (stock_after_update id q d) =
  option_map (fun r => if st_id r =? id then with_quantity q r else r) (find_stock p w d).
Proof.
  unfold find_stock, stock_after_update, update_where; simpl.
  apply find_map_preserve. intros r. by destruct (st_id r =? id).
Qed.

Lemma balance_update_same p w q d cur :
  find_stock p w d = Some cur ->
  balance (stock_after_update (st_id cur) q d) p w = Some q.
Proof.
  intros H. unfold balance. rewrite find_stock_update, H. simpl.
  by rewrite Z.eqb_refl.
Qed.

Lemma balance_update_other p w q d cur p' w' :
  stock_wf d -> find_stock p w d = Some cur -> (p', w') <> (p, w) ->
  balance (stock_after_update (st_id cur) q d) p' w' = balance d p' w'.
Proof.
  intros [Hnd _] H Hne. unfold balance. rewrite find_stock_update.
  destruct (find_stock p' w' d) as [r|] eqn:E; simpl; [|done].
  destruct (Z.eqb_spec (st_id r) (st_id cur)) as [Heq|]; [|done].
  unfold find_stock in *.
  apply find_some in H as [Hc Hkc], E as [Hr Hkr].
  rewrite (NoDup_map_in_inj st_id _ r cur Hnd Hr Hc Heq) in Hkr.
  apply stock_key_true in Hkc as [H1 H2], Hkr as [H3 H4]. congruence.
Qed.

#[export] Hint Resolve stock_wf_update : estoque.

(** ** Each operation in closed form *)

Lemma getCurrentStock_run p w s :
  getCurrentStock p w s = (Ok (find_stock p w (sdb s)), s).
Proof. reflexivity. Qed.

Lemma upsertStock_run p w q s :
  upsertStock p w q s =
  match find_stock p w (sdb s) with
  | None =>
      (Ok (mkChange (next_id (stock (sdb s))) 0 q),
       mkSession (stock_after_insert p w q (sdb s)) (snapshot s))
  | Some cur =>
      (Ok (mkChange (st_id cur) (st_quantity cur) (st_quantity cur + q)),
       mkSession (stock_after_update (st_id cur) (st_quantity cur + q) (sdb s)) (snapshot s))
  end.
Proof.
  unfold upsertStock, getCurrentStock, insert_stock, bind, read_db, ret.
  destruct (find_stock p w (sdb s)) eqn:E; [done|]. cbn. by rewrite E.
Qed.

Lemma decreaseStock_run p w q s :
  decreaseStock p w q s =
  match find_stock p w (sdb s) with
  | None => (Err (plain_error "Não há estoque para esse produto nesse local"), s)
  | Some cur =>
      if q >? st_quantity cur
      then (Err (http_error 400 "Quantidade maior que o estoque disponível"), s)
      else (Ok (mkChange (st_id cur) (st_quantity cur) (st_quantity cur - q)),
            mkSession (stock_after_update (st_id cur) (st_quantity cur - q) (sdb s)) (snapshot s))
  end.
Proof.
  unfold decreaseStock, getCurrentStock, bind, read_db, ret.
  destruct (find_stock p w (sdb s)); [|done]. by destruct (q >? _).
Qed.

Lemma registerMovement_run p w u t q prev new desc s :
  registerMovement p w u t q prev new desc s =
  (Ok (next_id (movements (sdb s))),
   mkSession (movements_after_insert p w u t q prev new desc (sdb s)) (snapshot s)).
Proof. reflexivity. Qed.

(** Appending a movement leaves the stock table alone. *)
Lemma stock_movements_after_insert p w u t q prev new desc d :
  stock (movements_after_insert p w u t q prev new desc d) = stock d.
Proof. reflexivity. Qed.

Lemma balance_movements_after_insert p w u t q prev new desc d p' w' :
  balance (movements_after_insert p w u t q prev new desc d) p' w' = balance d p' w'.
Proof. reflexivity. Qed.

Lemma stock_wf_movements_after_insert p w u t q prev new desc d :
  stock_wf d -> stock_wf (movements_after_insert p w u t q prev new desc d).
Proof. done. Qed.

#[export] Hint Resolve stock_wf_movements_after_insert : estoque.
#[export] Hint Rewrite getCurrentStock_run upsertStock_run decreaseStock_run
  registerMovement_run balance_movements_after_insert : estoque_rw.

(** ** Functional behaviour on every branch *)

(** [upsertStock] always succeeds; it reads the pair's balance (0
    when there is no row), writes [previous + quantity] to that pair,
    leaves every other pair and every other table as it was, and returns
    the previous and the new quantity. *)
Theorem upsertStock_spec p w q s :
  stock_wf (sdb s) ->
  exists ch d',
    upsertStock p w q s = (Ok ch, mkSession d' (snapshot s)) /\
    previous_qty ch = default 0 (balance (sdb s) p w) /\
    new_qty ch = previous_qty ch + q /\
    balance d' p w = Some (new_qty ch) /\
    (forall p' w', (p', w') <> (p, w) -> balance d' p' w' = balance (sdb s) p' w') /\
    movements d' = movements (sdb s) /\ exit_orders d' = exit_orders (sdb s) /\
    stock_wf d'.
Proof.
  intros Hok. rewrite upsertStock_run. unfold balance.
  destruct (find_stock p w (sdb s)) as [cur|] eqn:E; eexists _, _; (split; [reflexivity|]); simpl.
  - split_and!; eauto using balance_update_same, balance_update_other, stock_wf_update.
  - split_and!; eauto using balance_insert_same, balance_insert_other, stock_wf_insert.
Qed.

(** C14: [decreaseStock] on each branch: no row for the pair throws the
    plain error (status 500) and changes nothing; a quantity above the
    balance throws the 400 and changes nothing; otherwise the pair's
    balance becomes [balance - quantity], nothing else changes, and the
    previous and new quantities are returned. *)
Theorem decreaseStock_spec p w q s :
  stock_wf (sdb s) ->
  match balance (sdb s) p w with
  | None => decreaseStock p w q s =
             (Err (plain_error "Não há estoque para esse produto nesse local"), s)
  | Some b =>
      if q >? b
      then decreaseStock p w q s =
             (Err (http_error 400 "Quantidade maior que o estoque disponível"), s)
      else exists ch d',
        decreaseStock p w q s = (Ok ch, mkSession d' (snapshot s)) /\
        previous_qty ch = b /\ new_qty ch = b - q /\
        balance d' p w = Some (b - q) /\
        (forall p' w', (p', w') <> (p, w) -> balance d' p' w' = balance (sdb s) p' w') /\
        movements d' = movements (sdb s) /\ exit_orders d' = exit_orders (sdb s) /\
        stock_wf d'
  end.
Proof.
  intros Hok. rewrite decreaseStock_run. unfold balance.
  destruct (find_stock p w (sdb s)) as [cur|] eqn:E; simpl; [|done].
  destruct (q >? st_quantity cur); [done|].
  eexists _, _. split; [reflexivity|]. simpl.
  split_and!; eauto using balance_update_same, balance_update_other, stock_wf_update.
Qed.

(** ** Frames of the store operations *)

Section StoreFrames.
Context (p w q : Z).

Lemma upsertStock_preserves {Y} (f : db -> Y) :
  (forall t d, f (set_stock t d) = f d) ->
  preserves (fun s => (snapshot s, f (sdb s))) (upsertStock p w q).
Proof.
  intros Hf. unfold upsertStock, getCurrentStock, insert_stock, update_stock_quantity.
  frame; apply preserves_write_db; intros s'; simpl; by rewrite Hf.
Qed.

Lemma decreaseStock_preserves {Y} (f : db -> Y) :
  (forall t d, f (set_stock t d) = f d) ->
  preserves (fun s => (snapshot s, f (sdb s))) (decreaseStock p w q).
Proof.
  intros Hf. unfold decreaseStock, getCurrentStock, update_stock_quantity.
  frame; apply preserves_write_db; intros s'; simpl; by rewrite Hf.
Qed.

Lemma registerMovement_preserves {Y} (f : db -> Y) u t prev new desc :
  (forall tb d, f (set_movements tb d) = f d) ->
  preserves (fun s => (snapshot s, f (sdb s))) (registerMovement p w u t q prev new desc).
Proof.
  intros Hf. unfold registerMovement.
  frame; apply preserves_write_db; intros s'; simpl; by rewrite Hf.
Qed.
End StoreFrames.

Lemma StronglySorted_snoc {A} (R : A -> A -> Prop) l x :
  StronglySorted R l -> Forall (fun y => R y x) l -> StronglySorted R (l ++ [x]).
Proof.
  induction l as [|y l IH]; simpl; intros Hs Hf.
  - repeat constructor.
  - apply StronglySorted_inv in Hs as [Hs Hy]. inversion Hf; subst.
    constructor; [by apply IH|]. apply Forall_app. split; [done|]. by constructor.
Qed.

Lemma movement_ids_ok_insert p w u t q prev new desc d :
  movement_ids_ok d -> movement_ids_ok (movements_after_insert p w u t q prev new desc d).
Proof.
  intros [Hs Hlt]. unfold movement_ids_ok, movements_after_insert; simpl. split.
  - rewrite map_app. simpl. apply StronglySorted_snoc; [done|].
    apply Forall_map. eapply Forall_impl; [exact Hlt|]. simpl. lia.
  - apply Forall_app. split.
    + eapply Forall_impl; [exact Hlt|]. simpl. lia.
    + constructor; simpl; [lia|constructor].
Qed.

Lemma movement_ids_ok_set_stock t d : movement_ids_ok (set_stock t d) <-> movement_ids_ok d.
Proof. done. Qed.

#[export] Hint Resolve movement_ids_ok_insert : estoque.

Lemma upsertStock_spec_witness :
  stock_wf (sdb demo_session) /\
  exists ch d', upsertStock 2 1 3 demo_session = (Ok ch, mkSession d' None) /\
    previous_qty ch = 0 /\ new_qty ch = 3 /\ balance d' 2 1 = Some 3.
Proof.
  split; [decide_prop|].
  destruct (upsertStock_spec 2 1 3 demo_session ltac:(decide_prop))
    as (ch & d' & Hrun & Hprev & Hnew & Hbal & _).
  change (default 0 (balance (sdb demo_session) 2 1)) with 0 in Hprev. exists ch, d'.
  split_and!; [exact Hrun|exact Hprev|lia|rewrite Hbal; f_equal; lia].
Defined.

Lemma decreaseStock_spec_witness :
  stock_wf (sdb demo_session) /\
  exists ch d', decreaseStock 1 1 4 demo_session = (Ok ch, mkSession d' None) /\
    previous_qty ch = 10 /\ new_qty ch = 6 /\ balance d' 1 1 = Some 6.
Proof.
  split; [decide_prop|].
  pose proof (decreaseStock_spec 1 1 4 demo_session ltac:(decide_prop)) as H.
  simpl in H. destruct H as (ch & d' & Hrun & Hprev & Hnew & Hbal & _).
  exists ch, d'. split_and!; done.
Defined.

(** ** Counters and ROLLBACK *)

#[export] Instance counters_le_preorder : PreOrder counters_le.
Proof. split; [intros d; split; lia|intros d1 d2 d3 [] []; split; lia]. Qed.

Lemma upsertStock_counters p w q s r s' :
  upsertStock p w q s = (r, s') -> counters_le (sdb s) (sdb s').
Proof.
  rewrite upsertStock_run. unfold counters_le, stock_after_insert, stock_after_update.
  destruct (find_stock p w (sdb s)); intros [= _ <-]; simpl; split; lia.
Qed.

Lemma decreaseStock_counters p w q s r s' :
  decreaseStock p w q s = (r, s') -> counters_le (sdb s) (sdb s').
Proof.
  rewrite decreaseStock_run. destruct (find_stock p w (sdb s)); [|intros [= _ <-]; reflexivity].
  destruct (q >? _); intros [= _ <-]; [reflexivity|].
  unfold counters_le, stock_after_update. simpl. split; lia.
Qed.

Lemma counters_le_movements_after_insert p w u t q prev new desc d :
  counters_le d (movements_after_insert p w u t q prev new desc d).
Proof. unfold counters_le, movements_after_insert. simpl. split; lia. Qed.

(** A ROLLBACK to a well-formed snapshot, with counters that only grew,
    is well formed. *)
Lemma stock_wf_rollback snap cur :
  stock_wf snap -> counters_le snap cur -> stock_wf (rollback_to snap cur).
Proof.
  intros (Hnd & Hlt & Hp) [Hc _]. unfold stock_wf; simpl. split_and!; [done| |done].
  eapply Forall_impl; [exact Hlt|]. intros r. cbn. lia.
Qed.

Lemma movement_ids_ok_rollback snap cur :
  movement_ids_ok snap -> counters_le snap cur -> movement_ids_ok (rollback_to snap cur).
Proof.
  intros [Hs Hlt] [_ Hc]. unfold movement_ids_ok; simpl. split; [done|].
  eapply Forall_impl; [exact Hlt|]. intros m. cbn. lia.
Qed.

Lemma counters_le_rollback snap cur : counters_le snap cur -> counters_le snap (rollback_to snap cur).
Proof. done. Qed.
