(* ===== verification/Ledger.v ===== *)
(** * Ledger: the stock table agrees with the movement log

    The spec's invariant of the ledger: every balance change is paired
    with a movement.  [net d p w] is the sum of the signed quantities of
    the pair's movements; [chain_from] checks that the pair's movements,
    in id order, each start where the previous one ended
    ([previous_qty]) and end at [previous_qty +/- quantity] ([new_qty]).
    [ledger_ok d] says that every stock row holds the net of its pair with
    a consistent chain, that no two rows hold the same pair, and that
    every movement's pair has a row.  It is decidable, so it is checked on
    concrete states by evaluation.

    [ledger_ok_step] is the step of the engine: a store operation that
    moves one pair's balance from its current value by [delta], then the
    movement that records it, keep the invariant.  [ledger_inv] adds the
    order of movement ids ([StockModel.movement_ids_ok]); the handlers'
    preservation theorems are in [Engine]. *)

From S2P Require Import Prelude Schema StockModel.

Open Scope Z_scope.
Open Scope est_scope.

Definition of_pair (p w : Z) (m : movement) : bool :=
  (mv_product m =? p) && (mv_warehouse m =? w).

(** The movements of one pair, in id order. *)
Definition pair_movements (d : db) (p w : Z) : list movement :=
  List.filter (of_pair p w) (rows (movements d)).

Definition signed (m : movement) : Z := signed_qty (mv_type m) (mv_quantity m).

Definition net (d : db) (p w : Z) : Z := sumZ signed (pair_movements d p w).

(** Each movement starts at the running balance [b] and records its
    signed quantity. *)
Fixpoint chain_from (b : Z) (l : list movement) : bool :=
  match l with
  | [] => true
  | m :: rest =>
      (mv_previous m =? b) && (mv_new m =? b + signed m) && chain_from (mv_new m) rest
  end.

Definition ledger_ok (d : db) : Prop :=
  NoDup (map stock_pair (rows (stock d))) /\
  Forall (fun r => st_quantity r = net d (st_product r) (st_warehouse r) /\
                   chain_from 0 (pair_movements d (st_product r) (st_warehouse r)) = true)
    (rows (stock d)) /\
  Forall (fun m => is_Some (balance d (mv_product m) (mv_warehouse m))) (rows (movements d)).

#[export] Instance ledger_ok_dec d : Decision (ledger_ok d).
Proof. unfold ledger_ok. apply _. Defined.

Definition ledger_inv (d : db) : Prop := movement_ids_ok d /\ ledger_ok d.

#[export] Instance ledger_inv_dec d : Decision (ledger_inv d).
Proof. unfold ledger_inv. apply _. Defined.

(** ** Lemmas on chains and nets *)

Lemma chain_from_snoc b l m :
  chain_from b l = true ->
  chain_from b (l ++ [m]) =
    (mv_previous m =? b + sumZ signed l) && (mv_new m =? mv_previous m + signed m).
Proof.
  revert b. induction l as [|x l IH]; intros b; simpl.
  - intros _. rewrite Z.add_0_r, andb_true_r.
    destruct (Z.eqb_spec (mv_previous m) b); subst; [done|].
    by destruct (mv_new m =? b + signed m).
  - rewrite !andb_true_iff, !Z.eqb_eq. intros [[Hp Hn] Hr]. rewrite IH by done.
    rewrite Hp, Hn, !Z.eqb_refl. simpl. by rewrite Z.add_assoc.
Qed.

Lemma pair_movements_snoc d d1 p w m :
  rows (movements d1) = rows (movements d) ++ [m] ->
  pair_movements d1 p w =
    pair_movements d p w ++ (if of_pair p w m then [m] else []).
Proof.
  intros H. unfold pair_movements. rewrite H, filter_app_eq. simpl. by destruct (of_pair p w m).
Qed.

Lemma of_pair_true p w m : of_pair p w m = true <-> (mv_product m, mv_warehouse m) = (p, w).
Proof.
  unfold of_pair. rewrite andb_true_iff, !Z.eqb_eq. split; [intros [-> ->]|intros [= -> ->]]; done.
Qed.

(** A pair without a row has no movements when every movement's pair
    has a row. *)
Lemma pair_movements_no_row d p w :
  Forall (fun m => is_Some (balance d (mv_product m) (mv_warehouse m))) (rows (movements d)) ->
  balance d p w = None -> pair_movements d p w = [].
Proof.
  intros Hall Hn. unfold pair_movements. rewrite List.Forall_forall in Hall.
  induction (rows (movements d)) as [|m l IH]; simpl; [done|]. destruct (of_pair p w m) eqn:E.
  - apply of_pair_true in E as [= <- <-]. destruct (Hall m) as [v Hv]; [by left|congruence].
  - apply IH. intros x Hx. apply Hall. by right.
Qed.

(** With distinct pairs, [getCurrentStock] finds each row by its pair. *)
Lemma find_stock_row d r :
  NoDup (map stock_pair (rows (stock d))) -> In r (rows (stock d)) ->
  find_stock (st_product r) (st_warehouse r) d = Some r.
Proof.
  intros Hnd Hin. unfold find_stock.
  destruct (find (stock_key (st_product r) (st_warehouse r)) (rows (stock d))) as [r'|] eqn:E.
  - apply find_some in E as [Hin' Hk]. apply stock_key_true in Hk as [Hp Hw].
    f_equal. apply (NoDup_map_in_inj stock_pair _ r' r Hnd Hin' Hin).
    unfold stock_pair. by rewrite Hp, Hw.
  - exfalso. pose proof (find_none _ _ E r Hin) as Hk. unfold stock_key in Hk.
    by rewrite !Z.eqb_refl in Hk.
Qed.

(** What the invariant says of every pair: the balance [getCurrentStock]
    reads (0 without a row) is the net of the pair's movements, and their
    chain is consistent. *)
Lemma ledger_ok_pair d p w :
  ledger_ok d ->
  default 0 (balance d p w) = net d p w /\ chain_from 0 (pair_movements d p w) = true.
Proof.
  intros (Hnd & Hrows & Hmv). unfold balance.
  destruct (find_stock p w d) as [r|] eqn:E; simpl.
  - unfold find_stock in E. apply find_some in E as [Hin Hk].
    apply stock_key_true in Hk as [<- <-].
    rewrite List.Forall_forall in Hrows. by apply Hrows.
  - unfold net. rewrite (pair_movements_no_row d p w Hmv) by (unfold balance; by rewrite E). by split.
Qed.

(** ** The step of the engine *)

Lemma ledger_ok_step d d1 p w m :
  ledger_ok d -> NoDup (map stock_pair (rows (stock d1))) ->
  mv_product m = p -> mv_warehouse m = w ->
  mv_previous m = default 0 (balance d p w) -> mv_new m = mv_previous m + signed m ->
  balance d1 p w = Some (mv_new m) ->
  (forall p' w', (p', w') <> (p, w) -> balance d1 p' w' = balance d p' w') ->
  rows (movements d1) = rows (movements d) ++ [m] ->
  ledger_ok d1.
Proof.
  intros Hl Hnd1 Hp Hw Hprev Hnew Hb Ho Hmv.
  assert (Hm : of_pair p w m = true) by (apply of_pair_true; by subst).
  split_and!; [done| |].
  - apply List.Forall_forall. intros r Hin.
    pose proof (find_stock_row d1 r Hnd1 Hin) as Hf.
    rewrite !(pair_movements_snoc d d1 _ _ m Hmv). unfold net.
    rewrite (pair_movements_snoc d d1 _ _ m Hmv).
    destruct (decide ((st_product r, st_warehouse r) = (p, w))) as [[= Hrp Hrw]|Hne].
    + rewrite Hrp, Hrw in Hf |- *. destruct (ledger_ok_pair d p w Hl) as [Hnet Hc]. rewrite Hm, sumZ_app. simpl.
      rewrite chain_from_snoc by done. unfold net in Hnet.
      unfold balance in Hb. rewrite Hf in Hb. injection Hb as ->.
      rewrite <- Hnet, <- Hprev, Hnew, !Z.eqb_refl. split; [lia|done].
    + assert (Hnm : of_pair (st_product r) (st_warehouse r) m = false).
      { destruct (of_pair (st_product r) (st_warehouse r) m) eqn:E; [|done].
        apply of_pair_true in E. congruence. }
      rewrite Hnm, !app_nil_r.
      pose proof (Ho _ _ Hne) as Hbr. unfold balance in Hbr at 1. rewrite Hf in Hbr.
      destruct (ledger_ok_pair d (st_product r) (st_warehouse r) Hl) as [Hnet Hc].
      rewrite <- Hbr in Hnet. done.
  - rewrite Hmv. apply Forall_app. split.
    + destruct Hl as (_ & _ & Hall). eapply Forall_impl; [exact Hall|]. intros x Hx.
      destruct (decide ((mv_product x, mv_warehouse x) = (p, w))) as [[= -> ->]|Hne].
      * by rewrite Hb.
      * by rewrite Ho.
    + constructor; [|constructor]. rewrite Hp, Hw, Hb. by eexists.
Qed.

(** The invariant only reads rows: it holds of every state with the same
    rows, in particular after a ROLLBACK. *)
#[export] Instance ledger_ok_proper : Proper (db_rows_eq ==> iff) ledger_ok.
Proof.
  intros d1 d2 (_ & _ & _ & Hs & Hm & _).
  unfold ledger_ok, net, pair_movements, balance, find_stock. by rewrite Hs, Hm.
Qed.
