(* ===== verification/BalanceSpec.v ===== *)
(** * BalanceSpec: the spec's contract of the movement engine

    The abstract state of the ledger is a finite map from (product,
    warehouse) to the balance ([bal], a stdpp [gmap]).  The operations
    are the contracts of spec.md section 4.2: [spec_entry] (recordEntry),
    [spec_exit] (recordExit) and their batches over one warehouse, all or
    nothing, with the error kinds of section 7 ([spec_error]).  Quantities
    must be positive (InvalidInput otherwise).

    [abs_balances] abstracts the [stock] table into this map; it agrees
    with what [getCurrentStock] reads ([abs_balances_lookup]).  The
    refinement theorems of [StockController] are stated against these
    definitions. *)

From S2P Require Import Prelude Schema StockModel.

Open Scope Z_scope.

Abbreviation bal := (gmap (Z * Z) Z).

Inductive spec_error := InvalidInput | NoStockRecord | InsufficientStock.

#[export] Instance spec_error_eq_dec : EqDecision spec_error.
Proof. solve_decision. Defined.

(** [recordEntry]: reads or creates the balance and adds the quantity. *)
Definition spec_entry (k : Z * Z) (q : Z) (σ : bal) : spec_error + bal :=
  if q <=? 0 then inl InvalidInput
  else inr (<[k := default 0 (σ !! k) + q]> σ).

(** [recordExit]: NoStockRecord without a balance, InsufficientStock when
    the quantity exceeds it. *)
Definition spec_exit (k : Z * Z) (q : Z) (σ : bal) : spec_error + bal :=
  if q <=? 0 then inl InvalidInput
  else match σ !! k with
       | None => inl NoStockRecord
       | Some b => if b <? q then inl InsufficientStock else inr (<[k := b - q]> σ)
       end.

(** A batch: the items in the caller's order on one warehouse; the first
    failing item fails the whole batch. *)
Fixpoint spec_batch (op : Z * Z -> Z -> bal -> spec_error + bal) (w : Z)
    (items : list (Z * Z)) (σ : bal) : spec_error + bal :=
  match items with
  | [] => inr σ
  | (p, q) :: rest =>
      match op (p, w) q σ with
      | inl e => inl e
      | inr σ' => spec_batch op w rest σ'
      end
  end.

(** The balances the [stock] table holds: for each pair, the first row in
    primary-key order (the one [getCurrentStock] returns). *)
Definition abs_balances (d : db) : bal :=
  foldr (fun r σ => <[(st_product r, st_warehouse r) := st_quantity r]> σ) ∅ (rows (stock d)).

(** ** Lemmas *)

Lemma abs_balances_rows_lookup (l : list stock_row) p w :
  foldr (fun r σ => <[(st_product r, st_warehouse r) := st_quantity r]> σ) (∅ : bal) l !! (p, w) =
  option_map st_quantity (find (stock_key p w) l).
Proof.
  induction l as [|r l IH]; simpl; [by rewrite lookup_empty|].
  unfold stock_key at 1.
  destruct (Z.eqb_spec (st_product r) p), (Z.eqb_spec (st_warehouse r) w); subst; simpl.
  - by rewrite lookup_insert_eq.
  - rewrite lookup_insert_ne by congruence. done.
  - rewrite lookup_insert_ne by congruence. done.
  - rewrite lookup_insert_ne by congruence. done.
Qed.

Lemma abs_balances_lookup d p w : abs_balances d !! (p, w) = balance d p w.
Proof. apply abs_balances_rows_lookup. Qed.

(** Two states with the same balance on every pair have the same
    abstraction. *)
Lemma abs_balances_ext d1 d2 :
  (forall p w, balance d1 p w = balance d2 p w) -> abs_balances d1 = abs_balances d2.
Proof.
  intros H. apply map_eq. intros [p w]. by rewrite !abs_balances_lookup.
Qed.

Lemma abs_balances_stock d1 d2 :
  rows (stock d1) = rows (stock d2) -> abs_balances d1 = abs_balances d2.
Proof. unfold abs_balances. by intros ->. Qed.

(** The abstraction after writing one pair, the others untouched. *)
Lemma abs_balances_write d d' k v :
  balance d' k.1 k.2 = Some v ->
  (forall p' w', (p', w') <> k -> balance d' p' w' = balance d p' w') ->
  abs_balances d' = <[k := v]> (abs_balances d).
Proof.
  intros Hk Ho. apply map_eq. intros [p w].
  destruct (decide ((p, w) = k)) as [<-|Hne].
  - by rewrite lookup_insert_eq, abs_balances_lookup.
  - rewrite lookup_insert_ne by congruence. rewrite !abs_balances_lookup. by apply Ho.
Qed.

Lemma spec_batch_cons op w p q rest σ :
  spec_batch op w ((p, q) :: rest) σ =
  match op (p, w) q σ with inl e => inl e | inr σ' => spec_batch op w rest σ' end.
Proof. reflexivity. Qed.
