(* ===== verification/ExitOrderModel.v ===== *)
(** * ExitOrderModel: the [exit_orders] table

    Models src/Backend/src/models/exitOrderModel.js: [createExitOrder]
    (an INSERT on the pool, outside any transaction), [findExitOrderById]
    (the order joined with its anchor movement, product and warehouse)
    and [saveExitOrderSignature] (an UPDATE of the fields given).  The
    item snapshot [items_json] is kept as the list of items it
    serialises.  [listExitOrdersWithDetails] is in [Reports]. *)

From S2P Require Import Prelude Schema Permission StockModel.

Open Scope Z_scope.
Open Scope est_scope.

(** [INSERT INTO exit_orders (movement_id, client_name, client_document,
    declaration, pdf_path, items_json) VALUES (...)]; the other columns
    take their defaults ([signature_image] NULL, [created_at] now).  The
    caller's [operator_name] is not a parameter of the function: it is
    dropped. *)
Definition createExitOrder (movement_id : Z) (client_name : string)
    (client_document : option string) (declaration : string) (pdf_path : string)
    (items : list exit_item) : St Z :=
  d <- read_db ;;
  let '(id, t) :=
    tbl_insert (fun id => mkExitOrder id movement_id client_name client_document declaration
                            (Some pdf_path) items None (clock d))
               (exit_orders d) in
  write_db (set_exit_orders t) ;;;
  ret id.

(** A row of [SELECT eo.*, m.quantity, m.description, m.created_at,
    p.name, w.name, w.id FROM exit_orders eo JOIN stock_movements m ...
    JOIN products p ... JOIN warehouses w ...]. *)
Record order_view := mkOrderView {
  ov_order : exit_order;
  ov_movement_quantity : Z;
  ov_movement_description : option string;
  ov_movement_created_at : Z;
  ov_product : string;
  ov_warehouse : string;
  ov_warehouse_id : Z
}.

Definition find_movement (id : Z) (d : db) : option movement :=
  find (fun m => mv_id m =? id) (rows (movements d)).

Definition find_product (id : Z) (d : db) : option product :=
  find (fun p => pr_id p =? id) (rows (products d)).

(** The inner joins of the order with its anchor movement, the movement's
    product and warehouse: [None] when one of them is missing. *)
Definition order_view_of (d : db) (eo : exit_order) : option order_view :=
  match find_movement (eo_movement_id eo) d with
  | None => None
  | Some m =>
      match find_product (mv_product m) d, find_warehouse (mv_warehouse m) d with
      | Some p, Some w =>
          Some (mkOrderView eo (mv_quantity m) (mv_description m) (mv_created_at m)
                  (pr_name p) (wh_name w) (wh_id w))
      | _, _ => None
      end
  end.

(** [... WHERE eo.id = ?], [rows[0] || null]. *)
Definition findExitOrderById (id : Z) : St (option order_view) :=
  d <- read_db ;;
  ret (match find (fun eo => eo_id eo =? id) (rows (exit_orders d)) with
       | None => None
       | Some eo => order_view_of d eo
       end).

Definition with_signature (signature_image pdf_path : option string) (eo : exit_order) : exit_order :=
  mkExitOrder (eo_id eo) (eo_movement_id eo) (eo_client_name eo) (eo_client_document eo)
    (eo_declaration eo)
    (match pdf_path with Some p => Some p | None => eo_pdf_path eo end)
    (eo_items eo)
    (match signature_image with Some i => Some i | None => eo_signature_image eo end)
    (eo_created_at eo).

(** [saveExitOrderSignature(id, { signature_image, pdf_path })]: a field
    given as [undefined] ([None]) is left out of the SET list; with no
    field the function returns without a query. *)
Definition saveExitOrderSignature (id : Z) (signature_image pdf_path : option string) : St unit :=
  match signature_image, pdf_path with
  | None, None => ret tt
  | _, _ =>
      write_db (fun d => set_exit_orders
                  (tbl_update (fun eo => eo_id eo =? id) (with_signature signature_image pdf_path)
                     (exit_orders d)) d)
  end.

(** ** Lemmas *)

Lemma createExitOrder_preserves {Y} (f : db -> Y) mid cn cd dcl path items :
  (forall t d, f (set_exit_orders t d) = f d) ->
  preserves (fun s => (snapshot s, f (sdb s))) (createExitOrder mid cn cd dcl path items).
Proof.
  intros Hf. unfold createExitOrder.
  frame; apply preserves_write_db; intros s'; simpl; by rewrite Hf.
Qed.

Lemma createExitOrder_run mid cn cd dcl path items s :
  createExitOrder mid cn cd dcl path items s =
  (Ok (next_id (exit_orders (sdb s))),
   mkSession (set_exit_orders
                (snd (tbl_insert (fun id => mkExitOrder id mid cn cd dcl (Some path) items None
                                              (clock (sdb s))) (exit_orders (sdb s))))
                (sdb s)) (snapshot s)).
Proof. reflexivity. Qed.
