(* ===== verification/Base64.v ===== *)
(** * Base64: the signature image of a signed exit order

    Models the two lines of [addSignatureToPdf]
    (src/Backend/src/services/osService.js) that turn the signature the
    browser sends into the bytes of signature-<movement>.png:
    - [signatureDataUrl.replace(/^data:image\/\w+;base64,/, "")], the
      removal of the data-URL header ([strip_data_url]): the regular
      expression is anchored, [\w+] is greedy and cannot match ";", so it
      matches at most one prefix;
    - [Buffer.from(base64, "base64")], Node's decoder ([base64_decode]):
      each character is looked up in its table ([b64_index], which also
      takes the URL-safe "-" and "_"), characters outside the table
      (white space included) are skipped, the first "=" ends the input,
      and each group of four values gives three bytes by the shifts and
      masks of Node's [base64_decode_group_slow] (two values give one
      byte, three give two).  The output buffer Node allocates is never
      smaller than what the decoder writes, so its bound is left out.
    The encoder is the browser's ([canvas.toDataURL]), the standard
    alphabet with "=" padding ([base64_encode]); the theorem is the round
    trip of the two.  Bytes are integers in [0, 256). *)

From S2P Require Import Prelude.

Open Scope Z_scope.

Definition code (c : Ascii.ascii) : Z := Z.of_nat (Ascii.nat_of_ascii c).

(** Node's [unbase64] table: [None] is a character it skips. *)
Definition b64_index (c : Ascii.ascii) : option Z :=
  let n := code c in
  if (65 <=? n) && (n <=? 90) then Some (n - 65)
  else if (97 <=? n) && (n <=? 122) then Some (n - 71)
  else if (48 <=? n) && (n <=? 57) then Some (n + 4)
  else if (n =? 43) || (n =? 45) then Some 62
  else if (n =? 47) || (n =? 95) then Some 63
  else None.

Definition pad : Ascii.ascii := Ascii.ascii_of_nat 61.

(** The values the decoder reads, up to the first "=". *)
Fixpoint b64_values (cs : list Ascii.ascii) : list Z :=
  match cs with
  | [] => []
  | c :: cs' =>
      match b64_index c with
      | Some v => v :: b64_values cs'
      | None => if Ascii.eqb c pad then [] else b64_values cs'
      end
  end.

(** [dst[k++] = ((hi & 0x3F) << 2) | ((lo & 0x30) >> 4)] and the two
    next writes of a group. *)
Fixpoint b64_bytes (vs : list Z) : list Z :=
  match vs with
  | a :: b :: rest =>
      Z.lor (Z.shiftl (Z.land a 63) 2) (Z.shiftr (Z.land b 48) 4) ::
      match rest with
      | c :: rest' =>
          Z.lor (Z.shiftl (Z.land b 15) 4) (Z.shiftr (Z.land c 60) 2) ::
          match rest' with
          | d :: rest'' => Z.lor (Z.shiftl (Z.land c 3) 6) (Z.land d 63) :: b64_bytes rest''
          | [] => []
          end
      | [] => []
      end
  | _ => []
  end.

(** [Buffer.from(s, "base64")] *)
Definition base64_decode (s : string) : list Z := b64_bytes (b64_values (String.list_ascii_of_string s)).

(** [\w]: ASCII letters, digits and "_". *)
Definition is_word (c : Ascii.ascii) : bool :=
  let n := code c in
  ((65 <=? n) && (n <=? 90)) || ((97 <=? n) && (n <=? 122)) || ((48 <=? n) && (n <=? 57)) || (n =? 95).

(** The length of the run of [\w] characters [\w+] matches greedily. *)
Fixpoint word_len (cs : list Ascii.ascii) : nat :=
  match cs with
  | c :: cs' => if is_word c then S (word_len cs') else O
  | [] => O
  end.

(** [cs] without the prefix [p], if it starts with it. *)
Fixpoint drop_prefix (p cs : list Ascii.ascii) : option (list Ascii.ascii) :=
  match p, cs with
  | [], _ => Some cs
  | x :: p', c :: cs' => if Ascii.eqb x c then drop_prefix p' cs' else None
  | _ :: _, [] => None
  end.

(** [s.replace(/^data:image\/\w+;base64,/, "")] *)
Definition strip_data_url (s : string) : string :=
  let cs := String.list_ascii_of_string s in
  match drop_prefix (String.list_ascii_of_string "data:image/") cs with
  | Some rest =>
      let n := word_len rest in
      match drop_prefix (String.list_ascii_of_string ";base64,") (drop n rest) with
      | Some body => if n =? 0 then s else String.string_of_list_ascii body
      | None => s
      end
  | None => s
  end%nat.

(** The bytes written to signature-<movement>.png. *)
Definition signature_bytes (signatureDataUrl : string) : list Z :=
  base64_decode (strip_data_url signatureDataUrl).

(** ** The browser's encoder *)

Definition b64_char (v : Z) : Ascii.ascii :=
  Ascii.ascii_of_nat (Z.to_nat (if v <? 26 then v + 65 else if v <? 52 then v + 71
                                else if v <? 62 then v - 4 else if v =? 62 then 43 else 47)).

Fixpoint b64_encode (bs : list Z) : list Ascii.ascii :=
  match bs with
  | x :: y :: z :: rest =>
      b64_char (Z.shiftr x 2) :: b64_char (Z.lor (Z.shiftl (Z.land x 3) 4) (Z.shiftr y 4)) ::
      b64_char (Z.lor (Z.shiftl (Z.land y 15) 2) (Z.shiftr z 6)) :: b64_char (Z.land z 63) :: b64_encode rest
  | [x; y] =>
      [b64_char (Z.shiftr x 2); b64_char (Z.lor (Z.shiftl (Z.land x 3) 4) (Z.shiftr y 4));
       b64_char (Z.shiftl (Z.land y 15) 2); pad]
  | [x] => [b64_char (Z.shiftr x 2); b64_char (Z.shiftl (Z.land x 3) 4); pad; pad]
  | [] => []
  end.

Definition base64_encode (bs : list Z) : string := String.string_of_list_ascii (b64_encode bs).

(** ** Checks of one group, over every byte *)

(** The values of the first two characters of a group and the first byte
    read back; the low bits of the second value are the high nibble of
    the second byte. *)
Definition check_xy (x y : Z) : bool :=
  let s0 := Z.shiftr x 2 in
  let s1 := Z.lor (Z.shiftl (Z.land x 3) 4) (Z.shiftr y 4) in
  (0 <=? s0) && (s0 <? 64) && (0 <=? s1) && (s1 <? 64) &&
  (Z.lor (Z.shiftl (Z.land s0 63) 2) (Z.shiftr (Z.land s1 48) 4) =? x) &&
  (Z.land s1 15 =? Z.shiftr y 4).

(** The values of the last two characters and the second and third
    bytes read back. *)
Definition check_yz (y z : Z) : bool :=
  let s2 := Z.lor (Z.shiftl (Z.land y 15) 2) (Z.shiftr z 6) in
  let s3 := Z.land z 63 in
  (0 <=? s2) && (s2 <? 64) && (0 <=? s3) && (s3 <? 64) &&
  (Z.lor (Z.shiftl (Z.shiftr y 4) 4) (Z.shiftr (Z.land s2 60) 2) =? y) &&
  (Z.lor (Z.shiftl (Z.land s2 3) 6) (Z.land s3 63) =? z).

(** The padded groups of two bytes and of one. *)
Definition check_y2 (y : Z) : bool :=
  let s2 := Z.shiftl (Z.land y 15) 2 in
  (0 <=? s2) && (s2 <? 64) && (Z.lor (Z.shiftl (Z.shiftr y 4) 4) (Z.shiftr (Z.land s2 60) 2) =? y).

Definition check_x1 (x : Z) : bool :=
  let s0 := Z.shiftr x 2 in
  let s1 := Z.shiftl (Z.land x 3) 4 in
  (0 <=? s0) && (s0 <? 64) && (0 <=? s1) && (s1 <? 64) &&
  (Z.lor (Z.shiftl (Z.land s0 63) 2) (Z.shiftr (Z.land s1 48) 4) =? x).

Definition check_char (v : Z) : bool :=
  match b64_index (b64_char v) with Some w => w =? v | None => false end.

(** ** Lemmas *)

Lemma forallb_seqZ (P : Z -> bool) n x : forallb P (seqZ 0 n) = true -> 0 <= x < n -> P x = true.
Proof.
  intros Hf Hx. apply forallb_forall with (x := x) in Hf; [done|].
  apply list_elem_of_In, elem_of_seqZ. lia.
Qed.

Lemma check_xy_all x y : 0 <= x < 256 -> 0 <= y < 256 -> check_xy x y = true.
Proof.
  intros Hx Hy. assert (H : forallb (fun x => forallb (check_xy x) (seqZ 0 256)) (seqZ 0 256) = true)
    by (vm_compute; reflexivity).
  exact (forallb_seqZ _ _ y (forallb_seqZ _ _ x H Hx) Hy).
Qed.

Lemma check_yz_all y z : 0 <= y < 256 -> 0 <= z < 256 -> check_yz y z = true.
Proof.
  intros Hy Hz. assert (H : forallb (fun y => forallb (check_yz y) (seqZ 0 256)) (seqZ 0 256) = true)
    by (vm_compute; reflexivity).
  exact (forallb_seqZ _ _ z (forallb_seqZ _ _ y H Hy) Hz).
Qed.

Lemma check_y2_all y : 0 <= y < 256 -> check_y2 y = true.
Proof. apply forallb_seqZ. by vm_compute. Qed.

Lemma check_x1_all x : 0 <= x < 256 -> check_x1 x = true.
Proof. apply forallb_seqZ. by vm_compute. Qed.

Lemma b64_index_char v : 0 <= v < 64 -> b64_index (b64_char v) = Some v.
Proof.
  intros Hv. pose proof (forallb_seqZ check_char 64 v ltac:(by vm_compute) Hv) as H.
  unfold check_char in H. destruct (b64_index (b64_char v)) as [w|]; [|done]. by apply Z.eqb_eq in H as ->.
Qed.

Lemma b64_values_char v cs : 0 <= v < 64 -> b64_values (b64_char v :: cs) = v :: b64_values cs.
Proof. intros Hv. simpl. by rewrite b64_index_char. Qed.

Lemma b64_values_pad cs : b64_values (pad :: cs) = [].
Proof. reflexivity. Qed.

Local Ltac check_facts H :=
  cbv zeta in H |- *; rewrite ?andb_true_iff, ?Z.leb_le, ?Z.ltb_lt, ?Z.eqb_eq in H; lia || tauto.

Lemma group_xy x y : 0 <= x < 256 -> 0 <= y < 256 ->
  let s0 := Z.shiftr x 2 in let s1 := Z.lor (Z.shiftl (Z.land x 3) 4) (Z.shiftr y 4) in
  (0 <= s0 < 64 /\ 0 <= s1 < 64) /\
  Z.lor (Z.shiftl (Z.land s0 63) 2) (Z.shiftr (Z.land s1 48) 4) = x /\ Z.land s1 15 = Z.shiftr y 4.
Proof. intros Hx Hy. pose proof (check_xy_all x y Hx Hy) as H. unfold check_xy in H. check_facts H. Qed.

Lemma group_yz y z : 0 <= y < 256 -> 0 <= z < 256 ->
  let s2 := Z.lor (Z.shiftl (Z.land y 15) 2) (Z.shiftr z 6) in let s3 := Z.land z 63 in
  (0 <= s2 < 64 /\ 0 <= s3 < 64) /\
  Z.lor (Z.shiftl (Z.shiftr y 4) 4) (Z.shiftr (Z.land s2 60) 2) = y /\
  Z.lor (Z.shiftl (Z.land s2 3) 6) (Z.land s3 63) = z.
Proof. intros Hy Hz. pose proof (check_yz_all y z Hy Hz) as H. unfold check_yz in H. check_facts H. Qed.

Lemma group_y2 y : 0 <= y < 256 ->
  let s2 := Z.shiftl (Z.land y 15) 2 in
  0 <= s2 < 64 /\ Z.lor (Z.shiftl (Z.shiftr y 4) 4) (Z.shiftr (Z.land s2 60) 2) = y.
Proof. intros Hy. pose proof (check_y2_all y Hy) as H. unfold check_y2 in H. check_facts H. Qed.

Lemma group_x1 x : 0 <= x < 256 ->
  let s0 := Z.shiftr x 2 in let s1 := Z.shiftl (Z.land x 3) 4 in
  (0 <= s0 < 64 /\ 0 <= s1 < 64) /\ Z.lor (Z.shiftl (Z.land s0 63) 2) (Z.shiftr (Z.land s1 48) 4) = x.
Proof. intros Hx. pose proof (check_x1_all x Hx) as H. unfold check_x1 in H. check_facts H. Qed.

(** Decoding what the browser encodes gives the bytes back. *)
Lemma b64_decode_encode bs : Forall (fun b => 0 <= b < 256) bs -> b64_bytes (b64_values (b64_encode bs)) = bs.
Proof.
  remember (length bs) as n eqn:En. revert bs En. induction (lt_wf n) as [n _ IH]. intros bs -> Hb.
  destruct bs as [|x [|y [|z rest]]]; [done| | |].
  - apply Forall_inv in Hb. destruct (group_x1 x Hb) as [[? ?] E0].
    cbn [b64_encode]. rewrite !b64_values_char, b64_values_pad by done. cbn [b64_bytes]. by rewrite E0.
  - apply Forall_cons in Hb as [Hx [Hy _]%Forall_cons].
    destruct (group_xy x y Hx Hy) as [[? ?] [E0 E1]]. destruct (group_y2 y Hy) as [? E2].
    cbn [b64_encode]. rewrite !b64_values_char, b64_values_pad by done. cbn [b64_bytes].
    by rewrite E0, E1, E2.
  - apply Forall_cons in Hb as [Hx [Hy [Hz Hr]%Forall_cons]%Forall_cons].
    destruct (group_xy x y Hx Hy) as [[? ?] [E0 E1]]. destruct (group_yz y z Hy Hz) as [[? ?] [E2 E3]].
    cbn [b64_encode]. rewrite !b64_values_char by done. cbn [b64_bytes].
    rewrite E0, E1, E2, E3. do 3 f_equal. apply (IH (length rest)); [simpl; lia|done|done].
Qed.

Lemma drop_prefix_app p cs : drop_prefix p (p ++ cs) = Some cs.
Proof. induction p as [|x p IH]; [done|]. simpl. by rewrite Ascii.eqb_refl. Qed.

(** [\w+] stops at the first character that is not a word character. *)
Lemma word_len_app w cs :
  forallb is_word w = true -> match cs with c :: _ => is_word c = false | [] => True end ->
  word_len (w ++ cs) = length w.
Proof.
  intros Hw Hc. induction w as [|x w IH]; simpl in *.
  { destruct cs as [|c cs]; [done|]. simpl. by rewrite Hc. }
  apply andb_true_iff in Hw as [-> Hw]. by rewrite IH.
Qed.

(** ** Theorems *)

(** C26: round trip of the signature.  For every image subtype made of
    word characters (png, jpeg, ...) and every sequence of bytes, the
    server's removal of the data-URL header followed by Node's base64
    decoder gives back exactly the bytes the browser encoded: the file
    signature-<movement>.png holds the image that was drawn. *)
Theorem signature_bytes_roundtrip w bs :
  w <> "" -> forallb is_word (String.list_ascii_of_string w) = true ->
  Forall (fun b => 0 <= b < 256) bs ->
  signature_bytes ("data:image/" +:+ w +:+ ";base64," +:+ base64_encode bs) = bs.
Proof.
  intros Hne Hw Hb. unfold signature_bytes, strip_data_url.
  rewrite !list_ascii_app, drop_prefix_app.
  rewrite word_len_app by done. rewrite drop_app_length.
  rewrite drop_prefix_app.
  destruct w as [|c w]; [done|]. cbn [String.list_ascii_of_string length Nat.eqb].
  unfold base64_encode, base64_decode. rewrite !String.list_ascii_of_string_of_list_ascii.
  by apply b64_decode_encode.
Qed.

Lemma signature_bytes_roundtrip_witness :
  signature_bytes ("data:image/" +:+ "png" +:+ ";base64," +:+ base64_encode [137; 80; 78; 71]) = [137; 80; 78; 71] /\
  base64_encode [137; 80; 78; 71] = "iVBORw==".
Proof.
  split; [|reflexivity].
  apply signature_bytes_roundtrip; [discriminate|reflexivity|repeat constructor; lia].
Defined.
