(* ===== verification/OsService.v ===== *)
(** * OsService: the PDF renderer of exit orders

    Models the code of src/Backend/src/services/osService.js that is not
    page layout: the guard of [generateExitOS], the names of the files it
    and [addSignatureToPdf] write, the choice of the items and of the
    declaration printed on a signed order, and the signature image
    decoded from its data URL (Base64.v) and written to
    signature-<movement>.png.  Writing the document itself
    (pdfkit, fs streams) is the rendering collaborator of the spec,
    stated as the interface [Renderer]: it receives the path and
    everything the document shows, and either finishes ([None]) or fails
    with the stream's error ([Some e]).  The pages it draws are modelled
    in Pdf.v, whose instance [pdfkit] implements [Renderer].

    [cwd] is [process.cwd()], the directory the server runs in; it is a
    parameter of the section, with [path.join] written out as joining with
    "/". *)

From stdpp Require Import pretty.
From S2P Require Import Prelude Schema Permission StockModel ExitOrderModel Base64.

Open Scope Z_scope.
Open Scope est_scope.

(** A row of the query of [stockExitController] that loads the batch:
    [SELECT m.id, m.quantity, m.created_at, p.name AS product, w.name AS
    warehouse ...]. *)
Record os_row := mkOsRow {
  or_id : Z;
  or_quantity : Z;
  or_created_at : Z;
  or_product : string;
  or_warehouse : string
}.

(** The rendering collaborator: [write_exit_pdf path movements
    client_name client_document declaration operator_name],
    [write_signed_pdf path order items operator_name declaration sigPath]
    (the image it draws is the file [sigPath]) and [fs.writeFileSync]
    ([write_file path bytes]), each of which finishes ([None]) or fails. *)
Class Renderer := {
  write_exit_pdf : string -> list os_row -> string -> option string -> string -> string ->
                   option js_error;
  write_signed_pdf : string -> order_view -> list exit_item -> string -> string -> string ->
                     option js_error;
  write_file : string -> list Z -> option js_error
}.

(** The declaration of [stockExitController], also the fallback of
    [addSignatureToPdf]. *)
Definition DECLARATION : string :=
  "Declaro que recebi os materiais acima descritos, assumindo total responsabilidade pelo uso e conservação, comprometendo-me a devolvê-los em perfeitas condições ou ressarcir eventuais danos/avarias.".

(** [OS-SAIDA-${first.id}.pdf] *)
Definition exit_file_name (id : Z) : string :=
  "OS-SAIDA-" +:+ pretty id +:+ ".pdf".

(** [OS-SAIDA-${order.movement_id}-assinado.pdf] *)
Definition signed_file_name (movement_id : Z) : string :=
  "OS-SAIDA-" +:+ pretty movement_id +:+ "-assinado.pdf".

(** The items printed on a signed order: the stored snapshot, or, when
    it is empty, the anchor movement alone. *)
Definition signed_items (order : order_view) : list exit_item :=
  match eo_items (ov_order order) with
  | [] => [mkExitItem (ov_product order) (ov_movement_quantity order) (ov_warehouse order)]
  | items => items
  end.

(** [signature-${order.movement_id}.png] *)
Definition signature_file_name (movement_id : Z) : string :=
  "signature-" +:+ pretty movement_id +:+ ".png".

(** [order.declaration || "Declaro que recebi ..."] *)
Definition signed_declaration (order : order_view) : string :=
  if String.eqb (eo_declaration (ov_order order)) "" then DECLARATION
  else eo_declaration (ov_order order).

Section Rendering.
Context (cwd : string) `{Renderer}.

(** [path.join(process.cwd(), "storage", "os-saida")] *)
Definition OUTPUT_DIR : string := cwd +:+ "/storage/os-saida".

Definition generateExitOS (movements : list os_row) (client_name : string)
  (client_document : option string) (declaration operator_name : string) : St string :=
  match movements with
  | [] => throw (plain_error "Nenhum movimento informado para gerar OS.")
  | first :: _ =>
    let filePath := OUTPUT_DIR +:+ "/" +:+ exit_file_name (or_id first) in
    match write_exit_pdf filePath movements client_name client_document declaration
            operator_name with
    | Some e => throw e
    | None => ret filePath
    end
  end.

(** [path.join(OUTPUT_DIR, `signature-${order.movement_id}.png`)] *)
Definition signature_path (order : order_view) : string :=
  OUTPUT_DIR +:+ "/" +:+ signature_file_name (eo_movement_id (ov_order order)).

(** The order row has no [operator_name] nor [user_name] column, so
  [order.operator_name || order.user_name || ""] is [""].  The signature
  is decoded and written with [fs.writeFileSync] before the document,
  which draws it from that file, is finished. *)
Definition addSignatureToPdf (order : order_view) (signatureDataUrl : string) : St string :=
  let newFilePath :=
  OUTPUT_DIR +:+ "/" +:+ signed_file_name (eo_movement_id (ov_order order)) in
  let sigPath := signature_path order in
  match write_file sigPath (signature_bytes signatureDataUrl) with
  | Some e => throw e
  | None =>
      match write_signed_pdf newFilePath order (signed_items order) "" (signed_declaration order)
            sigPath with
      | Some e => throw e
      | None => ret newFilePath
      end
  end.
End Rendering.

(** ** Lemmas *)

(** Rendering writes files, not the database. *)
Lemma generateExitOS_preserves {Y} `{Renderer} cwd (f : session -> Y) movs cn cd dcl op :
  preserves f (generateExitOS cwd movs cn cd dcl op).
Proof. unfold generateExitOS. frame. Qed.

Lemma addSignatureToPdf_preserves {Y} `{Renderer} cwd (f : session -> Y) order sig :
  preserves f (addSignatureToPdf cwd order sig).
Proof. unfold addSignatureToPdf. destruct (write_file _ _); frame. Qed.

#[export] Hint Resolve generateExitOS_preserves addSignatureToPdf_preserves : estoque.
