(* ===== verification/Reports.v ===== *)
(** * Reports: the read-only views over the ledger

    Models the three listing queries and the two report handlers:
    - [listStockReport] (models/movementModel.js): one row per [stock] row
      joined with its product and warehouse, with the sum of the pair's
      ENTRADA movements ([LEFT JOIN ... GROUP BY]), ordered by warehouse
      and product name;
    - [listMovementReport] (models/movementModel.js): the movements joined
      with product, warehouse and (left) user, scoped by role, newest
      first;
    - [listExitOrdersWithDetails] (models/exitOrderModel.js): the exit
      orders joined with their anchor movement, scoped by unit;
    - [stockReportController] and [movementReportController]
      (controllers/reportController.js).

    SQL's [col = ?] with NULL on either side is UNKNOWN and keeps no row
    ([sql_eq]).  [ORDER BY] on names follows the server's collation,
    the parameter [collate]; rows that tie are in primary-key order, one
    order the server may return ([merge_sort] is stable).  The GROUP BY of
    the stock report yields one row per stock row because [stock] is
    unique on [(product_id, warehouse_id)] (the last conjunct of
    [StockModel.stock_wf], kept by the engine). *)

From stdpp Require Import sorting.
From S2P Require Import Prelude Schema Permission StockModel Ledger ExitOrderModel.

Open Scope Z_scope.
Open Scope est_scope.

(** [a = b] in a WHERE clause. *)
Definition sql_eq (a b : option Z) : bool :=
  match a, b with Some x, Some y => x =? y | _, _ => false end.

(** [if (warehouseId) { where.push("... = ?") }]: 0 and null add no
    filter. *)
Definition warehouse_filter (warehouseId : option Z) (w : Z) : bool :=
  match warehouseId with
  | Some x => if js_falsy_Z x then true else w =? x
  | None => true
  end.

(** ** Stock report *)

Record stock_report_row := mkStockReportRow {
  sr_warehouse_id : Z;
  sr_warehouse : string;
  sr_product_id : Z;
  sr_product : string;
  sr_product_unit : option string;
  sr_current_quantity : Z;
  sr_total_entries : Z
}.

(** The movements of the [LEFT JOIN] counted by [CASE WHEN m.type =
    'ENTRADA' THEN m.quantity ELSE 0 END]. *)
Definition entry_of (p w : Z) (m : movement) : bool :=
  (mv_product m =? p) && (mv_warehouse m =? w) && bool_decide (mv_type m = ENTRADA).

(** [COALESCE(SUM(...), 0)] *)
Definition total_entries (d : db) (p w : Z) : Z :=
  sumZ mv_quantity (List.filter (entry_of p w) (rows (movements d))).

(** [if (requester && role !== "super_admin") where.push("w.unit_id = ?")] *)
Definition stock_report_scope (requester : option principal) (wh : warehouse) : bool :=
  match requester with
  | Some u => if String.eqb (u_role u) "super_admin" then true
              else sql_eq (wh_unit_id wh) (u_unit_id u)
  | None => true
  end.

Definition stock_report_row_of (requester : option principal) (warehouseId : option Z)
    (d : db) (s : stock_row) : option stock_report_row :=
  match find_product (st_product s) d, find_warehouse (st_warehouse s) d with
  | Some p, Some w =>
      if warehouse_filter warehouseId (st_warehouse s) && stock_report_scope requester w
      then Some (mkStockReportRow (wh_id w) (wh_name w) (pr_id p) (pr_name p) (pr_unit p)
                   (st_quantity s) (total_entries d (st_product s) (st_warehouse s)))
      else None
  | _, _ => None
  end.

(** [ORDER BY w.name, p.name] *)
Definition stock_report_le (collate : string -> string -> comparison)
    (a b : stock_report_row) : Prop :=
  match collate (sr_warehouse a) (sr_warehouse b) with
  | Lt => True
  | Gt => False
  | Eq => collate (sr_product a) (sr_product b) <> Gt
  end.

#[export] Instance stock_report_le_dec collate : RelDecision (stock_report_le collate).
Proof.
  intros a b. unfold stock_report_le.
  destruct (collate _ _); [|apply _|apply _]. apply _.
Defined.

Definition listStockReport (collate : string -> string -> comparison)
    (requester : option principal) (warehouseId : option Z) : St (list stock_report_row) :=
  d <- read_db ;;
  ret (merge_sort (stock_report_le collate)
         (omap (stock_report_row_of requester warehouseId d) (rows (stock d)))).

(** ** Movement report *)

Record movement_report_row := mkMovementReportRow {
  mr_id : Z;
  mr_created_at : Z;
  mr_type : mtype;
  mr_quantity : Z;
  mr_previous_qty : Z;
  mr_new_qty : Z;
  mr_description : option string;
  mr_product : string;
  mr_product_unit : option string;
  mr_warehouse : string;
  mr_user_id : option Z;
  mr_user_name : option string
}.

Definition find_user (id : Z) (d : db) : option user_row :=
  find (fun u => us_id u =? id) (rows (users d)).

(** [LEFT JOIN users u ON u.id = m.user_id]: [u.name] is NULL without a
    matching user. *)
Definition user_name_of (d : db) (user_id : option Z) : option string :=
  match user_id with
  | Some i => option_map us_name (find_user i d)
  | None => None
  end.

(** The role branch: super_admin sees all, admin and supervisor their
    unit's warehouses, every other role its own movements. *)
Definition movement_role_scope (requester : option principal) (wh : warehouse)
    (m : movement) : bool :=
  match requester with
  | None => true
  | Some u =>
      if String.eqb (u_role u) "super_admin" then true
      else if String.eqb (u_role u) "admin" || String.eqb (u_role u) "supervisor"
      then sql_eq (wh_unit_id wh) (u_unit_id u)
      else sql_eq (mv_user m) (Some (u_id u))
  end.

(** [if (warehouseId) ... else if (requester) ...] *)
Definition movement_report_filter (requester : option principal) (warehouseId : option Z)
    (wh : warehouse) (m : movement) : bool :=
  match warehouseId with
  | Some x => if js_falsy_Z x then movement_role_scope requester wh m else mv_warehouse m =? x
  | None => movement_role_scope requester wh m
  end.

(** The SELECT list of one joined movement. *)
Definition movement_row (d : db) (m : movement) (p : product) (w : warehouse)
    : movement_report_row :=
  mkMovementReportRow (mv_id m) (mv_created_at m) (mv_type m) (mv_quantity m)
    (mv_previous m) (mv_new m) (mv_description m) (pr_name p) (pr_unit p)
    (wh_name w) (mv_user m) (user_name_of d (mv_user m)).

Definition movement_report_row_of (requester : option principal) (warehouseId : option Z)
    (d : db) (m : movement) : option movement_report_row :=
  match find_product (mv_product m) d, find_warehouse (mv_warehouse m) d with
  | Some p, Some w =>
      if movement_report_filter requester warehouseId w m
      then Some (movement_row d m p w)
      else None
  | _, _ => None
  end.

(** [ORDER BY m.created_at DESC] *)
Definition movement_report_later (a b : movement_report_row) : Prop :=
  mr_created_at b <= mr_created_at a.

#[export] Instance movement_report_later_dec : RelDecision movement_report_later.
Proof. intros a b. unfold movement_report_later. apply _. Defined.

Definition listMovementReport (requester : option principal) (warehouseId : option Z)
    : St (list movement_report_row) :=
  d <- read_db ;;
  ret (merge_sort movement_report_later
         (omap (movement_report_row_of requester warehouseId d) (rows (movements d)))).

(** ** Exit orders with details *)

Record exit_order_row := mkExitOrderRow {
  xo_id : Z;
  xo_movement_id : Z;
  xo_client_name : string;
  xo_client_document : option string;
  xo_pdf_path : option string;
  xo_signature_image : option string;
  xo_created_at : Z;
  xo_items : list exit_item;
  xo_movement_description : option string;
  xo_movement_quantity : Z;
  xo_product : string;
  xo_warehouse : string;
  xo_warehouse_id : Z
}.

(** [const { role, unit_id } = requester || {}; if (role !==
    "super_admin") { sql += " WHERE w.unit_id = ?" }]: without a
    requester the filter compares with NULL. *)
Definition exit_order_scope (requester : option principal) (wh : warehouse) : bool :=
  if bool_decide (option_map u_role requester = Some "super_admin") then true
  else sql_eq (wh_unit_id wh) (requester ≫= u_unit_id).

Definition exit_order_row_of (requester : option principal) (d : db) (eo : exit_order)
    : option exit_order_row :=
  match find_movement (eo_movement_id eo) d with
  | None => None
  | Some m =>
      match find_product (mv_product m) d, find_warehouse (mv_warehouse m) d with
      | Some p, Some w =>
          if exit_order_scope requester w
          then Some (mkExitOrderRow (eo_id eo) (eo_movement_id eo) (eo_client_name eo)
                       (eo_client_document eo) (eo_pdf_path eo) (eo_signature_image eo)
                       (eo_created_at eo) (eo_items eo) (mv_description m) (mv_quantity m)
                       (pr_name p) (wh_name w) (wh_id w))
          else None
      | _, _ => None
      end
  end.

(** [ORDER BY eo.created_at DESC] *)
Definition exit_order_later (a b : exit_order_row) : Prop :=
  xo_created_at b <= xo_created_at a.

#[export] Instance exit_order_later_dec : RelDecision exit_order_later.
Proof. intros a b. unfold exit_order_later. apply _. Defined.

Definition listExitOrdersWithDetails (requester : option principal) : St (list exit_order_row) :=
  d <- read_db ;;
  ret (merge_sort exit_order_later (omap (exit_order_row_of requester d) (rows (exit_orders d)))).

(** ** Report handlers *)

Definition stockReportController (collate : string -> string -> comparison) (user : principal)
    : session -> reply * session :=
  try_next (rows <- listStockReport collate (Some user) None ;; ret (json (JRows rows))).

Definition movementReportController (user : principal) : session -> reply * session :=
  try_next (rows <- listMovementReport (Some user) None ;; ret (json (JRows rows))).

(** ** The spec's scopes *)

(** Movement report of spec section 4.4: the top role sees all, the
    mid-tier roles their unit's movements (none without a unit), the
    base role the movements it performed. *)
Definition spec_movement_visible (r : role) (unit : option Z) (uid : Z)
    (owner : option Z) (performed_by : option Z) : bool :=
  match r with
  | RSuperAdmin => true
  | RAdmin | RSupervisor => match owner, unit with Some o, Some x => o =? x | _, _ => false end
  | RUser => match performed_by with Some b => b =? uid | None => false end
  end.

(** The exits of a pair: the SAIDA movements' quantities. *)
Definition exit_of (p w : Z) (m : movement) : bool :=
  (mv_product m =? p) && (mv_warehouse m =? w) && bool_decide (mv_type m = SAIDA).

Definition total_exits (d : db) (p w : Z) : Z :=
  sumZ mv_quantity (List.filter (exit_of p w) (rows (movements d))).

(** ** Lemmas *)

(** A row is in a sorted, filtered listing iff a table row produces it. *)
Lemma elem_of_listing {A B} (R : relation B) `{!RelDecision R} (f : A -> option B) l x :
  x ∈ merge_sort R (omap f l) <-> exists y, y ∈ l /\ f y = Some x.
Proof. rewrite (merge_sort_Permutation R _). apply list_elem_of_omap. Qed.

Lemma movement_role_scope_spec rl u w m :
  u_role u = role_name rl ->
  movement_role_scope (Some u) w m =
    spec_movement_visible rl (u_unit_id u) (u_id u) (wh_unit_id w) (mv_user m).
Proof.
  intros Hr. unfold movement_role_scope. rewrite Hr.
  destruct rl; simpl; [|done..].
  by destruct (mv_user m).
Qed.

Lemma find_product_id i d p : find_product i d = Some p -> pr_id p = i.
Proof. unfold find_product. intros H. apply find_some in H as [_ H]. by apply Z.eqb_eq. Qed.

Lemma find_warehouse_id i d w : find_warehouse i d = Some w -> wh_id w = i.
Proof. unfold find_warehouse. intros H. apply find_some in H as [_ H]. by apply Z.eqb_eq. Qed.

(** Entries minus exits: the net of the pair. *)
Lemma net_entries_exits d p w : net d p w = total_entries d p w - total_exits d p w.
Proof.
  unfold net, total_entries, total_exits, pair_movements.
  induction (rows (movements d)) as [|m l IH]; [done|]. simpl.
  replace (entry_of p w m) with (of_pair p w m && bool_decide (mv_type m = ENTRADA)) by done.
  replace (exit_of p w m) with (of_pair p w m && bool_decide (mv_type m = SAIDA)) by done.
  destruct (of_pair p w m); simpl; [|done].
  unfold signed at 1. destruct (mv_type m).
  - rewrite (bool_decide_true (ENTRADA = ENTRADA)), (bool_decide_false (ENTRADA = SAIDA)) by done.
    simpl. lia.
  - rewrite (bool_decide_false (SAIDA = ENTRADA)), (bool_decide_true (SAIDA = SAIDA)) by done.
    simpl. lia.
Qed.

(** ** Theorems *)

(** C20: the movement report of [movementReportController] is scoped as
    spec section 4.4 says, for each of the four roles: a row is listed iff
    it is the row of a movement whose product and warehouse exist and that
    the spec lets the caller see (super_admin: all; admin and supervisor:
    their unit's warehouses; user: the movements it performed). *)
Theorem listMovementReport_scope rl u s :
  u_role u = role_name rl ->
  exists rs, listMovementReport (Some u) None s = (Ok rs, s) /\
  forall r, r ∈ rs <->
    exists m p w, m ∈ rows (movements (sdb s)) /\ find_product (mv_product m) (sdb s) = Some p /\
      find_warehouse (mv_warehouse m) (sdb s) = Some w /\
      spec_movement_visible rl (u_unit_id u) (u_id u) (wh_unit_id w) (mv_user m) = true /\
      r = movement_row (sdb s) m p w.
Proof.
  intros Hr. eexists. split; [reflexivity|]. intros r. rewrite elem_of_listing.
  unfold movement_report_row_of, movement_report_filter. split.
  - intros (m & Hin & Hf).
    destruct (find_product (mv_product m) (sdb s)) as [p|] eqn:Ep,
      (find_warehouse (mv_warehouse m) (sdb s)) as [w|] eqn:Ew; try congruence.
    rewrite (movement_role_scope_spec rl) in Hf by done.
    destruct (spec_movement_visible _ _ _ _ _) eqn:Ev; [|congruence]. injection Hf as <-.
    exists m, p, w. done.
  - intros (m & p & w & Hin & Ep & Ew & Hv & ->). exists m.
    by rewrite Ep, Ew, (movement_role_scope_spec rl), Hv.
Qed.

(** The stock report agrees with the ledger.  On a state where the
    ledger invariant holds, for any caller, filter and collation, each
    row's [current_quantity] is the balance [getCurrentStock] reads for
    its pair and equals its [total_entries] minus the pair's exits. *)
Theorem listStockReport_consistent collate req wid s :
  ledger_ok (sdb s) ->
  exists rs, listStockReport collate req wid s = (Ok rs, s) /\
  forall r, r ∈ rs ->
    balance (sdb s) (sr_product_id r) (sr_warehouse_id r) = Some (sr_current_quantity r) /\
    sr_current_quantity r = sr_total_entries r - total_exits (sdb s) (sr_product_id r) (sr_warehouse_id r).
Proof.
  intros Hl. eexists. split; [reflexivity|]. intros r Hr. apply elem_of_listing in Hr as (x & Hin & Hf).
  unfold stock_report_row_of in Hf.
  destruct (find_product (st_product x) (sdb s)) as [p|] eqn:Ep,
    (find_warehouse (st_warehouse x) (sdb s)) as [w|] eqn:Ew; try congruence.
  destruct (_ && _); [|congruence]. injection Hf as <-. simpl.
  rewrite (find_product_id _ _ _ Ep), (find_warehouse_id _ _ _ Ew).
  destruct Hl as (Hnd & Hrows & _). apply list_elem_of_In in Hin.
  unfold balance. rewrite (find_stock_row _ _ Hnd Hin). split; [done|].
  rewrite List.Forall_forall in Hrows. destruct (Hrows x Hin) as [-> _].
  apply net_entries_exits.
Qed.

(** The exit-order listing of a caller other than super_admin holds
    only orders whose anchor movement is in a warehouse of the caller's
    unit; a caller without a unit sees none. *)
Theorem listExitOrdersWithDetails_scope u s :
  u_role u <> "super_admin" ->
  exists rs, listExitOrdersWithDetails (Some u) s = (Ok rs, s) /\
  forall r, r ∈ rs ->
    exists w, find_warehouse (xo_warehouse_id r) (sdb s) = Some w /\
              u_unit_id u <> None /\ wh_unit_id w = u_unit_id u.
Proof.
  intros Hr. eexists. split; [reflexivity|]. intros r Hin. apply elem_of_listing in Hin as (eo & _ & Hf).
  unfold exit_order_row_of, exit_order_scope in Hf.
  destruct (find_movement (eo_movement_id eo) (sdb s)) as [m|]; [|congruence].
  destruct (find_product (mv_product m) (sdb s)) as [p|],
    (find_warehouse (mv_warehouse m) (sdb s)) as [w|] eqn:Ew; try congruence.
  rewrite bool_decide_false in Hf by (simpl; congruence).
  destruct (sql_eq _ _) eqn:Eu; [|congruence]. injection Hf as <-. simpl. exists w.
  rewrite (find_warehouse_id _ _ _ Ew). split; [done|].
  unfold sql_eq in Eu. simpl in Eu.
  destruct (wh_unit_id w), (u_unit_id u); try done. apply Z.eqb_eq in Eu. by subst.
Qed.

(** ** Witnesses on the example database *)

Lemma listMovementReport_scope_witness :
  let u := mkPrincipal 7 "Ana" "supervisor" (Some 1) None in
  exists rs, listMovementReport (Some u) None demo_session = (Ok rs, demo_session) /\
  forall r, r ∈ rs <->
    exists m p w, m ∈ rows (movements demo_db) /\ find_product (mv_product m) demo_db = Some p /\
      find_warehouse (mv_warehouse m) demo_db = Some w /\
      spec_movement_visible RSupervisor (Some 1) 7 (wh_unit_id w) (mv_user m) = true /\
      r = movement_row demo_db m p w.
Proof. apply (listMovementReport_scope RSupervisor). reflexivity. Defined.

Lemma listStockReport_consistent_witness :
  exists rs, listStockReport String.compare None None demo_session = (Ok rs, demo_session) /\
  forall r, r ∈ rs ->
    balance demo_db (sr_product_id r) (sr_warehouse_id r) = Some (sr_current_quantity r) /\
    sr_current_quantity r = sr_total_entries r - total_exits demo_db (sr_product_id r) (sr_warehouse_id r).
Proof. apply listStockReport_consistent. decide_prop. Defined.

Lemma listExitOrdersWithDetails_scope_witness :
  let u := mkPrincipal 8 "Bia" "user" None None in
  exists rs, listExitOrdersWithDetails (Some u) demo_session = (Ok rs, demo_session) /\
  forall r, r ∈ rs ->
    exists w, find_warehouse (xo_warehouse_id r) demo_db = Some w /\
              u_unit_id u <> None /\ wh_unit_id w = u_unit_id u.
Proof. apply listExitOrdersWithDetails_scope. simpl. discriminate. Defined.
