(* ===== verification/ExitOrderController.v ===== *)
(** * ExitOrderController: listing and signing exit orders

    Models src/Backend/src/controllers/exitOrderController.js:
    - [listExitOrdersController]: [listExitOrdersWithDetails] for the
      caller, each row extended with [is_signed] ([!!signature_image]) and
      [pdf_url] ("/files/" and the path relative to [cwd/storage], with
      backslashes turned into slashes).  Its [isAdmin] and
      [warehouseFilter] are computed and never used.  [path.relative] is
      Node's, the interface [PathLib];
    - [signExitOrderController]: the signature guard (400), the lookup
      (404), then [ensureWarehouseWritePermission(req, order.warehouse_id)]
      called without [await] ([floating]: the promise runs and its
      rejection never reaches the handler's [catch]), the signed PDF
      ([addSignatureToPdf]) and the UPDATE of the order
      ([saveExitOrderSignature]).  The handler's result is a
      [node_reply]: Node (15 and later; nothing in server.js or app.js
      listens for [unhandledRejection]) ends the process on the check's
      rejection, at the end of the turn of the handler in which the
      rejection is there ([settle], an input: the check's query and the
      handler's file and database I/O race), so the reply and the UPDATE
      happen only if their turn came first.

    The route [POST /api/ordens-saida/:id/assinar] has only [authRequired]
    (routes/exitOrderRoutes.js), so no route gate stands in front of the
    handler; [:id] is taken as a number. *)

From S2P Require Import Prelude Schema Permission StockModel ExitOrderModel Base64 OsService Reports.

Open Scope Z_scope.
Open Scope est_scope.

(** What the Node process does with a request: it answers, or an
    unhandled rejection ends it ([Crashed]), after the handler's reply
    was sent or before ([sent]). *)
Inductive node_reply :=
| Answered (rep : reply)
| Crashed (sent : option reply) (err : js_error).

(** A handler whose every promise is awaited: it answers. *)
Definition answered (h : session -> reply * session) (s : session) : node_reply * session :=
  (Answered (fst (h s)), snd (h s)).

(** A promise started and not awaited: its computation runs on the
    session, and its rejection is not caught by the handler: it is left
    to the process, for which it is an unhandled rejection. *)
Definition floating {A} (c : St A) : St (option js_error) :=
  fun s => match c s with
           | (Ok _, s') => (Ok None, s')
           | (Err e, s') => (Ok (Some e), s')
           end.

(** [ensureWarehouseWritePermission] rejects before its first [await]
    (lines 47-55 of stockController.js): a caller that is not
    super_admin and whose rank is below supervisor. *)
Definition rejects_before_await (u : principal) : bool :=
  negb (String.eqb (u_role u) "super_admin") && js_lt (ROLE_RANK (u_role u)) (ROLE_RANK "supervisor").

(** Node's [path.relative(from, to)]. *)
Class PathLib := {
  path_relative : string -> string -> string
}.

(** [relative.replace(/\\/g, "/")] *)
Fixpoint replace_backslashes (s : string) : string :=
  match s with
  | EmptyString => EmptyString
  | String ch rest =>
      String (if Ascii.eqb ch (Ascii.ascii_of_nat 92) then Ascii.ascii_of_nat 47 else ch)
        (replace_backslashes rest)
  end.

(** A row of the listing: the row of the query, [is_signed], [pdf_url]. *)
Record exit_order_listing := mkListing {
  li_row : exit_order_row;
  li_is_signed : bool;
  li_pdf_url : option string
}.

(** [!!o.signature_image] *)
Definition js_truthy_string (o : option string) : bool :=
  match o with Some v => negb (String.eqb v "") | None => false end.

Section Listing.
Context (cwd : string) `{PathLib}.

Definition pdf_url_of (pdf_path : option string) : option string :=
  if js_truthy_string pdf_path then
    Some ("/files/" +:+ replace_backslashes (path_relative (cwd +:+ "/storage") (default "" pdf_path)))
  else None.

Definition listing (o : exit_order_row) : exit_order_listing :=
  mkListing o (js_truthy_string (xo_signature_image o)) (pdf_url_of (xo_pdf_path o)).

Definition listExitOrdersController (user : principal) : session -> reply * session :=
  try_next (orders <- listExitOrdersWithDetails (Some user) ;;
            ret (json (JRows (map listing orders)))).
End Listing.

Section Signing.
Context (cwd : string) `{Renderer}.

(** The path [addSignatureToPdf] writes for an order. *)
Definition signed_path (order : order_view) : string :=
  OUTPUT_DIR cwd +:+ "/" +:+ signed_file_name (eo_movement_id (ov_order order)).

(** The handler's turns after the check: turn 0 runs synchronously up
    to the PDF stream ([fs.writeFileSync] of the signature included),
    turn 1 resumes when the stream finishes or fails and sends the
    UPDATE, turn 2 resumes with its answer.  [turn_of] is the turn in
    which the handler sends its reply: the one where it answers an error,
    or turn 2. *)
Definition pdf_turn (order : order_view) (sig : string) : nat :=
  match write_file (signature_path cwd order) (signature_bytes sig) with Some _ => 0 | None => 1 end.

(** The handler's own run after the check: its reply, the turn it is
    sent in, and the session it leaves. *)
Definition sign_continue (order : order_view) (signatureDataUrl : option string) (s : session)
    : reply * nat * session :=
  match addSignatureToPdf cwd order (default "" signatureDataUrl) s with
  | (Err e, s') => (errorHandler e, pdf_turn order (default "" signatureDataUrl), s')
  | (Ok newFilePath, s') =>
      let '(r, s'') := try_next (saveExitOrderSignature (eo_id (ov_order order)) signatureDataUrl
                                   (Some newFilePath) ;;; ret (json JSuccess)) s' in
      (r, 2%nat, s'')
  end.

(** [settle] is the turn after which the query of the check that is not
    awaited answers (the network and the file system decide it); a
    rejection thrown before the check's first [await] is there at the end
    of turn 0.  Node (15 and later, with no [unhandledRejection] handler
    in server.js or app.js) then ends the process: what the handler sent
    and wrote in the turns up to that one happened, the rest did not. *)
Definition signExitOrderController (settle : nat) (user : principal) (id : Z)
    (signatureDataUrl : option string) (s : session) : node_reply * session :=
  if negb (js_truthy_string signatureDataUrl)
  then (Answered (mkReply 400 (JError "Assinatura é obrigatória")), s)
  else
    match findExitOrderById id s with
    | (Err e, s1) => (Answered (errorHandler e), s1)
    | (Ok None, s1) => (Answered (mkReply 404 (JError "OS não encontrada")), s1)
    | (Ok (Some order), s1) =>
        let '(check, s2) := floating (ensureWarehouseWritePermission user (ov_warehouse_id order)) s1 in
        let '(rep, turn, s3) := sign_continue order signatureDataUrl s2 in
        match check with
        | Ok (Some err) =>
            let k := if rejects_before_await user then 0%nat else settle in
            (Crashed (if Nat.leb turn k then Some rep else None) err, if Nat.leb 1 k then s3 else s2)
        | _ => (Answered rep, s3)
        end
    end.
End Signing.

(** The tables signing does not write. *)
Definition other_than_orders (d : db) :=
  (units d, warehouses d, products d, stock d, movements d, users d, clock d).

(** The example renderer of [StockController], repeated here: its
    streams always finish. *)
Definition finishing_renderer : Renderer :=
  {| write_exit_pdf _ _ _ _ _ _ := None; write_signed_pdf _ _ _ _ _ _ := None; write_file _ _ := None |}.

(** An order of [demo_db] extended with the exit of movement 1. *)
Definition demo_order : exit_order :=
  mkExitOrder 1 1 "Cliente" None DECLARATION (Some "/srv/storage/os-saida/OS-SAIDA-1.pdf")
    [mkExitItem "Parafuso" 10 "Central"] None 100.

Definition demo_signing_session : session :=
  mkSession (set_exit_orders (mkTable [demo_order] 2) demo_db) None.

(** The order as [findExitOrderById 1] joins it, and a caller of role
    "user", whom the write check rejects. *)
Definition demo_order_view : order_view :=
  mkOrderView demo_order 10 None 50 "Parafuso" "Central" 1.

Definition demo_user : principal := mkPrincipal 8 "Bia" "user" (Some 1) None.

(** A super_admin, whom the write check accepts. *)
Definition demo_super : principal := mkPrincipal 9 "Caio" "super_admin" None None.

(** ** Lemmas *)

(** The check leaves the session as it is; [floating] hands on its
    rejection. *)
Lemma floating_check u w s :
  floating (ensureWarehouseWritePermission u w) s =
  (Ok (match fst (ensureWarehouseWritePermission u w s) with Ok _ => None | Err e => Some e end), s).
Proof.
  unfold floating. pose proof (ensureWarehouseWritePermission_state u w s) as Hs.
  destruct (ensureWarehouseWritePermission u w s) as [[]] eqn:E; cbn in Hs |- *; by subst.
Qed.

Lemma findExitOrderById_run id s :
  findExitOrderById id s =
  (Ok (match find (fun eo => eo_id eo =? id) (rows (exit_orders (sdb s))) with
       | None => None
       | Some eo => order_view_of (sdb s) eo
       end), s).
Proof. reflexivity. Qed.

(** The order found by id carries that id. *)
Lemma findExitOrderById_id id s order :
  fst (findExitOrderById id s) = Ok (Some order) ->
  findExitOrderById id s = (Ok (Some order), s) /\ eo_id (ov_order order) = id.
Proof.
  rewrite findExitOrderById_run. simpl.
  destruct (find _ _) as [eo|] eqn:E; [|done]. intros [= Ho]. split; [by rewrite Ho|].
  apply find_some in E as [_ E]. apply Z.eqb_eq in E.
  unfold order_view_of in Ho. destruct (find_movement (eo_movement_id eo) (sdb s)) as [m|];
    [|done].
  destruct (find_product (mv_product m) (sdb s)), (find_warehouse (mv_warehouse m) (sdb s));
    try done.
  by injection Ho as <-.
Qed.

Lemma js_truthy_string_some v : v <> "" -> js_truthy_string (Some v) = true.
Proof. intros Hv. simpl. destruct (String.eqb_spec v ""); done. Qed.

(** A row of [UPDATE ... WHERE id = ?] with that id holds the new values. *)
Lemma tbl_update_elem {A} (P : A -> bool) (f : A -> A) t x :
  x ∈ rows (tbl_update P f t) -> exists y, y ∈ rows t /\ x = if P y then f y else y.
Proof.
  unfold tbl_update, update_where. simpl. intros Hx.
  apply list_elem_of_fmap in Hx as (y & -> & Hy). by exists y.
Qed.

Lemma exit_order_row_of_fields v d eo r :
  exit_order_row_of v d eo = Some r ->
  xo_id r = eo_id eo /\ xo_signature_image r = eo_signature_image eo /\
  xo_pdf_path r = eo_pdf_path eo.
Proof.
  unfold exit_order_row_of. destruct (find_movement (eo_movement_id eo) d) as [m|]; [|done].
  destruct (find_product (mv_product m) d), (find_warehouse (mv_warehouse m) d) as [w|];
    try done.
  destruct (exit_order_scope v w); [|done]. by intros [= <-].
Qed.

Section SignRun.
Context (cwd : string) `{Renderer}.

(** The run of the signing handler once the order is found: the check,
    then the signed PDF and the UPDATE. *)
Lemma signExitOrderController_found settle user id sig s order :
  sig <> "" ->
  fst (findExitOrderById id s) = Ok (Some order) ->
  let c := sign_continue cwd order (Some sig) s in
  signExitOrderController cwd settle user id (Some sig) s =
    match fst (ensureWarehouseWritePermission user (ov_warehouse_id order) s) with
    | Ok _ => (Answered c.1.1, c.2)
    | Err err =>
        let k := if rejects_before_await user then 0%nat else settle in
        (Crashed (if Nat.leb c.1.2 k then Some c.1.1 else None) err, if Nat.leb 1 k then c.2 else s)
    end.
Proof.
  intros Hsig Hf. apply findExitOrderById_id in Hf as [Hrun _]. cbv zeta.
  unfold signExitOrderController. rewrite js_truthy_string_some by done. cbn [negb].
  rewrite Hrun, floating_check.
  destruct (sign_continue cwd order (Some sig) s) as [[rep turn] s3].
  destruct (fst (ensureWarehouseWritePermission _ _ _)); reflexivity.
Qed.

Lemma addSignatureToPdf_ok order sig s :
  write_file (signature_path cwd order) (signature_bytes sig) = None ->
  write_signed_pdf (signed_path cwd order) order (signed_items order) ""
    (signed_declaration order) (signature_path cwd order) = None ->
  addSignatureToPdf cwd order sig s = (Ok (signed_path cwd order), s).
Proof. intros Hs Hw. unfold addSignatureToPdf. fold (signed_path cwd order). by rewrite Hs, Hw. Qed.

(** The successful run of the signing handler in closed form. *)
Lemma signExitOrderController_run settle user id sig s order :
  sig <> "" ->
  fst (findExitOrderById id s) = Ok (Some order) ->
  fst (ensureWarehouseWritePermission user (ov_warehouse_id order) s) = Ok tt ->
  write_file (signature_path cwd order) (signature_bytes sig) = None ->
  write_signed_pdf (signed_path cwd order) order (signed_items order) ""
    (signed_declaration order) (signature_path cwd order) = None ->
  signExitOrderController cwd settle user id (Some sig) s =
  (Answered (json JSuccess),
   mkSession (set_exit_orders
                (tbl_update (fun eo => eo_id eo =? id)
                   (with_signature (Some sig) (Some (signed_path cwd order))) (exit_orders (sdb s)))
                (sdb s)) (snapshot s)).
Proof.
  intros Hsig Hf Hc Hs Hw. pose proof (signExitOrderController_found settle user id sig s order Hsig Hf) as E.
  apply findExitOrderById_id in Hf as [_ Hid]. cbv zeta in E. rewrite Hc in E. rewrite E.
  unfold sign_continue. change (default "" (Some sig)) with sig. rewrite addSignatureToPdf_ok by done.
  cbn. by rewrite Hid.
Qed.
End SignRun.

(** ** Theorems *)

Section SignTheorems.
Context (cwd : string) `{Renderer}.

(** When the signature file is written, the handler's own reply comes
    after turn 0. *)
Lemma sign_continue_turn order sig s :
  write_file (signature_path cwd order) (signature_bytes sig) = None ->
  Nat.leb (sign_continue cwd order (Some sig) s).1.2 0 = false.
Proof.
  intros Hw. unfold sign_continue. change (default "" (Some sig)) with sig.
  unfold addSignatureToPdf. rewrite Hw.
  destruct (write_signed_pdf _ _ _ _ _ _); cbn.
  - unfold pdf_turn. by rewrite Hw.
  - reflexivity.
Qed.

(** C22 (safety): a caller the write check rejects brings the server
    down.  [ensureWarehouseWritePermission] is called without [await]
    (exitOrderController.js:57), so its rejection reaches no [catch]: it
    is an unhandled rejection, which ends the Node process whatever the
    scheduling; for a caller below supervisor (a plain "user") the check
    rejects before its first [await], and when the signature file is
    written the process ends before any reply is sent and before the
    UPDATE of the order: no request of any client is served after it. *)
Theorem signExitOrderController_denied_crashes settle user id sig s order err :
  sig <> "" ->
  fst (findExitOrderById id s) = Ok (Some order) ->
  fst (ensureWarehouseWritePermission user (ov_warehouse_id order) s) = Err err ->
  (exists sent s', signExitOrderController cwd settle user id (Some sig) s = (Crashed sent err, s')) /\
  (rejects_before_await user = true ->
   write_file (signature_path cwd order) (signature_bytes sig) = None ->
   signExitOrderController cwd settle user id (Some sig) s = (Crashed None err, s)).
Proof.
  intros Hsig Hf Hc. rewrite (signExitOrderController_found cwd settle user id sig s order Hsig Hf), Hc.
  cbv zeta. split; [by eexists _, _|]. intros Hr Hw. rewrite Hr, (sign_continue_turn order sig s Hw).
  reflexivity.
Qed.

(** C21: what signing writes.  With a non-empty signature, an order
    found, a caller the write check accepts (whose check therefore
    settles without a rejection), and the signature image and the signed
    PDF both written, the handler answers [{ success: true }] and every
    row of [exit_orders] with that id gets the signature and the signed
    PDF's path [cwd/storage/os-saida/OS-SAIDA-<movement>-assinado.pdf];
    the listing of any caller then shows these rows signed with that
    path.  Nothing else changes. *)
Theorem signExitOrderController_signs settle user id sig s order :
  sig <> "" ->
  fst (findExitOrderById id s) = Ok (Some order) ->
  fst (ensureWarehouseWritePermission user (ov_warehouse_id order) s) = Ok tt ->
  write_file (signature_path cwd order) (signature_bytes sig) = None ->
  write_signed_pdf (signed_path cwd order) order (signed_items order) ""
    (signed_declaration order) (signature_path cwd order) = None ->
  let s' := snd (signExitOrderController cwd settle user id (Some sig) s) in
  fst (signExitOrderController cwd settle user id (Some sig) s) = Answered (json JSuccess) /\
  snapshot s' = snapshot s /\
  (forall eo, eo ∈ rows (exit_orders (sdb s')) -> eo_id eo = id ->
     eo_signature_image eo = Some sig /\ eo_pdf_path eo = Some (signed_path cwd order)) /\
  (forall viewer rs, fst (listExitOrdersWithDetails viewer s') = Ok rs ->
   forall r, r ∈ rs -> xo_id r = id ->
     js_truthy_string (xo_signature_image r) = true /\ xo_pdf_path r = Some (signed_path cwd order)) /\
  other_than_orders (sdb s') = other_than_orders (sdb s).
Proof.
  intros Hsig Hf Hc Hwf Hw s'. subst s'. rewrite (signExitOrderController_run cwd settle user id sig s order) by done.
  cbn [fst snd sdb snapshot]. split_and!; try done.
  - intros eo Hin Hid. apply tbl_update_elem in Hin as (y & _ & ->).
    destruct (Z.eqb_spec (eo_id y) id) as [_|Hne]; [done|]. congruence.
  - intros viewer rs [= <-] r Hr Hid. apply elem_of_listing in Hr as (eo & Hin & Hrow).
    apply exit_order_row_of_fields in Hrow as (Hi & Hs & Hp).
    apply tbl_update_elem in Hin as (y & _ & ->). rewrite Hs, Hp.
    destruct (Z.eqb_spec (eo_id y) id) as [_|Hne]; [|congruence].
    split; [by apply js_truthy_string_some|done].
Qed.
End SignTheorems.

(** A super_admin signs order 1 of the example session. *)
Lemma signExitOrderController_signs_witness :
  let sig := "data:image/png;base64,AAAA" in
  let s' := snd (signExitOrderController "/srv" (H := finishing_renderer) 2 demo_super 1 (Some sig)
                   demo_signing_session) in
  fst (signExitOrderController "/srv" (H := finishing_renderer) 2 demo_super 1 (Some sig)
         demo_signing_session) = Answered (json JSuccess) /\
  snapshot s' = snapshot demo_signing_session /\
  (forall eo, eo ∈ rows (exit_orders (sdb s')) -> eo_id eo = 1 ->
     eo_signature_image eo = Some sig /\
     eo_pdf_path eo = Some (signed_path "/srv" demo_order_view)) /\
  (forall viewer rs, fst (listExitOrdersWithDetails viewer s') = Ok rs ->
   forall r, r ∈ rs -> xo_id r = 1 ->
     js_truthy_string (xo_signature_image r) = true /\
     xo_pdf_path r = Some (signed_path "/srv" demo_order_view)) /\
  other_than_orders (sdb s') = other_than_orders (sdb demo_signing_session).
Proof.
  apply (signExitOrderController_signs "/srv" (H := finishing_renderer) 2 demo_super 1
           "data:image/png;base64,AAAA" demo_signing_session demo_order_view);
    [discriminate|reflexivity|reflexivity|reflexivity|reflexivity].
Defined.

(** A plain "user" asking to sign order 1: the process ends with the
    check's 403 error, before any reply and with the session unchanged. *)
Lemma signExitOrderController_denied_crashes_witness :
  let err := http_error 403 "Você não tem permissão para alterar este estoque" in
  let sig := "data:image/png;base64,AAAA" in
  (exists sent s', signExitOrderController "/srv" (H := finishing_renderer) 2 demo_user 1 (Some sig)
                     demo_signing_session = (Crashed sent err, s')) /\
  signExitOrderController "/srv" (H := finishing_renderer) 2 demo_user 1 (Some sig) demo_signing_session =
    (Crashed None err, demo_signing_session).
Proof.
  destruct (signExitOrderController_denied_crashes "/srv" (H := finishing_renderer) 2 demo_user 1
              "data:image/png;base64,AAAA" demo_signing_session demo_order_view
              (http_error 403 "Você não tem permissão para alterar este estoque"))
    as [H1 H2]; [discriminate|reflexivity|reflexivity|].
  split; [exact H1|apply H2; reflexivity].
Defined.
