(* ===== verification/Catalog.v ===== *)
(** * Catalog: units and warehouses

    Models src/Backend/src/models/unitModel.js with
    controllers/unitController.js ([Units]) and models/warehouseModel.js
    with controllers/warehouseController.js ([Warehouses]), and the route
    gates of routes/unitRoutes.js and routes/warehouseRoutes.js.

    The statements are sent with [pool.query(sql, values)]: mysql2 fills
    each [?] with the next value and leaves the [?] that have no value in
    the text ([bind_params]); the server then rejects the statement with
    a syntax error, thrown without [statusCode].  Values are [sqlval]s;
    [description || null] and [unit_id || null] are written out.

    The deletion guards count the rows that reference the unit or the
    warehouse; [refs_ok] is the referential integrity the spec asks for
    (every balance and movement in an existing warehouse, every warehouse
    and user of a unit in an existing unit), which both deletions keep on
    every path. *)

From stdpp Require Import pretty sorting.
From S2P Require Import Prelude Schema Permission StockModel.

Open Scope Z_scope.
Open Scope est_scope.

(** ** Statements and their values *)

Inductive sqlval := SNull | SStr (v : string) | SInt (z : Z).

(** [x || null] for a string that may be missing. *)
Definition str_or_null (o : option string) : sqlval :=
  match o with Some v => if String.eqb v "" then SNull else SStr v | None => SNull end.

(** mysql2's [format]: one value per [?]; missing values leave [?] in
    the text. *)
Definition bind_params (placeholders : nat) (values : list sqlval) : option (list sqlval) :=
  if Nat.ltb (length values) placeholders then None else Some (take placeholders values).

Definition sql_parse_error : js_error :=
  mkError None "You have an error in your SQL syntax; check the manual that corresponds to your MySQL server version for the right syntax to use near '?' at line 1" (Some "ER_PARSE_ERROR").

(** A value stored in a text column, and compared with an integer id. *)
Definition sql_text (v : sqlval) : option string :=
  match v with SNull => None | SStr t => Some t | SInt z => Some (pretty z) end.

Definition sql_is_id (v : sqlval) (id : Z) : bool :=
  match v with SInt z => z =? id | _ => false end.

(** [col = ?] on a nullable column: NULL matches nothing. *)
Definition sql_eq_id (col : option Z) (id : Z) : bool :=
  match col with Some x => x =? id | None => false end.

(** [SELECT COUNT ... WHERE col = ?]: the number of matching rows. *)
Definition count_where {A} (P : A -> bool) (t : table A) : nat := length (List.filter P (rows t)).

(** [DELETE FROM t WHERE id = ?] *)
Definition tbl_delete {A} (P : A -> bool) (t : table A) : table A :=
  mkTable (List.filter (fun r => negb (P r)) (rows t)) (next_id t).

(** [requireMinRole(minRole)] in front of a handler. *)
Definition min_role_gated (minRole : string) (user : principal)
    (h : session -> reply * session) (s : session) : reply * session :=
  match requireMinRole minRole (Some user) with
  | Some r => (r, s)
  | None => h s
  end.

Module Units.

(** [INSERT INTO units (name, acronym, description) VALUES (?, ?, ?)]
    with [description || null]; the object returned. *)
Definition createUnit (name : string) (acronym : option string) (description : option string)
    : St unit_row :=
  d <- read_db ;;
  let '(id, t) := tbl_insert (fun id => mkUnit id name acronym (sql_text (str_or_null description)))
                    (units d) in
  write_db (set_units t) ;;;
  ret (mkUnit id name acronym (sql_text (str_or_null description))).

(** [ORDER BY name ASC] *)
Definition unit_le (collate : string -> string -> comparison) (a b : unit_row) : Prop :=
  collate (un_name a) (un_name b) <> Gt.

#[export] Instance unit_le_dec collate : RelDecision (unit_le collate).
Proof. intros a b. unfold unit_le. apply _. Defined.

(** super_admin sees every unit; another caller its own unit. *)
Definition listUnits (collate : string -> string -> comparison) (requester : option principal)
    : St (list unit_row) :=
  d <- read_db ;;
  match requester with
  | None => ret []
  | Some u =>
      if String.eqb (u_role u) "super_admin" then ret (merge_sort (unit_le collate) (rows (units d)))
      else match u_unit_id u with
           | Some x => if js_falsy_Z x then ret []
                       else ret (List.filter (fun un => un_id un =? x) (rows (units d)))
           | None => ret []
           end
  end.

(** [UPDATE units SET name = ?, acronym = ?, description = ? WHERE id = ?]
    with the values [[name, description || null, id]]. *)
Definition updateUnit (id : Z) (name : string) (description : option string) : St unit :=
  match bind_params 4 [SStr name; str_or_null description; SInt id] with
  | Some [v1; v2; v3; v4] =>
      write_db (fun d => set_units
        (tbl_update (fun un => sql_is_id v4 (un_id un))
           (fun un => mkUnit (un_id un) (default "" (sql_text v1)) (sql_text v2) (sql_text v3))
           (units d)) d)
  | _ => throw sql_parse_error
  end.

(** The two guards, then [DELETE FROM units WHERE id = ?]. *)
Definition deleteUnit (id : Z) : St unit :=
  d <- read_db ;;
  if Nat.ltb 0 (count_where (fun w => sql_eq_id (wh_unit_id w) id) (warehouses d))
  then throw (plain_error "Esta unidade não pode ser excluída pois possui estoques vinculados.")
  else if Nat.ltb 0 (count_where (fun u => sql_eq_id (us_unit_id u) id) (users d))
  then throw (plain_error "Esta unidade não pode ser excluída pois possui usuários vinculados.")
  else write_db (fun d => set_units (tbl_delete (fun un => un_id un =? id) (units d)) d).

Definition listUnitsController (collate : string -> string -> comparison) (user : principal)
    : session -> reply * session :=
  try_next (units <- listUnits collate (Some user) ;; ret (json (JRows units))).

(** [const { name, description } = req.body]: no acronym is passed. *)
Definition createUnitController (name description : option string)
    : session -> reply * session :=
  try_next (
    if js_falsy_string name then ret (mkReply 400 (JError "Nome da unidade é obrigatório"))
    else unit <- createUnit (default "" name) None description ;;
         ret (mkReply 201 (JObject unit))).

Definition updateUnitController (id : Z) (name description : option string)
    : session -> reply * session :=
  try_next (
    if js_falsy_string name then ret (mkReply 400 (JError "Nome da unidade é obrigatório"))
    else updateUnit id (default "" name) description ;;;
         ret (json (JMessage "Unidade atualizada com sucesso"))).

Definition deleteUnitController (id : Z) : session -> reply * session :=
  try_next (deleteUnit id ;;; ret (json (JMessage "Unidade excluída com sucesso"))).
End Units.

Module Warehouses.

(** [INSERT INTO warehouses (name, description, unit_id) VALUES (?, ?, ?)]
    with [unit_id || null]; the object returned carries the [unit_id]
    it was given. *)
Record created_warehouse := mkCreated {
  cw_id : Z;
  cw_name : string;
  cw_description : option string;
  cw_unit_id : option Z
}.

Definition createWarehouse (name : string) (description : option string) (unit_id : option Z)
    : St created_warehouse :=
  d <- read_db ;;
  let '(id, t) := tbl_insert (fun id => mkWarehouse id name description (js_or_null_id unit_id))
                    (warehouses d) in
  write_db (set_warehouses t) ;;;
  ret (mkCreated id name description unit_id).

(** A row of [SELECT w.id, w.name, w.description, w.unit_id, u.name,
    u.acronym FROM warehouses w LEFT JOIN units u ON u.id = w.unit_id]. *)
Record warehouse_row := mkWarehouseRow {
  wr_warehouse : warehouse;
  wr_unit_name : option string;
  wr_unit_acronym : option string
}.

Definition find_unit (id : Z) (d : db) : option unit_row :=
  find (fun un => un_id un =? id) (rows (units d)).

Definition warehouse_row_of (d : db) (w : warehouse) : warehouse_row :=
  let u := match wh_unit_id w with Some x => find_unit x d | None => None end in
  mkWarehouseRow w (option_map un_name u) (u ≫= un_acronym).

(** [ORDER BY w.name ASC] *)
Definition warehouse_le (collate : string -> string -> comparison) (a b : warehouse_row) : Prop :=
  collate (wh_name (wr_warehouse a)) (wh_name (wr_warehouse b)) <> Gt.

#[export] Instance warehouse_le_dec collate : RelDecision (warehouse_le collate).
Proof. intros a b. unfold warehouse_le. apply _. Defined.

(** [if (role && role !== "super_admin") sql += " WHERE w.unit_id = ?"] *)
Definition warehouse_scope (requester : option principal) (w : warehouse) : bool :=
  match requester with
  | Some u =>
      if String.eqb (u_role u) "" || String.eqb (u_role u) "super_admin" then true
      else match u_unit_id u with Some x => sql_eq_id (wh_unit_id w) x | None => false end
  | None => true
  end.

Definition listWarehouses (collate : string -> string -> comparison) (requester : option principal)
    : St (list warehouse_row) :=
  d <- read_db ;;
  ret (merge_sort (warehouse_le collate)
         (map (warehouse_row_of d) (List.filter (warehouse_scope requester) (rows (warehouses d))))).

(** [name = ?], [description = ?] and [unit_id = ?] for the fields that
    are not [undefined]. *)
Definition with_fields (name : option string) (description : jsfield string)
    (unit_id : jsfield Z) (w : warehouse) : warehouse :=
  mkWarehouse (wh_id w)
    (match name with Some n => n | None => wh_name w end)
    (match description with Undefined => wh_description w | Null => None | Defined v => Some v end)
    (match unit_id with
     | Undefined => wh_unit_id w
     | Null => None
     | Defined v => js_or_null_id (Some v)
     end)
    .

Definition no_fields (name : option string) (description : jsfield string) (unit_id : jsfield Z)
    : bool :=
  match name, description, unit_id with None, Undefined, Undefined => true | _, _, _ => false end.

Definition updateWarehouse (id : Z) (name : option string) (description : jsfield string)
    (unit_id : jsfield Z) : St unit :=
  if no_fields name description unit_id then ret tt
  else write_db (fun d => set_warehouses
         (tbl_update (fun w => wh_id w =? id) (with_fields name description unit_id)
            (warehouses d)) d).

Definition deleteWarehouse (id : Z) : St unit :=
  d <- read_db ;;
  if Nat.ltb 0 (count_where (fun m => mv_warehouse m =? id) (movements d))
  then throw (plain_error "Este estoque não pode ser excluído pois possui movimentações registradas.")
  else if Nat.ltb 0 (count_where (fun r => st_warehouse r =? id) (stock d))
  then throw (plain_error "Este estoque não pode ser excluído pois possui produtos em estoque.")
  else write_db (fun d => set_warehouses (tbl_delete (fun w => wh_id w =? id) (warehouses d)) d).

(** A caller other than super_admin creates in its own unit. *)
Definition createWarehouseController (user : principal) (name description : option string)
    (unit_id : option Z) : session -> reply * session :=
  try_next (
    if js_falsy_string name then ret (mkReply 400 (JError "Nome do estoque é obrigatório"))
    else
      let finalUnitId := if String.eqb (u_role user) "super_admin" then unit_id else u_unit_id user in
      w <- createWarehouse (default "" name) description finalUnitId ;;
      ret (mkReply 201 (JObject w))).

Definition listWarehousesController (collate : string -> string -> comparison) (user : principal)
    : session -> reply * session :=
  try_next (ws <- listWarehouses collate (Some user) ;; ret (json (JRows ws))).

(** Only super_admin may move a warehouse to another unit
    ([unit_id ?? null]); the others send [undefined]. *)
Definition updateWarehouseController (user : principal) (id : Z) (name : option string)
    (description : jsfield string) (unit_id : jsfield Z) : session -> reply * session :=
  try_next (
    if js_falsy_string name then ret (mkReply 400 (JError "Nome do estoque é obrigatório"))
    else
      let finalUnitId :=
        if String.eqb (u_role user) "super_admin"
        then match unit_id with Defined v => Defined v | _ => Null end
        else Undefined in
      updateWarehouse id name description finalUnitId ;;;
      ret (json (JMessage "Estoque atualizado com sucesso"))).

Definition deleteWarehouseController (id : Z) : session -> reply * session :=
  try_next (deleteWarehouse id ;;; ret (json (JMessage "Estoque excluído com sucesso"))).
End Warehouses.

(** ** Referential integrity *)

(** Every balance and movement is in an existing warehouse; every
    warehouse and user with a unit is in an existing unit. *)
Definition refs_ok (d : db) : Prop :=
  Forall (fun r => is_Some (find_warehouse (st_warehouse r) d)) (rows (stock d)) /\
  Forall (fun m => is_Some (find_warehouse (mv_warehouse m) d)) (rows (movements d)) /\
  Forall (fun w => match wh_unit_id w with
                   | Some x => is_Some (Warehouses.find_unit x d) | None => True end)
    (rows (warehouses d)) /\
  Forall (fun u => match us_unit_id u with
                   | Some x => is_Some (Warehouses.find_unit x d) | None => True end)
    (rows (users d)).

#[export] Instance refs_ok_dec d : Decision (refs_ok d).
Proof.
  unfold refs_ok. apply and_dec; [apply _|]. apply and_dec; [apply _|].
  apply and_dec; apply Forall_dec; intros x; destruct (_ x); apply _.
Defined.

(** ** Lemmas *)

Lemma count_where_zero {A} (P : A -> bool) t :
  Nat.ltb 0 (count_where P t) = false -> forall x, x ∈ rows t -> P x = false.
Proof.
  unfold count_where. intros H x Hx. apply Nat.ltb_ge in H.
  destruct (P x) eqn:E; [|done]. exfalso.
  assert (x ∈ List.filter P (rows t)) as Hin.
  { apply list_elem_of_In, filter_In. split; [by apply list_elem_of_In|done]. }
  destruct (List.filter P (rows t)); [by apply not_elem_of_nil in Hin|simpl in H; lia].
Qed.

(** Deleting the rows of key [id] leaves the lookup of another key. *)
Lemma find_delete_other {A} (key : A -> Z) l x id :
  x <> id ->
  find (fun r => key r =? x) (List.filter (fun r => negb (key r =? id)) l) =
  find (fun r => key r =? x) l.
Proof.
  intros Hne. induction l as [|r l IH]; [done|]. simpl.
  destruct (Z.eqb_spec (key r) id) as [Hr|Hr]; simpl.
  - rewrite IH. destruct (Z.eqb_spec (key r) x); [congruence|done].
  - by rewrite IH.
Qed.

(** A lookup that found a row in a table whose rows all avoid [id]
    is a lookup of another key. *)
Lemma is_Some_find_other {A} (key : A -> Z) l x id :
  is_Some (find (fun r => key r =? x) l) -> x <> id ->
  is_Some (find (fun r => key r =? x) (List.filter (fun r => negb (key r =? id)) l)).
Proof. intros H Hne. by rewrite find_delete_other. Qed.

Lemma deleteUnit_run id s :
  Units.deleteUnit id s =
  if Nat.ltb 0 (count_where (fun w => sql_eq_id (wh_unit_id w) id) (warehouses (sdb s)))
  then (Err (plain_error "Esta unidade não pode ser excluída pois possui estoques vinculados."), s)
  else if Nat.ltb 0 (count_where (fun u => sql_eq_id (us_unit_id u) id) (users (sdb s)))
  then (Err (plain_error "Esta unidade não pode ser excluída pois possui usuários vinculados."), s)
  else (Ok tt, mkSession (set_units (tbl_delete (fun un => un_id un =? id) (units (sdb s))) (sdb s))
                 (snapshot s)).
Proof. unfold Units.deleteUnit, bind, read_db. simpl. by repeat case_match. Qed.

Lemma deleteWarehouse_run id s :
  Warehouses.deleteWarehouse id s =
  if Nat.ltb 0 (count_where (fun m => mv_warehouse m =? id) (movements (sdb s)))
  then (Err (plain_error "Este estoque não pode ser excluído pois possui movimentações registradas."), s)
  else if Nat.ltb 0 (count_where (fun r => st_warehouse r =? id) (stock (sdb s)))
  then (Err (plain_error "Este estoque não pode ser excluído pois possui produtos em estoque."), s)
  else (Ok tt, mkSession (set_warehouses (tbl_delete (fun w => wh_id w =? id) (warehouses (sdb s)))
                            (sdb s)) (snapshot s)).
Proof. unfold Warehouses.deleteWarehouse, bind, read_db. simpl. by repeat case_match. Qed.

(** The references of rows that all avoid [id] survive deleting the
    rows of key [id]. *)
Lemma refs_after_delete {A B} (key : A -> Z) (ref : B -> option Z) (l : list A) (rs : list B) id :
  (forall x, x ∈ rs -> sql_eq_id (ref x) id = false) ->
  Forall (fun x => match ref x with Some y => is_Some (find (fun r => key r =? y) l) | None => True end) rs ->
  Forall (fun x => match ref x with
                   | Some y => is_Some (find (fun r => key r =? y) (List.filter (fun r => negb (key r =? id)) l))
                   | None => True end) rs.
Proof.
  intros Hav Hall. rewrite Forall_forall in Hall |- *. intros x Hx.
  specialize (Hall x Hx). pose proof (Hav x Hx) as Hne. unfold sql_eq_id in Hne.
  destruct (ref x) as [y|]; [|done]. apply Z.eqb_neq in Hne. by rewrite find_delete_other.
Qed.

(** ** Theorems *)

(** [updateUnitController] never updates a unit.  Its statement has
    four placeholders ([name], [acronym], [description], [id]) and three
    values ([name], [description || null], [id]); the last [?] stays in
    the text, the server rejects the statement, and every request with a
    name answers 500 with the state unchanged. *)
Theorem updateUnitController_fails id name description s :
  js_falsy_string name = false ->
  Units.updateUnitController id name description s = (errorHandler sql_parse_error, s) /\
  status (errorHandler sql_parse_error) = 500.
Proof. intros Hn. unfold Units.updateUnitController, try_next. by rewrite Hn. Qed.

(** The deletion guards keep referential integrity.  From a state
    where every balance and movement is in an existing warehouse and every
    warehouse and user with a unit is in an existing unit, deleting a unit
    or a warehouse (succeeding or refused by its guard) leaves a state
    where this still holds. *)
Theorem deletions_keep_refs id s :
  refs_ok (sdb s) ->
  refs_ok (sdb (snd (Units.deleteUnitController id s))) /\
  refs_ok (sdb (snd (Warehouses.deleteWarehouseController id s))).
Proof.
  intros Hr. split; unfold Units.deleteUnitController, Warehouses.deleteWarehouseController, try_next.
  - unfold bind at 1. rewrite deleteUnit_run.
    destruct (Nat.ltb 0 (count_where (fun w => sql_eq_id (wh_unit_id w) id) (warehouses (sdb s))))
      eqn:G1; [done|].
    destruct (Nat.ltb 0 (count_where (fun u => sql_eq_id (us_unit_id u) id) (users (sdb s))))
      eqn:G2; [done|].
    destruct Hr as (Hs & Hm & Hw & Hu). unfold refs_ok, Warehouses.find_unit. simpl.
    split_and!; [done|done| |].
    + apply (refs_after_delete un_id wh_unit_id); [exact (count_where_zero _ _ G1)|exact Hw].
    + apply (refs_after_delete un_id us_unit_id); [exact (count_where_zero _ _ G2)|exact Hu].
  - unfold bind at 1. rewrite deleteWarehouse_run.
    destruct (Nat.ltb 0 (count_where (fun m => mv_warehouse m =? id) (movements (sdb s))))
      eqn:G1; [done|].
    destruct (Nat.ltb 0 (count_where (fun r => st_warehouse r =? id) (stock (sdb s))))
      eqn:G2; [done|].
    destruct Hr as (Hs & Hm & Hw & Hu). unfold refs_ok, find_warehouse. simpl.
    split_and!; [| | |exact Hu].
    3: { rewrite List.Forall_forall in Hw |- *. intros w Hin.
         apply filter_In in Hin as [Hin _]. exact (Hw w Hin). }
    + apply (refs_after_delete wh_id (fun r => Some (st_warehouse r))); [|done].
      intros r Hin. exact (count_where_zero _ _ G2 r Hin).
    + apply (refs_after_delete wh_id (fun m => Some (mv_warehouse m))); [|done].
      intros m Hin. exact (count_where_zero _ _ G1 m Hin).
Qed.

(** A caller other than super_admin creates warehouses in its own
    unit only: whatever [unit_id] the body carries, the row appended has
    the caller's [unit_id || null]; the reply is 201. *)
Theorem createWarehouseController_own_unit user name description unit_id s :
  u_role user <> "super_admin" -> js_falsy_string name = false ->
  let rs := Warehouses.createWarehouseController user name description unit_id s in
  status (fst rs) = 201 /\ snapshot (snd rs) = snapshot s /\
  rows (warehouses (sdb (snd rs))) = rows (warehouses (sdb s)) ++
    [mkWarehouse (next_id (warehouses (sdb s))) (default "" name) description
       (js_or_null_id (u_unit_id user))].
Proof.
  intros Hr Hn rs. subst rs. unfold Warehouses.createWarehouseController, try_next.
  rewrite Hn. destruct (String.eqb_spec (u_role user) "super_admin"); [done|]. done.
Qed.

(** Warehouse updates are not permission-gated.  The route has only
    [authRequired] and the handler checks neither role nor unit: any
    caller other than super_admin (a "user", a supervisor of another unit)
    who sends a name gets 200 and renames every warehouse with that id,
    its description set as the body says; only the unit stays. *)
Theorem updateWarehouseController_any_caller user id n description unit_id s :
  u_role user <> "super_admin" -> n <> "" ->
  Warehouses.updateWarehouseController user id (Some n) description unit_id s =
  (json (JMessage "Estoque atualizado com sucesso"),
   mkSession (set_warehouses (tbl_update (fun w => wh_id w =? id)
                (Warehouses.with_fields (Some n) description Undefined) (warehouses (sdb s))) (sdb s))
     (snapshot s)).
Proof.
  intros Hr Hn. unfold Warehouses.updateWarehouseController, try_next.
  change (js_falsy_string (Some n)) with (String.eqb n "").
  destruct (String.eqb_spec n ""); [done|].
  destruct (String.eqb_spec (u_role user) "super_admin"); [done|]. reflexivity.
Qed.

(** ** Witnesses on the example database *)

Lemma updateUnitController_fails_witness :
  Units.updateUnitController 1 (Some "Sede Nova") None demo_session =
    (errorHandler sql_parse_error, demo_session) /\
  status (errorHandler sql_parse_error) = 500.
Proof. by apply updateUnitController_fails. Defined.

Lemma deletions_keep_refs_witness :
  refs_ok (sdb (snd (Units.deleteUnitController 1 demo_session))) /\
  refs_ok (sdb (snd (Warehouses.deleteWarehouseController 1 demo_session))).
Proof. apply deletions_keep_refs. decide_prop. Defined.

Lemma createWarehouseController_own_unit_witness :
  let u := mkPrincipal 8 "Bia" "user" (Some 1) None in
  let rs := Warehouses.createWarehouseController u (Some "Depósito") None (Some 2) demo_session in
  status (fst rs) = 201 /\ snapshot (snd rs) = snapshot demo_session /\
  rows (warehouses (sdb (snd rs))) = rows (warehouses demo_db) ++
    [mkWarehouse 2 "Depósito" None (Some 1)].
Proof. apply createWarehouseController_own_unit; [discriminate|reflexivity]. Defined.

Lemma updateWarehouseController_any_caller_witness :
  let u := mkPrincipal 8 "Bia" "user" (Some 2) None in
  Warehouses.updateWarehouseController u 1 (Some "Renomeado") Undefined Undefined demo_session =
  (json (JMessage "Estoque atualizado com sucesso"),
   mkSession (set_warehouses (tbl_update (fun w => wh_id w =? 1)
                (Warehouses.with_fields (Some "Renomeado") Undefined Undefined)
                (warehouses demo_db)) demo_db) None).
Proof. apply updateWarehouseController_any_caller; discriminate. Defined.
