(* ===== verification/StockController.v ===== *)
(** * StockController: the movement engine

    Models the three handlers of src/Backend/src/controllers/stockController.js,
    each as the whole [try { ... } catch { rollback; next(err) }] of the
    source ([try_rollback]):
    - [stockEntryController]: permission check, BEGIN, [upsertStock],
      [registerMovement] ENTRADA, COMMIT;
    - [stockExitController]: the items guard, permission check, BEGIN,
      for each item [decreaseStock] and [registerMovement] SAIDA, COMMIT,
      then (outside the transaction) the query that loads the batch, the
      PDF ([generateExitOS]) and the exit order ([createExitOrder]);
    - [stockEntryBatchController]: the items guard, permission check,
      BEGIN, for each item the [!product_id || !quantity] guard,
      [upsertStock] and [registerMovement] ENTRADA, COMMIT.
    The request body is a record of the fields each handler destructures;
    [items] is [None] when it is not an array.  The caller is [req.user]. *)

From stdpp Require Import sorting.
From S2P Require Import Prelude Schema Permission StockModel Ledger BalanceSpec ExitOrderModel OsService.

Open Scope Z_scope.
Open Scope est_scope.

(** ** Requests *)

(** [{ product_id, warehouse_id, quantity, description }] of
    POST /api/estoque/entrada. *)
Record entry_request := mkEntryRequest {
  er_product_id : Z;
  er_warehouse_id : Z;
  er_quantity : Z;
  er_description : option string
}.

(** An element of [items]: [{ product_id, quantity }]. *)
Record item := mkItem {
  item_product_id : Z;
  item_quantity : Z
}.

(** [{ warehouse_id, items, description, client_name, client_document }]
    of POST /api/estoque/saida. *)
Record exit_request := mkExitRequest {
  xr_warehouse_id : Z;
  xr_items : option (list item);
  xr_description : option string;
  xr_client_name : string;
  xr_client_document : option string
}.

(** [{ warehouse_id, items, description }] of POST /api/estoque/entrada/lote. *)
Record batch_request := mkBatchRequest {
  br_warehouse_id : Z;
  br_items : option (list item);
  br_description : option string
}.

(** ** Single entry *)

Definition stockEntryController (user : principal) (req : entry_request)
    : session -> reply * session :=
  try_rollback (
    ensureWarehouseWritePermission user (er_warehouse_id req) ;;;
    beginTransaction ;;;
    ch <- upsertStock (er_product_id req) (er_warehouse_id req) (er_quantity req) ;;
    _ <- registerMovement (er_product_id req) (er_warehouse_id req) (Some (u_id user)) ENTRADA
           (er_quantity req) (previous_qty ch) (new_qty ch) (er_description req) ;;
    commit ;;;
    ret (json (JMessage "Entrada registrada com sucesso"))).

(** ** Batch exit and exit order *)

(** The [for (const item of items)] loop of [stockExitController]: each
    item's [decreaseStock] and SAIDA movement, pushing the movement ids. *)
Fixpoint exit_loop (user : principal) (warehouse_id : Z) (description : option string)
    (items : list item) (movementIds : list Z) : St (list Z) :=
  match items with
  | [] => ret movementIds
  | it :: rest =>
      ch <- decreaseStock (item_product_id it) warehouse_id (item_quantity it) ;;
      id <- registerMovement (item_product_id it) warehouse_id (Some (u_id user)) SAIDA
              (item_quantity it) (previous_qty ch) (new_qty ch) description ;;
      exit_loop user warehouse_id description rest (movementIds ++ [id])
  end.

Definition os_row_le (a b : os_row) : Prop := or_id a <= or_id b.

#[export] Instance os_row_le_dec : RelDecision os_row_le.
Proof. intros a b. unfold os_row_le. apply _. Defined.

(** [SELECT m.id, m.quantity, m.created_at, p.name AS product, w.name AS
    warehouse FROM stock_movements m JOIN products p ON p.id = m.product_id
    JOIN warehouses w ON w.id = m.warehouse_id WHERE m.id IN (?) ORDER BY
    m.id]. *)
Definition os_row_of (ids : list Z) (d : db) (m : movement) : option os_row :=
  if existsb (Z.eqb (mv_id m)) ids then
    match find_product (mv_product m) d, find_warehouse (mv_warehouse m) d with
    | Some p, Some w =>
        Some (mkOsRow (mv_id m) (mv_quantity m) (mv_created_at m) (pr_name p) (wh_name w))
    | _, _ => None
    end
  else None.

Definition load_os_rows (ids : list Z) (d : db) : list os_row :=
  merge_sort os_row_le (omap (os_row_of ids d) (rows (movements d))).

(** [movements.map((m) => ({ product, quantity, warehouse }))] *)
Definition item_for_json (m : os_row) : exit_item :=
  mkExitItem (or_product m) (or_quantity m) (or_warehouse m).

Section Exit.
Context (cwd : string) `{Renderer}.

Definition stockExitController (user : principal) (req : exit_request)
  : session -> reply * session :=
  try_rollback (
  match xr_items req with
  | None | Some [] => throw (http_error 400 "Nenhum item informado para saída")
  | Some items =>
      ensureWarehouseWritePermission user (xr_warehouse_id req) ;;;
      beginTransaction ;;;
      let operator_name := u_name user in
      movementIds <- exit_loop user (xr_warehouse_id req) (xr_description req) items [] ;;
      commit ;;;
      d <- read_db ;;
      let movements := load_os_rows movementIds d in
      filePath <- generateExitOS cwd movements (xr_client_name req) (xr_client_document req)
                    DECLARATION operator_name ;;
      let itemsForJson := map item_for_json movements in
      match head movements with
      | None => throw (plain_error "Cannot read properties of undefined (reading 'id')")
      | Some firstMovement =>
          _ <- createExitOrder (or_id firstMovement) (xr_client_name req)
                 (xr_client_document req) DECLARATION filePath itemsForJson ;;
          ret (json (JMessageId "Saída registrada e OS gerada com sucesso"
                       (or_id firstMovement)))
      end
  end).
End Exit.

(** ** Batch entry *)

(** [description || "Entrada via Caixa Rápido"] *)
Definition batch_description (description : option string) : option string :=
  match description with
  | Some s => if String.eqb s "" then Some "Entrada via Caixa Rápido" else Some s
  | None => Some "Entrada via Caixa Rápido"
  end.

(** The loop of [stockEntryBatchController]. *)
Fixpoint entry_loop (user : principal) (warehouse_id : Z) (description : option string)
    (items : list item) : St unit :=
  match items with
  | [] => ret tt
  | it :: rest =>
      if js_falsy_Z (item_product_id it) || js_falsy_Z (item_quantity it)
      then throw (http_error 400 "Item inválido na lista de entrada")
      else
        ch <- upsertStock (item_product_id it) warehouse_id (item_quantity it) ;;
        _ <- registerMovement (item_product_id it) warehouse_id (Some (u_id user)) ENTRADA
               (item_quantity it) (previous_qty ch) (new_qty ch) (batch_description description) ;;
        entry_loop user warehouse_id description rest
  end.

Definition stockEntryBatchController (user : principal) (req : batch_request)
    : session -> reply * session :=
  try_rollback (
    match br_items req with
    | None | Some [] => throw (http_error 400 "Nenhum item informado para entrada")
    | Some items =>
        ensureWarehouseWritePermission user (br_warehouse_id req) ;;;
        beginTransaction ;;;
        entry_loop user (br_warehouse_id req) (br_description req) items ;;;
        commit ;;;
        ret (json (JMessage "Entrada em lote registrada com sucesso"))
    end).

(** The items of a request as the spec's [(product, quantity)] pairs. *)
Definition spec_items (items : list item) : list (Z * Z) :=
  map (fun it => (item_product_id it, item_quantity it)) items.

(** ** Vocabulary of the theorems *)

(** The error the code throws for each error kind of the spec. *)
Definition js_error_of_spec (e : spec_error) : js_error :=
  match e with
  | NoStockRecord => plain_error "Não há estoque para esse produto nesse local"
  | InsufficientStock => http_error 400 "Quantidade maior que o estoque disponível"
  | InvalidInput => http_error 400 "Item inválido na lista de entrada"
  end.

(** [m] is the movement a handler appends for item [it] of a batch of type
    [t] on warehouse [w]: its pair, caller, type, quantity, description,
    and a new quantity consistent with the previous one. *)
Definition movement_of (user : principal) (w : Z) (desc : option string) (t : mtype)
    (it : item) (m : movement) : Prop :=
  mv_product m = item_product_id it /\ mv_warehouse m = w /\
  mv_user m = js_or_null_id (Some (u_id user)) /\ mv_type m = t /\
  mv_quantity m = item_quantity it /\
  mv_new m = mv_previous m + signed_qty t (mv_quantity m) /\
  mv_description m = desc.

(** The tables the engine's transaction does not write. *)
Definition untouched (d : db) :=
  (units d, warehouses d, products d, exit_orders d, users d, clock d).

(** An item the batch entry's guard [!product_id || !quantity] rejects. *)
Definition entry_item_rejected (it : item) : bool :=
  js_falsy_Z (item_product_id it) || js_falsy_Z (item_quantity it).

(** ** Examples

    A renderer whose streams always finish, the supervisor of unit 1, and
    two exit requests on warehouse 1 of [demo_db]: one within the
    balances, one whose second item (product 2) has no stock row. *)
Definition ok_renderer : Renderer :=
  {| write_exit_pdf _ _ _ _ _ _ := None; write_signed_pdf _ _ _ _ _ _ := None; write_file _ _ := None |}.

Definition ana : principal := mkPrincipal 7 "Ana" "supervisor" (Some 1) None.

(** A caller of role "user" in unit 1: below the write rank. *)
Definition bia : principal := mkPrincipal 8 "Bia" "user" (Some 1) None.

Definition exit_ok_request : exit_request :=
  mkExitRequest 1 (Some [mkItem 1 4]) None "Cliente" None.

Definition exit_fail_request : exit_request :=
  mkExitRequest 1 (Some [mkItem 1 4; mkItem 2 1]) None "Cliente" None.

(** ** The exit loop refines the spec's batch exit *)

Lemma untouched_set_stock t d : untouched (set_stock t d) = untouched d.
Proof. reflexivity. Qed.

Lemma untouched_set_movements t d : untouched (set_movements t d) = untouched d.
Proof. reflexivity. Qed.

#[export] Hint Resolve untouched_set_stock untouched_set_movements : estoque.

Lemma spec_exit_positive k q σ :
  0 < q ->
  spec_exit k q σ =
  match σ !! k with
  | None => inl NoStockRecord
  | Some b => if b <? q then inl InsufficientStock else inr (<[k := b - q]> σ)
  end.
Proof. intros Hq. unfold spec_exit. destruct (Z.leb_spec q 0); [lia|done]. Qed.

(** One step of a loop: a store operation that wrote the pair's balance
    [b0 + signed_qty t q] and nothing else, then the movement of type [t]
    recording it. *)
Lemma register_after_store user w desc t p q (op : St stock_change) s ch d' b0 :
  op s = (Ok ch, mkSession d' (snapshot s)) ->
  default 0 (balance (sdb s) p w) = b0 ->
  previous_qty ch = b0 -> new_qty ch = b0 + signed_qty t q ->
  balance d' p w = Some (new_qty ch) ->
  (forall p' w', (p', w') <> (p, w) -> balance d' p' w' = balance (sdb s) p' w') ->
  movements d' = movements (sdb s) -> untouched d' = untouched (sdb s) -> stock_wf d' ->
  counters_le (sdb s) d' ->
  exists d1 m,
    (forall A (k : Z -> St A),
       bind op (fun ch => bind (registerMovement p w (Some (u_id user)) t q (previous_qty ch)
                                 (new_qty ch) desc) k) s
       = k (mv_id m) (mkSession d1 (snapshot s))) /\
    abs_balances d1 = <[(p, w) := b0 + signed_qty t q]> (abs_balances (sdb s)) /\
    rows (movements d1) = rows (movements (sdb s)) ++ [m] /\
    movement_of user w desc t (mkItem p q) m /\
    mv_id m = next_id (movements (sdb s)) /\
    stock_wf d1 /\ (ledger_inv (sdb s) -> ledger_inv d1) /\
    untouched d1 = untouched (sdb s) /\ counters_le (sdb s) d1.
Proof.
  intros Hrun Hb0 Hprev Hnew Hbal Hoth Hmv Hu Hok' Hc.
  exists (movements_after_insert p w (Some (u_id user)) t q (previous_qty ch) (new_qty ch) desc d'),
    (mkMovement (next_id (movements d')) p w (js_or_null_id (Some (u_id user))) t q
       (previous_qty ch) (new_qty ch) desc (clock d')).
  split; [intros A k; by rewrite (bind_Ok _ _ _ _ _ Hrun)|].
  split_and!.
  - rewrite (abs_balances_write (sdb s) _ (p, w) (b0 + signed_qty t q)); [done| |].
    + cbn [fst snd]. by rewrite balance_movements_after_insert, Hbal, Hnew.
    + intros p' w' Hne. rewrite balance_movements_after_insert. by apply Hoth.
  - simpl. by rewrite Hmv.
  - unfold movement_of; simpl. rewrite Hnew, Hprev. split_and!; done || lia.
  - simpl. by rewrite Hmv.
  - by apply stock_wf_movements_after_insert.
  - intros [Hm Hl]. split.
    + apply movement_ids_ok_insert. unfold movement_ids_ok. by rewrite Hmv.
    + destruct Hok' as (_ & _ & Hpairs).
      apply (ledger_ok_step (sdb s) _ p w
               (mkMovement (next_id (movements d')) p w (js_or_null_id (Some (u_id user))) t q
                  (previous_qty ch) (new_qty ch) desc (clock d'))); try done.
      * simpl. congruence.
      * simpl. rewrite Hnew, Hprev. done.
      * simpl. by rewrite Hmv.
  - unfold untouched in *. simpl. congruence.
  - transitivity d'; [done|apply counters_le_movements_after_insert].
Qed.

(** One SAIDA step, when the item is within its balance. *)
Lemma exit_step_ok user w desc p q b s :
  stock_wf (sdb s) -> balance (sdb s) p w = Some b -> q <= b ->
  exists d1 m,
    (forall A (k : Z -> St A),
       bind (decreaseStock p w q)
         (fun ch => bind (registerMovement p w (Some (u_id user)) SAIDA q (previous_qty ch)
                            (new_qty ch) desc) k) s
       = k (mv_id m) (mkSession d1 (snapshot s))) /\
    abs_balances d1 = <[(p, w) := b - q]> (abs_balances (sdb s)) /\
    rows (movements d1) = rows (movements (sdb s)) ++ [m] /\
    movement_of user w desc SAIDA (mkItem p q) m /\
    mv_id m = next_id (movements (sdb s)) /\
    stock_wf d1 /\ (ledger_inv (sdb s) -> ledger_inv d1) /\
    untouched d1 = untouched (sdb s) /\ counters_le (sdb s) d1.
Proof.
  intros Hok Hb Hq.
  pose proof (decreaseStock_spec p w q s Hok) as Hd. rewrite Hb in Hd.
  destruct (Z.gtb_spec q b); [lia|].
  destruct Hd as (ch & d' & Hrun & Hprev & Hnew & Hbal & Hoth & Hmv & _ & Hok').
  pose proof (preserves_run _ _ _ _ _ (decreaseStock_preserves p w q untouched
                (fun t d => eq_refl)) Hrun) as Hfr.
  replace (b - q) with (b + signed_qty SAIDA q) by (simpl; lia).
  apply (register_after_store user w desc SAIDA p q (decreaseStock p w q) s ch d' b); try done.
  all: first [by rewrite Hb | by rewrite Hnew | simpl in Hfr; congruence | simpl; lia
             | exact (decreaseStock_counters _ _ _ _ _ _ Hrun)].
Qed.

(** One ENTRADA step: always succeeds. *)
Lemma entry_step_ok user w desc p q s :
  stock_wf (sdb s) ->
  exists d1 m,
    (forall A (k : Z -> St A),
       bind (upsertStock p w q)
         (fun ch => bind (registerMovement p w (Some (u_id user)) ENTRADA q (previous_qty ch)
                            (new_qty ch) desc) k) s
       = k (mv_id m) (mkSession d1 (snapshot s))) /\
    abs_balances d1 = <[(p, w) := default 0 (balance (sdb s) p w) + q]> (abs_balances (sdb s)) /\
    rows (movements d1) = rows (movements (sdb s)) ++ [m] /\
    movement_of user w desc ENTRADA (mkItem p q) m /\
    mv_id m = next_id (movements (sdb s)) /\
    stock_wf d1 /\ (ledger_inv (sdb s) -> ledger_inv d1) /\
    untouched d1 = untouched (sdb s) /\ counters_le (sdb s) d1.
Proof.
  intros Hok.
  destruct (upsertStock_spec p w q s Hok)
    as (ch & d' & Hrun & Hprev & Hnew & Hbal & Hoth & Hmv & _ & Hok').
  pose proof (preserves_run _ _ _ _ _ (upsertStock_preserves p w q untouched
                (fun t d => eq_refl)) Hrun) as Hfr.
  change (default 0 (balance (sdb s) p w) + q)
    with (default 0 (balance (sdb s) p w) + signed_qty ENTRADA q).
  apply (register_after_store user w desc ENTRADA p q (upsertStock p w q) s ch d'
           (default 0 (balance (sdb s) p w))); try done.
  all: first [by rewrite Hnew | simpl in Hfr; congruence | simpl; lia
             | exact (upsertStock_counters _ _ _ _ _ _ Hrun)].
Qed.

Lemma exit_loop_spec user w desc items :
  Forall (fun it => 0 < item_quantity it) items ->
  forall ids s, stock_wf (sdb s) ->
  match spec_batch spec_exit w (spec_items items) (abs_balances (sdb s)) with
  | inl e => exists s',
      exit_loop user w desc items ids s = (Err (js_error_of_spec e), s') /\
      snapshot s' = snapshot s
  | inr σ' => exists new s',
      exit_loop user w desc items ids s = (Ok (ids ++ map mv_id new), s') /\
      snapshot s' = snapshot s /\ abs_balances (sdb s') = σ' /\
      rows (movements (sdb s')) = rows (movements (sdb s)) ++ new /\
      Forall2 (movement_of user w desc SAIDA) items new /\
      stock_wf (sdb s') /\ (ledger_inv (sdb s) -> ledger_inv (sdb s')) /\
      untouched (sdb s') = untouched (sdb s)
  end.
Proof.
  induction 1 as [|[p q] rest Hq Hpos IH]; intros ids s Hok; simpl.
  - exists [], s. rewrite !app_nil_r. split_and!; done || constructor.
  - simpl in Hq. rewrite spec_exit_positive by done. rewrite abs_balances_lookup.
    pose proof (decreaseStock_spec p w q s Hok) as Hd.
    destruct (balance (sdb s) p w) as [b|] eqn:Eb.
    + destruct (Z.ltb_spec b q).
      * destruct (Z.gtb_spec q b); [|lia].
        exists s. by rewrite (bind_Err _ _ _ _ _ Hd).
      * destruct (exit_step_ok user w desc p q b s Hok Eb ltac:(lia))
          as (d1 & m & Hrun & Habs & Hmv & Hm & Hid & Hok1 & Hmi & Hu & _).
        rewrite Hrun. rewrite <- Habs.
        specialize (IH (ids ++ [mv_id m]) (mkSession d1 (snapshot s)) Hok1). simpl in IH.
        destruct (spec_batch spec_exit w (spec_items rest) (abs_balances d1)).
        -- destruct IH as (s' & Hr & Hs). exists s'. done.
        -- destruct IH as (new & s' & Hr & Hs & Ha & Hmv' & Hf & Hok' & Hmi' & Hu').
           exists (m :: new), s'. rewrite Hr, <- app_assoc. simpl.
           split_and!; try done.
           ++ rewrite Hmv', Hmv, <- app_assoc. done.
           ++ by constructor.
           ++ auto.
           ++ congruence.
    + exists s. by rewrite (bind_Err _ _ _ _ _ Hd).
Qed.

(** ** The exit handler *)

Section ExitTheorems.
Context (cwd : string) `{Renderer}.

(** C1: all or nothing.  For a batch of positive quantities that the
  caller may write, when the spec's batch exit fails on the current
  balances (an item without a stock row, or above its balance at its
  turn, the items before it included), the handler answers the error
  the code throws for that kind (500 "Não há estoque ...", 400
  "Quantidade maior ...") and every table holds exactly the rows it
  held before: no balance changed, no movement appended. *)
Theorem stockExitController_all_or_nothing user req items s e :
  snapshot s = None -> stock_wf (sdb s) ->
  xr_items req = Some items -> Forall (fun it => 0 < item_quantity it) items ->
  fst (ensureWarehouseWritePermission user (xr_warehouse_id req) s) = Ok tt ->
  spec_batch spec_exit (xr_warehouse_id req) (spec_items items) (abs_balances (sdb s)) = inl e ->
  exists s',
  stockExitController cwd user req s = (errorHandler (js_error_of_spec e), s') /\
  db_rows_eq (sdb s') (sdb s) /\ snapshot s' = None.
Proof.
  intros Hnone Hok Hitems Hpos Hperm Hspec.
  pose proof (exit_loop_spec user (xr_warehouse_id req) (xr_description req) items Hpos []
              (mkSession (sdb s) (Some (sdb s))) Hok) as Hl.
  simpl in Hl. rewrite Hspec in Hl. destruct Hl as (s1 & Hrun & Hsnap).
  destruct items as [|it rest]; [discriminate|].
  eexists. split; [|apply (rollback_restores s1 (sdb s)); by rewrite Hsnap].
  unfold stockExitController. apply try_rollback_err. rewrite Hitems.
  rewrite (bind_Ok _ _ _ _ _ (run_readonly _ _ _ (ensureWarehouseWritePermission_state _ _ _) Hperm)).
  by apply begin_body_err.
Qed.

(** After a successful loop, whatever the batch query, the PDF and the
      exit order do, the stock and movement tables stay as the loop left
      them and the transaction is closed. *)
Lemma stockExitController_after_loop user req items s ids s1 :
  snapshot s = None -> xr_items req = Some items -> items <> [] ->
  fst (ensureWarehouseWritePermission user (xr_warehouse_id req) s) = Ok tt ->
  exit_loop user (xr_warehouse_id req) (xr_description req) items []
    (mkSession (sdb s) (Some (sdb s))) = (Ok ids, s1) ->
  (fun s' => (snapshot s', (stock (sdb s'), movements (sdb s'))))
    (snd (stockExitController cwd user req s)) =
  (None, (stock (sdb s1), movements (sdb s1))).
Proof.
  intros Hnone Hitems Hne Hperm Hrun. destruct items as [|it rest]; [done|].
  unfold stockExitController, try_rollback. rewrite Hitems.
  rewrite (bind_Ok _ _ _ _ _ (run_readonly _ _ _ (ensureWarehouseWritePermission_state _ _ _) Hperm)).
  rewrite (bind_Ok _ _ _ _ _ (beginTransaction_run s)).
  rewrite (bind_Ok _ _ _ _ _ Hrun), (bind_Ok _ _ _ _ _ (commit_run s1)).
  match goal with
  | |- context [bind read_db ?k ?s2] =>
      assert (Hfr : preserves (fun s => (snapshot s, (stock (sdb s), movements (sdb s))))
                      (bind read_db k))
        by (frame; apply (createExitOrder_preserves (fun d => (stock d, movements d)));
            reflexivity);
      pose proof (Hfr s2) as Hpost; destruct (bind read_db k s2) as [[r|e] s3]
  end; cbn [snd fst sdb snapshot] in Hpost |- *.
  - exact Hpost.
  - rewrite rollback_none; [exact Hpost|]. by injection Hpost.
Qed.

(** C2: what an accepted batch commits.  For a batch of positive
  quantities that the caller may write and that the spec's batch exit
  accepts with balances [σ'], the handler leaves the balances equal to
  [σ'] and appends to [stock_movements] one SAIDA movement per item, in
  the caller's order, with the item's product and quantity, the
  warehouse, the caller, and [new_qty = previous_qty - quantity]; this
  holds whatever the PDF and the exit order do afterwards. *)
Theorem stockExitController_commits user req items s σ' :
  snapshot s = None -> stock_wf (sdb s) ->
  xr_items req = Some items -> Forall (fun it => 0 < item_quantity it) items ->
  fst (ensureWarehouseWritePermission user (xr_warehouse_id req) s) = Ok tt ->
  spec_batch spec_exit (xr_warehouse_id req) (spec_items items) (abs_balances (sdb s)) = inr σ' ->
  let s' := snd (stockExitController cwd user req s) in
  snapshot s' = None /\ abs_balances (sdb s') = σ' /\
  exists new,
  rows (movements (sdb s')) = rows (movements (sdb s)) ++ new /\
  Forall2 (movement_of user (xr_warehouse_id req) (xr_description req) SAIDA) items new.
Proof.
  intros Hnone Hok Hitems Hpos Hperm Hspec s'.
  destruct items as [|it rest].
  { simpl in Hspec. injection Hspec as <-.
  subst s'. unfold stockExitController, try_rollback. rewrite Hitems. simpl.
  rewrite rollback_none by done. split_and!; [done|done|]. exists []. split; [|constructor].
  by rewrite app_nil_r. }
  pose proof (exit_loop_spec user (xr_warehouse_id req) (xr_description req) _ Hpos []
              (mkSession (sdb s) (Some (sdb s))) Hok) as Hl.
  cbn [sdb snapshot] in Hl. rewrite Hspec in Hl.
  destruct Hl as (new & s1 & Hrun & Hsnap & Habs & Hmv & Hf & _ & _ & _).
  pose proof (stockExitController_after_loop user req _ s _ s1 Hnone Hitems
                ltac:(discriminate) Hperm Hrun) as Hobs.
  subst s'. cbn beta in Hobs. injection Hobs as Hs3 Hst Hmv3.
  split_and!; [done| |exists new; split; [|done]].
  - rewrite <- Habs. apply abs_balances_stock. by rewrite Hst.
  - by rewrite Hmv3.
Qed.
End ExitTheorems.

Lemma stockExitController_all_or_nothing_witness :
  spec_batch spec_exit 1 [(1, 4); (2, 1)] (abs_balances demo_db) = inl NoStockRecord /\
  exists s',
    stockExitController "/srv" (H := ok_renderer) ana exit_fail_request demo_session =
      (errorHandler (js_error_of_spec NoStockRecord), s') /\
    db_rows_eq (sdb s') demo_db /\ snapshot s' = None.
Proof.
  split; [reflexivity|].
  apply (stockExitController_all_or_nothing "/srv" ana exit_fail_request
           [mkItem 1 4; mkItem 2 1]); try reflexivity.
  - decide_prop.
  - repeat constructor.
Defined.

Lemma stockExitController_commits_witness :
  spec_batch spec_exit 1 [(1, 4)] (abs_balances demo_db) = inr {[(1, 1) := 6]} /\
  abs_balances (sdb (snd (stockExitController "/srv" (H := ok_renderer) ana exit_ok_request
                            demo_session))) = {[(1, 1) := 6]}.
Proof.
  split; [reflexivity|].
  apply (stockExitController_commits "/srv" ana exit_ok_request [mkItem 1 4]); try reflexivity.
  - decide_prop.
  - repeat constructor.
Defined.

(** ** The entry handlers *)

Lemma spec_entry_positive k q σ :
  0 < q -> spec_entry k q σ = inr (<[k := default 0 (σ !! k) + q]> σ).
Proof. intros Hq. unfold spec_entry. destruct (Z.leb_spec q 0); [lia|done]. Qed.

Lemma spec_entry_inv k q σ σ' :
  spec_entry k q σ = inr σ' -> 0 < q /\ σ' = <[k := default 0 (σ !! k) + q]> σ.
Proof. unfold spec_entry. destruct (Z.leb_spec q 0); [done|]. intros [= <-]. done. Qed.

(** The single entry on any quantity: the pair's balance (0 without a
    row) plus the quantity, one ENTRADA movement. *)
Lemma stockEntryController_run user req s :
  snapshot s = None -> stock_wf (sdb s) ->
  fst (ensureWarehouseWritePermission user (er_warehouse_id req) s) = Ok tt ->
  exists s' m,
    stockEntryController user req s = (json (JMessage "Entrada registrada com sucesso"), s') /\
    snapshot s' = None /\
    abs_balances (sdb s') =
      <[(er_product_id req, er_warehouse_id req) :=
          default 0 (balance (sdb s) (er_product_id req) (er_warehouse_id req)) + er_quantity req]>
        (abs_balances (sdb s)) /\
    rows (movements (sdb s')) = rows (movements (sdb s)) ++ [m] /\
    movement_of user (er_warehouse_id req) (er_description req) ENTRADA
      (mkItem (er_product_id req) (er_quantity req)) m.
Proof.
  intros Hnone Hok Hperm.
  destruct (entry_step_ok user (er_warehouse_id req) (er_description req) (er_product_id req)
              (er_quantity req) (mkSession (sdb s) (Some (sdb s))) Hok)
    as (d1 & m & Hrun & Habs & Hmv & Hm & _).
  exists (mkSession d1 None), m. unfold stockEntryController.
  rewrite (try_rollback_ok _ _ (json (JMessage "Entrada registrada com sucesso")) (mkSession d1 None)).
  - split_and!; done.
  - rewrite (bind_Ok _ _ _ _ _ (run_readonly _ _ _ (ensureWarehouseWritePermission_state _ _ _) Hperm)).
    rewrite (bind_Ok _ _ _ _ _ (beginTransaction_run s)). by rewrite Hrun.
Qed.

(** C10: a single entry the spec accepts (a positive quantity) answers
    200 and commits exactly the spec's balances: the pair's balance
    (0 when it had no row) plus the quantity, the other pairs unchanged;
    it appends one ENTRADA movement with the request's pair, quantity,
    caller and description and [new_qty = previous_qty + quantity]. *)
Theorem stockEntryController_refines user req s σ' :
  snapshot s = None -> stock_wf (sdb s) ->
  fst (ensureWarehouseWritePermission user (er_warehouse_id req) s) = Ok tt ->
  spec_entry (er_product_id req, er_warehouse_id req) (er_quantity req) (abs_balances (sdb s))
    = inr σ' ->
  exists s' m,
    stockEntryController user req s = (json (JMessage "Entrada registrada com sucesso"), s') /\
    snapshot s' = None /\ abs_balances (sdb s') = σ' /\
    rows (movements (sdb s')) = rows (movements (sdb s)) ++ [m] /\
    movement_of user (er_warehouse_id req) (er_description req) ENTRADA
      (mkItem (er_product_id req) (er_quantity req)) m.
Proof.
  intros Hnone Hok Hperm Hspec. apply spec_entry_inv in Hspec as [_ ->].
  rewrite abs_balances_lookup. by apply stockEntryController_run.
Qed.

(** C29: the entry handlers do not check the sign of the quantity (the
    batch guard only rejects 0): a negative entry larger than the current
    balance, which the spec rejects as InvalidInput, answers
    200 and leaves a negative balance, against the spec's invariant that
    balances are never negative. *)
Theorem stockEntryController_negative_balance user req s :
  snapshot s = None -> stock_wf (sdb s) ->
  fst (ensureWarehouseWritePermission user (er_warehouse_id req) s) = Ok tt ->
  er_quantity req < 0 ->
  default 0 (balance (sdb s) (er_product_id req) (er_warehouse_id req)) + er_quantity req < 0 ->
  spec_entry (er_product_id req, er_warehouse_id req) (er_quantity req) (abs_balances (sdb s))
    = inl InvalidInput /\
  exists s' v,
    stockEntryController user req s = (json (JMessage "Entrada registrada com sucesso"), s') /\
    balance (sdb s') (er_product_id req) (er_warehouse_id req) = Some v /\ v < 0.
Proof.
  intros Hnone Hok Hperm Hq Hneg. split.
  - unfold spec_entry. destruct (Z.leb_spec (er_quantity req) 0); [done|lia].
  - destruct (stockEntryController_run user req s Hnone Hok Hperm)
      as (s' & m & Hrun & _ & Habs & _).
    exists s', (default 0 (balance (sdb s) (er_product_id req) (er_warehouse_id req))
                + er_quantity req).
    split_and!; [done| |done].
    by rewrite <- abs_balances_lookup, Habs, lookup_insert_eq.
Qed.

Section Denied.
Context (cwd : string) `{Renderer}.

(** C13: permission first.  When [ensureWarehouseWritePermission] throws,
  each of the three handlers answers that error and the session is the
  one it started with: the check runs before the transaction opens,
  whatever the items and quantities are (for the batch handlers, once
  the request has items). *)
Theorem handlers_permission_denied user w s e :
  snapshot s = None ->
  fst (ensureWarehouseWritePermission user w s) = Err e ->
  (forall req, er_warehouse_id req = w ->
   stockEntryController user req s = (errorHandler e, s)) /\
  (forall req items, xr_warehouse_id req = w -> xr_items req = Some items -> items <> [] ->
   stockExitController cwd user req s = (errorHandler e, s)) /\
  (forall req items, br_warehouse_id req = w -> br_items req = Some items -> items <> [] ->
   stockEntryBatchController user req s = (errorHandler e, s)).
Proof.
  intros Hnone Hperm.
  assert (Hrun : ensureWarehouseWritePermission user w s = (Err e, s)).
  { pose proof (ensureWarehouseWritePermission_state user w s) as Hs.
  destruct (ensureWarehouseWritePermission user w s) as [r s']. simpl in *. by subst. }
  split_and!.
  - intros req <-. unfold stockEntryController.
  rewrite (try_rollback_err _ _ e s); [by rewrite rollback_none|].
  by rewrite (bind_Err _ _ _ _ _ Hrun).
  - intros req [|it rest] <- Hitems Hne; [done|]. unfold stockExitController.
  rewrite (try_rollback_err _ _ e s); [by rewrite rollback_none|].
  rewrite Hitems. by rewrite (bind_Err _ _ _ _ _ Hrun).
  - intros req [|it rest] <- Hitems Hne; [done|]. unfold stockEntryBatchController.
  rewrite (try_rollback_err _ _ e s); [by rewrite rollback_none|].
  rewrite Hitems. by rewrite (bind_Err _ _ _ _ _ Hrun).
Qed.
End Denied.

Lemma entry_loop_spec user w desc items :
  Forall (fun it => entry_item_rejected it = false /\ 0 < item_quantity it) items ->
  forall s, stock_wf (sdb s) ->
  exists new s',
    entry_loop user w desc items s = (Ok tt, s') /\ snapshot s' = snapshot s /\
    spec_batch spec_entry w (spec_items items) (abs_balances (sdb s)) = inr (abs_balances (sdb s')) /\
    rows (movements (sdb s')) = rows (movements (sdb s)) ++ new /\
    Forall2 (movement_of user w (batch_description desc) ENTRADA) items new /\
    stock_wf (sdb s') /\ (ledger_inv (sdb s) -> ledger_inv (sdb s')) /\
    untouched (sdb s') = untouched (sdb s).
Proof.
  induction 1 as [|[p q] rest [Hrej Hq] Hval IH]; intros s Hok; simpl.
  - exists [], s. rewrite app_nil_r. split_and!; done || constructor.
  - unfold entry_item_rejected in Hrej. simpl in Hrej, Hq. rewrite Hrej.
    destruct (entry_step_ok user w (batch_description desc) p q s Hok)
      as (d1 & m & Hrun & Habs & Hmv & Hm & _ & Hok1 & Hmi & Hu & _).
    rewrite Hrun, spec_entry_positive by done. rewrite abs_balances_lookup, <- Habs.
    destruct (IH (mkSession d1 (snapshot s)) Hok1)
      as (new & s' & Hr & Hs & Ha & Hmv' & Hf & Hok' & Hmi' & Hu').
    exists (m :: new), s'. simpl in *. split_and!; try done.
    + rewrite Hmv', Hmv, <- app_assoc. done.
    + by constructor.
    + auto.
    + congruence.
Qed.

(** The loop stops at the first item its guard rejects, throwing the 400
    inside the transaction; the items before it have been applied. *)
Lemma entry_loop_rejected user w desc items s :
  stock_wf (sdb s) -> Exists (fun it => entry_item_rejected it = true) items ->
  exists s',
    entry_loop user w desc items s = (Err (http_error 400 "Item inválido na lista de entrada"), s') /\
    snapshot s' = snapshot s.
Proof.
  intros Hok Hex. revert s Hok.
  induction items as [|[p q] rest IH]; intros s Hok; [by apply Exists_nil in Hex|].
  simpl. destruct (entry_item_rejected (mkItem p q)) eqn:Hrej.
  - unfold entry_item_rejected in Hrej. simpl in Hrej. rewrite Hrej. by exists s.
  - unfold entry_item_rejected in Hrej. simpl in Hrej. rewrite Hrej.
    apply Exists_cons in Hex as [Hex|Hex]; [unfold entry_item_rejected in Hex; simpl in Hex; congruence|].
    destruct (entry_step_ok user w (batch_description desc) p q s Hok)
      as (d1 & m & Hrun & _ & _ & _ & _ & Hok1 & _ & _).
    rewrite Hrun. by destruct (IH Hex (mkSession d1 (snapshot s)) Hok1) as (s' & Hr & Hs); exists s'.
Qed.

(** C12: all or nothing for the batch entry.  When an item of the batch has
    a falsy [product_id] or [quantity] (0), wherever it stands in the
    list, the handler answers 400 "Item inválido na lista de entrada" and
    every table holds exactly its rows from before, though the items
    before it had been written inside the transaction. *)
Theorem stockEntryBatchController_all_or_nothing user req items s :
  snapshot s = None -> stock_wf (sdb s) -> br_items req = Some items ->
  fst (ensureWarehouseWritePermission user (br_warehouse_id req) s) = Ok tt ->
  Exists (fun it => item_product_id it = 0 \/ item_quantity it = 0) items ->
  exists s',
    stockEntryBatchController user req s =
      (errorHandler (http_error 400 "Item inválido na lista de entrada"), s') /\
    db_rows_eq (sdb s') (sdb s) /\ snapshot s' = None.
Proof.
  intros Hnone Hok Hitems Hperm Hex.
  assert (Hrej : Exists (fun it => entry_item_rejected it = true) items).
  { eapply Exists_impl; [exact Hex|]. intros it Hz. unfold entry_item_rejected, js_falsy_Z.
    destruct Hz as [-> | ->]; [done|]. apply orb_true_r. }
  destruct (entry_loop_rejected user (br_warehouse_id req) (br_description req) items
              (mkSession (sdb s) (Some (sdb s))) Hok Hrej) as (s1 & Hrun & Hsnap).
  destruct items as [|it rest]; [by apply Exists_nil in Hex|].
  eexists. split; [|apply (rollback_restores s1 (sdb s)); by rewrite Hsnap].
  unfold stockEntryBatchController. apply try_rollback_err. rewrite Hitems.
  rewrite (bind_Ok _ _ _ _ _ (run_readonly _ _ _ (ensureWarehouseWritePermission_state _ _ _) Hperm)).
  by apply begin_body_err.
Qed.

(** C11: a batch entry of well-formed items (non-zero product ids, positive
    quantities) answers 200 and commits exactly the spec's batch entry:
    each item's quantity added to its pair in the caller's order, one
    ENTRADA movement per item with [description || "Entrada via Caixa
    Rápido"]. *)
Theorem stockEntryBatchController_refines user req items s :
  snapshot s = None -> stock_wf (sdb s) -> br_items req = Some items -> items <> [] ->
  fst (ensureWarehouseWritePermission user (br_warehouse_id req) s) = Ok tt ->
  Forall (fun it => item_product_id it <> 0 /\ 0 < item_quantity it) items ->
  exists s' new,
    stockEntryBatchController user req s =
      (json (JMessage "Entrada em lote registrada com sucesso"), s') /\
    snapshot s' = None /\
    spec_batch spec_entry (br_warehouse_id req) (spec_items items) (abs_balances (sdb s))
      = inr (abs_balances (sdb s')) /\
    rows (movements (sdb s')) = rows (movements (sdb s)) ++ new /\
    Forall2 (movement_of user (br_warehouse_id req) (batch_description (br_description req)) ENTRADA)
      items new.
Proof.
  intros Hnone Hok Hitems Hne Hperm Hval.
  assert (Hv : Forall (fun it => entry_item_rejected it = false /\ 0 < item_quantity it) items).
  { eapply Forall_impl; [exact Hval|]. intros it [Hp Hq]. split; [|done].
    unfold entry_item_rejected, js_falsy_Z. apply orb_false_iff.
    split; apply Z.eqb_neq; lia. }
  destruct (entry_loop_spec user (br_warehouse_id req) (br_description req) items Hv
              (mkSession (sdb s) (Some (sdb s))) Hok)
    as (new & s1 & Hrun & Hsnap & Hspec & Hmv & Hf & _).
  exists (mkSession (sdb s1) None), new. unfold stockEntryBatchController.
  destruct items as [|it rest]; [done|].
  rewrite (try_rollback_ok _ _ (json (JMessage "Entrada em lote registrada com sucesso"))
             (mkSession (sdb s1) None)).
  - split_and!; done.
  - rewrite Hitems.
    rewrite (bind_Ok _ _ _ _ _ (run_readonly _ _ _ (ensureWarehouseWritePermission_state _ _ _) Hperm)).
    rewrite (bind_Ok _ _ _ _ _ (beginTransaction_run s)), (bind_Ok _ _ _ _ _ Hrun).
    reflexivity.
Qed.

Lemma balance_stock_eq d1 d2 p w : stock d1 = stock d2 -> balance d1 p w = balance d2 p w.
Proof. unfold balance, find_stock. by intros ->. Qed.

Section ExitFindings.
Context (cwd : string) `{Renderer}.

(** The exit handler does not check the sign of the quantity: an
    exit of a quantity [q <= 0] on a pair holding [b >= 0], which the spec
    rejects as InvalidInput, commits the balance [b - q >= b] (a SAIDA
    that adds stock). *)
Theorem stockExitController_nonpositive user req p q b s :
  snapshot s = None -> stock_wf (sdb s) -> xr_items req = Some [mkItem p q] ->
  q <= 0 -> 0 <= b -> balance (sdb s) p (xr_warehouse_id req) = Some b ->
  fst (ensureWarehouseWritePermission user (xr_warehouse_id req) s) = Ok tt ->
  spec_exit (p, xr_warehouse_id req) q (abs_balances (sdb s)) = inl InvalidInput /\
  balance (sdb (snd (stockExitController cwd user req s))) p (xr_warehouse_id req) = Some (b - q).
Proof.
  intros Hnone Hok Hitems Hq Hb0 Hb Hperm. split.
  - unfold spec_exit. destruct (Z.leb_spec q 0); [done|lia].
  - destruct (exit_step_ok user (xr_warehouse_id req) (xr_description req) p q b
                (mkSession (sdb s) (Some (sdb s))) Hok Hb ltac:(lia))
      as (d1 & m & Hrun & Habs & _).
    assert (Hloop : exit_loop user (xr_warehouse_id req) (xr_description req) [mkItem p q] []
                      (mkSession (sdb s) (Some (sdb s))) = (Ok [mv_id m], mkSession d1 (Some (sdb s))))
      by (simpl; by rewrite Hrun).
    pose proof (stockExitController_after_loop cwd user req _ s _ _ Hnone Hitems
                  ltac:(discriminate) Hperm Hloop) as Hobs.
    cbn beta in Hobs. injection Hobs as _ Hst _.
    rewrite (balance_stock_eq _ d1) by done.
    by rewrite <- abs_balances_lookup, Habs, lookup_insert_eq.
Qed.
End ExitFindings.

(** ** Witnesses of the entry, permission and exit-sign theorems *)

Lemma stockEntryController_refines_witness :
  spec_entry (2, 1) 3 (abs_balances demo_db) = inr {[(1, 1) := 10; (2, 1) := 3]} /\
  exists s' m,
    stockEntryController ana (mkEntryRequest 2 1 3 None) demo_session =
      (json (JMessage "Entrada registrada com sucesso"), s') /\
    snapshot s' = None /\ abs_balances (sdb s') = {[(1, 1) := 10; (2, 1) := 3]} /\
    rows (movements (sdb s')) = rows (movements demo_db) ++ [m] /\
    movement_of ana 1 None ENTRADA (mkItem 2 3) m.
Proof.
  split; [reflexivity|].
  apply (stockEntryController_refines ana (mkEntryRequest 2 1 3 None) demo_session);
    [reflexivity|decide_prop|reflexivity|reflexivity].
Defined.

Lemma stockEntryController_negative_balance_witness :
  spec_entry (1, 1) (-15) (abs_balances demo_db) = inl InvalidInput /\
  exists s' v,
    stockEntryController ana (mkEntryRequest 1 1 (-15) None) demo_session =
      (json (JMessage "Entrada registrada com sucesso"), s') /\
    balance (sdb s') 1 1 = Some v /\ v < 0.
Proof.
  apply (stockEntryController_negative_balance ana (mkEntryRequest 1 1 (-15) None) demo_session);
    [reflexivity|decide_prop|reflexivity|simpl; lia|simpl; lia].
Defined.

Lemma handlers_permission_denied_witness :
  let e := http_error 403 "Você não tem permissão para alterar este estoque" in
  fst (ensureWarehouseWritePermission bia 1 demo_session) = Err e /\
  (forall req, er_warehouse_id req = 1 ->
   stockEntryController bia req demo_session = (errorHandler e, demo_session)) /\
  (forall req items, xr_warehouse_id req = 1 -> xr_items req = Some items -> items <> [] ->
   stockExitController "/srv" (H := ok_renderer) bia req demo_session = (errorHandler e, demo_session)) /\
  (forall req items, br_warehouse_id req = 1 -> br_items req = Some items -> items <> [] ->
   stockEntryBatchController bia req demo_session = (errorHandler e, demo_session)).
Proof.
  split; [reflexivity|].
  apply (handlers_permission_denied "/srv" (H := ok_renderer) bia 1 demo_session); reflexivity.
Defined.

Lemma stockEntryBatchController_all_or_nothing_witness :
  exists s',
    stockEntryBatchController ana (mkBatchRequest 1 (Some [mkItem 2 3; mkItem 1 0]) None)
      demo_session = (errorHandler (http_error 400 "Item inválido na lista de entrada"), s') /\
    db_rows_eq (sdb s') demo_db /\ snapshot s' = None.
Proof.
  apply (stockEntryBatchController_all_or_nothing ana
           (mkBatchRequest 1 (Some [mkItem 2 3; mkItem 1 0]) None) [mkItem 2 3; mkItem 1 0]);
    [reflexivity|decide_prop|reflexivity|reflexivity|].
  apply Exists_cons_tl, Exists_cons_hd. simpl. by right.
Defined.

Lemma stockEntryBatchController_refines_witness :
  spec_batch spec_entry 1 [(2, 3); (1, 5)] (abs_balances demo_db)
    = inr {[(1, 1) := 15; (2, 1) := 3]} /\
  exists s' new,
    stockEntryBatchController ana (mkBatchRequest 1 (Some [mkItem 2 3; mkItem 1 5]) None)
      demo_session = (json (JMessage "Entrada em lote registrada com sucesso"), s') /\
    snapshot s' = None /\
    spec_batch spec_entry 1 [(2, 3); (1, 5)] (abs_balances demo_db) = inr (abs_balances (sdb s')) /\
    rows (movements (sdb s')) = rows (movements demo_db) ++ new /\
    Forall2 (movement_of ana 1 (Some "Entrada via Caixa Rápido") ENTRADA)
      [mkItem 2 3; mkItem 1 5] new.
Proof.
  split; [reflexivity|].
  apply (stockEntryBatchController_refines ana
           (mkBatchRequest 1 (Some [mkItem 2 3; mkItem 1 5]) None) [mkItem 2 3; mkItem 1 5]);
    [reflexivity|decide_prop|reflexivity|discriminate|reflexivity|decide_prop].
Defined.

Lemma stockExitController_nonpositive_witness :
  spec_exit (1, 1) (-5) (abs_balances demo_db) = inl InvalidInput /\
  balance (sdb (snd (stockExitController "/srv" (H := ok_renderer) ana
                       (mkExitRequest 1 (Some [mkItem 1 (-5)]) None "Cliente" None)
                       demo_session))) 1 1 = Some 15.
Proof.
  apply (stockExitController_nonpositive "/srv" (H := ok_renderer) ana
           (mkExitRequest 1 (Some [mkItem 1 (-5)]) None "Cliente" None) 1 (-5) 10 demo_session);
    [reflexivity|decide_prop|reflexivity|lia|lia|reflexivity|reflexivity].
Defined.
