(* ===== verification/Engine.v ===== *)
(** * Engine: the movement engine as a state machine

    The server handles one request after the other on the pool; a
    request to one of the three movement routes of routes/stockRoutes.js
    (the [requireRole] gate, then the handler of [StockController]) is a
    transition of the session ([handle]).  [reachable s0] is the
    reflexive-transitive closure of these transitions from a starting
    session, whatever the callers, the requests and the PDF renderer.

    [engine_inv] is the invariant of the engine between requests: no
    transaction is open, the stock table is well formed
    ([StockModel.stock_wf]) and the ledger agrees with the movement log
    ([Ledger.ledger_inv]).  It holds after every handler on every path:
    success, a guard's 400, a permission error, an error inside the
    transaction (ROLLBACK, which keeps the AUTO_INCREMENT counters) and an
    error after the COMMIT of an exit (PDF or exit order).  By rule
    induction it holds in every reachable state, so the balance
    [getCurrentStock] reads is always the net of the pair's movements.

    The handlers run one at a time here; interleavings of two requests
    on different connections are in [Interleaving]. *)

From S2P Require Import Prelude Schema Permission StockModel Ledger BalanceSpec ExitOrderModel OsService StockController.

Open Scope Z_scope.
Open Scope est_scope.

Definition engine_inv (s : session) : Prop :=
  snapshot s = None /\ stock_wf (sdb s) /\ ledger_inv (sdb s).

#[export] Instance engine_inv_dec s : Decision (engine_inv s).
Proof.
  unfold engine_inv. destruct (snapshot s); [right; by intros []|].
  destruct (decide (stock_wf (sdb s) /\ ledger_inv (sdb s))); [left|right]; tauto.
Defined.

(** What a computation leaves at the end of a request, from the session
    [s] it started on: a success leaves the invariant; an error either
    leaves it or leaves the transaction begun on [s] open, with counters
    that only grew, for the handler's ROLLBACK. *)
Definition settles {A} (s : session) (o : outcome js_error A * session) : Prop :=
  match o with
  | (Ok _, s2) => engine_inv s2
  | (Err _, s2) => (snapshot s2 = Some (sdb s) /\ counters_le (sdb s) (sdb s2)) \/ engine_inv s2
  end.

(** The requests the engine handles. *)
Inductive request :=
| EntryReq (user : principal) (req : entry_request)
| ExitReq (user : principal) (req : exit_request)
| BatchReq (user : principal) (req : batch_request).

(** [requireRole("admin", "super_admin", "supervisor")] of the three
    routes of routes/stockRoutes.js, in front of the handler. *)
Definition STOCK_ROLES : list string := ["admin"; "super_admin"; "supervisor"].

Definition gated (user : principal) (h : session -> reply * session) (s : session)
    : reply * session :=
  match requireRole STOCK_ROLES (Some user) with
  | Some r => (r, s)
  | None => h s
  end.

Section Machine.
Context (cwd : string) `{Renderer}.

Definition handle (r : request) (s : session) : reply * session :=
  match r with
  | EntryReq user req => gated user (stockEntryController user req) s
  | ExitReq user req => gated user (stockExitController cwd user req) s
  | BatchReq user req => gated user (stockEntryBatchController user req) s
  end.

Inductive reachable (s0 : session) : session -> Prop :=
| reachable_init : reachable s0 s0
| reachable_step r s : reachable s0 s -> reachable s0 (snd (handle r s)).
End Machine.

(** ** The loops keep the invariant on every path *)

Lemma exit_loop_inv user w desc items :
  forall ids s, stock_wf (sdb s) -> ledger_inv (sdb s) ->
  match exit_loop user w desc items ids s with
  | (Ok _, s') => snapshot s' = snapshot s /\ stock_wf (sdb s') /\ ledger_inv (sdb s') /\
                  counters_le (sdb s) (sdb s')
  | (Err _, s') => snapshot s' = snapshot s /\ counters_le (sdb s) (sdb s')
  end.
Proof.
  induction items as [|[p q] rest IH]; intros ids s Hok Hinv; simpl; [done|].
  pose proof (decreaseStock_spec p w q s Hok) as Hd.
  destruct (balance (sdb s) p w) as [b|] eqn:Eb; [|by rewrite (bind_Err _ _ _ _ _ Hd)].
  destruct (Z.gtb_spec q b); [by rewrite (bind_Err _ _ _ _ _ Hd)|].
  destruct (exit_step_ok user w desc p q b s Hok Eb ltac:(lia))
    as (d1 & m & Hrun & _ & _ & _ & _ & Hok1 & Hi & _ & Hc).
  rewrite Hrun. specialize (IH (ids ++ [mv_id m]) (mkSession d1 (snapshot s)) Hok1 (Hi Hinv)).
  destruct (exit_loop _ _ _ _ _ _) as [[r|e] s']; simpl in IH.
  - destruct IH as (? & ? & ? & Hc'). split_and!; [done|done|done|by etrans].
  - destruct IH as (? & Hc'). split; [done|by etrans].
Qed.

Lemma entry_loop_inv user w desc items :
  forall s, stock_wf (sdb s) -> ledger_inv (sdb s) ->
  match entry_loop user w desc items s with
  | (Ok _, s') => snapshot s' = snapshot s /\ stock_wf (sdb s') /\ ledger_inv (sdb s') /\
                  counters_le (sdb s) (sdb s')
  | (Err _, s') => snapshot s' = snapshot s /\ counters_le (sdb s) (sdb s')
  end.
Proof.
  induction items as [|[p q] rest IH]; intros s Hok Hinv; simpl; [done|].
  destruct (js_falsy_Z p || js_falsy_Z q); [done|].
  destruct (entry_step_ok user w (batch_description desc) p q s Hok)
    as (d1 & m & Hrun & _ & _ & _ & _ & Hok1 & Hi & _ & Hc).
  rewrite Hrun. specialize (IH (mkSession d1 (snapshot s)) Hok1 (Hi Hinv)).
  destruct (entry_loop _ _ _ _ _) as [[r|e] s']; simpl in IH.
  - destruct IH as (? & ? & ? & Hc'). split_and!; [done|done|done|by etrans].
  - destruct IH as (? & Hc'). split; [done|by etrans].
Qed.

(** ** Settling a request *)

(** The invariant reads the snapshot, the stock and the movements only. *)
Lemma engine_inv_frame s s' :
  snapshot s' = snapshot s -> stock (sdb s') = stock (sdb s) ->
  movements (sdb s') = movements (sdb s) -> engine_inv s -> engine_inv s'.
Proof.
  intros Hs Hst Hmv. unfold engine_inv, stock_wf, ledger_inv, movement_ids_ok, ledger_ok,
    net, pair_movements, balance, find_stock.
  by rewrite Hs, Hst, Hmv.
Qed.

Lemma settles_frame {A} (c : St A) s s3 :
  preserves (fun s => (snapshot s, (stock (sdb s), movements (sdb s)))) c ->
  engine_inv s3 -> settles s (c s3).
Proof.
  intros Hfr Hi. pose proof (Hfr s3) as Heq.
  destruct (c s3) as [[a|e] s4]; simpl in Heq; injection Heq as Hs Hst Hmv.
  - exact (engine_inv_frame s3 s4 Hs Hst Hmv Hi).
  - right. exact (engine_inv_frame s3 s4 Hs Hst Hmv Hi).
Qed.

(** The end of a transaction body run by a loop: the loop's error leaves
    the transaction open; its success, then COMMIT and [k], settles. *)
Lemma settles_loop {A B} (loop : St A) (k : A -> St B) s :
  engine_inv s ->
  match loop (mkSession (sdb s) (Some (sdb s))) with
  | (Ok _, s') => snapshot s' = Some (sdb s) /\ stock_wf (sdb s') /\ ledger_inv (sdb s') /\
                  counters_le (sdb s) (sdb s')
  | (Err _, s') => snapshot s' = Some (sdb s) /\ counters_le (sdb s) (sdb s')
  end ->
  (forall a s', engine_inv s' -> settles s (k a s')) ->
  settles s (bind loop (fun a => commit ;;; k a) (mkSession (sdb s) (Some (sdb s)))).
Proof.
  intros _ Hl Hk. unfold bind at 1.
  destruct (loop _) as [[a|e] s']; [|by left].
  destruct Hl as (_ & Hwf & Hinv & _). rewrite (bind_Ok _ _ _ _ _ (commit_run s')).
  apply Hk. split_and!; done.
Qed.

(** The permission check, then BEGIN, then a body that settles. *)
Lemma settles_guarded {A} user w (body : St A) s :
  engine_inv s -> settles s (body (mkSession (sdb s) (Some (sdb s)))) ->
  settles s ((ensureWarehouseWritePermission user w ;;; beginTransaction ;;; body) s).
Proof.
  intros Hi Hb. pose proof (ensureWarehouseWritePermission_state user w s) as Hst.
  unfold bind at 1.
  destruct (ensureWarehouseWritePermission user w s) as [[[]|e] s']; simpl in Hst; subst s';
    [|by right].
  by rewrite (bind_Ok _ _ _ _ _ (beginTransaction_run s)).
Qed.

Lemma try_rollback_inv (c : St reply) s :
  engine_inv s -> settles s (c s) -> engine_inv (snd (try_rollback c s)).
Proof.
  intros Hi. unfold try_rollback. destruct (c s) as [[r|e] s2]; [done|].
  intros [[Hsn Hc]|Hi2]; simpl.
  - unfold rollback. rewrite Hsn. destruct Hi as (_ & Hwf & Hm & Hl).
    split_and!; [done|by apply stock_wf_rollback|split; [by apply movement_ids_ok_rollback|]].
    cbn [sdb]. by rewrite (rollback_to_rows (sdb s) (sdb s2)).
  - rewrite rollback_none; [done|apply Hi2].
Qed.

(** ** Each handler keeps the invariant *)

Section Handlers.
Context (cwd : string) `{Renderer}.

Lemma stockEntryController_inv user req s :
  engine_inv s -> engine_inv (snd (stockEntryController user req s)).
Proof.
  intros Hi. apply try_rollback_inv; [done|]. apply settles_guarded; [done|].
  destruct Hi as (_ & Hwf & Hinv).
  destruct (entry_step_ok user (er_warehouse_id req) (er_description req) (er_product_id req)
              (er_quantity req) (mkSession (sdb s) (Some (sdb s))) Hwf)
    as (d1 & m & Hrun & _ & _ & _ & _ & Hwf1 & Hi1 & _).
  rewrite Hrun. simpl. split_and!; auto.
Qed.

Lemma stockEntryBatchController_inv user req s :
  engine_inv s -> engine_inv (snd (stockEntryBatchController user req s)).
Proof.
  intros Hi. apply try_rollback_inv; [done|].
  destruct (br_items req) as [[|it rest]|]; [by right|..|by right].
  apply settles_guarded; [done|]. destruct Hi as (Hn & Hwf & Hinv).
  apply settles_loop; [done| |].
  - exact (entry_loop_inv user _ _ _ (mkSession (sdb s) (Some (sdb s))) Hwf Hinv).
  - intros [] s' Hs'. done.
Qed.

Lemma stockExitController_inv user req s :
  engine_inv s -> engine_inv (snd (stockExitController cwd user req s)).
Proof.
  intros Hi. apply try_rollback_inv; [done|].
  destruct (xr_items req) as [[|it rest]|]; [by right|..|by right].
  apply settles_guarded; [done|]. destruct Hi as (Hn & Hwf & Hinv).
  apply settles_loop; [done| |].
  - exact (exit_loop_inv user _ _ _ [] (mkSession (sdb s) (Some (sdb s))) Hwf Hinv).
  - intros ids s' Hs'. apply settles_frame; [|done].
    cbv zeta. frame. apply (createExitOrder_preserves (fun d => (stock d, movements d))).
    reflexivity.
Qed.
End Handlers.

(** ** Every reachable state *)

Section Reachability.
Context (cwd : string) `{Renderer}.

Lemma handle_inv r s : engine_inv s -> engine_inv (snd (handle cwd r s)).
Proof.
  intros Hi. destruct r; simpl; unfold gated; destruct (requireRole _ _); [done| |done| |done|].
  all: eauto using stockEntryController_inv, stockExitController_inv, stockEntryBatchController_inv.
Qed.

Lemma reachable_inv s0 s : engine_inv s0 -> reachable cwd s0 s -> engine_inv s.
Proof. intros H0 Hr. induction Hr; auto using handle_inv. Qed.

(** C4: the ledger invariant.  From a state where it holds, after any
    sequence of entries, exits and batch entries, by any callers, with
    any quantities and whatever the PDF renderer does, no transaction is
    left open, the stock table is well formed, and for every pair the
    balance [getCurrentStock] reads (0 without a row) is the net of the
    pair's movements, whose [previous_qty]/[new_qty] chain from 0 without
    a gap: every balance change is recorded by a movement. *)
Theorem reachable_ledger s0 s :
  engine_inv s0 -> reachable cwd s0 s ->
  engine_inv s /\
  forall p w, default 0 (balance (sdb s) p w) = net (sdb s) p w /\
              chain_from 0 (pair_movements (sdb s) p w) = true.
Proof.
  intros H0 Hr. pose proof (reachable_inv s0 s H0 Hr) as Hi. split; [done|].
  intros p w. apply ledger_ok_pair. apply Hi.
Qed.
End Reachability.

(** Two requests from [demo_session]: an entry of 3 of product 2, then
    an exit that fails on its second item and is rolled back. *)
Lemma reachable_ledger_witness :
  let s1 := snd (handle "/srv" (H := ok_renderer) (EntryReq ana (mkEntryRequest 2 1 3 None))
                   demo_session) in
  let s2 := snd (handle "/srv" (H := ok_renderer) (ExitReq ana exit_fail_request) s1) in
  engine_inv s2 /\
  forall p w, default 0 (balance (sdb s2) p w) = net (sdb s2) p w /\
              chain_from 0 (pair_movements (sdb s2) p w) = true.
Proof.
  apply (reachable_ledger "/srv" (H := ok_renderer) demo_session); [decide_prop|].
  do 2 apply reachable_step. apply reachable_init.
Defined.
