(* ===== verification/Products.v ===== *)
(** * Products: the product catalog

    Models src/Backend/src/models/productModel.js with
    controllers/productController.js and the gates of
    routes/productRoutes.js ([requireRole("admin", "super_admin",
    "supervisor")] on the four catalog routes, only [authRequired] on
    GET /barcode).

    [createProduct] sends three statements without a transaction: the
    INSERT of the product, the UPDATE that writes its SKU
    ["P-" + String(id).padStart(5, "0")] ([sku_of]), and, when a
    warehouse is given, the INSERT of a balance of 0 for the new id.
    [deleteProduct] counts the balances and the movements of the product
    and throws an error with [code = "PRODUCT_IN_USE"] when there are any.
    The listings and the barcode lookup are scoped to the caller's unit
    through the warehouses that hold a balance of the product.

    [LIKE '%term%'] and the string equality of [barcode = ?] depend on the
    column's collation; they are the parameters [like] and [collate] of
    the definitions that use them.  [trim] is JavaScript's
    [String.prototype.trim] on the ASCII whitespace characters. *)

From Stdlib Require Import DecimalN.
From S2P Require Import Prelude Schema Permission StockModel Ledger ExitOrderModel Catalog StockController Engine.

Open Scope Z_scope.
Open Scope est_scope.

(** ** SKUs *)

Definition digit_char (d : nat) : Ascii.ascii := Ascii.ascii_of_nat (48 + d).

(** The decimal digits of a [Decimal.uint], most significant first. *)
Fixpoint uint_string (u : Decimal.uint) : string :=
  match u with
  | Decimal.Nil => ""
  | Decimal.D0 u => String (digit_char 0) (uint_string u)
  | Decimal.D1 u => String (digit_char 1) (uint_string u)
  | Decimal.D2 u => String (digit_char 2) (uint_string u)
  | Decimal.D3 u => String (digit_char 3) (uint_string u)
  | Decimal.D4 u => String (digit_char 4) (uint_string u)
  | Decimal.D5 u => String (digit_char 5) (uint_string u)
  | Decimal.D6 u => String (digit_char 6) (uint_string u)
  | Decimal.D7 u => String (digit_char 7) (uint_string u)
  | Decimal.D8 u => String (digit_char 8) (uint_string u)
  | Decimal.D9 u => String (digit_char 9) (uint_string u)
  end.

(** [String(n)] of an integer. *)
Definition js_string_Z (z : Z) : string :=
  if z <? 0 then String (Ascii.ascii_of_nat 45) (uint_string (N.to_uint (Z.to_N (- z))))
  else uint_string (N.to_uint (Z.to_N z)).

Fixpoint repeat_char (n : nat) (c : Ascii.ascii) : string :=
  match n with O => "" | S n => String c (repeat_char n c) end.

(** [s.padStart(target, c)] with a one-character filler. *)
Definition padStart (target : nat) (c : Ascii.ascii) (s : string) : string :=
  String.append (repeat_char (target - String.length s) c) s.

(** [`P-${String(id).padStart(5, "0")}`] *)
Definition sku_of (id : Z) : string := String.append "P-" (padStart 5 (digit_char 0) (js_string_Z id)).

(** The reading of a SKU back to the id: the digits after ["P-"], leading
    zeros included. *)
Definition char_digit (c : Ascii.ascii) : option (Decimal.uint -> Decimal.uint) :=
  if Ascii.eqb c (digit_char 0) then Some Decimal.D0
  else if Ascii.eqb c (digit_char 1) then Some Decimal.D1
  else if Ascii.eqb c (digit_char 2) then Some Decimal.D2
  else if Ascii.eqb c (digit_char 3) then Some Decimal.D3
  else if Ascii.eqb c (digit_char 4) then Some Decimal.D4
  else if Ascii.eqb c (digit_char 5) then Some Decimal.D5
  else if Ascii.eqb c (digit_char 6) then Some Decimal.D6
  else if Ascii.eqb c (digit_char 7) then Some Decimal.D7
  else if Ascii.eqb c (digit_char 8) then Some Decimal.D8
  else if Ascii.eqb c (digit_char 9) then Some Decimal.D9
  else None.

Fixpoint string_uint (s : string) : option Decimal.uint :=
  match s with
  | EmptyString => Some Decimal.Nil
  | String c rest =>
      match char_digit c, string_uint rest with Some f, Some u => Some (f u) | _, _ => None end
  end.

Definition parse_sku (s : string) : option Z :=
  match s with
  | String c1 (String c2 rest) =>
      if Ascii.eqb c1 (Ascii.ascii_of_nat 80) && Ascii.eqb c2 (Ascii.ascii_of_nat 45)
      then option_map (fun u => Z.of_N (N.of_uint u)) (string_uint rest) else None
  | _ => None
  end.

(** ** Statements *)

Definition with_sku (sku : string) (p : product) : product :=
  mkProduct (pr_id p) (pr_name p) (pr_unit p) (Some sku) (pr_barcode p) (pr_description p).

(** The object [createProduct] returns. *)
Record created_product := mkCreatedProduct {
  cp_id : Z;
  cp_name : string;
  cp_sku : string;
  cp_unit : option string;
  cp_warehouse_id : option Z;
  cp_barcode : option string;
  cp_description : option string
}.

(** [if (warehouse_id)] *)
Definition js_truthy_id (o : option Z) : bool :=
  match o with Some w => negb (js_falsy_Z w) | None => false end.

Definition createProduct (name : string) (unit : option string) (warehouse_id : option Z)
    (barcode description : option string) : St created_product :=
  d <- read_db ;;
  let '(id, t) := tbl_insert (fun id => mkProduct id name unit None
                                  (sql_text (str_or_null barcode)) (sql_text (str_or_null description)))
                    (products d) in
  write_db (set_products t) ;;;
  let sku := sku_of id in
  write_db (fun d => set_products (tbl_update (fun p => pr_id p =? id) (with_sku sku) (products d)) d) ;;;
  (if js_truthy_id warehouse_id then insert_stock id (default 0 warehouse_id) 0 ;;; ret tt
   else ret tt) ;;;
  ret (mkCreatedProduct id name sku unit warehouse_id barcode description).

(** [String.prototype.trim] on ASCII whitespace (tab, LF, VT, FF, CR,
    space). *)
Definition js_space (c : Ascii.ascii) : bool :=
  let n := Ascii.nat_of_ascii c in (Nat.leb 9 n && Nat.leb n 13) || Nat.eqb n 32.

Fixpoint trim_left (s : string) : string :=
  match s with
  | String c rest => if js_space c then trim_left rest else s
  | EmptyString => EmptyString
  end.

Fixpoint rev_onto (s acc : string) : string :=
  match s with EmptyString => acc | String c rest => rev_onto rest (String c acc) end.

Definition trim (s : string) : string :=
  rev_onto (trim_left (rev_onto (trim_left s) "")) "".

(** [p.name LIKE ? OR p.sku LIKE ? OR p.barcode LIKE ?] with
    [`%${term}%`]; a NULL column matches nothing. *)
Definition product_matches (like : string -> string -> bool) (term : string) (p : product) : bool :=
  like (pr_name p) term ||
  match pr_sku p with Some v => like v term | None => false end ||
  match pr_barcode p with Some v => like v term | None => false end.

(** [JOIN stock s ON s.product_id = p.id JOIN warehouses w ON w.id =
    s.warehouse_id WHERE w.unit_id = ?]: the product has a balance in a
    warehouse of the unit; DISTINCT keeps each product once. *)
Definition stocked_in_unit (d : db) (unitId : option Z) (p : product) : bool :=
  existsb (fun r => (st_product r =? pr_id p) &&
             match find_warehouse (st_warehouse r) d, unitId with
             | Some w, Some x => sql_eq_id (wh_unit_id w) x
             | _, _ => false
             end) (rows (stock d)).

Definition id_desc (a b : product) : Prop := pr_id b <= pr_id a.

#[export] Instance id_desc_dec : RelDecision id_desc.
Proof. intros a b. unfold id_desc. apply _. Defined.

Definition name_asc (collate : string -> string -> comparison) (a b : product) : Prop :=
  collate (pr_name a) (pr_name b) <> Gt.

#[export] Instance name_asc_dec collate : RelDecision (name_asc collate).
Proof. intros a b. unfold name_asc. apply _. Defined.

Definition listProducts (collate : string -> string -> comparison) (like : string -> string -> bool)
    (requester : option principal) (q : option string) : St (list product) :=
  d <- read_db ;;
  let role := option_map u_role requester in
  let unitId := requester ≫= u_unit_id in
  let term := trim (default "" q) in
  if bool_decide (role = Some "super_admin") then
    if String.eqb term "" then ret (merge_sort id_desc (rows (products d)))
    else ret (take 20 (merge_sort (name_asc collate)
                         (List.filter (product_matches like term) (rows (products d)))))
  else
    if String.eqb term "" then
      ret (merge_sort id_desc (List.filter (stocked_in_unit d unitId) (rows (products d))))
    else ret (take 20 (merge_sort (name_asc collate)
                         (List.filter (fun p => stocked_in_unit d unitId p && product_matches like term p)
                            (rows (products d))))).

(** [UPDATE products SET name = ?, unit = ?, barcode = ?, description = ?
    WHERE id = ?]: five placeholders, five values. *)
Definition updateProduct (id : Z) (name : string) (unit_ : option string)
    (barcode description : option string) : St unit :=
  match bind_params 5 [SStr name; match unit_ with Some u => SStr u | None => SNull end;
                       str_or_null barcode; str_or_null description; SInt id] with
  | Some [v1; v2; v3; v4; v5] =>
      write_db (fun d => set_products
        (tbl_update (fun p => sql_is_id v5 (pr_id p))
           (fun p => mkProduct (pr_id p) (default "" (sql_text v1)) (sql_text v2) (pr_sku p)
                       (sql_text v3) (sql_text v4))
           (products d)) d)
  | _ => throw sql_parse_error
  end.

Definition product_in_use : js_error :=
  mkError None "Não é possível excluir este produto porque existe estoque ou movimentações vinculadas a ele."
    (Some "PRODUCT_IN_USE").

Definition deleteProduct (id : Z) : St unit :=
  d <- read_db ;;
  let hasStock := Nat.ltb 0 (count_where (fun r => st_product r =? id) (stock d)) in
  let hasMovements := Nat.ltb 0 (count_where (fun m => mv_product m =? id) (movements d)) in
  if hasStock || hasMovements then throw product_in_use
  else write_db (fun d => set_products (tbl_delete (fun p => pr_id p =? id) (products d)) d).

(** [p.barcode = ?] under the column's collation. *)
Definition barcode_is (collate : string -> string -> comparison) (barcode : string) (p : product)
    : bool :=
  match pr_barcode p with Some b => bool_decide (collate b barcode = Eq) | None => false end.

(** [LIMIT 1] without ORDER BY: the first match in primary-key order. *)
Definition findProductByBarcode (collate : string -> string -> comparison) (barcode : string)
    (requester : option principal) : St (option product) :=
  d <- read_db ;;
  if bool_decide (option_map u_role requester = Some "super_admin") then
    ret (find (barcode_is collate barcode) (rows (products d)))
  else
    ret (find (fun p => barcode_is collate barcode p && stocked_in_unit d (requester ≫= u_unit_id) p)
           (rows (products d))).

(** ** Handlers *)

Definition createProductController (name unit : option string) (warehouse_id : option Z)
    (barcode description : option string) : session -> reply * session :=
  try_next (
    if js_falsy_string name then ret (mkReply 400 (JError "Nome do produto é obrigatório"))
    else if negb (js_truthy_id warehouse_id) then
      ret (mkReply 400 (JError "É obrigatório informar o estoque do produto"))
    else p <- createProduct (default "" name) unit warehouse_id barcode description ;;
         ret (mkReply 201 (JObject p))).

Definition listProductsController (collate : string -> string -> comparison)
    (like : string -> string -> bool) (user : principal) (q : option string)
    : session -> reply * session :=
  try_next (ps <- listProducts collate like (Some user) q ;; ret (json (JRows ps))).

Definition updateProductController (id : Z) (name unit barcode description : option string)
    : session -> reply * session :=
  try_next (
    if js_falsy_string name then ret (mkReply 400 (JError "Nome do produto é obrigatório"))
    else updateProduct id (default "" name) unit barcode description ;;;
         ret (mkReply 204 JEnd)).

(** The catch answers 400 for [PRODUCT_IN_USE] and passes the rest to
    [next]. *)
Definition deleteProductController (id : Z) (s : session) : reply * session :=
  match deleteProduct id s with
  | (Ok _, s') => (mkReply 204 JEnd, s')
  | (Err e, s') =>
      if bool_decide (err_code e = Some "PRODUCT_IN_USE") then (mkReply 400 (JError (message e)), s')
      else (errorHandler e, s')
  end.

Definition getProductByBarcodeController (collate : string -> string -> comparison)
    (user : principal) (barcode : option string) : session -> reply * session :=
  try_next (
    if js_falsy_string barcode then ret (mkReply 400 (JError "Código de barras é obrigatório"))
    else p <- findProductByBarcode collate (default "" barcode) (Some user) ;;
         match p with
         | None => ret (mkReply 404 (JError "Produto não encontrado"))
         | Some p => ret (json (JObject p))
         end).

(** Every balance and movement refers to an existing product, and the
    product ids are below the AUTO_INCREMENT counter. *)
Definition product_refs_ok (d : db) : Prop :=
  Forall (fun p => pr_id p < next_id (products d)) (rows (products d)) /\
  Forall (fun r => is_Some (find_product (st_product r) d)) (rows (stock d)) /\
  Forall (fun m => is_Some (find_product (mv_product m) d)) (rows (movements d)).

#[export] Instance product_refs_ok_dec d : Decision (product_refs_ok d).
Proof. unfold product_refs_ok. apply _. Defined.

(** What [stocked_in_unit] tests: a balance of the product in a
    warehouse of the unit. *)
Definition product_in_unit (d : db) (x : Z) (p : product) : Prop :=
  exists r w, In r (rows (stock d)) /\ st_product r = pr_id p /\
              find_warehouse (st_warehouse r) d = Some w /\ wh_unit_id w = Some x.

(** ** Lemmas on SKUs *)

Lemma string_uint_uint_string u : string_uint (uint_string u) = Some u.
Proof. induction u; cbn [uint_string string_uint]; rewrite ?IHu; reflexivity. Qed.

Lemma append_nil_l s : String.append "" s = s.
Proof. reflexivity. Qed.

Lemma append_cons c s t : String.append (String c s) t = String c (String.append s t).
Proof. reflexivity. Qed.

Lemma string_uint_zeros k s :
  string_uint (String.append (repeat_char k (digit_char 0)) s) = option_map (Nat.iter k Decimal.D0) (string_uint s).
Proof.
  induction k as [|k IH]; simpl; rewrite ?append_nil_l, ?append_cons; [by destruct (string_uint s)|].
  cbn [string_uint]. rewrite IH. by destruct (string_uint s).
Qed.

Lemma of_uint_zeros k u : N.of_uint (Nat.iter k Decimal.D0 u) = N.of_uint u.
Proof. induction k as [|k IH]; [done|]. exact IH. Qed.

Lemma parse_sku_of id : 0 <= id -> parse_sku (sku_of id) = Some id.
Proof.
  intros Hid. unfold sku_of, padStart, js_string_Z. simpl.
  destruct (Z.ltb_spec id 0); [lia|]. rewrite append_nil_l, string_uint_zeros, string_uint_uint_string. simpl.
  rewrite of_uint_zeros, DecimalN.Unsigned.of_to. f_equal. by apply Z2N.id.
Qed.

(** ** Lemmas on the statements *)

(** Writing [products] leaves the balances as they are. *)
Lemma find_stock_set_products p w t d : find_stock p w (set_products t d) = find_stock p w d.
Proof. reflexivity. Qed.

Lemma createProduct_run name unit w barcode description s :
  createProduct name unit w barcode description s =
  let id := next_id (products (sdb s)) in
  let d1 := set_products (tbl_update (fun p => pr_id p =? id) (with_sku (sku_of id))
              (mkTable (rows (products (sdb s)) ++
                 [mkProduct id name unit None (sql_text (str_or_null barcode))
                    (sql_text (str_or_null description))]) (id + 1))) (sdb s) in
  if js_truthy_id w then
    match find_stock id (default 0 w) (sdb s) with
    | Some _ => (Err dup_entry, mkSession d1 (snapshot s))
    | None => (Ok (mkCreatedProduct id name (sku_of id) unit w barcode description),
               mkSession (stock_after_insert id (default 0 w) 0 d1) (snapshot s))
    end
  else (Ok (mkCreatedProduct id name (sku_of id) unit w barcode description), mkSession d1 (snapshot s)).
Proof.
  unfold createProduct, insert_stock, bind, read_db, write_db, ret, throw. simpl.
  destruct (js_truthy_id w); [|done]. cbn. rewrite !find_stock_set_products.
  by destruct (find_stock _ _ (sdb s)).
Qed.

(** An UPDATE whose WHERE only matches the appended row. *)
Lemma update_where_last {A} (P : A -> bool) f l x :
  Forall (fun y => P y = false) l -> P x = true -> update_where P f (l ++ [x]) = l ++ [f x].
Proof.
  intros Hl Hx. unfold update_where. rewrite map_app. simpl. rewrite Hx. f_equal.
  induction Hl as [|y l Hy _ IH]; simpl; [done|]. by rewrite Hy, IH.
Qed.

Lemma fresh_ids_update (l : list product) id x sku :
  Forall (fun p => pr_id p < id) l -> pr_id x = id ->
  update_where (fun p => pr_id p =? id) (with_sku sku) (l ++ [x]) = l ++ [with_sku sku x].
Proof.
  intros Hl Hx. apply update_where_last; [|by apply Z.eqb_eq].
  eapply Forall_impl; [exact Hl|]. simpl. intros p Hp. apply Z.eqb_neq. lia.
Qed.

(** With fresh ids, [createProduct] appends the product with its SKU. *)
Lemma createProduct_fresh_run name unit w barcode description s :
  Forall (fun p => pr_id p < next_id (products (sdb s))) (rows (products (sdb s))) ->
  (forall w', find_stock (next_id (products (sdb s))) w' (sdb s) = None) ->
  let id := next_id (products (sdb s)) in
  let d1 := set_products (mkTable (rows (products (sdb s)) ++
                [mkProduct id name unit (Some (sku_of id)) (sql_text (str_or_null barcode))
                   (sql_text (str_or_null description))]) (id + 1)) (sdb s) in
  createProduct name unit w barcode description s =
  (Ok (mkCreatedProduct id name (sku_of id) unit w barcode description),
   mkSession (if js_truthy_id w then stock_after_insert id (default 0 w) 0 d1 else d1) (snapshot s)).
Proof.
  intros Hf Hn id d1. rewrite createProduct_run. unfold tbl_update. simpl.
  rewrite fresh_ids_update by done. destruct (js_truthy_id w); [|reflexivity]. by rewrite Hn.
Qed.

Lemma find_product_lt d x p :
  Forall (fun p => pr_id p < next_id (products d)) (rows (products d)) ->
  find_product x d = Some p -> x < next_id (products d).
Proof.
  intros Hl Hf. unfold find_product in Hf. apply find_some in Hf as [Hin Hk].
  apply Z.eqb_eq in Hk as <-. rewrite List.Forall_forall in Hl. by apply Hl.
Qed.

Lemma refs_below d x :
  Forall (fun p => pr_id p < next_id (products d)) (rows (products d)) ->
  is_Some (find_product x d) -> x <> next_id (products d).
Proof. intros Hl [p Hp]. pose proof (find_product_lt d x p Hl Hp). lia. Qed.

Lemma find_none_all {A} (P : A -> bool) l :
  (forall x, In x l -> P x = false) -> find P l = None.
Proof.
  induction l as [|y l IH]; intros H; simpl; [done|].
  rewrite (H y (or_introl eq_refl)). apply IH. intros x Hx. apply H. by right.
Qed.

(** The id the next product gets has no balance and no movement. *)
Lemma fresh_no_stock d w :
  product_refs_ok d -> find_stock (next_id (products d)) w d = None.
Proof.
  intros (Hl & Hs & _). unfold find_stock. apply find_none_all. intros r Hin.
  rewrite List.Forall_forall in Hs. pose proof (refs_below d _ Hl (Hs r Hin)).
  unfold stock_key. by apply andb_false_intro1, Z.eqb_neq.
Qed.

Lemma fresh_no_movements d w :
  product_refs_ok d -> pair_movements d (next_id (products d)) w = [].
Proof.
  intros (Hl & _ & Hm). unfold pair_movements. rewrite List.Forall_forall in Hm.
  induction (rows (movements d)) as [|m l IH]; [done|]. simpl.
  pose proof (refs_below d _ Hl (Hm m (or_introl eq_refl))).
  unfold of_pair. rewrite (proj2 (Z.eqb_neq _ _) H). simpl.
  apply IH. intros x Hx. apply Hm. by right.
Qed.

(** A balance of 0 for a pair that has no row and no movement keeps the
    ledger invariant. *)
Lemma ledger_ok_insert_zero d p w :
  ledger_ok d -> find_stock p w d = None -> pair_movements d p w = [] ->
  ledger_ok (stock_after_insert p w 0 d).
Proof.
  intros (Hnd & Hrows & Hmv) Hn Hpm. unfold ledger_ok. simpl. split_and!.
  - rewrite map_app. apply NoDup_app. split; [done|]. split; [|apply NoDup_singleton].
    intros x Hx Hin. apply list_elem_of_singleton in Hin as ->. by apply (find_stock_None_pair p w d Hn).
  - apply Forall_app. split; [exact Hrows|]. constructor; [|constructor]. simpl.
    unfold net. change (pair_movements (stock_after_insert p w 0 d) p w) with (pair_movements d p w).
    by rewrite Hpm.
  - eapply Forall_impl; [exact Hmv|]. intros m Hm.
    destruct (decide ((mv_product m, mv_warehouse m) = (p, w))) as [[= -> ->]|Hne].
    + rewrite balance_insert_same by done. by eexists.
    + by rewrite balance_insert_other.
Qed.

Lemma is_Some_find_app {A} (P : A -> bool) l1 l2 :
  is_Some (find P l1) -> is_Some (find P (l1 ++ l2)).
Proof. intros [x Hx]. rewrite (find_app_Some _ _ _ _ Hx). by eexists. Qed.

(** The product [createProduct] appends keeps every reference and is
    found by its id. *)
Lemma product_refs_append d row :
  product_refs_ok d -> pr_id row = next_id (products d) ->
  let d1 := set_products (mkTable (rows (products d) ++ [row]) (next_id (products d) + 1)) d in
  product_refs_ok d1 /\ find_product (next_id (products d)) d1 = Some row.
Proof.
  intros (Hl & Hs & Hm) Hrow d1. unfold product_refs_ok, find_product. simpl. split_and!.
  - apply Forall_app. split; [|constructor; [lia|constructor]].
    eapply Forall_impl; [exact Hl|]. simpl. lia.
  - eapply Forall_impl; [exact Hs|]. intros r. apply is_Some_find_app.
  - eapply Forall_impl; [exact Hm|]. intros m. apply is_Some_find_app.
  - rewrite find_app_None.
    + simpl. rewrite Hrow, Z.eqb_refl. done.
    + apply find_none_all. intros p Hin. apply Z.eqb_neq.
      rewrite List.Forall_forall in Hl. specialize (Hl p Hin). lia.
Qed.

Lemma product_refs_insert d p w q :
  product_refs_ok d -> is_Some (find_product p d) -> product_refs_ok (stock_after_insert p w q d).
Proof.
  intros (Hl & Hs & Hm) Hp. split_and!; [exact Hl| |exact Hm].
  simpl. apply Forall_app. split; [exact Hs|]. by constructor.
Qed.

Lemma js_truthy_id_some w : w <> 0 -> js_truthy_id (Some w) = true.
Proof. intros Hw. simpl. unfold js_falsy_Z. by destruct (Z.eqb_spec w 0). Qed.

Lemma in_sorted_filter {A} (R : relation A) `{!RelDecision R} (P : A -> bool) l x :
  x ∈ merge_sort R (List.filter P l) -> P x = true /\ x ∈ l.
Proof.
  rewrite (merge_sort_Permutation R _), list_elem_of_In, filter_In, list_elem_of_In. tauto.
Qed.

Lemma stocked_in_unit_spec d unitId p :
  stocked_in_unit d unitId p = true -> exists x, unitId = Some x /\ product_in_unit d x p.
Proof.
  unfold stocked_in_unit. rewrite existsb_exists. intros (r & Hin & Hr).
  apply andb_true_iff in Hr as [Hp Hr]. apply Z.eqb_eq in Hp.
  destruct (find_warehouse (st_warehouse r) d) as [w|] eqn:Ew, unitId as [x|]; try done.
  exists x. split; [done|]. exists r, w. unfold sql_eq_id in Hr.
  destruct (wh_unit_id w) as [y|]; [|done]. apply Z.eqb_eq in Hr. by subst.
Qed.

Lemma listProducts_run collate like user q s :
  u_role user <> "super_admin" ->
  exists l, listProducts collate like (Some user) q s = (Ok l, s) /\
            forall p, p ∈ l -> stocked_in_unit (sdb s) (u_unit_id user) p = true.
Proof.
  intros Hr. unfold listProducts, bind, read_db, ret. simpl.
  rewrite bool_decide_false by congruence.
  destruct (String.eqb _ _); eexists; (split; [reflexivity|]); intros p Hp.
  - by apply in_sorted_filter in Hp as [? _].
  - apply in_take, in_sorted_filter in Hp as [Hp _]. by apply andb_true_iff in Hp as [? _].
Qed.

Lemma findProductByBarcode_run collate b user s p :
  u_role user <> "super_admin" ->
  fst (findProductByBarcode collate b (Some user) s) = Ok (Some p) ->
  stocked_in_unit (sdb s) (u_unit_id user) p = true.
Proof.
  intros Hr. unfold findProductByBarcode, bind, read_db, ret. simpl.
  rewrite bool_decide_false by congruence. intros [= Hf].
  apply find_some in Hf as [_ Hp]. by apply andb_true_iff in Hp as [_ ?].
Qed.

Lemma deleteProduct_run id s :
  deleteProduct id s =
  if Nat.ltb 0 (count_where (fun r => st_product r =? id) (stock (sdb s))) ||
     Nat.ltb 0 (count_where (fun m => mv_product m =? id) (movements (sdb s)))
  then (Err product_in_use, s)
  else (Ok tt, mkSession (set_products (tbl_delete (fun p => pr_id p =? id) (products (sdb s))) (sdb s))
                 (snapshot s)).
Proof. unfold deleteProduct, bind, read_db. simpl. by case_match. Qed.

Lemma count_where_pos {A} (P : A -> bool) t :
  (exists x, In x (rows t) /\ P x = true) -> Nat.ltb 0 (count_where P t) = true.
Proof.
  intros (x & Hin & Hx). apply Nat.ltb_lt. unfold count_where.
  assert (In x (List.filter P (rows t))) as H by (apply filter_In; done).
  destruct (List.filter P (rows t)); [done|simpl; lia].
Qed.

(** ** Theorems *)

(** C32: the SKU is derived from the id and determines it.  For every id
    the AUTO_INCREMENT counter can give (0 or more), reading back the
    digits of [sku_of id] after "P-" (leading zeros included) gives [id],
    so two products never share a SKU, also past 99999 where [padStart]
    adds no zero. *)
Theorem sku_of_roundtrip id :
  0 <= id ->
  parse_sku (sku_of id) = Some id /\
  (forall id', 0 <= id' -> sku_of id' = sku_of id -> id' = id).
Proof.
  intros Hid. split; [by apply parse_sku_of|].
  intros id' Hid' Heq. pose proof (parse_sku_of id' Hid') as H'.
  rewrite Heq, parse_sku_of in H' by done. congruence.
Qed.

(** Creating a product with a name and a warehouse answers 201 with
    the object [createProduct] returns, appends the product with the SKU
    of its id (the UPDATE matches only the new row, the ids of the table
    being below the counter) and a balance of 0 for the product in the
    given warehouse, and changes no other table. *)
Theorem createProductController_creates n unit w barcode description s :
  n <> "" -> w <> 0 -> product_refs_ok (sdb s) ->
  let id := next_id (products (sdb s)) in
  createProductController (Some n) unit (Some w) barcode description s =
  (mkReply 201 (JObject (mkCreatedProduct id n (sku_of id) unit (Some w) barcode description)),
   mkSession (stock_after_insert id w 0
     (set_products (mkTable (rows (products (sdb s)) ++
        [mkProduct id n unit (Some (sku_of id)) (sql_text (str_or_null barcode))
           (sql_text (str_or_null description))]) (id + 1)) (sdb s))) (snapshot s)).
Proof.
  intros Hn Hw Hf id. unfold createProductController, try_next.
  change (js_falsy_string (Some n)) with (String.eqb n "").
  destruct (String.eqb_spec n ""); [done|]. rewrite js_truthy_id_some by done. cbn [negb].
  unfold bind at 1. rewrite createProduct_fresh_run by first [apply Hf | intros; by apply fresh_no_stock].
  rewrite js_truthy_id_some by done. reflexivity.
Qed.

(** C30: product creation keeps the engine's invariant and the product
    references.  From a state between requests where the ledger agrees
    with the movement log and every balance and movement refers to an
    existing product, every request to [createProductController] (a 400
    for a missing name or warehouse, or the three statements) leaves a
    state where both still hold: the new balance of 0 is the only row of
    its pair and the pair has no movement. *)
Theorem createProductController_inv name unit w barcode description s :
  engine_inv s -> product_refs_ok (sdb s) ->
  let s' := snd (createProductController name unit w barcode description s) in
  engine_inv s' /\ product_refs_ok (sdb s').
Proof.
  intros Hi Hr s'. subst s'. unfold createProductController, try_next.
  destruct (js_falsy_string name); [done|]. destruct (js_truthy_id w) eqn:Ew; [|done]. cbn [negb].
  unfold bind. rewrite createProduct_fresh_run by first [apply Hr | intros; by apply fresh_no_stock].
  rewrite Ew. simpl snd.
  set (id := next_id (products (sdb s))).
  destruct (product_refs_append (sdb s) (mkProduct id (default "" name) unit (Some (sku_of id))
              (sql_text (str_or_null barcode)) (sql_text (str_or_null description))) Hr eq_refl)
    as [Hr1 Hf1].
  destruct Hi as (Hsn & Hwf & Hmi & Hl). split.
  - unfold engine_inv, ledger_inv. split_and!; [exact Hsn| |exact Hmi|].
    + apply stock_wf_insert; [exact (fresh_no_stock _ _ Hr)|exact Hwf].
    + apply ledger_ok_insert_zero; [exact Hl|exact (fresh_no_stock _ _ Hr)|exact (fresh_no_movements _ _ Hr)].
  - apply product_refs_insert; [exact Hr1|]. eexists. exact Hf1.
Qed.

(** C31: product creation is not atomic.  The movement engine records
    entries for any [product_id] (it never looks the product up), so a
    balance may already exist for the id the next product will get;
    creating that product in the same warehouse then fails on the
    balances' unique key at its third statement: the handler answers
    500, but the first two statements, autocommitted, stay: the product
    is in the catalogue with its SKU, and no balance is added. *)
Theorem createProductController_duplicate_fails n unit w barcode description s r :
  n <> "" -> w <> 0 ->
  find_stock (next_id (products (sdb s))) w (sdb s) = Some r ->
  let id := next_id (products (sdb s)) in
  let res := createProductController (Some n) unit (Some w) barcode description s in
  fst res = errorHandler dup_entry /\ status (fst res) = 500 /\
  mkProduct id n unit (Some (sku_of id)) (sql_text (str_or_null barcode)) (sql_text (str_or_null description))
    ∈ rows (products (sdb (snd res))) /\
  stock (sdb (snd res)) = stock (sdb s).
Proof.
  intros Hn Hw Hr id res. subst res. unfold createProductController, try_next.
  change (js_falsy_string (Some n)) with (String.eqb n "").
  destruct (String.eqb_spec n ""); [done|]. rewrite js_truthy_id_some by done. cbn [negb].
  unfold bind. rewrite createProduct_run, js_truthy_id_some by done. simpl default. cbv zeta. rewrite Hr.
  cbn [fst snd sdb]. split_and!; [reflexivity|reflexivity| |reflexivity].
  unfold tbl_update. cbn. rewrite map_app. apply elem_of_app. right. cbn. rewrite Z.eqb_refl. by left.
Qed.

(** A product that any balance or movement refers to is not
    deleted: [deleteProductController] answers 400 with the
    PRODUCT_IN_USE message and changes nothing.  A balance of 0 counts,
    so a product created with a warehouse can never be deleted. *)
Theorem deleteProductController_in_use id s :
  (exists r, In r (rows (stock (sdb s))) /\ st_product r = id) \/
  (exists m, In m (rows (movements (sdb s))) /\ mv_product m = id) ->
  deleteProductController id s = (mkReply 400 (JError (message product_in_use)), s).
Proof.
  intros Huse. unfold deleteProductController. rewrite deleteProduct_run.
  replace (_ || _) with true; [reflexivity|]. symmetry. apply orb_true_iff.
  destruct Huse as [(r & Hin & <-)|(m & Hin & <-)]; [left|right];
    apply count_where_pos; eexists; (split; [exact Hin|apply Z.eqb_refl]).
Qed.

(** Product deletion keeps the engine's invariant and the product
    references: when the guard lets a deletion through, no balance and no
    movement refers to the product, so every reference still finds its
    product; [stock] and [stock_movements] are not touched on any path. *)
Theorem deleteProductController_keeps_refs id s :
  engine_inv s -> product_refs_ok (sdb s) ->
  engine_inv (snd (deleteProductController id s)) /\
  product_refs_ok (sdb (snd (deleteProductController id s))).
Proof.
  intros Hi Hr. unfold deleteProductController. rewrite deleteProduct_run.
  destruct (Nat.ltb 0 (count_where (fun r => st_product r =? id) (stock (sdb s)))) eqn:G1; [done|].
  destruct (Nat.ltb 0 (count_where (fun m => mv_product m =? id) (movements (sdb s)))) eqn:G2; [done|].
  simpl. split; [exact Hi|]. destruct Hr as (Hl & Hs & Hm). unfold product_refs_ok, find_product. simpl.
  split_and!.
  - rewrite List.Forall_forall in Hl |- *. intros p Hin. apply filter_In in Hin as [Hin _]. by apply Hl.
  - rewrite List.Forall_forall in Hs |- *. intros r Hin. apply (is_Some_find_other pr_id); [by apply Hs|].
    apply Z.eqb_neq, (count_where_zero _ _ G1). by apply list_elem_of_In.
  - rewrite List.Forall_forall in Hm |- *. intros m Hin. apply (is_Some_find_other pr_id); [by apply Hm|].
    apply Z.eqb_neq, (count_where_zero _ _ G2). by apply list_elem_of_In.
Qed.

(** A product update with a name answers 204 and writes the four
    columns of every product with that id from the body (an omitted
    barcode or description becomes NULL); the id and the SKU stay, as the
    spec requires of the SKU, and no other table changes. *)
Theorem updateProductController_keeps_sku id n unit barcode description s :
  n <> "" ->
  updateProductController id (Some n) unit barcode description s =
  (mkReply 204 JEnd,
   mkSession (set_products (tbl_update (fun p => pr_id p =? id)
       (fun p => mkProduct (pr_id p) n unit (pr_sku p) (sql_text (str_or_null barcode))
                   (sql_text (str_or_null description))) (products (sdb s))) (sdb s)) (snapshot s)).
Proof.
  intros Hn. unfold updateProductController, try_next.
  change (js_falsy_string (Some n)) with (String.eqb n "").
  destruct (String.eqb_spec n ""); [done|].
  unfold bind, updateProduct, bind_params. simpl. unfold write_db, ret, tbl_update, update_where. simpl.
  do 4 f_equal. apply map_ext. intros p. rewrite Z.eqb_sym. by destruct unit.
Qed.

(** The product lookups are scoped to the caller's unit.  For a
    caller other than super_admin, every product [listProducts] returns
    (with or without a search term) and the product
    [findProductByBarcode] finds have a balance in a warehouse of the
    caller's unit; a caller without a unit gets none. *)
Theorem product_lookups_scoped collate like user q b s :
  u_role user <> "super_admin" ->
  (forall l s', listProducts collate like (Some user) q s = (Ok l, s') ->
     forall p, p ∈ l -> exists x, u_unit_id user = Some x /\ product_in_unit (sdb s) x p) /\
  (forall p, fst (findProductByBarcode collate b (Some user) s) = Ok (Some p) ->
     exists x, u_unit_id user = Some x /\ product_in_unit (sdb s) x p).
Proof.
  intros Hr. split.
  - intros l s' Hl p Hp. destruct (listProducts_run collate like user q s Hr) as (l' & Hl' & Hin).
    rewrite Hl' in Hl. injection Hl as <- _. by apply stocked_in_unit_spec, Hin.
  - intros p Hf. by apply stocked_in_unit_spec, (findProductByBarcode_run collate b user s p Hr).
Qed.

(** ** Witnesses on the example database *)

Lemma sku_of_roundtrip_witness :
  parse_sku (sku_of 42) = Some 42 /\
  (forall id', 0 <= id' -> sku_of id' = sku_of 42 -> id' = 42).
Proof. apply sku_of_roundtrip. lia. Defined.

Lemma createProductController_creates_witness :
  createProductController (Some "Arruela") None (Some 1) None None demo_session =
  (mkReply 201 (JObject (mkCreatedProduct 3 "Arruela" (sku_of 3) None (Some 1) None None)),
   mkSession (stock_after_insert 3 1 0
     (set_products (mkTable (rows (products demo_db) ++
        [mkProduct 3 "Arruela" None (Some (sku_of 3)) (sql_text (str_or_null None))
           (sql_text (str_or_null None))]) (3 + 1)) demo_db)) None).
Proof. apply (createProductController_creates "Arruela" None 1 None None demo_session); [discriminate|lia|decide_prop]. Defined.

Lemma createProductController_inv_witness :
  engine_inv (snd (createProductController (Some "Arruela") None (Some 1) None None demo_session)) /\
  product_refs_ok (sdb (snd (createProductController (Some "Arruela") None (Some 1) None None demo_session))).
Proof. apply createProductController_inv; decide_prop. Defined.

(** An entry of 5 units of product 3, which does not exist yet, then the
    creation of product 3 in the same warehouse. *)
Lemma createProductController_duplicate_fails_witness :
  let s1 := snd (stockEntryController ana (mkEntryRequest 3 1 5 None) demo_session) in
  let id := next_id (products (sdb s1)) in
  let res := createProductController (Some "Arruela") None (Some 1) None None s1 in
  fst res = errorHandler dup_entry /\ status (fst res) = 500 /\
  mkProduct id "Arruela" None (Some (sku_of id)) (sql_text (str_or_null None)) (sql_text (str_or_null None))
    ∈ rows (products (sdb (snd res))) /\
  stock (sdb (snd res)) = stock (sdb s1).
Proof.
  apply (createProductController_duplicate_fails "Arruela" None 1 None None _ (mkStock 2 3 1 5));
    [discriminate|lia|vm_compute; reflexivity].
Defined.

Lemma deleteProductController_in_use_witness :
  deleteProductController 1 demo_session = (mkReply 400 (JError (message product_in_use)), demo_session).
Proof.
  apply deleteProductController_in_use. left. exists (mkStock 1 1 1 10). split; [by left|reflexivity].
Defined.

Lemma deleteProductController_keeps_refs_witness :
  engine_inv (snd (deleteProductController 2 demo_session)) /\
  product_refs_ok (sdb (snd (deleteProductController 2 demo_session))).
Proof. apply deleteProductController_keeps_refs; decide_prop. Defined.

Lemma updateProductController_keeps_sku_witness :
  updateProductController 1 (Some "Parafuso M6") (Some "UN") None None demo_session =
  (mkReply 204 JEnd,
   mkSession (set_products (tbl_update (fun p => pr_id p =? 1)
       (fun p => mkProduct (pr_id p) "Parafuso M6" (Some "UN") (pr_sku p) (sql_text (str_or_null None))
                   (sql_text (str_or_null None))) (products demo_db)) demo_db) None).
Proof. apply updateProductController_keeps_sku. discriminate. Defined.

Lemma product_lookups_scoped_witness :
  (forall l s', listProducts (fun _ _ => Eq) (fun _ _ => true) (Some ana) None demo_session = (Ok l, s') ->
     forall p, p ∈ l -> exists x, u_unit_id ana = Some x /\ product_in_unit demo_db x p) /\
  (forall p, fst (findProductByBarcode (fun _ _ => Eq) "789" (Some ana) demo_session) = Ok (Some p) ->
     exists x, u_unit_id ana = Some x /\ product_in_unit demo_db x p).
Proof. apply product_lookups_scoped. discriminate. Defined.
