(* ===== verification/Pdf.v ===== *)
(** * Pdf: the pages [generateExitOS] and [addSignatureToPdf] draw

    Models the pdfkit calls of src/Backend/src/services/osService.js as
    the list of drawing commands each function issues, in order
    ([cmd]): fonts, texts (flowing at the cursor or at explicit
    coordinates), the rule under the title, the table's rectangles, page
    breaks, the signature image.  The streams the document is piped to
    are the [write_doc] of the section: it writes the commands to the
    path or fails.

    Coordinates are exact, in thousandths of a point: [new
    PDFDocument({ margin: 50 })] gives no [size], so the page is pdfkit's
    default, LETTER (612 x 792 points), with margins of 50: the bottom
    margin is at 742, the table is 512 wide and its columns 55%, 15% and
    30% of it (281.6, 76.8 and 153.6); the code computes them with
    floating point, which differs from these values by less than 1e-9
    point.  Where the code reads the cursor that pdfkit moves as it lays
    out flowing text ([doc.y] after the title block, the page-break tests
    before the signature), the model takes it from the layout:
    [table_top] is the cursor after the commands drawn so far, and
    [BreakIfBelow] and [ImageBelow] are commands whose effect depends on
    the cursor when they are drawn.  The table below its first row is
    placed by the code's own arithmetic ([y += rowHeight],
    [checkNewPage]), which the model follows exactly.

    [Number(q).toLocaleString("pt-BR", { minimumFractionDigits: 2,
    maximumFractionDigits: 2 })] of an integer quantity is
    [toLocaleString_ptBR2]: the digits grouped by three with ".", then
    ",00", after "-" for a negative quantity.

    The theorems: the quantity text reads back to the quantity
    ([parse_ptBR2] is the reader); each document's table has one row per
    item, in order, with its three cells ([row_cells]); every row lies
    between the top margin's header and the bottom margin ([row_tops]);
    and the font of the rows ([row_fonts]) turns to Helvetica-Bold after
    the first page break. *)

From stdpp Require Import pretty.
From Stdlib Require Import DecimalPos DecimalN.
From S2P Require Import Prelude Schema Permission StockModel ExitOrderModel Base64 OsService Products.

Open Scope Z_scope.
Open Scope est_scope.

(** ** Numbers in pt-BR *)

(** ["."], the pt-BR group separator. *)
Definition DOT : Ascii.ascii := Ascii.ascii_of_nat 46.

(** The reversed digits with a "." after every third one, when more
    follow. *)
Fixpoint group_rev (cs : list Ascii.ascii) : list Ascii.ascii :=
  match cs with
  | a :: b :: c :: ((_ :: _) as rest) => a :: b :: c :: DOT :: group_rev rest
  | _ => cs
  end.

Definition group_thousands (s : string) : string :=
  String.string_of_list_ascii (rev (group_rev (rev (String.list_ascii_of_string s)))).

Definition toLocaleString_ptBR2 (q : Z) : string :=
  (if q <? 0 then "-" else "") +:+
  group_thousands (uint_string (N.to_uint (Z.to_N (Z.abs q)))) +:+ ",00".

(** ** Drawing commands *)

Inductive font := Helvetica | HelveticaBold.

Inductive align := ALeft | ACenter.

Inductive cmd :=
| SetFont (f : font) (size : Z)          (** [.font(f).fontSize(size / 10)] *)
| FillColor (c : string)                 (** [.fillColor(c)] *)
| Text (s : string) (a : align) (underline : bool)
    (** [.text(s, { align, underline })] at the cursor, which moves below it *)
| TextAtCursor (s : string) (x width : Z) (underline : bool)
    (** [.text(s, x, doc.y, { width, underline, align: "left" })] *)
| TextAt (s : string) (x y width : Z) (a : align)
    (** [.text(s, x, y, { width, align })] *)
| MoveDown (tenths : Z)                  (** [.moveDown(tenths / 10)] *)
| Rule              (** [.moveTo(marginLeft, doc.y).lineTo(width - marginLeft, doc.y).stroke()] *)
| FillRect (x y w h : Z) (fill stroke : string)     (** [.rect(x, y, w, h).fillAndStroke(fill, stroke)] *)
| StrokeRect (x y w h : Z) (line_width : Z) (stroke : string)
    (** [.lineWidth(line_width / 1000).rect(x, y, w, h).stroke(stroke)] *)
| AddPage                                (** [doc.addPage()]: the cursor goes to the top margin *)
| BreakIfBelow (need : Z)    (** [if (doc.y + need > page.height - margins.bottom) doc.addPage()] *)
| SetCursor (x y : Z)                    (** [doc.y = y; doc.x = x] *)
| ImageBelow (path : string) (x dy w h : Z)
    (** [ySig = doc.y + dy; doc.image(path, x, ySig, { width: w, height: h }); doc.y = ySig + h - 5] *).

(** ** Page geometry (thousandths of a point) *)

Definition PAGE_W : Z := 612000.
Definition PAGE_H : Z := 792000.
Definition MARGIN : Z := 50000.
Definition ROW_H : Z := 20000.
Definition USABLE_W : Z := PAGE_W - MARGIN - MARGIN.
Definition COL_P_W : Z := USABLE_W * 55 / 100.
Definition COL_Q_W : Z := USABLE_W * 15 / 100.
Definition COL_E_W : Z := USABLE_W * 30 / 100.
Definition COL_P_X : Z := MARGIN.
Definition COL_Q_X : Z := MARGIN + COL_P_W.
Definition COL_E_X : Z := MARGIN + COL_P_W + COL_Q_W.

(** [doc.page.height - doc.page.margins.bottom] *)
Definition PAGE_BOTTOM : Z := PAGE_H - MARGIN.

(** ** The two documents *)

(** Lines 35-45 (and 254-264): the title block. *)
Definition title_cmds : list cmd :=
  [SetFont HelveticaBold 140; Text "ORDEM DE SAÍDA DE MATERIAL" ACenter false;
   SetFont Helvetica 100; Text "Sistema de Controle de Estoque" ACenter false; MoveDown 10;
   Rule; MoveDown 10].

(** Lines 48-71 (and 267-285): the order's data and the table title. *)
Definition data_cmds (id : Z) (operator_name date client_name : string)
    (client_document : option string) : list cmd :=
  [SetFont HelveticaBold 110; Text "Dados da OS" ALeft true; MoveDown 5;
   SetFont Helvetica 105; Text ("OS: " +:+ pretty id) ALeft false] ++
  (if String.eqb operator_name "" then [] else [Text ("Entregador: " +:+ operator_name) ALeft false]) ++
  [Text "---------------------------------------" ALeft false; Text ("Data: " +:+ date) ALeft false;
   Text ("Cliente: " +:+ client_name) ALeft false] ++
  (match client_document with
   | Some cd => if String.eqb cd "" then [] else [Text ("Documento: " +:+ cd) ALeft false]
   | None => []
   end) ++
  [MoveDown 10; SetFont HelveticaBold 110; Text "Itens da saída" ALeft true; MoveDown 5].

(** [drawTableHeader(y)] (lines 86-109, and 298-321). *)
Definition table_header (y : Z) : list cmd :=
  [SetFont HelveticaBold 100; FillColor "#ffffff";
   FillRect MARGIN y USABLE_W ROW_H "#374151" "#111827";
   FillColor "#ffffff";
   TextAt "Produto" (COL_P_X + 4000) (y + 6000) (COL_P_W - 8000) ALeft;
   TextAt "Qtd" COL_Q_X (y + 6000) COL_Q_W ACenter;
   TextAt "Estoque" (COL_E_X + 4000) (y + 6000) (COL_E_W - 8000) ALeft;
   FillColor "#000000"].

(** One row of the table at [y] (lines 130-163, and 357-386). *)
Definition table_row (y : Z) (product : string) (quantity : Z) (warehouse : string) : list cmd :=
  [StrokeRect MARGIN y USABLE_W ROW_H 500 "#d1d5db";
   TextAt product (COL_P_X + 4000) (y + 5000) (COL_P_W - 8000) ALeft;
   TextAt (toLocaleString_ptBR2 quantity) COL_Q_X (y + 5000) COL_Q_W ACenter;
   TextAt warehouse (COL_E_X + 4000) (y + 5000) (COL_E_W - 8000) ALeft].

(** [checkNewPage] (lines 117-125): a new page and header when two more
    rows would pass the bottom margin; the cursor is then at the top
    margin. *)
Definition check_new_page (y : Z) : list cmd * Z :=
  if y + ROW_H * 2 >? PAGE_BOTTOM then ([AddPage] ++ table_header MARGIN, MARGIN + ROW_H)
  else ([], y).

(** The [forEach] over the items: each row after [checkNewPage], then
    [y += rowHeight]; the last [y] is returned. *)
Fixpoint table_rows (y : Z) (items : list (string * Z * string)) : list cmd * Z :=
  match items with
  | [] => ([], y)
  | (p, q, w) :: rest =>
      let '(brk, y1) := check_new_page y in
      let '(cs, y2) := table_rows (y1 + ROW_H) rest in
      (brk ++ table_row y1 p q w ++ cs, y2)
  end.

(** The header at [top], the rows, then [doc.y = y + 15; doc.x = marginLeft]. *)
Definition table_cmds (top : Z) (items : list (string * Z * string)) : list cmd :=
  let '(cs, y) := table_rows (top + ROW_H) items in
  table_header top ++ [SetFont Helvetica 100] ++ cs ++ [SetCursor MARGIN (y + 15000)].

(** The declaration (lines 171-186, and 392-411), the moves and break
    before the signature block. *)
Definition declaration_cmds (declaration : string) : list cmd :=
  [SetFont HelveticaBold 110; TextAtCursor "Declaração de responsabilidade:" MARGIN USABLE_W true;
   MoveDown 5; SetFont Helvetica 105; TextAtCursor declaration MARGIN USABLE_W false].

(** [doc.moveDown(3)] and the break when fewer than 80 points are left
    before the bottom margin (lines 188-193). *)
Definition break_before_signature : list cmd := [MoveDown 30; BreakIfBelow 80000].

(** The signed order's [moveDown(2)], its break at 120 points and the
    image, 220 x 80 centred, 25 below the cursor, which then goes to
    5 above the image's bottom (lines 413-435). *)
Definition signature_image (sigPath : string) : list cmd :=
  [MoveDown 20; BreakIfBelow 120000; ImageBelow sigPath ((PAGE_W - 220000) / 2) 25000 220000 80000].

(** The signature line, the client's name and the caption. *)
Definition signature_cmds (client_name : string) : list cmd :=
  [SetFont Helvetica 110; Text "________________________________________" ACenter false;
   Text client_name ACenter false; Text "Assinatura do responsável" ACenter false].

Section Layout.
(** [new Date(t).toLocaleString("pt-BR")], which depends on the server's
    time zone; the cursor pdfkit has reached after a list of commands;
    and the stream the document is written to. *)
Context (date_text : Z -> string) (table_top : list cmd -> Z)
  (write_doc : string -> list cmd -> option js_error).

Definition os_item (m : os_row) : string * Z * string := (or_product m, or_quantity m, or_warehouse m).

Definition exit_item_row (it : exit_item) : string * Z * string :=
  (it_product it, it_quantity it, it_warehouse it).

(** The commands of [generateExitOS] (lines 35-203). *)
Definition exit_doc (movements : list os_row) (client_name : string) (client_document : option string)
    (declaration operator_name : string) : list cmd :=
  match movements with
  | [] => []
  | first :: _ =>
      let pre := title_cmds ++ data_cmds (or_id first) operator_name (date_text (or_created_at first))
                   client_name client_document in
      pre ++ table_cmds (table_top pre) (map os_item movements) ++ declaration_cmds declaration ++
      break_before_signature ++ signature_cmds client_name
  end.

(** The commands of [addSignatureToPdf] (lines 254-443), given the
    items and declaration it computed ([OsService.signed_items],
    [OsService.signed_declaration]) and its [operatorName]: the same
    blocks, the image of the signature centred between the declaration
    and the signature line.  The date is the movement's, or the order's
    when the movement's is falsy (lines 233-235). *)
Definition signed_doc (order : order_view) (items : list exit_item) (operator_name declaration : string)
    (sigPath : string) : list cmd :=
  let o := ov_order order in
  let date := if ov_movement_created_at order =? 0 then eo_created_at o else ov_movement_created_at order in
  let pre := title_cmds ++ data_cmds (eo_movement_id o) operator_name (date_text date)
               (eo_client_name o) (eo_client_document o) in
  pre ++ table_cmds (table_top pre) (map exit_item_row items) ++ declaration_cmds declaration ++
  signature_image sigPath ++
  signature_cmds (eo_client_name o).

(** pdfkit as the rendering collaborator of [OsService]; [write_bytes]
    is [fs.writeFileSync]. *)
#[export] Instance pdfkit (write_bytes : string -> list Z -> option js_error) : Renderer := {|
  write_exit_pdf path movements client_name client_document declaration operator_name :=
    write_doc path (exit_doc movements client_name client_document declaration operator_name);
  write_signed_pdf path order items operator_name declaration sigPath :=
    write_doc path (signed_doc order items operator_name declaration sigPath);
  write_file := write_bytes
|}.
End Layout.

(** ** Reading a document back *)

(** The value a reader takes from a pt-BR quantity: an optional "-",
    digits with "." between groups, then ",00". *)
Definition MINUS : Ascii.ascii := Ascii.ascii_of_nat 45.
Definition CENTS : list Ascii.ascii := String.list_ascii_of_string ",00".

Definition parse_unsigned (neg : bool) (body : list Ascii.ascii) : option Z :=
  let n := length body in
  if decide (drop (n - 3) body = CENTS) then
    option_map (fun u => let v := Z.of_N (N.of_uint u) in if neg then - v else v)
      (string_uint (String.string_of_list_ascii
                      (List.filter (fun c => negb (Ascii.eqb c DOT)) (take (n - 3) body))))
  else None.

Definition parse_ptBR2 (s : string) : option Z :=
  match String.list_ascii_of_string s with
  | c :: r => if Ascii.eqb c MINUS then parse_unsigned true r else parse_unsigned false (c :: r)
  | [] => None
  end.

(** The cells of the table's rows: the three texts after each row's
    rectangle. *)
Fixpoint row_cells (cs : list cmd) : list (string * string * string) :=
  match cs with
  | StrokeRect _ _ _ _ _ _ :: TextAt p _ _ _ _ :: TextAt q _ _ _ _ :: TextAt w _ _ _ _ :: r =>
      (p, q, w) :: row_cells r
  | _ :: r => row_cells r
  | [] => []
  end.

(** The font in effect at each row's rectangle, from font [f]. *)
Fixpoint row_fonts (f : font) (cs : list cmd) : list font :=
  match cs with
  | [] => []
  | SetFont g _ :: r => row_fonts g r
  | StrokeRect _ _ _ _ _ _ :: r => f :: row_fonts f r
  | _ :: r => row_fonts f r
  end.

(** The tops of the rows' rectangles. *)
Definition row_tops (cs : list cmd) : list Z :=
  omap (fun c => match c with StrokeRect _ y _ _ _ _ => Some y | _ => None end) cs.

Definition no_rect (c : cmd) : bool := match c with StrokeRect _ _ _ _ _ _ => false | _ => true end.

(** A command that neither draws a row nor breaks the page. *)
Definition plain (c : cmd) : bool := no_rect c && match c with AddPage => false | _ => true end.

(** The number of rows drawn before the first page break. *)
Fixpoint rows_before_break (cs : list cmd) : nat :=
  match cs with
  | [] => O
  | AddPage :: _ => O
  | StrokeRect _ _ _ _ _ _ :: r => S (rows_before_break r)
  | _ :: r => rows_before_break r
  end.

(** The font in effect after the commands [cs], from [f]. *)
Fixpoint font_after (f : font) (cs : list cmd) : font :=
  match cs with
  | [] => f
  | SetFont g _ :: r => font_after g r
  | _ :: r => font_after f r
  end.

(** ** Lemmas *)

(** *** Grouping and reading back *)

Definition digit_ok (c : Ascii.ascii) : Prop := Ascii.eqb c DOT = false /\ Ascii.eqb c MINUS = false.

Lemma uint_digits_ok u : Forall digit_ok (String.list_ascii_of_string (uint_string u)).
Proof. induction u; cbn; constructor; try (split; reflexivity); done. Qed.

Lemma uint_string_nonempty n : String.list_ascii_of_string (uint_string (N.to_uint n)) <> [].
Proof.
  destruct n as [|p]; [done|]. cbn. pose proof (DecimalPos.Unsigned.to_uint_nonnil p) as H.
  destruct (Pos.to_uint p); cbn; done.
Qed.

(** Grouping only adds dots, and keeps a list non-empty. *)
Lemma group_rev_spec l :
  List.filter (fun c => negb (Ascii.eqb c DOT)) (group_rev l) = List.filter (fun c => negb (Ascii.eqb c DOT)) l /\
  (Forall digit_ok l -> Forall (fun c => Ascii.eqb c MINUS = false) (group_rev l)) /\
  (l <> [] -> group_rev l <> []).
Proof.
  remember (length l) as n eqn:E. revert l E.
  induction n as [n IH] using lt_wf_ind. intros l E.
  destruct l as [|a [|b [|c [|d r]]]];
    try (cbn [group_rev]; split_and!; [done| |done]; intros Hl; eapply Forall_impl; [exact Hl|]; by intros ? [_ ?]).
  destruct (IH (length (d :: r)) ltac:(cbn in *; lia) (d :: r) eq_refl) as (H1 & H2 & H3).
  change (group_rev (a :: b :: c :: d :: r)) with (a :: b :: c :: DOT :: group_rev (d :: r)).
  split_and!.
  - change (a :: b :: c :: DOT :: group_rev (d :: r)) with ([a; b; c; DOT] ++ group_rev (d :: r)).
    change (a :: b :: c :: d :: r) with ([a; b; c] ++ d :: r).
    rewrite !List.filter_app, H1. f_equal.
  - intros Hl. inversion Hl as [|? ? [_ Ha] Hl1]. inversion Hl1 as [|? ? [_ Hb] Hl2].
    inversion Hl2 as [|? ? [_ Hc] Hl3]. repeat constructor; try done. by apply H2.
  - done.
Qed.

Lemma filter_rev {A} (f : A -> bool) l : List.filter f (rev l) = rev (List.filter f l).
Proof.
  induction l as [|x l IH]; [done|]. cbn. rewrite List.filter_app, IH. cbn.
  destruct (f x); cbn; [done|]. by rewrite app_nil_r.
Qed.

Lemma filter_all_true {A} (f : A -> bool) l : Forall (fun x => f x = true) l -> List.filter f l = l.
Proof. induction 1 as [|x l Hx _ IH]; [done|]. cbn. by rewrite Hx, IH. Qed.

(** The grouped digits of [u]: no "-" among them, and without the dots
    they are the digits. *)
Lemma grouped_digits n :
  let u := N.to_uint n in
  let G := rev (group_rev (rev (String.list_ascii_of_string (uint_string u)))) in
  List.filter (fun c => negb (Ascii.eqb c DOT)) G = String.list_ascii_of_string (uint_string u) /\
  Forall (fun c => Ascii.eqb c MINUS = false) G /\ G <> [].
Proof.
  intros u G. pose proof (uint_digits_ok u) as Hd.
  destruct (group_rev_spec (rev (String.list_ascii_of_string (uint_string u)))) as (H1 & H2 & H3).
  subst G. split_and!.
  - rewrite filter_rev, H1, filter_rev, rev_involutive. apply filter_all_true.
    eapply Forall_impl; [exact Hd|]. intros c [Hc _]. by rewrite Hc.
  - apply Forall_rev, H2, Forall_rev, Hd.
  - intros E. apply (f_equal (@rev _)) in E. rewrite rev_involutive in E.
    apply H3; [|done]. intros E'. apply (f_equal (@rev _)) in E'. rewrite rev_involutive in E'.
    by apply (uint_string_nonempty n).
Qed.

Lemma parse_body (neg : bool) (G : list Ascii.ascii) (u : Decimal.uint) :
  List.filter (fun c => negb (Ascii.eqb c DOT)) G = String.list_ascii_of_string (uint_string u) ->
  parse_unsigned neg (G ++ CENTS) = Some (let v := Z.of_N (N.of_uint u) in if neg then - v else v).
Proof.
  intros HG. unfold parse_unsigned. rewrite length_app.
  replace (length G + length CENTS - 3)%nat with (length G) by (cbn; lia).
  rewrite drop_app_length, take_app_length, HG, String.string_of_list_ascii_of_string,
    string_uint_uint_string. by rewrite decide_True.
Qed.

Lemma N_of_to_abs q : Z.of_N (N.of_uint (N.to_uint (Z.to_N (Z.abs q)))) = Z.abs q.
Proof. rewrite DecimalN.Unsigned.of_to. lia. Qed.

(** *** Reading the table back *)

Lemma row_tops_app l r : row_tops (l ++ r) = row_tops l ++ row_tops r.
Proof. apply omap_app. Qed.

Lemma row_cells_skip l r : forallb no_rect l = true -> row_cells (l ++ r) = row_cells r.
Proof.
  induction l as [|c l IH]; intros Hl; [done|]. apply andb_prop in Hl as [Hc Hl].
  destruct c; try discriminate; cbn [app]; apply IH, Hl.
Qed.

Lemma row_fonts_skip l f r : forallb no_rect l = true -> row_fonts f (l ++ r) = row_fonts (font_after f l) r.
Proof.
  revert f. induction l as [|c l IH]; intros f Hl; [done|]. apply andb_prop in Hl as [Hc Hl].
  destruct c; try discriminate; cbn [app row_fonts font_after]; apply IH, Hl.
Qed.

Lemma row_fonts_none l f : forallb no_rect l = true -> row_fonts f l = [].
Proof. intros Hl. rewrite <- (app_nil_r l), row_fonts_skip by done. reflexivity. Qed.

Lemma row_fonts_app l f r : row_fonts f (l ++ r) = row_fonts f l ++ row_fonts (font_after f l) r.
Proof. revert f. induction l as [|c l IH]; intros f; [done|]. destruct c; cbn; rewrite ?IH; done. Qed.

(** No page break nor row before the table. *)
Lemma rows_before_break_skip l r :
  forallb plain l = true ->
  rows_before_break (l ++ r) = rows_before_break r.
Proof.
  induction l as [|c l IH]; intros Hl; [done|]. apply andb_prop in Hl as [Hc Hl].
  destruct c; try discriminate; cbn [app]; apply IH, Hl.
Qed.

Lemma rows_before_break_tail l r :
  forallb no_rect r = true -> rows_before_break (l ++ r) = rows_before_break l.
Proof.
  intros Hr. induction l as [|c l IH].
  - induction r as [|c r IHr]; [done|]. apply andb_prop in Hr as [Hc Hr].
    destruct c; try discriminate; cbn; try apply IHr, Hr; done.
  - destruct c; cbn [app rows_before_break]; rewrite ?IH; done.
Qed.

Lemma row_tops_row y p q w : row_tops (table_row y p q w) = [y].
Proof. reflexivity. Qed.

Lemma row_tops_header y : row_tops (table_header y) = [].
Proof. reflexivity. Qed.

Lemma check_new_page_cases y :
  (PAGE_BOTTOM < y + ROW_H * 2 /\ check_new_page y = ([AddPage] ++ table_header MARGIN, MARGIN + ROW_H)) \/
  (y + ROW_H * 2 <= PAGE_BOTTOM /\ check_new_page y = ([], y)).
Proof.
  unfold check_new_page. destruct (Z.gtb_spec (y + ROW_H * 2) PAGE_BOTTOM); [left|right]; done.
Qed.

Lemma table_rows_cons y p q w rest :
  fst (table_rows y ((p, q, w) :: rest)) =
  fst (check_new_page y) ++ table_row (snd (check_new_page y)) p q w ++
  fst (table_rows (snd (check_new_page y) + ROW_H) rest).
Proof.
  cbn [table_rows]. destruct (check_new_page y) as [brk y1].
  cbn [fst snd]. by destruct (table_rows (y1 + ROW_H) rest).
Qed.

(** Each row is drawn inside the page's margins, one per item. *)
Lemma table_rows_tops y items :
  MARGIN + ROW_H <= y ->
  Forall (fun t => MARGIN + ROW_H <= t /\ t + ROW_H <= PAGE_BOTTOM) (row_tops (fst (table_rows y items))) /\
  length (row_tops (fst (table_rows y items))) = length items.
Proof.
  revert y. induction items as [|[[p q] w] rest IH]; intros y Hy; [done|].
  rewrite table_rows_cons, !row_tops_app, row_tops_row.
  destruct (check_new_page_cases y) as [[Hb ->]|[Hb ->]]; cbn [fst snd].
  - destruct (IH (MARGIN + ROW_H + ROW_H)) as [IH1 IH2]; [cbv [MARGIN ROW_H]; lia|].
    rewrite row_tops_app, row_tops_header. change (row_tops [AddPage]) with (@nil Z).
    cbn [app length]. split.
    + constructor; [cbv [MARGIN ROW_H PAGE_BOTTOM PAGE_H]; lia|exact IH1].
    + by rewrite IH2.
  - destruct (IH (y + ROW_H)) as [IH1 IH2]; [cbv [MARGIN ROW_H] in *; lia|].
    change (row_tops []) with (@nil Z). cbn [app length]. split.
    + constructor; [cbv [MARGIN ROW_H PAGE_BOTTOM PAGE_H] in *; lia|exact IH1].
    + by rewrite IH2.
Qed.

Lemma row_cells_rows y items r :
  row_cells (fst (table_rows y items) ++ r) =
  map (fun '(p, q, w) => (p, toLocaleString_ptBR2 q, w)) items ++ row_cells r.
Proof.
  revert y. induction items as [|[[p q] w] rest IH]; intros y; [done|].
  rewrite table_rows_cons, <- !app_assoc.
  destruct (check_new_page_cases y) as [[_ ->]|[_ ->]]; cbn [fst snd].
  - rewrite <- app_assoc, row_cells_skip by reflexivity. cbn. by rewrite IH.
  - cbn. by rewrite IH.
Qed.

Lemma row_fonts_rows_bold y items :
  row_fonts HelveticaBold (fst (table_rows y items)) = repeat HelveticaBold (length items).
Proof.
  revert y. induction items as [|[[p q] w] rest IH]; intros y; [done|].
  rewrite table_rows_cons.
  destruct (check_new_page_cases y) as [[_ ->]|[_ ->]]; cbn; by rewrite IH.
Qed.

(** Until the first page break the rows are in the font the table set;
    [checkNewPage] redraws the header, which sets Helvetica-Bold, and the
    rows after it keep that font. *)
Lemma row_fonts_rows f y items :
  row_fonts f (fst (table_rows y items)) =
  repeat f (rows_before_break (fst (table_rows y items))) ++
  repeat HelveticaBold (length items - rows_before_break (fst (table_rows y items))).
Proof.
  revert y. induction items as [|[[p q] w] rest IH]; intros y; [done|].
  rewrite table_rows_cons.
  destruct (check_new_page_cases y) as [[_ ->]|[_ ->]]; cbn [fst snd app].
  - cbn. by rewrite row_fonts_rows_bold.
  - cbn. rewrite IH. cbn. done.
Qed.

Lemma data_cmds_plain id op date cn cd : forallb plain (data_cmds id op date cn cd) = true.
Proof. unfold data_cmds. repeat case_match; reflexivity. Qed.

(** *** The documents' tables *)

Lemma plain_no_rect l : forallb plain l = true -> forallb no_rect l = true.
Proof.
  induction l as [|c l IH]; intros Hl; [done|]. apply andb_prop in Hl as [Hc Hl].
  apply andb_prop in Hc as [Hc _]. cbn. by rewrite Hc, IH.
Qed.

Lemma row_tops_none l : forallb no_rect l = true -> row_tops l = [].
Proof.
  induction l as [|c l IH]; intros Hl; [done|]. apply andb_prop in Hl as [Hc Hl].
  destruct c; try discriminate; exact (IH Hl).
Qed.

Lemma row_cells_none l : forallb no_rect l = true -> row_cells l = [].
Proof. intros Hl. rewrite <- (app_nil_r l), row_cells_skip by done. reflexivity. Qed.

Lemma table_cmds_unfold top items :
  table_cmds top items =
  (table_header top ++ [SetFont Helvetica 100]) ++ fst (table_rows (top + ROW_H) items) ++
  [SetCursor MARGIN (snd (table_rows (top + ROW_H) items) + 15000)].
Proof. unfold table_cmds. destruct (table_rows _ _). by rewrite <- app_assoc. Qed.

Section Table.
(** A document that draws [pre], the table of [items] at [top], then
    [post]: nothing before the table draws a row or breaks the page,
    nothing after it draws a row. *)
Context (pre post : list cmd) (top : Z) (items : list (string * Z * string)).
Hypotheses (Hpre : forallb plain pre = true) (Hpost : forallb no_rect post = true).

Let rows := fst (table_rows (top + ROW_H) items).
Let tail := [SetCursor MARGIN (snd (table_rows (top + ROW_H) items) + 15000)] ++ post.

Lemma doc_eq : pre ++ table_cmds top items ++ post = pre ++ (table_header top ++ [SetFont Helvetica 100]) ++ rows ++ tail.
Proof. rewrite table_cmds_unfold. by rewrite <- !app_assoc. Qed.

Lemma tail_no_rect : forallb no_rect tail = true.
Proof. unfold tail. cbn. exact Hpost. Qed.

Lemma doc_cells :
  row_cells (pre ++ table_cmds top items ++ post) = map (fun '(p, q, w) => (p, toLocaleString_ptBR2 q, w)) items.
Proof.
  rewrite doc_eq, row_cells_skip, row_cells_skip by (apply plain_no_rect; done || reflexivity).
  unfold rows. by rewrite row_cells_rows, row_cells_none, app_nil_r by exact tail_no_rect.
Qed.

Lemma doc_fonts f :
  row_fonts f (pre ++ table_cmds top items ++ post) = row_fonts Helvetica rows.
Proof.
  rewrite doc_eq, row_fonts_skip, row_fonts_skip by (apply plain_no_rect; done || reflexivity).
  change (font_after _ (table_header top ++ [SetFont Helvetica 100])) with Helvetica.
  by rewrite row_fonts_app, (row_fonts_none tail), app_nil_r by exact tail_no_rect.
Qed.

Lemma doc_break : rows_before_break (pre ++ table_cmds top items ++ post) = rows_before_break rows.
Proof.
  rewrite doc_eq, rows_before_break_skip, rows_before_break_skip by (done || reflexivity).
  exact (rows_before_break_tail rows tail tail_no_rect).
Qed.

Lemma doc_tops : row_tops (pre ++ table_cmds top items ++ post) = row_tops rows.
Proof.
  rewrite doc_eq, !row_tops_app, (row_tops_none pre), (row_tops_none tail)
    by first [exact tail_no_rect | apply plain_no_rect; done].
  rewrite row_tops_header. change (row_tops [SetFont Helvetica 100]) with (@nil Z).
  cbn [app]. by rewrite app_nil_r.
Qed.

Lemma doc_rows_in_page :
  MARGIN <= top ->
  Forall (fun t => MARGIN + ROW_H <= t /\ t + ROW_H <= PAGE_BOTTOM) (row_tops (pre ++ table_cmds top items ++ post)) /\
  length (row_tops (pre ++ table_cmds top items ++ post)) = length items.
Proof. intros Htop. rewrite doc_tops. apply table_rows_tops. lia. Qed.

Lemma doc_fonts_break f :
  let D := pre ++ table_cmds top items ++ post in
  row_fonts f D = repeat Helvetica (rows_before_break D) ++ repeat HelveticaBold (length items - rows_before_break D).
Proof. cbv zeta. rewrite doc_fonts, doc_break. apply row_fonts_rows. Qed.
End Table.

Section Docs.
Context (date_text : Z -> string) (table_top : list cmd -> Z).

(** Both documents are a preamble, the table at the cursor, and the
    declaration and signature blocks. *)
Lemma exit_doc_split movements cn cd dcl op :
  movements = [] /\ exit_doc date_text table_top movements cn cd dcl op = [] \/
  exists pre post,
    exit_doc date_text table_top movements cn cd dcl op =
      pre ++ table_cmds (table_top pre) (map os_item movements) ++ post /\
    forallb plain pre = true /\ forallb no_rect post = true.
Proof.
  destruct movements as [|first rest]; [by left|right]. cbn [exit_doc].
  eexists _, _. split_and!; [reflexivity| |reflexivity].
  rewrite forallb_app, data_cmds_plain. reflexivity.
Qed.

Lemma signed_doc_split order items op dcl sig :
  exists pre post,
    signed_doc date_text table_top order items op dcl sig =
      pre ++ table_cmds (table_top pre) (map exit_item_row items) ++ post /\
    forallb plain pre = true /\ forallb no_rect post = true.
Proof.
  eexists _, _. split_and!; [reflexivity| |reflexivity].
  rewrite forallb_app, data_cmds_plain. reflexivity.
Qed.
End Docs.

(** ** Theorems *)

(** C27 (roundtrip): the quantity the PDF prints for an item reads back
    to the item's quantity: [toLocaleString("pt-BR", { minimumFractionDigits:
    2, maximumFractionDigits: 2 })] of an integer is its sign, its digits
    grouped by three with ".", and ",00", and nothing is lost. *)
Theorem toLocaleString_ptBR2_roundtrip q : parse_ptBR2 (toLocaleString_ptBR2 q) = Some q.
Proof.
  unfold parse_ptBR2, toLocaleString_ptBR2, group_thousands.
  rewrite !list_ascii_app, String.list_ascii_of_string_of_list_ascii.
  destruct (grouped_digits (Z.to_N (Z.abs q))) as (HG & Hm & Hne). cbv zeta in *.
  set (G := rev (group_rev (rev (String.list_ascii_of_string (uint_string (N.to_uint (Z.to_N (Z.abs q)))))))) in *.
  destruct (Z.ltb_spec q 0) as [Hq|Hq].
  - change (String.list_ascii_of_string "-") with [MINUS]. change (String.list_ascii_of_string ",00") with CENTS.
    cbn [app]. rewrite Ascii.eqb_refl, (parse_body true G _ HG), N_of_to_abs. f_equal. cbv zeta. lia.
  - change (String.list_ascii_of_string "") with (@nil Ascii.ascii).
    change (String.list_ascii_of_string ",00") with CENTS.
    destruct G as [|c G'] eqn:EG; [done|]. inversion Hm as [|? ? Hc _].
    cbn [app]. rewrite Hc, app_comm_cons, (parse_body false (c :: G') _ HG), N_of_to_abs.
    f_equal. cbv zeta. lia.
Qed.

(** C23 (functional): both documents print one table row per item, in
    the order of the list the code passes ([movements] for
    [generateExitOS], the order's items for [addSignatureToPdf]): the
    product's name, the quantity as [toLocaleString("pt-BR")] with two
    decimals, and the warehouse's name, in the three columns. *)
Theorem printed_rows_list_items date_text table_top movements cn cd dcl op order items op' dcl' sig :
  row_cells (exit_doc date_text table_top movements cn cd dcl op) =
    map (fun m => (or_product m, toLocaleString_ptBR2 (or_quantity m), or_warehouse m)) movements /\
  row_cells (signed_doc date_text table_top order items op' dcl' sig) =
    map (fun it => (it_product it, toLocaleString_ptBR2 (it_quantity it), it_warehouse it)) items.
Proof.
  split.
  - destruct (exit_doc_split date_text table_top movements cn cd dcl op)
      as [[-> ->]|(pre & post & -> & Hpre & Hpost)]; [done|].
    rewrite doc_cells, map_map by done. apply map_ext. by intros [].
  - destruct (signed_doc_split date_text table_top order items op' dcl' sig) as (pre & post & -> & Hpre & Hpost).
    rewrite doc_cells, map_map by done. apply map_ext. by intros [].
Qed.

(** C25 (bounds): when the table starts below the top margin, every row
    of either document lies between the header row under the top margin
    and the bottom margin, [checkNewPage] moving to a new page before a
    row would pass it, and no item is lost to the breaks. *)
Theorem printed_rows_in_page date_text table_top movements cn cd dcl op order items op' dcl' sig :
  (forall cs, MARGIN <= table_top cs) ->
  let in_page t := MARGIN + ROW_H <= t /\ t + ROW_H <= PAGE_BOTTOM in
  let D := exit_doc date_text table_top movements cn cd dcl op in
  let S := signed_doc date_text table_top order items op' dcl' sig in
  (Forall in_page (row_tops D) /\ length (row_tops D) = length movements) /\
  (Forall in_page (row_tops S) /\ length (row_tops S) = length items).
Proof.
  intros Htop in_page D S. split.
  - destruct (exit_doc_split date_text table_top movements cn cd dcl op)
      as [[-> HD]|(pre & post & HD & Hpre & Hpost)]; subst D; rewrite HD; [done|].
    rewrite <- (length_map os_item). by apply doc_rows_in_page.
  - destruct (signed_doc_split date_text table_top order items op' dcl' sig) as (pre & post & HS & Hpre & Hpost).
    subst S. rewrite HS, <- (length_map exit_item_row). by apply doc_rows_in_page.
Qed.

(** C24 (functional): the rows drawn before the first page break are in
    Helvetica, and every row after it is in Helvetica-Bold, whatever the
    font before: [checkNewPage] calls [drawTableHeader], which sets the
    bold font for the header's labels, and nothing sets the regular font
    again before the next rows. *)
Theorem rows_after_break_bold date_text table_top movements cn cd dcl op order items op' dcl' sig f :
  let D := exit_doc date_text table_top movements cn cd dcl op in
  let S := signed_doc date_text table_top order items op' dcl' sig in
  row_fonts f D = repeat Helvetica (rows_before_break D) ++
                  repeat HelveticaBold (length movements - rows_before_break D) /\
  row_fonts f S = repeat Helvetica (rows_before_break S) ++
                  repeat HelveticaBold (length items - rows_before_break S).
Proof.
  intros D S. split.
  - destruct (exit_doc_split date_text table_top movements cn cd dcl op)
      as [[-> HD]|(pre & post & HD & Hpre & Hpost)]; subst D; rewrite HD; [done|].
    rewrite <- (length_map os_item). by apply doc_fonts_break.
  - destruct (signed_doc_split date_text table_top order items op' dcl' sig) as (pre & post & HS & Hpre & Hpost).
    subst S. rewrite HS, <- (length_map exit_item_row). by apply doc_fonts_break.
Qed.

(** The bounds hold for a table that starts at 700 points, whose first
    row already goes to a new page. *)
Lemma printed_rows_in_page_witness :
  (forall cs : list cmd, MARGIN <= (fun _ => 700000) cs) /\
  let D := exit_doc (fun _ => "") (fun _ => 700000) [mkOsRow 1 5 0 "Cabo" "Central"] "Ana" None "Recebi." "" in
  Forall (fun t => MARGIN + ROW_H <= t /\ t + ROW_H <= PAGE_BOTTOM) (row_tops D) /\ length (row_tops D) = 1%nat.
Proof.
  assert (H : forall cs : list cmd, MARGIN <= (fun _ => 700000) cs) by (intros; cbv; discriminate).
  split; [exact H|].
  exact (proj1 (printed_rows_in_page (fun _ => "") (fun _ => 700000) [mkOsRow 1 5 0 "Cabo" "Central"] "Ana" None "Recebi." ""
                  (mkOrderView (mkExitOrder 1 1 "Ana" None "" None [] None 0) 0 None 0 "" "" 0) [] "" "" "" H)).
Defined.

(** Three rows under a header at 660 points: the third one needs a new
    page and is drawn in bold. *)
Example rows_after_break_bold_example :
  row_fonts Helvetica (exit_doc (fun _ => "") (fun _ => 660000) (repeat (mkOsRow 1 5 0 "Cabo" "Central") 3)
                         "Ana" None "Recebi." "") = [Helvetica; Helvetica; HelveticaBold].
Proof. vm_compute. reflexivity. Qed.
