(* ===== verification/Dashboard.v ===== *)
(** * Dashboard: the summary of GET /api/dashboard/resumo

    Models src/Backend/src/models/dashboardModel.js
    ([getDashboardSummary]) and controllers/dashboardController.js
    ([dashboardSummaryController]); the route has only [authRequired].

    [getDashboardSummary({ warehouseId })] sends six read-only queries,
    each limited to the warehouse when [warehouseId] is truthy
    ([in_scope]): the stock total and the number of distinct products with
    a balance, the number of products and of warehouses (not limited), the
    movements of the current month by type, the movements grouped by month
    (the six latest months, then reversed), and the movements grouped by
    warehouse.

    The calendar is the parameter [month_of] of the section: it maps a
    timestamp to the index [12 * YEAR + MONTH - 1] of its month, which
    orders the [DATE_FORMAT(m.created_at, '%Y-%m')] keys as the strings
    do for four-digit years; CURDATE() is the database clock
    [Schema.clock]. *)

From stdpp Require Import sorting.
From S2P Require Import Prelude Schema Permission StockModel Ledger StockController.

Open Scope Z_scope.
Open Scope est_scope.

Record cards := mkCards {
  total_stock_quantity : Z;
  products_with_stock : Z;
  total_products : Z;
  total_warehouses : Z;
  total_movements_month : Z;
  entries_month : Z;
  exits_month : Z
}.

(** A row of the query grouped by month. *)
Record month_row := mkMonthRow {
  mr_month : Z;
  mr_total : Z;
  mr_entries : Z;
  mr_exits : Z
}.

(** A row of the query grouped by warehouse. *)
Record warehouse_count := mkWarehouseCount {
  wc_id : Z;
  wc_name : string;
  wc_total : Z
}.

Record summary := mkSummary {
  sm_cards : cards;
  sm_by_month : list month_row;
  sm_by_warehouse : list warehouse_count
}.

(** [warehouseId ? "WHERE ... warehouse_id = ?" : ""] *)
Definition in_scope (warehouseId : option Z) (w : Z) : bool :=
  match warehouseId with
  | Some x => if js_falsy_Z x then true else w =? x
  | None => true
  end.

Definition scoped_stock (warehouseId : option Z) (d : db) : list stock_row :=
  List.filter (fun r => in_scope warehouseId (st_warehouse r)) (rows (stock d)).

Definition scoped_movements (warehouseId : option Z) (d : db) : list movement :=
  List.filter (fun m => in_scope warehouseId (mv_warehouse m)) (rows (movements d)).

(** [SUM(CASE WHEN m.type = '...' THEN 1 ELSE 0 END)] *)
Definition count_type (t : mtype) (l : list movement) : Z :=
  Z.of_nat (length (List.filter (fun m => bool_decide (mv_type m = t)) l)).

(** [ORDER BY total DESC] *)
Definition total_desc (a b : warehouse_count) : Prop := wc_total b <= wc_total a.

#[export] Instance total_desc_dec : RelDecision total_desc.
Proof. intros a b. unfold total_desc. apply _. Defined.

(** [ORDER BY month DESC] *)
Definition month_desc (a b : Z) : Prop := b <= a.

#[export] Instance month_desc_dec : RelDecision month_desc.
Proof. intros a b. unfold month_desc. apply _. Defined.

Section Summary.
Context (month_of : Z -> Z).

Definition month_key (m : movement) : Z := month_of (mv_created_at m).

(** One group of [GROUP BY month]. *)
Definition month_row_of (l : list movement) (k : Z) : month_row :=
  let ms := List.filter (fun m => month_key m =? k) l in
  mkMonthRow k (Z.of_nat (length ms)) (count_type ENTRADA ms) (count_type SAIDA ms).

(** [GROUP BY month ORDER BY month DESC LIMIT 6], then
    [movByMonthRows.slice().reverse()]. *)
Definition movements_by_month (l : list movement) : list month_row :=
  rev (take 6 (map (month_row_of l) (merge_sort month_desc (remove_dups (map month_key l))))).

(** [FROM stock_movements m JOIN warehouses w ON w.id = m.warehouse_id
    GROUP BY w.id, w.name ORDER BY total DESC]. *)
Definition warehouse_count_of (l : list movement) (w : warehouse) : warehouse_count :=
  mkWarehouseCount (wh_id w) (wh_name w)
    (Z.of_nat (length (List.filter (fun m => mv_warehouse m =? wh_id w) l))).

Definition movements_by_warehouse (l : list movement) (d : db) : list warehouse_count :=
  merge_sort total_desc
    (map (warehouse_count_of l)
       (List.filter (fun w => existsb (fun m => mv_warehouse m =? wh_id w) l) (rows (warehouses d)))).

Definition getDashboardSummary (warehouseId : option Z) : St summary :=
  d <- read_db ;;
  let ss := scoped_stock warehouseId d in
  let ms := scoped_movements warehouseId d in
  let month := List.filter (fun m => month_key m =? month_of (clock d)) ms in
  ret (mkSummary
         (mkCards (sumZ st_quantity ss)
                  (Z.of_nat (length (remove_dups (map st_product ss))))
                  (Z.of_nat (length (rows (products d))))
                  (match warehouseId with
                   | Some x => if js_falsy_Z x then Z.of_nat (length (rows (warehouses d))) else 1
                   | None => Z.of_nat (length (rows (warehouses d)))
                   end)
                  (Z.of_nat (length month))
                  (count_type ENTRADA month)
                  (count_type SAIDA month))
         (movements_by_month ms)
         (movements_by_warehouse ms d)).

(** [isAdmin ? null : req.user?.warehouse_id || null] *)
Definition dashboardSummaryController (user : principal) : session -> reply * session :=
  try_next (
    let warehouseId := if String.eqb (u_role user) "admin" then None
                       else js_or_null_id (u_warehouse_id user) in
    sm <- getDashboardSummary warehouseId ;;
    ret (json (JObject sm))).
End Summary.

(** A calendar of 30-unit months for the example clock. *)
Definition demo_month (t : Z) : Z := t / 30.


(** ** Sums over the balances *)

Lemma sumZ_add {A} (f g : A -> Z) l : sumZ (fun x => f x + g x) l = sumZ f l + sumZ g l.
Proof. induction l as [|x l IH]; simpl; lia. Qed.

Lemma sumZ_zero {A} (l : list A) : sumZ (fun _ => 0) l = 0.
Proof. induction l as [|x l IH]; simpl; lia. Qed.

(** Over rows with distinct keys, an indicator of one key sums to its
    weight when the key is present and to 0 otherwise. *)
Lemma sumZ_indicator {A K} `{EqDecision K} (key : A -> K) k c l :
  NoDup (map key l) ->
  sumZ (fun x => if bool_decide (k = key x) then c else 0) l = if bool_decide (k ∈ map key l) then c else 0.
Proof.
  induction l as [|x l IH]; intros Hnd; simpl.
  - done.
  - apply NoDup_cons in Hnd as [Hx Hnd]. rewrite IH by done.
    repeat case_bool_decide; subst; rewrite ?elem_of_cons in *; try lia; naive_solver.
Qed.

Lemma of_pair_decide p w m : of_pair p w m = bool_decide ((mv_product m, mv_warehouse m) = (p, w)).
Proof.
  destruct (of_pair p w m) eqn:E.
  - symmetry. apply bool_decide_true. by apply of_pair_true.
  - symmetry. apply bool_decide_false. intros H. apply of_pair_true in H. congruence.
Qed.

Lemma NoDup_map_filter {A B} (f : A -> B) (P : A -> bool) l :
  NoDup (map f l) -> NoDup (map f (List.filter P l)).
Proof.
  induction l as [|x l IH]; simpl; [done|]. intros Hnd. apply NoDup_cons in Hnd as [Hx Hnd].
  destruct (P x); simpl; [|by apply IH]. constructor; [|by apply IH].
  intros Hin. apply Hx. apply list_elem_of_In in Hin. apply list_elem_of_In. apply in_map_iff in Hin as (y & Hy & Hin).
  apply in_map_iff. exists y. split; [done|]. by apply filter_In in Hin as [? _].
Qed.

(** The nets of distinct pairs add up to the movements of those pairs. *)
Lemma sum_nets (S : list stock_row) (M : list movement) (P : movement -> bool) :
  NoDup (map stock_pair S) ->
  (forall m, In m M -> P m = true <-> (mv_product m, mv_warehouse m) ∈ map stock_pair S) ->
  sumZ (fun r => sumZ signed (List.filter (of_pair (st_product r) (st_warehouse r)) M)) S =
  sumZ signed (List.filter P M).
Proof.
  intros Hnd. induction M as [|m M IH]; intros HP; simpl; [apply sumZ_zero|].
  rewrite (sumZ_ext _ (fun r => (if bool_decide ((mv_product m, mv_warehouse m) = stock_pair r)
                                  then signed m else 0) +
                                 sumZ signed (List.filter (of_pair (st_product r) (st_warehouse r)) M))).
  2: { intros r _. rewrite of_pair_decide. unfold stock_pair. by case_bool_decide. }
  rewrite sumZ_add, sumZ_indicator by done. rewrite IH by (intros x Hx; apply HP; by right).
  specialize (HP m (or_introl eq_refl)).
  destruct (P m) eqn:E; simpl.
  - rewrite bool_decide_true by (by apply HP). lia.
  - rewrite bool_decide_false by (intros H; apply HP in H; discriminate). lia.
Qed.

(** With the ledger invariant, the balances in scope are the nets of
    their pairs, and every scoped movement's pair has a balance in
    scope. *)
Lemma scoped_pairs d warehouseId m :
  ledger_ok d -> In m (rows (movements d)) ->
  in_scope warehouseId (mv_warehouse m) = true <->
  (mv_product m, mv_warehouse m) ∈ map stock_pair (scoped_stock warehouseId d).
Proof.
  intros (_ & _ & Hmv) Hin. rewrite List.Forall_forall in Hmv. split.
  - intros Hs. destruct (Hmv m Hin) as [q Hq]. unfold balance in Hq.
    destruct (find_stock (mv_product m) (mv_warehouse m) d) as [r|] eqn:E; [|done].
    unfold find_stock in E. apply find_some in E as [Hr Hk]. apply stock_key_true in Hk as [Hp Hw].
    apply list_elem_of_In, in_map_iff. exists r. unfold stock_pair. rewrite Hp, Hw.
    split; [done|]. apply filter_In. by rewrite Hw.
  - intros Hp. apply list_elem_of_In, in_map_iff in Hp as (r & Hr & Hin').
    apply filter_In in Hin' as [_ Hs]. unfold stock_pair in Hr. injection Hr as _ <-. done.
Qed.

Lemma scoped_total_is_net d warehouseId :
  ledger_ok d ->
  sumZ st_quantity (scoped_stock warehouseId d) = sumZ signed (scoped_movements warehouseId d).
Proof.
  intros Hl. pose proof Hl as (Hnd & Hrows & _). rewrite List.Forall_forall in Hrows.
  rewrite (sumZ_ext _ (fun r => sumZ signed (List.filter (of_pair (st_product r) (st_warehouse r))
                                                (rows (movements d))))).
  - apply sum_nets; [by apply NoDup_map_filter|]. intros m Hm. by apply scoped_pairs.
  - intros r Hr. apply filter_In in Hr as [Hr _]. apply (Hrows r Hr).
Qed.

Lemma count_types l : count_type ENTRADA l + count_type SAIDA l = Z.of_nat (length l).
Proof.
  unfold count_type. induction l as [|m l IH]; [done|]. simpl.
  destruct (mv_type m); simpl; rewrite ?bool_decide_true, ?bool_decide_false by done; simpl; lia.
Qed.

Lemma StronglySorted_take {A} (R : relation A) n l :
  StronglySorted R l -> StronglySorted R (take n l).
Proof.
  revert n. induction l as [|x l IH]; intros n Hs; [rewrite take_nil; constructor|].
  destruct n as [|n]; simpl; [constructor|].
  apply StronglySorted_inv in Hs as [Hs Hx]. constructor; [by apply IH|].
  rewrite List.Forall_forall in Hx |- *. intros y Hy. apply Hx.
  apply list_elem_of_In. apply (in_take n). by apply list_elem_of_In.
Qed.

Lemma StronglySorted_rev {A} (R : relation A) l :
  StronglySorted R l -> StronglySorted (fun a b => R b a) (rev l).
Proof.
  induction l as [|x l IH]; intros Hs; simpl; [constructor|].
  apply StronglySorted_inv in Hs as [Hs Hx]. apply StronglySorted_snoc; [by apply IH|].
  rewrite List.Forall_forall in Hx |- *. intros y Hy. apply Hx. by apply in_rev.
Qed.

Lemma StronglySorted_strict l :
  StronglySorted month_desc l -> NoDup l -> StronglySorted (fun a b => b < a) l.
Proof.
  induction l as [|x l IH]; intros Hs Hnd; [constructor|].
  apply StronglySorted_inv in Hs as [Hs Hx]. apply NoDup_cons in Hnd as [Hn Hnd].
  constructor; [by apply IH|]. rewrite List.Forall_forall in Hx |- *. intros y Hy.
  specialize (Hx y Hy). unfold month_desc in Hx.
  assert (y <> x) by (intros ->; apply Hn; by apply list_elem_of_In). lia.
Qed.

#[local] Instance month_desc_trans : Transitive month_desc.
Proof. unfold month_desc. intros a b c. lia. Qed.

#[local] Instance month_desc_total : Total month_desc.
Proof. unfold month_desc. intros a b. lia. Qed.

(** The month keys the grouped query returns, newest first, without
    duplicates. *)
Lemma month_keys_sorted (l : list Z) :
  StronglySorted (fun a b => b < a) (merge_sort month_desc (remove_dups l)).
Proof.
  apply StronglySorted_strict; [apply (StronglySorted_merge_sort month_desc)|].
  rewrite (merge_sort_Permutation month_desc _). apply NoDup_remove_dups.
Qed.

Lemma months_of_rows month_of l ks n :
  map mr_month (rev (take n (map (month_row_of month_of l) ks))) = rev (take n ks).
Proof.
  rewrite map_rev. f_equal. revert n. induction ks as [|k ks IH]; intros [|n]; simpl; try done.
  by rewrite IH.
Qed.

Lemma month_rows_sums month_of l :
  List.Forall (fun r => mr_entries r + mr_exits r = mr_total r) (movements_by_month month_of l).
Proof.
  apply List.Forall_forall. intros r Hr. unfold movements_by_month in Hr.
  apply in_rev, list_elem_of_In, in_take, list_elem_of_In, in_map_iff in Hr as (k & <- & _).
  apply count_types.
Qed.

(** The newest month of the log is the last row of the chart. *)
Lemma latest_month month_of l m :
  In m l -> exists r, last (movements_by_month month_of l) = Some r /\ month_key month_of m <= mr_month r.
Proof.
  intros Hm. unfold movements_by_month.
  assert (Hk : month_key month_of m ∈ merge_sort month_desc (remove_dups (map (month_key month_of) l))).
  { rewrite (merge_sort_Permutation month_desc _), elem_of_remove_dups.
    apply list_elem_of_In, in_map_iff. by exists m. }
  pose proof (StronglySorted_merge_sort month_desc (remove_dups (map (month_key month_of) l))) as Hs.
  destruct (merge_sort month_desc _) as [|k ks]; [by apply not_elem_of_nil in Hk|].
  simpl. rewrite last_snoc. eexists. split; [reflexivity|]. simpl.
  apply StronglySorted_inv in Hs as [_ Hks]. apply elem_of_cons in Hk as [->|Hk]; [lia|].
  rewrite List.Forall_forall in Hks. apply list_elem_of_In in Hk. specialize (Hks _ Hk).
  unfold month_desc in Hks. lia.
Qed.

(** ** Theorems *)

(** C33: the dashboard's stock total agrees with the ledger.  From a
    state where every balance is the net of its pair's movements and every
    movement's pair has a balance, [getDashboardSummary] succeeds, changes
    nothing, and its [total_stock_quantity] (limited to the warehouse or
    not) is the sum of the signed quantities of the movements in scope:
    entries minus exits. *)
Theorem getDashboardSummary_total_is_net month_of warehouseId s :
  ledger_ok (sdb s) ->
  exists sm, getDashboardSummary month_of warehouseId s = (Ok sm, s) /\
    total_stock_quantity (sm_cards sm) = sumZ signed (scoped_movements warehouseId (sdb s)).
Proof. intros Hl. eexists. split; [reflexivity|]. by apply scoped_total_is_net. Qed.

(** The counts of the dashboard are consistent: the month's entries
    and exits add up to its movements; the chart by month has at most six
    rows, in strictly increasing month order, each with entries plus exits
    equal to its total, and its last row is the newest month of the
    movements in scope. *)
Theorem getDashboardSummary_months month_of warehouseId s sm :
  fst (getDashboardSummary month_of warehouseId s) = Ok sm ->
  entries_month (sm_cards sm) + exits_month (sm_cards sm) = total_movements_month (sm_cards sm) /\
  (length (sm_by_month sm) <= 6)%nat /\
  StronglySorted Z.lt (map mr_month (sm_by_month sm)) /\
  List.Forall (fun r => mr_entries r + mr_exits r = mr_total r) (sm_by_month sm) /\
  (forall m, In m (scoped_movements warehouseId (sdb s)) ->
     exists r, last (sm_by_month sm) = Some r /\ month_key month_of m <= mr_month r).
Proof.
  intros Hsm. injection Hsm as <-. simpl. split_and!.
  - apply count_types.
  - unfold movements_by_month. rewrite length_rev, length_take. lia.
  - unfold movements_by_month. rewrite months_of_rows.
    exact (StronglySorted_rev _ _ (StronglySorted_take _ _ _ (month_keys_sorted _))).
  - apply month_rows_sums.
  - intros m Hm. by apply latest_month.
Qed.

(** C34: the dashboard is not limited to the caller's unit.  Only the role
    "admin" is tested: any other caller (a supervisor, a user) whose token
    has no warehouse gets exactly the reply of an admin, with the totals
    of every unit. *)
Theorem dashboardSummaryController_unscoped month_of user admin s :
  u_role admin = "admin" -> u_warehouse_id user = None ->
  dashboardSummaryController month_of user s = dashboardSummaryController month_of admin s.
Proof.
  intros Ha Hw. unfold dashboardSummaryController. rewrite Ha, Hw. simpl.
  by destruct (String.eqb (u_role user) "admin").
Qed.

(** ** Witnesses on the example database *)

Lemma getDashboardSummary_total_is_net_witness :
  exists sm, getDashboardSummary demo_month (Some 1) demo_session = (Ok sm, demo_session) /\
    total_stock_quantity (sm_cards sm) = sumZ signed (scoped_movements (Some 1) demo_db).
Proof. apply getDashboardSummary_total_is_net. decide_prop. Defined.

Lemma getDashboardSummary_months_witness :
  let sm := match fst (getDashboardSummary demo_month None demo_session) with
            | Ok x => x | Err _ => mkSummary (mkCards 0 0 0 0 0 0 0) [] [] end in
  entries_month (sm_cards sm) + exits_month (sm_cards sm) = total_movements_month (sm_cards sm) /\
  (length (sm_by_month sm) <= 6)%nat /\
  StronglySorted Z.lt (map mr_month (sm_by_month sm)) /\
  List.Forall (fun r => mr_entries r + mr_exits r = mr_total r) (sm_by_month sm) /\
  (forall m, In m (scoped_movements None demo_db) ->
     exists r, last (sm_by_month sm) = Some r /\ month_key demo_month m <= mr_month r).
Proof. intros sm. apply (getDashboardSummary_months demo_month None demo_session). reflexivity. Defined.

Lemma dashboardSummaryController_unscoped_witness :
  dashboardSummaryController demo_month bia demo_session =
  dashboardSummaryController demo_month (mkPrincipal 9 "Caio" "admin" None None) demo_session.
Proof. apply dashboardSummaryController_unscoped; reflexivity. Defined.
