(* ===== verification/Users.v ===== *)
(** * Users: accounts, invitations and profiles

    Models src/Backend/src/models/userModel.js, the handlers of
    controllers/authController.js ([register], [login], [inviteUser],
    [setPassword]) and of controllers/userController.js (those
    routes/userRoutes.js mounts, with their gates, and the unrouted
    [loginController]).

    An account is a row of [users].  It is activated by an invitation:
    [inviteUser] stores the SHA-256 of a random token and an expiry 24
    hours ahead for an account without a password; [setPassword] accepts
    the token whose hash is stored until the expiry, writes the password
    hash and clears the invitation.  Profile and administration updates go
    through [updateUser], which writes only the columns the body carries
    and never the invitation.

    The collaborators the code imports from files the repository does not
    contain (utils/password.js, utils/jwt.js) and Node's crypto module are
    the interface [Crypto]: [sha256], [hashPassword] (which may throw),
    [comparePassword], [bcrypt_hash] of bcryptjs, and [signToken], whose
    token is modelled by the payload it carries.  The expiry is kept in
    milliseconds; the rounding of a DATETIME column to the second is not
    modelled.  A name userController.js neither imports nor declares
    ([hashPassword], [jwt]) is evaluated against the module's bindings
    ([userController_scope], [in_scope]) and throws a ReferenceError,
    whatever the interface would do.  The random token of an
    invitation and [Date.now()] are inputs of the handlers.  String
    equality of [email] follows the column's collation ([collate]).  The
    body's fields are strings or absent; a JSON [null] for [name], [email]
    or [role] is not modelled. *)

From S2P Require Import Prelude Schema Permission StockModel Catalog Products.

Open Scope Z_scope.
Open Scope est_scope.

Class Crypto := {
  sha256 : string -> string;
  hashPassword : string -> option string;
  comparePassword : string -> string -> bool;
  bcrypt_hash : string -> string;
  bcrypt_compare : string -> string -> bool;
  (** a hex digest has 64 characters, a bcrypt hash 60 *)
  sha256_nonempty s : sha256 s <> "";
  bcrypt_hash_nonempty s : bcrypt_hash s <> ""
}.

(** The object [createUser] returns. *)
Record created_user := mkCreatedUser {
  cu_id : Z;
  cu_name : string;
  cu_email : string;
  cu_role : string;
  cu_matricula : option string;
  cu_unit_id : option Z;
  cu_warehouse_id : option Z
}.

(** A row of [listUsers]: the user with the names of its unit and
    warehouse ([LEFT JOIN]). *)
Record user_list_row := mkUserListRow {
  ul_id : Z;
  ul_name : string;
  ul_email : string;
  ul_role : string;
  ul_created_at : Z;
  ul_matricula : option string;
  ul_unit_id : option Z;
  ul_unit_name : option string;
  ul_warehouse_id : option Z;
  ul_warehouse_name : option string
}.

(** [SELECT u.id, u.name, u.email, u.role, u.unit_id, u.warehouse_id,
    u.avatar_url] of [findUserWithRelations]. *)
Record profile := mkProfile {
  pf_id : Z;
  pf_name : string;
  pf_email : string;
  pf_role : string;
  pf_unit_id : option Z;
  pf_warehouse_id : option Z;
  pf_avatar_url : option string
}.

Definition profile_of (u : user_row) : profile :=
  mkProfile (us_id u) (us_name u) (us_email u) (us_role u) (us_unit_id u) (us_warehouse_id u)
    (us_avatar_url u).

(** The reply of [login]: the token and the public user. *)
Record login_reply := mkLoginReply {
  lr_token : principal;
  lr_id : Z;
  lr_name : string;
  lr_email : string;
  lr_role : string;
  lr_warehouse_id : option Z
}.

(** The payload [loginController] signs: [{ id, role, unit_id }]. *)
Record login_token := mkLoginToken {
  lt_id : Z;
  lt_role : string;
  lt_unit_id : option Z
}.

(** The columns [updateUser] may write: [None] or [Undefined] is a field
    the object does not carry ([!== undefined]). *)
Record user_fields := mkUserFields {
  uf_name : option string;
  uf_email : option string;
  uf_role : option string;
  uf_unit_id : jsfield Z;
  uf_warehouse_id : jsfield Z;
  uf_password_hash : option string;
  uf_avatar_url : jsfield string;
  uf_matricula : jsfield string
}.

(** [x || null] of an id, as a column value. *)
Definition id_or_null (f : jsfield Z) (old : option Z) : option Z :=
  match f with Undefined => old | Null => None | Defined v => js_or_null_id (Some v) end.

(** The SET list of [updateUser], applied to a row. *)
Definition apply_user_fields (f : user_fields) (u : user_row) : user_row :=
  mkUser (us_id u)
    (default (us_name u) (uf_name f))
    (default (us_email u) (uf_email f))
    (match uf_password_hash f with
     | Some h => if String.eqb h "" then us_password_hash u else Some h
     | None => us_password_hash u
     end)
    (default (us_role u) (uf_role f))
    (match uf_matricula f with Undefined => us_matricula u | Null => None | Defined v => Some v end)
    (id_or_null (uf_unit_id f) (us_unit_id u))
    (id_or_null (uf_warehouse_id f) (us_warehouse_id u))
    (match uf_avatar_url f with
     | Undefined => us_avatar_url u
     | Null => None
     | Defined v => if String.eqb v "" then None else Some v
     end)
    (us_invite_token_hash u)
    (us_invite_expires_at u)
    (us_created_at u).

(** [if (!fields.length) return] *)
Definition user_fields_empty (f : user_fields) : bool :=
  match f with
  | mkUserFields None None None Undefined Undefined h Undefined Undefined =>
      match h with Some v => String.eqb v "" | None => true end
  | _ => false
  end.

(** [invite_token_hash = ?, invite_expires_at = ?] *)
Definition with_invite (h : option string) (exp : option Z) (u : user_row) : user_row :=
  mkUser (us_id u) (us_name u) (us_email u) (us_password_hash u) (us_role u) (us_matricula u)
    (us_unit_id u) (us_warehouse_id u) (us_avatar_url u) h exp (us_created_at u).

(** [password_hash = ?, invite_token_hash = NULL, invite_expires_at = NULL] *)
Definition with_password_cleared (h : string) (u : user_row) : user_row :=
  mkUser (us_id u) (us_name u) (us_email u) (Some h) (us_role u) (us_matricula u)
    (us_unit_id u) (us_warehouse_id u) (us_avatar_url u) None None (us_created_at u).

(** [Date.now() + 24 * 60 * 60 * 1000] *)
Definition INVITE_TTL : Z := 24 * 60 * 60 * 1000.

(** [ORDER BY u.created_at DESC] *)
Definition created_desc (a b : user_list_row) : Prop := ul_created_at b <= ul_created_at a.

#[export] Instance created_desc_dec : RelDecision created_desc.
Proof. intros a b. unfold created_desc. apply _. Defined.

(** The string of a [password] that may be absent: [!password] is
    [true] for both. *)
Definition js_truthy_password (p : option string) : bool := negb (js_falsy_string p).

(** [requireRole(...roles)] in front of a handler. *)
Definition role_gated (roles : list string) (user : principal) (h : session -> reply * session)
    (s : session) : reply * session :=
  match requireRole roles (Some user) with
  | Some r => (r, s)
  | None => h s
  end.

Section Accounts.
Context (collate : string -> string -> comparison) `{Crypto}.

(** [WHERE email = ?] *)
Definition email_is (email : string) (u : user_row) : bool := bool_decide (collate (us_email u) email = Eq).

(** ** userModel.js *)

Definition findUserByEmail (email : string) : St (option user_row) :=
  d <- read_db ;; ret (find (email_is email) (rows (users d))).

Definition findUserById (id : Z) : St (option user_row) :=
  d <- read_db ;; ret (find (fun u => us_id u =? id) (rows (users d))).

Definition createUser (name email : string) (password_hash : option string) (role : string)
    (unit_id warehouse_id : option Z) (matricula : option string) : St created_user :=
  d <- read_db ;;
  let '(id, t) := tbl_insert (fun id => mkUser id name email password_hash role matricula
                                  (js_or_null_id unit_id) (js_or_null_id warehouse_id) None None None
                                  (clock d)) (users d) in
  write_db (set_users t) ;;;
  ret (mkCreatedUser id name email role matricula unit_id warehouse_id).

Definition countUsers : St Z := d <- read_db ;; ret (Z.of_nat (length (rows (users d)))).

Definition user_list_row_of (d : db) (u : user_row) : user_list_row :=
  mkUserListRow (us_id u) (us_name u) (us_email u) (us_role u) (us_created_at u) (us_matricula u)
    (us_unit_id u) (option_map un_name (us_unit_id u ≫= fun x => Warehouses.find_unit x d))
    (us_warehouse_id u) (option_map wh_name (us_warehouse_id u ≫= fun x => find_warehouse x d)).

(** [if (requester.role !== "super_admin") sql += " WHERE u.unit_id = ?"] *)
Definition user_scope (requester : principal) (u : user_row) : bool :=
  if String.eqb (u_role requester) "super_admin" then true
  else match u_unit_id requester with Some x => sql_eq_id (us_unit_id u) x | None => false end.

Definition listUsers (requester : principal) : St (list user_list_row) :=
  d <- read_db ;;
  ret (merge_sort created_desc
         (map (user_list_row_of d) (List.filter (user_scope requester) (rows (users d))))).

Definition updateUser (id : Z) (f : user_fields) : St unit :=
  if user_fields_empty f then ret tt
  else write_db (fun d => set_users (tbl_update (fun u => us_id u =? id) (apply_user_fields f) (users d)) d).

Definition deleteUser (id : Z) : St bool :=
  write_db (fun d => set_users (tbl_delete (fun u => us_id u =? id) (users d)) d) ;;; ret true.

Definition findUserWithRelations (id : Z) : St (option profile) :=
  d <- read_db ;; ret (option_map profile_of (find (fun u => us_id u =? id) (rows (users d)))).

Definition setInviteTokenByEmail (email tokenHash : string) (expiresAt : Z) : St unit :=
  write_db (fun d => set_users (tbl_update (email_is email) (with_invite (Some tokenHash) (Some expiresAt))
                                  (users d)) d).

Definition findUserInviteByEmail (email : string) : St (option user_row) := findUserByEmail email.

Definition setPasswordAndClearInvite (userId : Z) (password_hash : string) : St unit :=
  write_db (fun d => set_users (tbl_update (fun u => us_id u =? userId) (with_password_cleared password_hash)
                                  (users d)) d).

(** [await hashPassword(p)]: a rejected promise is a thrown error. *)
Definition hash_or_throw (p : string) : St string :=
  match hashPassword p with
  | Some h => ret h
  | None => throw (plain_error "Illegal arguments")
  end.

(** ** authController.js *)

(** POST /auth/register, behind [requireRole("admin", "super_admin")]. *)
Definition register (user : principal) (name email : string) (password role : option string)
    : session -> reply * session :=
  try_next (
    totalUsers <- countUsers ;;
    if (0 <? totalUsers) && negb (String.eqb (u_role user) "admin") then
      ret (mkReply 403 (JError "Apenas admin pode criar novos usuários"))
    else
      existing <- findUserByEmail email ;;
      match existing with
      | Some _ => ret (mkReply 400 (JError "E-mail já cadastrado"))
      | None =>
          password_hash <- (if js_truthy_password password
                            then h <- hash_or_throw (default "" password) ;; ret (Some h)
                            else ret None) ;;
          let userRole := if totalUsers =? 0 then "admin"
                          else if js_falsy_string role then "comum" else default "" role in
          u <- createUser name email password_hash userRole None None None ;;
          ret (mkReply 201 (JObject u))
      end).

Definition login (email password : string) : session -> reply * session :=
  try_next (
    user <- findUserByEmail email ;;
    match user with
    | None => ret (mkReply 401 (JError "Credenciais inválidas"))
    | Some u =>
        match us_password_hash u with
        | None => ret (mkReply 403 (JError "Conta não ativada. Verifique seu e-mail."))
        | Some h =>
            if String.eqb h "" then ret (mkReply 403 (JError "Conta não ativada. Verifique seu e-mail."))
            else if negb (comparePassword password h) then
              ret (mkReply 401 (JError "Credenciais inválidas"))
            else
              let token := mkPrincipal (us_id u) (us_name u) (us_role u) (us_unit_id u) (us_warehouse_id u) in
              ret (json (JObject (mkLoginReply token (us_id u) (us_name u) (us_email u) (us_role u)
                                    (us_warehouse_id u))))
        end
    end).

(** POST /auth/invite, behind [requireRole("admin", "super_admin")];
    [token] is [crypto.randomBytes(32).toString("hex")] and [now] is
    [Date.now()]; the reply carries the activation link. *)
Definition inviteUser (email token : string) (now : Z) : session -> reply * session :=
  try_next (
    user <- findUserByEmail email ;;
    match user with
    | None => ret (mkReply 404 (JError "Usuário não encontrado"))
    | Some u =>
        if js_truthy_password (us_password_hash u) then
          ret (mkReply 400 (JError "Usuário já possui senha definida"))
        else
          setInviteTokenByEmail email (sha256 token) (now + INVITE_TTL) ;;;
          ret (json (JObject ("Convite gerado", token, email)))
    end).

(** POST /auth/set-password, with no gate. *)
Definition setPassword (email token password : string) (now : Z) : session -> reply * session :=
  try_next (
    user <- findUserInviteByEmail email ;;
    match user with
    | None => ret (mkReply 400 (JError "Convite inválido"))
    | Some u =>
        match us_invite_token_hash u, us_invite_expires_at u with
        | Some th, Some exp =>
            if String.eqb th "" then ret (mkReply 400 (JError "Convite inválido"))
            else if negb (String.eqb (sha256 token) th) then ret (mkReply 400 (JError "Token inválido"))
            else if exp <? now then ret (mkReply 400 (JError "Token expirado"))
            else
              password_hash <- hash_or_throw password ;;
              setPasswordAndClearInvite (us_id u) password_hash ;;;
              ret (json (JMessage "Senha criada com sucesso"))
        | _, _ => ret (mkReply 400 (JError "Convite inválido"))
        end
    end).

(** ** userController.js *)

Definition listUsersController (user : principal) : session -> reply * session :=
  try_next (us <- listUsers user ;; ret (json (JRows us))).

(** The names userController.js binds at module level: its imports
    (lines 1-2) and the functions it declares.  Any other name is looked
    up in the global scope, which has neither [hashPassword] nor [jwt]. *)
Definition userController_scope : list string :=
  ["bcrypt"; "createUser"; "listUsers"; "updateUser"; "deleteUser"; "findUserByEmail";
   "findUserWithRelations"; "listUsersController"; "createUserController"; "loginController";
   "updateUserController"; "deleteUserController"; "updateOwnProfileController";
   "uploadAvatarController"; "getOwnProfileController"].

(** The ReferenceError of an identifier bound nowhere. *)
Definition reference_error (f : string) : js_error := plain_error (f +:+ " is not defined").

(** Evaluating the identifier [f] in userController.js and going on with
    [use]: a ReferenceError when the module does not bind it. *)
Definition in_scope {A} (f : string) (use : St A) : St A :=
  if bool_decide (f ∈ userController_scope) then use else throw (reference_error f).

Definition hashPassword_not_defined : js_error := reference_error "hashPassword".

Definition createUserController (name email : string) (role password : option string)
    (unit_id warehouse_id : option Z) (matricula : option string) : session -> reply * session :=
  try_next (
    existing <- findUserByEmail email ;;
    match existing with
    | Some _ => ret (mkReply 400 (JError "E-mail já cadastrado"))
    | None =>
        password_hash <- (match password with
                          | Some p => if negb (String.eqb (trim p) "")
                                      then h <- in_scope "hashPassword" (hash_or_throw (trim p)) ;; ret (Some h)
                                      else ret None
                          | None => ret None
                          end) ;;
        u <- createUser name email password_hash
               (if js_falsy_string role then "user" else default "" role)
               (js_or_null_id unit_id) (js_or_null_id warehouse_id)
               (if js_falsy_string matricula then None else matricula) ;;
        ret (mkReply 201 (JObject u))
    end).

(** [loginController], exported but mounted by no router: [bcrypt.compare]
    of bcryptjs rejects a hash that is not a string ([null] for an
    account not activated) with "Illegal arguments: string, object";
    [jwt] is not imported by userController.js, so [jwt.sign(...)]
    throws a ReferenceError (were it imported, jsonwebtoken would throw
    "secretOrPrivateKey must have a value" when [process.env.JWT_SECRET]
    ([jwt_secret]) is unset or empty).  The user
    it answers is the row of [findUserByEmail] without [password_hash]. *)
Definition loginController (jwt_secret : option string) (email password : string)
    : session -> reply * session :=
  try_next (
    user <- findUserByEmail email ;;
    match user with
    | None => ret (mkReply 401 (JError "Credenciais inválidas"))
    | Some u =>
        match us_password_hash u with
        | None => throw (plain_error "Illegal arguments: string, object")
        | Some h =>
            if negb (bcrypt_compare password h) then ret (mkReply 401 (JError "Credenciais inválidas"))
            else in_scope "jwt"
                   (if js_falsy_string jwt_secret then throw (plain_error "secretOrPrivateKey must have a value")
                    else ret (json (JObject (mkLoginToken (us_id u) (us_role u) (us_unit_id u), profile_of u))))
        end
    end).

(** PUT /users/:id: an admin's change of unit is forced to its own unit;
    only super_admin may give the role super_admin. *)
Definition updateUserController (user : principal) (id : Z) (name email role : option string)
    (unit_id warehouse_id : jsfield Z) (password : option string) (matricula : jsfield string)
    : session -> reply * session :=
  try_next (
    let finalUnitId := if String.eqb (u_role user) "admin"
                       then match u_unit_id user with Some x => Defined x | None => Null end
                       else unit_id in
    if negb (String.eqb (u_role user) "super_admin") && bool_decide (role = Some "super_admin") then
      ret (mkReply 403 (JError "Você não pode promover para super admin"))
    else
      let password_hash := if js_truthy_password password then Some (bcrypt_hash (default "" password))
                           else None in
      updateUser id (mkUserFields name email role finalUnitId warehouse_id password_hash Undefined matricula) ;;;
      ret (json JSuccess)).

Definition deleteUserController (id : Z) : session -> reply * session :=
  try_next (deleteUser id ;;; ret (json JSuccess)).

Definition updateOwnProfileController (user : principal) (name email password : option string)
    : session -> reply * session :=
  try_next (
    let password_hash := if js_truthy_password password then Some (bcrypt_hash (default "" password))
                         else None in
    updateUser (u_id user) (mkUserFields name email None Undefined Undefined password_hash Undefined Undefined) ;;;
    ret (json JSuccess)).

(** [req.file] of multer is [file]: the name it stored the upload under. *)
Definition uploadAvatarController (user : principal) (file : option string) : session -> reply * session :=
  try_next (
    match file with
    | None => ret (mkReply 400 (JError "Nenhum arquivo enviado"))
    | Some filename =>
        let avatar_url := "/uploads/avatars/" +:+ filename in
        updateUser (u_id user) (mkUserFields None None None Undefined Undefined None (Defined avatar_url) Undefined) ;;;
        ret (json (JObject avatar_url))
    end).

Definition getOwnProfileController (user : principal) : session -> reply * session :=
  try_next (
    u <- findUserWithRelations (u_id user) ;;
    match u with
    | None => ret (mkReply 404 (JError "Usuário não encontrado"))
    | Some u => ret (json (JObject u))
    end).
End Accounts.

(** ** Example collaborators *)

Definition demo_sha256 (v : string) : string := String (Ascii.ascii_of_nat 104) v.
Definition demo_bcrypt (v : string) : string := String (Ascii.ascii_of_nat 98) v.

Definition demo_crypto : Crypto := {|
  sha256 := demo_sha256;
  hashPassword := fun p => if String.eqb p "" then None else Some (demo_bcrypt p);
  comparePassword := fun p h => String.eqb (demo_bcrypt p) h;
  bcrypt_hash := demo_bcrypt;
  bcrypt_compare := fun p h => String.eqb (demo_bcrypt p) h;
  sha256_nonempty := fun v e =>
    match e in _ = t return match t with EmptyString => False | _ => True end with eq_refl => I end;
  bcrypt_hash_nonempty := fun v e =>
    match e in _ = t return match t with EmptyString => False | _ => True end with eq_refl => I end
|}.

Definition demo_ana : user_row :=
  mkUser 7 "Ana" "ana@example.com" None "supervisor" None (Some 1) None None None None 10.

(** ** Lemmas *)

Section AccountLemmas.
Context (collate : string -> string -> comparison) `{Crypto}.

(** An UPDATE that keeps the column a lookup tests moves the first match
    to its updated row. *)
Lemma find_update_where {A} (P Q : A -> bool) (f : A -> A) l :
  (forall x, P (f x) = P x) ->
  find P (update_where Q f l) = option_map (fun x => if Q x then f x else x) (find P l).
Proof. intros Hf. apply find_map_preserve. intros x. destruct (Q x); [apply Hf|done]. Qed.

Lemma email_is_with_invite email h exp u : email_is collate email (with_invite h exp u) = email_is collate email u.
Proof. reflexivity. Qed.

Lemma email_is_cleared email h u : email_is collate email (with_password_cleared h u) = email_is collate email u.
Proof. reflexivity. Qed.

Lemma email_is_fields email f u :
  uf_email f = None -> email_is collate email (apply_user_fields f u) = email_is collate email u.
Proof. intros Hf. unfold email_is, apply_user_fields. simpl. by rewrite Hf. Qed.

(** After the invitation, the first account of the e-mail carries it. *)
Lemma invite_find email h e l u :
  find (email_is collate email) l = Some u ->
  find (email_is collate email) (update_where (email_is collate email) (with_invite h e) l) =
  Some (with_invite h e u).
Proof.
  intros Hf. pose proof (find_some _ _ Hf) as [_ Hu].
  rewrite find_update_where by (intros; apply email_is_with_invite). by rewrite Hf; simpl; rewrite Hu.
Qed.

(** An UPDATE by id of the first account of the e-mail, keeping the
    e-mail, leaves the updated row first. *)
Lemma update_find_by_id email g l v :
  (forall x, email_is collate email (g x) = email_is collate email x) ->
  find (email_is collate email) l = Some v ->
  find (email_is collate email) (update_where (fun x => us_id x =? us_id v) g l) = Some (g v).
Proof. intros Hg Hf. rewrite find_update_where by done. rewrite Hf. simpl. by rewrite Z.eqb_refl. Qed.

Lemma inviteUser_run email tok now s u :
  find (email_is collate email) (rows (users (sdb s))) = Some u ->
  js_truthy_password (us_password_hash u) = false ->
  inviteUser collate email tok now s =
  (json (JObject ("Convite gerado", tok, email)),
   mkSession (set_users (tbl_update (email_is collate email)
                (with_invite (Some (sha256 tok)) (Some (now + INVITE_TTL))) (users (sdb s))) (sdb s))
     (snapshot s)).
Proof. intros Hf Hp. unfold inviteUser, try_next, bind, findUserByEmail, read_db, ret. simpl. by rewrite Hf, Hp. Qed.

Lemma setPassword_run email tok pw now s v h exp :
  find (email_is collate email) (rows (users (sdb s))) = Some v ->
  us_invite_token_hash v = Some (sha256 tok) -> us_invite_expires_at v = Some exp ->
  now <= exp -> hashPassword pw = Some h ->
  setPassword collate email tok pw now s =
  (json (JMessage "Senha criada com sucesso"),
   mkSession (set_users (tbl_update (fun u => us_id u =? us_id v) (with_password_cleared h) (users (sdb s)))
                (sdb s)) (snapshot s)).
Proof.
  intros Hf Ht He Hn Hh. unfold setPassword, try_next, bind, findUserInviteByEmail, findUserByEmail, read_db, ret.
  simpl. rewrite Hf, Ht, He. simpl.
  destruct (String.eqb_spec (sha256 tok) ""); [by apply sha256_nonempty in e|].
  rewrite String.eqb_refl. simpl. destruct (Z.ltb_spec exp now); [lia|].
  unfold hash_or_throw. by rewrite Hh.
Qed.

Lemma setPassword_no_invite email tok pw now s v :
  find (email_is collate email) (rows (users (sdb s))) = Some v ->
  us_invite_token_hash v = None ->
  setPassword collate email tok pw now s = (mkReply 400 (JError "Convite inválido"), s).
Proof.
  intros Hf Ht. unfold setPassword, try_next, bind, findUserInviteByEmail, findUserByEmail, read_db, ret.
  simpl. by rewrite Hf, Ht.
Qed.
Lemma user_fields_empty_password f h :
  user_fields_empty f = true -> uf_password_hash f = Some h -> h = "".
Proof.
  destruct f as [n e r u w ph a m]. simpl. intros E ->.
  destruct n, e, r; try discriminate. destruct u, w, a, m; try discriminate.
  by apply String.eqb_eq.
Qed.

Lemma role_gated_admin admin h s :
  u_role admin = "admin" \/ u_role admin = "super_admin" ->
  role_gated ["admin"; "super_admin"] admin h s = h s.
Proof. intros Hr. unfold role_gated, requireRole. by destruct Hr as [-> | ->]. Qed.

(** An administrator's password change of account [id]. *)
Lemma updateUserController_password_run admin id pw s :
  u_role admin = "admin" \/ u_role admin = "super_admin" -> pw <> "" ->
  exists f, uf_email f = None /\ uf_password_hash f = Some (bcrypt_hash pw) /\
    updateUserController admin id None None None Undefined Undefined (Some pw) Undefined s =
    (json JSuccess, mkSession (set_users (tbl_update (fun x => us_id x =? id) (apply_user_fields f)
                                           (users (sdb s))) (sdb s)) (snapshot s)).
Proof.
  intros Hr Hpw. unfold updateUserController, try_next.
  assert (js_truthy_password (Some pw) = true) as Ht.
  { unfold js_truthy_password, js_falsy_string. by destruct (String.eqb_spec pw ""). }
  rewrite Ht. rewrite (bool_decide_false (None = Some "super_admin")) by done. rewrite andb_false_r.
  exists (mkUserFields None None None
            (if String.eqb (u_role admin) "admin"
             then match u_unit_id admin with Some x => Defined x | None => Null end else Undefined)
            Undefined (Some (bcrypt_hash pw)) Undefined Undefined).
  split_and!; [reflexivity|reflexivity|]. unfold bind, updateUser.
  destruct (user_fields_empty _) eqn:E; [|reflexivity]. exfalso.
  apply (bcrypt_hash_nonempty pw). exact (user_fields_empty_password _ _ E eq_refl).
Qed.
(** The unrouted [loginController] against [login] on the same account:
    for one not activated it answers 500 where [login] answers 403, and
    for an activated one with the right password it answers 500 with
    "jwt is not defined" where [login] signs the user in. *)
Lemma loginController_vs_login jwt email pw s u :
  find (email_is collate email) (rows (users (sdb s))) = Some u ->
  (us_password_hash u = None ->
   loginController collate jwt email pw s = (mkReply 500 (JError "Illegal arguments: string, object"), s) /\
   login collate email pw s = (mkReply 403 (JError "Conta não ativada. Verifique seu e-mail."), s)) /\
  (forall h, us_password_hash u = Some h -> h <> "" -> bcrypt_compare pw h = true ->
   comparePassword pw h = true ->
   loginController collate jwt email pw s = (mkReply 500 (JError "jwt is not defined"), s) /\
   login collate email pw s =
     (json (JObject (mkLoginReply (mkPrincipal (us_id u) (us_name u) (us_role u) (us_unit_id u) (us_warehouse_id u))
                       (us_id u) (us_name u) (us_email u) (us_role u) (us_warehouse_id u))), s)).
Proof.
  intros Hf. unfold loginController, login, try_next, findUserByEmail.
  cbn [bind ret read_db]. unfold bind, ret, read_db. simpl. rewrite Hf. split.
  - intros ->. done.
  - intros h -> Hh Hb Hc. rewrite Hb, Hc. simpl. by rewrite (proj2 (String.eqb_neq h "") Hh).
Qed.

End AccountLemmas.

(** ** Theorems *)

Section AccountTheorems.
Context (collate : string -> string -> comparison) `{Crypto}.

(** C35: an invitation activates the account once.  For an account
    without a password, [inviteUser] answers with the activation link and
    stores the token's hash with an expiry 24 hours ahead; [setPassword]
    with that token before the expiry answers success, writes the password
    hash and clears the invitation; after that, every [setPassword] for
    the e-mail, whatever the token, is refused with "Convite inválido" and
    changes nothing. *)
Theorem invite_activates_once email tok pw h now now' s u :
  find (email_is collate email) (rows (users (sdb s))) = Some u ->
  js_truthy_password (us_password_hash u) = false ->
  now' <= now + INVITE_TTL -> hashPassword pw = Some h ->
  let s1 := snd (inviteUser collate email tok now s) in
  let r2 := setPassword collate email tok pw now' s1 in
  fst (inviteUser collate email tok now s) = json (JObject ("Convite gerado", tok, email)) /\
  fst r2 = json (JMessage "Senha criada com sucesso") /\
  find (email_is collate email) (rows (users (sdb (snd r2)))) =
    Some (with_password_cleared h (with_invite (Some (sha256 tok)) (Some (now + INVITE_TTL)) u)) /\
  (forall tok' pw' now'',
     setPassword collate email tok' pw' now'' (snd r2) = (mkReply 400 (JError "Convite inválido"), snd r2)).
Proof.
  intros Hf Hp Hn Hh s1 r2. subst s1 r2. rewrite (inviteUser_run collate email tok now s u Hf Hp). simpl.
  set (v := with_invite (Some (sha256 tok)) (Some (now + INVITE_TTL)) u).
  pose proof (invite_find collate email (Some (sha256 tok)) (Some (now + INVITE_TTL)) _ u Hf) as Hf1.
  rewrite (setPassword_run collate email tok pw now' _ v h (now + INVITE_TTL)); simpl; try done.
  pose proof (update_find_by_id collate email (with_password_cleared h) _ v (email_is_cleared collate email h) Hf1) as Hf2.
  split_and!; [done|done|exact Hf2|]. intros tok' pw' now''.
  by apply (setPassword_no_invite collate email tok' pw' now'' _ (with_password_cleared h v)).
Qed.

(** C36: a pending invitation survives a password change.  After an
    invitation, an administrator (admin or super_admin, through the
    route's gate) sets the account's password with PUT /users/:id;
    [updateUser] does not touch the invitation, so [setPassword] with the
    invitation's token, before its expiry, still succeeds and replaces the
    password the administrator set. *)
Theorem invite_survives_password_change admin email tok pw1 pw2 h2 now now' s u :
  find (email_is collate email) (rows (users (sdb s))) = Some u ->
  js_truthy_password (us_password_hash u) = false ->
  u_role admin = "admin" \/ u_role admin = "super_admin" -> pw1 <> "" ->
  now' <= now + INVITE_TTL -> hashPassword pw2 = Some h2 ->
  let s1 := snd (inviteUser collate email tok now s) in
  let s2 := snd (role_gated ["admin"; "super_admin"] admin
                   (updateUserController admin (us_id u) None None None Undefined Undefined (Some pw1) Undefined) s1) in
  let r3 := setPassword collate email tok pw2 now' s2 in
  option_map us_password_hash (find (email_is collate email) (rows (users (sdb s2)))) =
    Some (Some (bcrypt_hash pw1)) /\
  fst r3 = json (JMessage "Senha criada com sucesso") /\
  option_map us_password_hash (find (email_is collate email) (rows (users (sdb (snd r3))))) = Some (Some h2).
Proof.
  intros Hf Hp Ha Hpw Hn Hh s1 s2 r3. subst s1 s2 r3.
  rewrite (inviteUser_run collate email tok now s u Hf Hp). simpl. rewrite role_gated_admin by done.
  set (v := with_invite (Some (sha256 tok)) (Some (now + INVITE_TTL)) u).
  pose proof (invite_find collate email (Some (sha256 tok)) (Some (now + INVITE_TTL)) _ u Hf) as Hf1.
  destruct (updateUserController_password_run admin (us_id u) pw1
              (mkSession (set_users (tbl_update (email_is collate email)
                 (with_invite (Some (sha256 tok)) (Some (now + INVITE_TTL))) (users (sdb s))) (sdb s))
                 (snapshot s)) Ha Hpw) as (f & Hfe & Hfp & ->).
  simpl. pose proof (update_find_by_id collate email (apply_user_fields f) _ v (fun x => email_is_fields collate email f x Hfe) Hf1) as Hf2.
  cbn [us_id v with_invite] in Hf2. rewrite Hf2.
  rewrite (setPassword_run collate email tok pw2 now' _ (apply_user_fields f v) h2 (now + INVITE_TTL));
    simpl; try done.
  - split_and!; [|done|].
    + unfold apply_user_fields. rewrite Hfp. simpl.
      destruct (String.eqb_spec (bcrypt_hash pw1) ""); [by apply bcrypt_hash_nonempty in e|done].
    + pose proof (update_find_by_id collate email (with_password_cleared h2) _ (apply_user_fields f v)
                    (email_is_cleared collate email h2) Hf2) as Hf3.
      cbn [us_id apply_user_fields v with_invite] in Hf3. by rewrite Hf3.
Qed.

(** C37: [createUserController] cannot create an account with a password.
    It calls [hashPassword], which userController.js does not bind (its
    imports are bcrypt and the user model's functions): for a new e-mail
    and a password that is not blank, evaluating the name throws a
    ReferenceError, whatever utils/password.js would do (the statement
    holds for every [Crypto]), the handler answers 500 and no account is
    created; without a password the account is created (201). *)
Theorem createUserController_password_fails name email role p unit_id warehouse_id matricula s :
  find (email_is collate email) (rows (users (sdb s))) = None -> trim p <> "" ->
  createUserController collate name email role (Some p) unit_id warehouse_id matricula s =
    (errorHandler hashPassword_not_defined, s) /\
  status (errorHandler hashPassword_not_defined) = 500 /\
  status (fst (createUserController collate name email role None unit_id warehouse_id matricula s)) = 201.
Proof.
  intros Hf Hp. unfold createUserController, try_next, bind, findUserByEmail, read_db, ret. simpl.
  rewrite Hf. destruct (String.eqb_spec (trim p) ""); [done|]. simpl. done.
Qed.
End AccountTheorems.

(** ** Witnesses on the example database *)

#[local] Existing Instance demo_crypto.

Lemma invite_activates_once_witness :
  let s1 := snd (inviteUser String.compare "ana@example.com" "t0k" 1000 demo_session) in
  let r2 := setPassword String.compare "ana@example.com" "t0k" "segredo" 2000 s1 in
  fst (inviteUser String.compare "ana@example.com" "t0k" 1000 demo_session) =
    json (JObject ("Convite gerado", "t0k", "ana@example.com")) /\
  fst r2 = json (JMessage "Senha criada com sucesso") /\
  find (email_is String.compare "ana@example.com") (rows (users (sdb (snd r2)))) =
    Some (with_password_cleared (demo_bcrypt "segredo")
            (with_invite (Some (sha256 "t0k")) (Some (1000 + INVITE_TTL)) demo_ana)) /\
  (forall tok' pw' now'',
     setPassword String.compare "ana@example.com" tok' pw' now'' (snd r2) =
     (mkReply 400 (JError "Convite inválido"), snd r2)).
Proof.
  apply (invite_activates_once String.compare "ana@example.com" "t0k" "segredo" (demo_bcrypt "segredo")
           1000 2000 demo_session demo_ana); [reflexivity|reflexivity|unfold INVITE_TTL; lia|reflexivity].
Defined.

Lemma invite_survives_password_change_witness :
  let admin := mkPrincipal 9 "Caio" "admin" (Some 1) None in
  let s1 := snd (inviteUser String.compare "ana@example.com" "t0k" 1000 demo_session) in
  let s2 := snd (role_gated ["admin"; "super_admin"] admin
                   (updateUserController admin 7 None None None Undefined Undefined (Some "dada") Undefined) s1) in
  let r3 := setPassword String.compare "ana@example.com" "t0k" "segredo" 2000 s2 in
  option_map us_password_hash (find (email_is String.compare "ana@example.com") (rows (users (sdb s2)))) =
    Some (Some (bcrypt_hash "dada")) /\
  fst r3 = json (JMessage "Senha criada com sucesso") /\
  option_map us_password_hash (find (email_is String.compare "ana@example.com") (rows (users (sdb (snd r3))))) =
    Some (Some (demo_bcrypt "segredo")).
Proof.
  apply (invite_survives_password_change String.compare (mkPrincipal 9 "Caio" "admin" (Some 1) None)
           "ana@example.com" "t0k" "dada" "segredo" (demo_bcrypt "segredo") 1000 2000 demo_session demo_ana);
    [reflexivity|reflexivity|by left|discriminate|unfold INVITE_TTL; lia|reflexivity].
Defined.

Lemma createUserController_password_fails_witness :
  createUserController String.compare "Bia" "bia@example.com" None (Some "senha") None None None demo_session =
    (errorHandler hashPassword_not_defined, demo_session) /\
  status (errorHandler hashPassword_not_defined) = 500 /\
  status (fst (createUserController String.compare "Bia" "bia@example.com" None None None None None demo_session)) = 201.
Proof. apply createUserController_password_fails; [reflexivity|vm_compute; discriminate]. Defined.
