(* ===== verification/Frontend.v ===== *)
(** * Frontend: the React client's logic

    Models the parts of src/Frontend/src that compute something:
    - components/common/Pagination.jsx: the list of page buttons
      ([page_list], the [for] loop over [1..totalPages] that keeps the
      first, the last and the neighbours of the current page and collapses
      the rest into ["..."]) and [goTo], the guard in front of
      [onPageChange];
    - App.jsx: the routes of the two route tables (signed out, signed in),
      [PrivateRoute] and the [<Navigate>] redirects, as a function from a
      path to the page it shows or the path it redirects to ([App]);
      [resolve] follows redirects with fuel;
    - components/ActivateAccount.jsx: [handleSubmit], its three checks
      and the call of [api.setPassword];
    - api/api.js: [request], the headers it sends and how it turns a
      reply into a value or a thrown [Error], and every function of the
      [api] object ([api_request]);
    - the decoding [URLSearchParams] applies ([params_get]) and
      [encodeURIComponent], with their round trip.

    The React rendering itself (elements, CSS, state hooks) is not
    modelled: a component is the function of its props and state that
    decides what the code does. *)

From S2P Require Import Prelude Schema StockModel Products.

Open Scope Z_scope.
Open Scope est_scope.

(** ** Pagination.jsx *)

(** An element of [pages]: a page number or the string ["..."]. *)
Inductive page_item := PNum (n : Z) | PEllipsis.

#[export] Instance page_item_eq_dec : EqDecision page_item.
Proof. solve_decision. Defined.

(** [i === 1 || i === totalPages || Math.abs(i - currentPage) <= 1] *)
Definition page_kept (currentPage totalPages i : Z) : bool :=
  (i =? 1) || (i =? totalPages) || (Z.abs (i - currentPage) <=? 1).

(** One iteration of the loop: push [i], or push ["..."] unless the last
    element already is one ([pages[pages.length - 1] !== "..."], which
    holds of an empty array). *)
Definition page_step (currentPage totalPages : Z) (pages : list page_item) (i : Z)
    : list page_item :=
  if page_kept currentPage totalPages i then pages ++ [PNum i]
  else if bool_decide (last pages = Some PEllipsis) then pages
  else pages ++ [PEllipsis].

(** [for (let i = 1; i <= totalPages; i++) ...] *)
Definition page_list (currentPage totalPages : Z) : list page_item :=
  fold_left (page_step currentPage totalPages) (seqZ 1 totalPages) [].

(** [if (totalPages <= 1) return null;] *)
Definition Pagination (currentPage totalPages : Z) : option (list page_item) :=
  if totalPages <=? 1 then None else Some (page_list currentPage totalPages).

(** [goTo(page)]: [Some page] is the call [onPageChange(page)]. *)
Definition goTo (currentPage totalPages page : Z) : option Z :=
  if (page <? 1) || (totalPages <? page) || (page =? currentPage) then None else Some page.

(** The clicks the component handles: the two arrows (disabled on the
    first and the last page) and a page button. *)
Inductive page_click := ClickPrev | ClickNext | ClickPage (p : Z).

Definition on_click (currentPage totalPages : Z) (c : page_click) : option Z :=
  match c with
  | ClickPrev => if currentPage =? 1 then None else goTo currentPage totalPages (currentPage - 1)
  | ClickNext => if currentPage =? totalPages then None else goTo currentPage totalPages (currentPage + 1)
  | ClickPage p => goTo currentPage totalPages p
  end.

(** The numbers of a page list. *)
Definition page_numbers (l : list page_item) : list Z :=
  omap (fun x => match x with PNum n => Some n | PEllipsis => None end) l.

Definition count_ellipses (l : list page_item) : nat :=
  length (List.filter (fun x => bool_decide (x = PEllipsis)) l).

(** ** App.jsx *)

(** The pages the routes render. *)
Inductive page :=
| PLogin | PActivate | PDashboard | PProdutos | PProfile | PUsers | PAssinatura
| PWarehouses | PUnidades | PStockEntry | PBoxFlash | PReports | PReportsEtoque.

#[export] Instance page_eq_dec : EqDecision page.
Proof. solve_decision. Defined.

(** The element of a route: a page, a page inside [<PrivateRoute>] with
    the props the route passes ([roles=...] or [role=...]), or a
    [<Navigate to=... replace />]. *)
Inductive element :=
| EPage (p : page)
| EPrivate (roles role : option (list string)) (p : page)
| ENavigate (to : string).

(** What a route shows: a page, or a redirect to another path. *)
Inductive screen := Show (p : page) | Redirect (to : string).

(** [PrivateRoute({ children, roles })]: only the prop [roles] is read. *)
Definition PrivateRoute (user : option string) (roles : option (list string)) (p : page) : screen :=
  match user with
  | None => Redirect "/login"
  | Some role =>
      match roles with
      | Some rs => if existsb (String.eqb role) rs then Show p else Redirect "/dashboard"
      | None => Show p
      end
  end.

(** The [<Routes>] shown when no one is signed in. *)
Definition signed_out_routes : list (string * element) :=
  [("/login", EPage PLogin); ("/ativar", EPage PActivate); ("*", ENavigate "/login")].

(** The [<Routes>] of a signed-in user. *)
Definition signed_in_routes : list (string * element) :=
  [("/", EPrivate None None PDashboard);
   ("/produtos", EPrivate None None PProdutos);
   ("/perfil", EPrivate None None PProfile);
   ("/users", EPrivate (Some ["super_admin"; "admin"]) None PUsers);
   ("/assinatura", EPrivate None (Some ["super_admin"; "admin"; "supervisor"]) PAssinatura);
   ("/estoques", EPrivate None (Some ["super_admin"; "admin"]) PWarehouses);
   ("/unidades", EPrivate None (Some ["super_admin"; "admin"]) PUnidades);
   ("/entrada", EPrivate None None PStockEntry);
   ("/saida", EPrivate None None PBoxFlash);
   ("/relatorio-movimentacao", EPrivate None None PReports);
   ("/relatorio-estoque", EPrivate None None PReportsEtoque);
   ("*", ENavigate "/")].

(** React Router picks the route whose path is the location, and the
    catch-all ["*"] when none is. *)
Definition match_route (routes : list (string * element)) (path : string) : option element :=
  match find (fun r => String.eqb (fst r) path) routes with
  | Some (_, e) => Some e
  | None => option_map snd (find (fun r => String.eqb (fst r) "*") routes)
  end.

Definition render_element (user : option string) (e : element) : screen :=
  match e with
  | EPage p => Show p
  | EPrivate roles _ p => PrivateRoute user roles p
  | ENavigate to => Redirect to
  end.

(** [App()] at a location: the signed-out routes without a user, the
    signed-in ones with one ([user] is [user.role]). *)
Definition App (user : option string) (path : string) : screen :=
  let routes := match user with None => signed_out_routes | Some _ => signed_in_routes end in
  match match_route routes path with
  | Some e => render_element user e
  | None => Redirect "/"
  end.

(** Following the [<Navigate>]s: at most [fuel] renders. *)
Fixpoint resolve (fuel : nat) (user : option string) (path : string) : option (string * page) :=
  match fuel with
  | O => None
  | S fuel =>
      match App user path with
      | Show p => Some (path, p)
      | Redirect to => resolve fuel user to
      end
  end.

(** ** api/api.js *)

(** A JSON value as [JSON.stringify] writes it and [express.json()]
    reads it back (numbers are integers here). *)
Inductive jvalue :=
| JVNull
| JVBool (b : bool)
| JVNum (n : Z)
| JVStr (s : string)
| JVArr (xs : list jvalue)
| JVObj (fields : list (string * jvalue)).

(** A file part of a [FormData]: the field name, the file's name and its
    MIME type. *)
Record form_file := mkFormFile {
  ff_field : string;
  ff_originalname : string;
  ff_mimetype : string
}.

(** A request body: [JSON.stringify(x)], or a [FormData]. *)
Inductive req_body := BodyJson (v : jvalue) | BodyForm (files : list form_file).

(** The options object passed to [request]. *)
Record req_options := mkOptions {
  opt_method : option string;          (** [method = "GET"] when absent *)
  opt_body : option req_body;
  opt_headers : list (string * string) (** [headers: customHeaders = {}] *)
}.

Definition no_options : req_options := mkOptions None None [].

(** What [fetch] is called with. *)
Record fetch_call := mkFetch {
  f_method : string;
  f_url : string;
  f_body : option req_body;
  f_headers : list (string * string)
}.

(** [headers[k] = v] on a plain object: replaces the field or adds it. *)
Fixpoint header_set (k v : string) (hs : list (string * string)) : list (string * string) :=
  match hs with
  | [] => [(k, v)]
  | (k', v') :: hs' => if String.eqb k' k then (k, v) :: hs' else (k', v') :: header_set k v hs'
  end.

Definition header_get (k : string) (hs : list (string * string)) : option string :=
  option_map snd (find (fun kv => String.eqb (fst kv) k) hs).

(** Lines 15-34 of [request]: [token] is [localStorage.getItem("token")]. *)
Definition request_fetch (API_URL : string) (token : option string) (path : string)
    (o : req_options) : fetch_call :=
  let h1 := match token with
            | Some t => if String.eqb t "" then opt_headers o
                        else header_set "Authorization" ("Bearer " +:+ t) (opt_headers o)
            | None => opt_headers o
            end in
  let h2 := match opt_body o with
            | Some (BodyJson _) =>
                match header_get "Content-Type" h1 with
                | Some ct => if String.eqb ct "" then header_set "Content-Type" "application/json" h1 else h1
                | None => header_set "Content-Type" "application/json" h1
                end
            | _ => h1
            end in
  mkFetch (default "GET" (opt_method o)) (API_URL +:+ path) (opt_body o) h2.

(** Lines 36-42 of [request]: [res.json()] fails on a body-less reply and
    gives [{}] ([None]); a status outside 200-299 throws
    [new Error(data.error || "Erro na requisição")]. *)
Definition request_result (r : reply) : outcome string (option body) :=
  let data := match payload r with JEnd => None | b => Some b end in
  if (200 <=? status r) && (status r <? 300) then Ok data
  else Err (match data with
            | Some (JError m) => if String.eqb m "" then "Erro na requisição" else m
            | _ => "Erro na requisição"
            end).

(** [encodeURIComponent] on the UTF-8 bytes of a string: the unreserved
    characters stay, every other byte becomes [%XY]. *)
Definition uri_unreserved (c : Ascii.ascii) : bool :=
  let n := Ascii.nat_of_ascii c in
  ((48 <=? n) && (n <=? 57))%nat || ((65 <=? n) && (n <=? 90))%nat || ((97 <=? n) && (n <=? 122))%nat ||
  existsb (Ascii.eqb c) (String.list_ascii_of_string "-_.!~*'()").

Definition hex_digit (n : nat) : Ascii.ascii :=
  if (n <? 10)%nat then Ascii.ascii_of_nat (48 + n) else Ascii.ascii_of_nat (55 + n).

Fixpoint encodeURIComponent (s : string) : string :=
  match s with
  | EmptyString => EmptyString
  | String c s' =>
      if uri_unreserved c then String c (encodeURIComponent s')
      else String (Ascii.ascii_of_nat 37) (String (hex_digit (Ascii.nat_of_ascii c / 16))
                        (String (hex_digit (Ascii.nat_of_ascii c mod 16)) (encodeURIComponent s')))
  end.

(** The value of a hexadecimal digit. *)
Definition hex_val (c : Ascii.ascii) : option nat :=
  let n := Ascii.nat_of_ascii c in
  if ((48 <=? n) && (n <=? 57))%nat then Some (n - 48)%nat
  else if ((65 <=? n) && (n <=? 70))%nat then Some (n - 55)%nat
  else if ((97 <=? n) && (n <=? 102))%nat then Some (n - 87)%nat
  else None.

(** The decoding of [application/x-www-form-urlencoded] text that
    [URLSearchParams] and Express's query parser apply: [+] is a space,
    [%XY] the byte [XY], and any other character, a malformed escape
    included, stands for itself. *)
Fixpoint form_decode (s : string) : string :=
  match s with
  | EmptyString => EmptyString
  | String c s' =>
      if Ascii.eqb c (Ascii.ascii_of_nat 43) then String (Ascii.ascii_of_nat 32) (form_decode s')
      else if Ascii.eqb c (Ascii.ascii_of_nat 37) then
        match s' with
        | String h1 (String h2 s'') =>
            match hex_val h1, hex_val h2 with
            | Some a, Some b => String (Ascii.ascii_of_nat (a * 16 + b)) (form_decode s'')
            | _, _ => String c (form_decode s')
            end
        | _ => String c (form_decode s')
        end
      else String c (form_decode s')
  end.

(** [s.split(sep)] for a one-character separator. *)
Fixpoint split_on (sep : Ascii.ascii) (s : string) : list string :=
  match s with
  | EmptyString => [EmptyString]
  | String c s' =>
      let r := split_on sep s' in
      if Ascii.eqb c sep then EmptyString :: r
      else match r with
           | [] => [String c EmptyString]
           | x :: rs => String c x :: rs
           end
  end.

(** A [key=value] pair of a query: the key is what precedes the first
    [=], the value what follows it ([""] without one). *)
Fixpoint split_pair (s : string) : string * string :=
  match s with
  | EmptyString => (EmptyString, EmptyString)
  | String c s' =>
      if Ascii.eqb c (Ascii.ascii_of_nat 61) then (EmptyString, s')
      else let '(k, v) := split_pair s' in (String c k, v)
  end.

(** The text after the first [?] of a URL, if there is one. *)
Fixpoint search_of (url : string) : option string :=
  match url with
  | EmptyString => None
  | String c s' => if Ascii.eqb c (Ascii.ascii_of_nat 63) then Some s' else search_of s'
  end.

(** The decoded [key=value] pairs of a query, in order. *)
Definition query_pairs (search : string) : list (string * string) :=
  map (fun kv => (form_decode kv.1, form_decode kv.2))
      (map split_pair (filter (fun p => negb (String.eqb p EmptyString))
                              (split_on (Ascii.ascii_of_nat 38) search))).

(** [new URLSearchParams(search).get(key)]: the first value of [key]. *)
Definition params_get (search key : string) : option string :=
  option_map snd (find (fun kv => String.eqb kv.1 key) (query_pairs search)).

(** The functions of the [api] object, with their arguments; [id]s are
    numbers and [`${id}`] their decimal string. *)
Inductive api_call :=
| ApiLogin (email password : string)
| ApiUpdateMyProfile (user : jvalue)
| ApiSetPassword (email token password : string)
| ApiGetMyProfile
| ApiGetProducts
| ApiGetProductsByWarehouse (warehouseId : Z)
| ApiInviteUser (email : string)
| ApiSearchProducts (q : string)
| ApiCreateProduct (payload : jvalue)
| ApiUpdateProduct (id : Z) (payload : jvalue)
| ApiDeleteProduct (id : Z)
| ApiUploadAvatar (formData : list form_file)
| ApiGetUsers
| ApiStockEntryBatch (payload : jvalue)
| ApiFindProductByBarcode (barcode : string)
| ApiGetWarehouses
| ApiCreateWarehouse (warehouse : jvalue)
| ApiUpdateWarehouse (id : Z) (warehouse : jvalue)
| ApiDeleteWarehouse (id : Z)
| ApiGetUnits
| ApiCreateUnit (unit : jvalue)
| ApiUpdateUnit (id : Z) (unit : jvalue)
| ApiDeleteUnit (id : Z)
| ApiListUsers
| ApiCreateUser (user : jvalue)
| ApiUpdateUser (id : Z) (user : jvalue)
| ApiDeleteUser (id : Z)
| ApiStockEntry (payload : jvalue)
| ApiStockExit (payload : jvalue)
| ApiStockReport
| ApiMovementReport
| ApiDashboardSummary
| ApiListExitOrders
| ApiSignExitOrder (id : Z) (signatureDataUrl : string).

Definition post (v : jvalue) : req_options := mkOptions (Some "POST") (Some (BodyJson v)) [].
Definition put (v : jvalue) : req_options := mkOptions (Some "PUT") (Some (BodyJson v)) [].
Definition del : req_options := mkOptions (Some "DELETE") None [].

(** The path and options each function passes to [request]. *)
Definition api_request (c : api_call) : string * req_options :=
  match c with
  | ApiLogin email password =>
      ("/api/auth/login", post (JVObj [("email", JVStr email); ("password", JVStr password)]))
  | ApiUpdateMyProfile user => ("/api/users/me/profile", put user)
  | ApiSetPassword email token password =>
      ("/api/auth/set-password",
       post (JVObj [("email", JVStr email); ("token", JVStr token); ("password", JVStr password)]))
  | ApiGetMyProfile => ("/api/users/me", no_options)
  | ApiGetProducts => ("/api/produtos", no_options)
  | ApiGetProductsByWarehouse w => ("/api/produtos?warehouse_id=" +:+ js_string_Z w, no_options)
  | ApiInviteUser email => ("/api/auth/invite", post (JVObj [("email", JVStr email)]))
  | ApiSearchProducts q => ("/api/produtos?q=" +:+ encodeURIComponent q, no_options)
  | ApiCreateProduct payload => ("/api/produtos", post payload)
  | ApiUpdateProduct id payload => ("/api/produtos/" +:+ js_string_Z id, put payload)
  | ApiDeleteProduct id => ("/api/produtos/" +:+ js_string_Z id, del)
  | ApiUploadAvatar formData => ("/api/users/me/avatar", mkOptions (Some "POST") (Some (BodyForm formData)) [])
  | ApiGetUsers => ("/api/users", no_options)
  | ApiStockEntryBatch payload => ("/api/estoque/entrada/lote", post payload)
  | ApiFindProductByBarcode barcode =>
      ("/api/produtos/barcode?barcode=" +:+ encodeURIComponent barcode, no_options)
  | ApiGetWarehouses => ("/api/estoques", no_options)
  | ApiCreateWarehouse w => ("/api/estoques", post w)
  | ApiUpdateWarehouse id w => ("/api/estoques/" +:+ js_string_Z id, put w)
  | ApiDeleteWarehouse id => ("/api/estoques/" +:+ js_string_Z id, del)
  | ApiGetUnits => ("/api/unidades", no_options)
  | ApiCreateUnit u => ("/api/unidades", post u)
  | ApiUpdateUnit id u => ("/api/unidades/" +:+ js_string_Z id, put u)
  | ApiDeleteUnit id => ("/api/unidades/" +:+ js_string_Z id, del)
  | ApiListUsers => ("/api/users", no_options)
  | ApiCreateUser u => ("/api/users", post u)
  | ApiUpdateUser id u => ("/api/users/" +:+ js_string_Z id, put u)
  | ApiDeleteUser id => ("/api/users/" +:+ js_string_Z id, del)
  | ApiStockEntry payload => ("/api/estoque/entrada", post payload)
  | ApiStockExit payload => ("/api/estoque/saida", post payload)
  | ApiStockReport => ("/api/relatorios/estoque", no_options)
  | ApiMovementReport => ("/api/relatorios/movimentacoes", no_options)
  | ApiDashboardSummary => ("/api/dashboard/resumo", no_options)
  | ApiListExitOrders => ("/api/os-saida", no_options)
  | ApiSignExitOrder id url =>
      ("/api/os-saida/" +:+ js_string_Z id +:+ "/assinar", post (JVObj [("signatureDataUrl", JVStr url)]))
  end.

(** [api.f(...)]: the [fetch] the call makes. *)
Definition api_fetch (API_URL : string) (token : option string) (c : api_call) : fetch_call :=
  request_fetch API_URL token (api_request c).1 (api_request c).2.

(** ** components/ActivateAccount.jsx *)

(** What [handleSubmit] ends in: an error message shown in the form, or
    the call [api.setPassword({ email, token, password })]. *)
Inductive submit_step := SubmitError (msg : string) | SubmitCall (email token password : string).

(** Lines 29-47: [token] and [email] are the query parameters
    ([params.get] gives [null] when absent); [String.length] counts the
    characters of the password. *)
Definition handleSubmit (token email : option string) (password confirmPassword : string)
    : submit_step :=
  match token, email with
  | Some t, Some e =>
      if String.eqb t "" || String.eqb e "" then SubmitError "Link inválido. Solicite um novo convite."
      else if (Z.of_nat (String.length password) <? 6) then SubmitError "A senha deve ter pelo menos 6 caracteres."
      else if negb (String.eqb password confirmPassword) then SubmitError "As senhas não conferem."
      else SubmitCall e t password
  | _, _ => SubmitError "Link inválido. Solicite um novo convite."
  end.

(** Lines 47-51: after the call, [navigate("/login")] ([inl]) or
    [setError(err.message || "Erro ao ativar conta. Tente novamente.")]. *)
Definition after_setPassword (r : outcome string (option body)) : string + string :=
  match r with
  | Ok _ => inl "/login"
  | Err m => inr (if String.eqb m "" then "Erro ao ativar conta. Tente novamente." else m)
  end.

(** ** Lemmas on the page loop *)

Section PageLoop.
Context (cur total : Z).

(** Indices that are all kept are pushed one by one. *)
Lemma fold_kept l acc :
  (forall i, i ∈ l -> page_kept cur total i = true) ->
  fold_left (page_step cur total) l acc = acc ++ map PNum l.
Proof.
  revert acc. induction l as [|i l IH]; intros acc Hl; simpl; [by rewrite app_nil_r|].
  unfold page_step at 2. rewrite Hl by (by left). rewrite IH by (intros j Hj; apply Hl; by right).
  by rewrite <- app_assoc.
Qed.

(** After an ellipsis, indices that are all dropped push nothing. *)
Lemma fold_dropped_after l acc :
  (forall i, i ∈ l -> page_kept cur total i = false) -> last acc = Some PEllipsis ->
  fold_left (page_step cur total) l acc = acc.
Proof.
  revert acc. induction l as [|i l IH]; intros acc Hl Hlast; simpl; [done|].
  unfold page_step at 2. rewrite Hl by (by left). rewrite bool_decide_true by done.
  apply IH; [intros j Hj; apply Hl; by right|done].
Qed.

(** After a number, a non-empty run of dropped indices pushes one
    ellipsis. *)
Lemma fold_dropped l acc n :
  (forall i, i ∈ l -> page_kept cur total i = false) -> l <> [] -> last acc = Some (PNum n) ->
  fold_left (page_step cur total) l acc = acc ++ [PEllipsis].
Proof.
  destruct l as [|i l]; intros Hl Hne Hlast; [done|]. simpl.
  unfold page_step at 2. rewrite Hl by (by left). rewrite bool_decide_false by (rewrite Hlast; done).
  apply fold_dropped_after; [intros j Hj; apply Hl; by right|apply last_snoc].
Qed.

(** A run of dropped indices, empty or not, after a number. *)
Lemma fold_dropped_run a k acc n :
  (forall i, a <= i < a + k -> page_kept cur total i = false) -> last acc = Some (PNum n) ->
  fold_left (page_step cur total) (seqZ a k) acc = acc ++ (if 0 <? k then [PEllipsis] else []).
Proof.
  intros Hk Hlast. destruct (Z.ltb_spec 0 k).
  - apply (fold_dropped _ _ n); [|by rewrite seqZ_cons by lia|done].
    intros i Hi. apply elem_of_seqZ in Hi. by apply Hk.
  - rewrite seqZ_nil by lia. simpl. by rewrite app_nil_r.
Qed.

Lemma last_ends_num l1 l2 n : last (l1 ++ l2 ++ [PNum n]) = Some (PNum n).
Proof. rewrite app_assoc. apply last_snoc. Qed.
End PageLoop.

Lemma seqZ_sorted a k : StronglySorted Z.lt (seqZ a k).
Proof.
  destruct (Z.le_gt_cases k 0) as [Hk|Hk]; [rewrite seqZ_nil by done; constructor|].
  replace k with (Z.of_nat (Z.to_nat k)) by lia. generalize (Z.to_nat k) as n. clear.
  intros n. revert a. induction n as [|n IH]; intros a; [constructor|].
  rewrite Nat2Z.inj_succ, seqZ_cons by lia. constructor.
  - replace (Z.pred (Z.succ (Z.of_nat n))) with (Z.of_nat n) by lia. apply IH.
  - apply Forall_forall. intros x Hx. apply elem_of_seqZ in Hx. lia.
Qed.

Lemma seqZ_one a n : n = 1 -> seqZ a n = [a].
Proof. intros ->. rewrite seqZ_cons by lia. by rewrite seqZ_nil by lia. Qed.

Lemma seqZ_split a b n k : 0 <= k <= n -> b = a + k -> seqZ a n = seqZ a k ++ seqZ b (n - k).
Proof. intros Hk ->. replace n with (k + (n - k)) at 1 by lia. rewrite seqZ_app by lia. done. Qed.

Lemma last_map_num acc mid :
  mid <> [] -> exists n, last (acc ++ map PNum mid) = Some (PNum n).
Proof.
  intros Hne. destruct (exists_last Hne) as (m' & x & ->). exists x.
  rewrite map_app, app_assoc. apply last_snoc.
Qed.

Lemma page_step_kept cur total acc i :
  page_kept cur total i = true -> page_step cur total acc i = acc ++ [PNum i].
Proof. intros H. unfold page_step. by rewrite H. Qed.

(** Decide [page_kept] on an index whose position is known. *)
Ltac kept_tac := intros; unfold page_kept; z_cases; simpl; try reflexivity; lia.

(** The loop's result: the first page, an optional ellipsis, the window
    of pages around the current one that lies strictly between the first
    and the last, an optional ellipsis, the last page. *)
Lemma page_list_shape cur total :
  2 <= total ->
  exists e1 e2 mid,
    page_list cur total = [PNum 1] ++ e1 ++ map PNum mid ++ e2 ++ [PNum total] /\
    (length e1 <= 1)%nat /\ (length e2 <= 1)%nat /\
    Forall (eq PEllipsis) e1 /\ Forall (eq PEllipsis) e2 /\
    StronglySorted Z.lt mid /\ Forall (fun n => 2 <= n <= total - 1) mid /\ (length mid <= 3)%nat /\
    (2 <= cur <= total - 1 -> cur ∈ mid).
Proof.
  intros Ht. unfold page_list.
  remember (Z.max 2 (cur - 1)) as lo eqn:Hlo. remember (Z.min (total - 1) (cur + 1)) as hi eqn:Hhi.
  destruct (Z.le_gt_cases lo hi) as [Hw|Hw].
  - rewrite (seqZ_split 1 2 total 1), (seqZ_split 2 lo _ (lo - 2)), (seqZ_split lo (hi + 1) _ (hi - lo + 1)),
      (seqZ_split (hi + 1) total _ (total - 1 - hi)) by lia.
    rewrite (seqZ_one 1 1), (seqZ_one total) by lia. rewrite !fold_left_app. simpl.
    rewrite (page_step_kept cur total [] 1) by kept_tac. simpl.
    rewrite (fold_dropped_run cur total 2 (lo - 2) [PNum 1] 1) by (kept_tac || done).
    rewrite (fold_kept cur total (seqZ lo (hi - lo + 1))) by (intros i Hi; apply elem_of_seqZ in Hi; kept_tac).
    destruct (last_map_num ([PNum 1] ++ (if 0 <? lo - 2 then [PEllipsis] else [])) (seqZ lo (hi - lo + 1)))
      as [n Hn]; [rewrite seqZ_cons by lia; done|].
    rewrite (fold_dropped_run cur total (hi + 1) (total - 1 - hi) _ n) by (kept_tac || done).
    rewrite page_step_kept by kept_tac.
    eexists (if 0 <? lo - 2 then [PEllipsis] else []), (if 0 <? total - 1 - hi then [PEllipsis] else []),
      (seqZ lo (hi - lo + 1)).
    split_and!.
    + by rewrite <- !app_assoc.
    + destruct (0 <? lo - 2); simpl; lia.
    + destruct (0 <? total - 1 - hi); simpl; lia.
    + destruct (0 <? lo - 2); repeat constructor.
    + destruct (0 <? total - 1 - hi); repeat constructor.
    + apply seqZ_sorted.
    + apply Forall_forall. intros i Hi. apply elem_of_seqZ in Hi. lia.
    + rewrite length_seqZ. lia.
    + intros Hc. apply elem_of_seqZ. lia.
  - rewrite (seqZ_split 1 2 total 1), (seqZ_split 2 total _ (total - 2)) by lia.
    rewrite (seqZ_one 1 1), (seqZ_one total) by lia. rewrite !fold_left_app. simpl.
    rewrite (page_step_kept cur total [] 1) by kept_tac. simpl.
    rewrite (fold_dropped_run cur total 2 (total - 2) [PNum 1] 1) by (kept_tac || done).
    rewrite page_step_kept by kept_tac.
    exists (if 0 <? total - 2 then [PEllipsis] else []), [], [].
    split_and!; simpl; try done; try lia;
      try (destruct (0 <? total - 2); simpl; try lia; repeat constructor; fail); repeat constructor.
Qed.

Lemma page_numbers_app l1 l2 : page_numbers (l1 ++ l2) = page_numbers l1 ++ page_numbers l2.
Proof. apply omap_app. Qed.

Lemma page_numbers_ellipses e : Forall (eq PEllipsis) e -> page_numbers e = [].
Proof. induction 1 as [|x e <- _ IH]; [done|]. exact IH. Qed.

Lemma page_numbers_map mid : page_numbers (map PNum mid) = mid.
Proof.
  induction mid as [|n mid IH]; [done|].
  change (page_numbers (map PNum (n :: mid))) with (n :: page_numbers (map PNum mid)). by rewrite IH.
Qed.

Lemma count_ellipses_app l1 l2 : count_ellipses (l1 ++ l2) = (count_ellipses l1 + count_ellipses l2)%nat.
Proof. unfold count_ellipses. by rewrite filter_app_eq, length_app. Qed.

Lemma count_ellipses_ellipses e : Forall (eq PEllipsis) e -> count_ellipses e = length e.
Proof. induction 1 as [|x e <- _ IH]; [done|]. simpl. unfold count_ellipses in IH |- *. simpl. by rewrite IH. Qed.

Lemma count_ellipses_map mid : count_ellipses (map PNum mid) = 0%nat.
Proof. induction mid as [|n mid IH]; [done|]. exact IH. Qed.

Lemma count_ellipses_num n : count_ellipses [PNum n] = 0%nat.
Proof. reflexivity. Qed.

#[export] Hint Rewrite page_numbers_app page_numbers_map count_ellipses_app count_ellipses_map
  count_ellipses_num : estoque_rw.

(** What [goTo] lets through. *)
Lemma goTo_bounds cur total p q : goTo cur total p = Some q -> q = p /\ 1 <= p <= total /\ p <> cur.
Proof. unfold goTo. z_cases; simpl; intros; simplify_eq; lia. Qed.

(** ** Theorems *)

(** C39: the page buttons stay within bounds.  When [Pagination] renders
    (more than one page), its list has at most seven entries of which at
    most two are ["..."]; its numbers are pages [1..totalPages] in
    strictly increasing order, from page 1 to the last page, and include
    the current page when it is in range; and every click that reaches
    [onPageChange] passes it a page in [1..totalPages] other than the
    current one. *)
Theorem Pagination_bounds cur total items :
  Pagination cur total = Some items ->
  (length items <= 7)%nat /\ (count_ellipses items <= 2)%nat /\
  Forall (fun n => 1 <= n <= total) (page_numbers items) /\
  StronglySorted Z.lt (page_numbers items) /\
  head items = Some (PNum 1) /\ last items = Some (PNum total) /\
  (1 <= cur <= total -> PNum cur ∈ items) /\
  (forall c p, on_click cur total c = Some p -> 1 <= p <= total /\ p <> cur).
Proof.
  unfold Pagination. destruct (Z.leb_spec total 1) as [Ht|Ht]; [done|]. intros [= <-].
  destruct (page_list_shape cur total ltac:(lia))
    as (e1 & e2 & mid & -> & He1 & He2 & Ee1 & Ee2 & Hs & Hr & Hm & Hc).
  autorewrite with estoque_rw.
  rewrite (page_numbers_ellipses e1 Ee1), (page_numbers_ellipses e2 Ee2),
    (count_ellipses_ellipses e1 Ee1), (count_ellipses_ellipses e2 Ee2).
  split_and!.
  - rewrite !length_app, length_map. simpl. lia.
  - simpl. lia.
  - simpl. constructor; [lia|]. apply Forall_app. split; [|constructor; [lia|done]].
    eapply Forall_impl; [exact Hr|]. simpl. lia.
  - simpl. constructor.
    + apply StronglySorted_snoc; [done|]. eapply Forall_impl; [exact Hr|]. simpl. lia.
    + apply Forall_app. split; [|constructor; [lia|done]]. eapply Forall_impl; [exact Hr|]. simpl. lia.
  - done.
  - rewrite !app_assoc. apply last_snoc.
  - intros Hcur. rewrite !elem_of_app, !list_elem_of_singleton.
    destruct (decide (cur = 1)) as [->|H1]; [by left|].
    destruct (decide (cur = total)) as [->|H2]; [by right; right; right; right|].
    right; right; left. apply list_elem_of_fmap_2. apply Hc. lia.
  - intros c p. destruct c; simpl; [z_cases; [done|]|z_cases; [done|]|]; intros Hg;
      destruct (goTo_bounds _ _ _ _ Hg) as (-> & ? & ?); lia.
Qed.

Lemma Pagination_bounds_witness :
  Pagination 5 10 = Some [PNum 1; PEllipsis; PNum 4; PNum 5; PNum 6; PEllipsis; PNum 10] /\
  (length [PNum 1; PEllipsis; PNum 4; PNum 5; PNum 6; PEllipsis; PNum 10] <= 7)%nat.
Proof.
  split; [reflexivity|].
  apply (Pagination_bounds 5 10 [PNum 1; PEllipsis; PNum 4; PNum 5; PNum 6; PEllipsis; PNum 10]).
  reflexivity.
Defined.

(** ** The router *)

Lemma find_in {A} (f : A -> bool) l x : find f l = Some x -> x ∈ l.
Proof. intros H. apply list_elem_of_In. by apply (find_some f l H). Qed.

Lemma match_route_in routes path e : match_route routes path = Some e -> e ∈ map snd routes.
Proof.
  unfold match_route. intros H.
  destruct (find _ routes) as [[k e']|] eqn:Hf.
  - apply find_in in Hf. simplify_eq. apply list_elem_of_In, in_map_iff.
    exists (k, e). split; [done|]. by apply list_elem_of_In.
  - destruct (find (fun r => String.eqb (fst r) "*") routes) as [[k e']|] eqn:Hs;
      simplify_eq/=.
    apply find_in in Hs. apply list_elem_of_In, in_map_iff.
    exists (k, e). split; [done|]. by apply list_elem_of_In.
Qed.

(** Case analysis on a route element drawn from a concrete table. *)
Ltac route_cases H :=
  simpl in H; repeat (apply elem_of_cons in H as [->|H]);
  [..| by apply elem_of_nil in H]; simpl; unfold PrivateRoute; repeat case_match; eauto.

(** The screens [App] can produce: the signed-out table shows the two
    public pages or sends to /login; the signed-in table shows a page or
    sends to /dashboard or /. *)
Lemma App_cases user path :
  match user with
  | None => App user path = Show PLogin \/ App user path = Show PActivate \/
            App user path = Redirect "/login"
  | Some _ => (exists p, App user path = Show p) \/ App user path = Redirect "/dashboard" \/
              App user path = Redirect "/"
  end.
Proof.
  unfold App. destruct user as [r|];
    (destruct (match_route _ path) as [e|] eqn:Hm; [apply match_route_in in Hm|
      revert Hm; unfold match_route; destruct (find _ _) as [[]|]; simpl; congruence]).
  - route_cases Hm.
  - route_cases Hm.
Qed.

(** More fuel never changes a resolved path. *)
Lemma resolve_mono n m user path x :
  resolve n user path = Some x -> (n <= m)%nat -> resolve m user path = Some x.
Proof.
  revert m path. induction n as [|n IH]; intros m path H Hle; [done|].
  destruct m as [|m]; [lia|]. simpl in *.
  destruct (App user path); [done|]. apply IH; [done|lia].
Qed.

Lemma resolve_S n user path :
  resolve (S n) user path =
    match App user path with Show p => Some (path, p) | Redirect to => resolve n user to end.
Proof. reflexivity. Qed.

(** C40 (termination) Every location settles: following the [<Navigate>]s
    of [App] from any path, signed in or not, reaches a page within three
    renders (a non-admin at /users goes to /dashboard, which no route
    names, then to /, which shows the dashboard); the page is at the path
    itself, at /login or at /, and more renders change nothing. *)
Theorem App_resolve_terminates user path :
  exists target p, resolve 3 user path = Some (target, p) /\
    (target = path \/ target = "/login" \/ target = "/") /\
    (forall fuel, (3 <= fuel)%nat -> resolve fuel user path = Some (target, p)).
Proof.
  assert (Hr : forall target p, resolve 3 user path = Some (target, p) ->
            (target = path \/ target = "/login" \/ target = "/") ->
            exists target p, resolve 3 user path = Some (target, p) /\
              (target = path \/ target = "/login" \/ target = "/") /\
              (forall fuel, (3 <= fuel)%nat -> resolve fuel user path = Some (target, p))).
  { intros t p H Ht. exists t, p. split_and!; [done|done|]. intros; by eapply resolve_mono. }
  pose proof (App_cases user path) as Hc. destruct user as [r|].
  - destruct Hc as [[p Hp]|[Hp|Hp]]; (eapply Hr; [rewrite resolve_S, Hp; reflexivity|auto]).
  - destruct Hc as [Hp|[Hp|Hp]]; (eapply Hr; [rewrite resolve_S, Hp; reflexivity|auto]).
Qed.

(** C38 (safety) The role checks of /assinatura, /estoques and /unidades
    are never made: those routes pass [role=...] but [PrivateRoute] reads
    [roles], so every signed-in role, whatever it is, sees those pages,
    while /users, which passes [roles], shows only to super_admin and
    admin. *)
Theorem App_role_prop_ignored r :
  App (Some r) "/assinatura" = Show PAssinatura /\
  App (Some r) "/estoques" = Show PWarehouses /\
  App (Some r) "/unidades" = Show PUnidades /\
  (App (Some r) "/users" = Show PUsers <-> r = "super_admin" \/ r = "admin").
Proof.
  refine (conj eq_refl (conj eq_refl (conj eq_refl _))).
  split; [|by intros [-> | ->]].
  change (App (Some r) "/users") with (PrivateRoute (Some r) (Some ["super_admin"; "admin"]) PUsers).
  unfold PrivateRoute; simpl.
  destruct (String.eqb_spec r "super_admin"), (String.eqb_spec r "admin"); simpl;
    intros H; try discriminate H; auto.
Qed.

(** ** Headers and replies of [request] *)

Lemma header_get_set k k' v hs :
  header_get k (header_set k' v hs) = if String.eqb k' k then Some v else header_get k hs.
Proof.
  unfold header_get. induction hs as [|[k1 v1] hs IH]; simpl.
  - by destruct (String.eqb k' k).
  - destruct (String.eqb_spec k1 k') as [->|]; simpl; [by destruct (String.eqb k' k)|].
    destruct (String.eqb_spec k1 k) as [->|]; simpl; [|exact IH].
    destruct (String.eqb_spec k' k); congruence.
Qed.

#[export] Hint Rewrite header_get_set : estoque_rw.

(** No function of [api] passes headers of its own. *)
Lemma api_request_no_headers c : opt_headers (api_request c).2 = [].
Proof. by destruct c. Qed.

(** The headers of a call: the token's, then the JSON type's. *)
Lemma api_fetch_headers_eq API_URL token c :
  f_headers (api_fetch API_URL token c) =
    match token with
    | Some t => if String.eqb t "" then [] else [("Authorization", "Bearer " +:+ t)]
    | None => []
    end ++
    match opt_body (api_request c).2 with
    | Some (BodyJson _) => [("Content-Type", "application/json")]
    | _ => []
    end.
Proof.
  unfold api_fetch, request_fetch. simpl.
  generalize (api_request_no_headers c). destruct (api_request c) as [path [m b hs]]; simpl; intros ->.
  destruct token as [t|]; [destruct (String.eqb t "")|]; destruct b as [[]|]; reflexivity.
Qed.

(** Every call of the [api] object sends the stored
    token as [Authorization: Bearer <token>] when there is one (and no
    such header otherwise), declares [Content-Type: application/json]
    exactly when it sends a JSON body, and leaves the type of a
    [FormData] upload to the browser. *)
Theorem api_fetch_headers API_URL token c :
  header_get "Authorization" (f_headers (api_fetch API_URL token c)) =
    match token with Some t => if String.eqb t "" then None else Some ("Bearer " +:+ t) | None => None end /\
  header_get "Content-Type" (f_headers (api_fetch API_URL token c)) =
    match f_body (api_fetch API_URL token c) with Some (BodyJson _) => Some "application/json" | _ => None end.
Proof.
  rewrite api_fetch_headers_eq. unfold api_fetch, request_fetch. simpl.
  destruct token as [t|]; [destruct (String.eqb t "")|];
    destruct (opt_body (api_request c).2) as [[]|]; simpl; auto.
Qed.

Lemma request_result_err r m : request_result r = Err m -> m <> "".
Proof.
  unfold request_result. destruct (_ && _); [done|].
  intros [= <-]. repeat case_match; simplify_eq; try done.
  by apply String.eqb_neq.
Qed.

(** ** ActivateAccount *)

(** [handleSubmit] calls [api.setPassword] exactly when the link carries
    both parameters, the password has six characters or more and the
    confirmation repeats it; the call carries the link's e-mail and token
    and the typed password. *)
Lemma handleSubmit_call_iff token email password confirm e t p :
  handleSubmit token email password confirm = SubmitCall e t p <->
  token = Some t /\ email = Some e /\ t <> "" /\ e <> "" /\
  (6 <= String.length password)%nat /\ confirm = password /\ p = password.
Proof.
  unfold handleSubmit. split.
  - destruct token as [t'|], email as [e'|]; try discriminate.
    destruct (String.eqb_spec t' ""), (String.eqb_spec e' ""); simpl; try discriminate.
    destruct (Z.ltb_spec (Z.of_nat (String.length password)) 6); [discriminate|].
    destruct (String.eqb_spec password confirm); simpl; [|discriminate].
    intros [= <- <- <-]. split_and!; auto. lia.
  - intros (-> & -> & Ht & He & Hl & -> & ->).
    apply String.eqb_neq in Ht, He. rewrite Ht, He, String.eqb_refl. simpl.
    destruct (Z.ltb_spec (Z.of_nat (String.length password)) 6); [lia|done].
Qed.

(** ** Percent-encoding *)

Lemma hex_val_digit d : (d < 16)%nat -> hex_val (hex_digit d) = Some d.
Proof. intros Hd. do 16 (destruct d as [|d]; [reflexivity|]). lia. Qed.

Lemma ascii_of_nat_div_mod c :
  Ascii.ascii_of_nat (Ascii.nat_of_ascii c / 16 * 16 + Ascii.nat_of_ascii c mod 16) = c.
Proof.
  rewrite Nat.mul_comm, <- Nat.div_mod_eq. apply Ascii.ascii_nat_embedding.
Qed.

(** An unreserved character is neither [+] nor [%]. *)
Lemma unreserved_plain c :
  uri_unreserved c = true ->
  Ascii.eqb c (Ascii.ascii_of_nat 43) = false /\ Ascii.eqb c (Ascii.ascii_of_nat 37) = false.
Proof.
  intros Hc. split; apply Ascii.eqb_neq; intros ->; discriminate Hc.
Qed.

(** [form_decode] undoes [encodeURIComponent]. *)
Lemma form_decode_encode s : form_decode (encodeURIComponent s) = s.
Proof.
  induction s as [|c s IH]; [done|]. cbn [encodeURIComponent].
  destruct (uri_unreserved c) eqn:Hu.
  - destruct (unreserved_plain c Hu) as [H1 H2]. simpl in H1, H2 |- *. rewrite H1, H2. by rewrite IH.
  - pose proof (Ascii.nat_ascii_bounded c) as Hb.
    assert (Ha : (Ascii.nat_of_ascii c / 16 < 16)%nat) by (apply Nat.Div0.div_lt_upper_bound; lia).
    assert (Hm : (Ascii.nat_of_ascii c mod 16 < 16)%nat) by (apply Nat.mod_upper_bound; lia).
    remember (Ascii.nat_of_ascii c / 16)%nat as a. remember (Ascii.nat_of_ascii c mod 16)%nat as b.
    simpl. rewrite !hex_val_digit by done. rewrite IH. subst a b. by rewrite ascii_of_nat_div_mod.
Qed.
