(* ===== verification/Activate.v ===== *)
(** * Activate: the account activation form

    Models src/Frontend/src/components/ActivateAccount.jsx as a state
    machine: the six [useState] hooks are the record [form], the user's
    actions and the settlement of the awaited [api.setPassword] are the
    events, and [step] is what the handlers do ([handleSubmit] of
    Frontend.v up to the [await], then its [catch]/[finally]).  What the
    browser does with the markup matters to the machine and is part of
    it: a [disabled] button cannot be clicked nor used to submit the form,
    and a [required] input left empty stops the submission before
    [onSubmit].  [view] is the function of the state the JSX renders.

    The pending call is a flag of the system ([sys_pending]): the
    settlement event exists only while a call is in flight. *)

From S2P Require Import Prelude Schema StockModel Products Frontend.

Open Scope Z_scope.
Open Scope est_scope.

(** Lines 16-23. *)
Record form := mkForm {
  password : string;
  confirmPassword : string;
  error : string;
  loading : bool;
  showPassword : bool;
  showConfirm : bool
}.

Definition form_init : form := mkForm "" "" "" false false false.

Inductive form_event :=
| ChangePassword (v : string)     (** [onChange] of "Nova senha" *)
| ChangeConfirm (v : string)      (** [onChange] of "Confirmar senha" *)
| TogglePassword                  (** the eye button of the password *)
| ToggleConfirm                   (** the eye button of the confirmation *)
| SubmitForm                      (** the submit button, or Enter in an input *)
| Settle (r : outcome string (option body)) (** [await api.setPassword] settles *)
| BackToLogin.                    (** "Voltar para login" *)

Inductive form_effect :=
| NoEffect
| CallSetPassword (email token password : string)
| NavigateTo (path : string).

Definition set_error (m : string) (f : form) : form :=
  mkForm (password f) (confirmPassword f) m (loading f) (showPassword f) (showConfirm f).

Definition set_loading (b : bool) (f : form) : form :=
  mkForm (password f) (confirmPassword f) (error f) b (showPassword f) (showConfirm f).

(** The handlers on one event; [token] and [email] come from the URL. *)
Definition on_event (token email : option string) (f : form) (ev : form_event) : form * form_effect :=
  match ev with
  | ChangePassword v =>
      (mkForm v (confirmPassword f) (error f) (loading f) (showPassword f) (showConfirm f), NoEffect)
  | ChangeConfirm v =>
      (mkForm (password f) v (error f) (loading f) (showPassword f) (showConfirm f), NoEffect)
  | TogglePassword =>
      (mkForm (password f) (confirmPassword f) (error f) (loading f) (negb (showPassword f)) (showConfirm f),
       NoEffect)
  | ToggleConfirm =>
      (mkForm (password f) (confirmPassword f) (error f) (loading f) (showPassword f) (negb (showConfirm f)),
       NoEffect)
  | SubmitForm =>
      (* the submit button is [disabled={loading}]; [required] inputs *)
      if loading f || String.eqb (password f) "" || String.eqb (confirmPassword f) "" then (f, NoEffect)
      else match handleSubmit token email (password f) (confirmPassword f) with
           | SubmitError m => (set_error m f, NoEffect)
           | SubmitCall e t p => (set_loading true (set_error "" f), CallSetPassword e t p)
           end
  | Settle r =>
      match after_setPassword r with
      | inl path => (set_loading false f, NavigateTo path)
      | inr m => (set_loading false (set_error m f), NoEffect)
      end
  | BackToLogin => if loading f then (f, NoEffect) else (f, NavigateTo "/login")
  end.

(** The form with the call in flight, if any. *)
Record sys := mkSys {
  sys_form : form;
  sys_pending : bool
}.

Definition sys_init : sys := mkSys form_init false.

(** One event of the system: a settlement happens only while a call is
    pending, and a call makes one pending. *)
Definition sys_step (token email : option string) (s : sys) (ev : form_event) : sys * form_effect :=
  match ev with
  | Settle _ =>
      if sys_pending s then let '(f', eff) := on_event token email (sys_form s) ev in (mkSys f' false, eff)
      else (s, NoEffect)
  | _ =>
      let '(f', eff) := on_event token email (sys_form s) ev in
      (mkSys f' (match eff with CallSetPassword _ _ _ => true | _ => sys_pending s end), eff)
  end.

Fixpoint sys_run (token email : option string) (s : sys) (evs : list form_event) : sys * list form_effect :=
  match evs with
  | [] => (s, [])
  | ev :: evs' =>
      let '(s1, eff) := sys_step token email s ev in
      let '(s2, effs) := sys_run token email s1 evs' in
      (s2, eff :: effs)
  end.

(** Lines 56-124: what the form shows. *)
Record view := mkView {
  v_email : string;                 (** [{email || "-"}] *)
  v_password_type : string;         (** ["text"] or ["password"] *)
  v_password_label : string;        (** [aria-label] of its eye button *)
  v_confirm_type : string;
  v_confirm_label : string;
  v_error : option string;          (** [{error && <div ...>}] *)
  v_submit_label : string;
  v_submit_disabled : bool;
  v_back_disabled : bool
}.

Definition view_of (email : option string) (f : form) : view :=
  mkView (match email with Some e => if String.eqb e "" then "-" else e | None => "-" end)
    (if showPassword f then "text" else "password")
    (if showPassword f then "Ocultar senha" else "Mostrar senha")
    (if showConfirm f then "text" else "password")
    (if showConfirm f then "Ocultar confirmação" else "Mostrar confirmação")
    (if String.eqb (error f) "" then None else Some (error f))
    (if loading f then "Ativando..." else "Ativar conta")
    (loading f) (loading f).

(** ** Lemmas *)

Section Machine.
Context (token email : option string).

Definition inv (s : sys) : Prop := loading (sys_form s) = sys_pending s.

Lemma sys_step_inv s ev : inv s -> inv (fst (sys_step token email s ev)).
Proof.
  unfold inv. destruct s as [f pend]. cbn [sys_form sys_pending]. intros Hl.
  destruct ev; cbn [sys_step on_event]; repeat case_match; simplify_eq/=; done.
Qed.

Lemma sys_run_inv s evs : inv s -> inv (fst (sys_run token email s evs)).
Proof.
  revert s. induction evs as [|ev evs IH]; intros s Hs; [done|]. cbn [sys_run].
  destruct (sys_step token email s ev) as [s1 eff] eqn:E.
  pose proof (sys_step_inv s ev Hs) as H1. rewrite E in H1.
  specialize (IH s1 H1). destruct (sys_run token email s1 evs). done.
Qed.

(** With a call in flight, the form is loading and no event sends another. *)
Lemma sys_step_pending s ev e t p :
  inv s -> sys_pending s = true -> snd (sys_step token email s ev) <> CallSetPassword e t p.
Proof.
  unfold inv. destruct s as [f pend]. cbn [sys_form sys_pending]. intros Hl ->.
  destruct f; cbn [loading] in Hl; subst. destruct ev; cbn [sys_step on_event]; repeat case_match; simplify_eq/=; done.
Qed.

End Machine.

(** ** Theorems *)

(** C8: no second activation request while one is in flight.  In every
    state the form reaches from its initial state, by any sequence of
    typing, toggling, submitting, going back and settlements of the
    call, the submit and back buttons are disabled exactly while an
    [api.setPassword] call is pending, and while one is pending no event
    sends another. *)
Theorem no_double_submit token email evs ev e t p :
  let s := fst (sys_run token email sys_init evs) in
  v_submit_disabled (view_of email (sys_form s)) = sys_pending s /\
  v_back_disabled (view_of email (sys_form s)) = sys_pending s /\
  (sys_pending s = true -> snd (sys_step token email s ev) <> CallSetPassword e t p).
Proof.
  intros s. pose proof (sys_run_inv token email sys_init evs eq_refl) as Hi.
  split_and!; [exact Hi|exact Hi|]. by apply sys_step_pending.
Qed.

Lemma no_double_submit_witness :
  let evs := [ChangePassword "segredo"; ChangeConfirm "segredo"; SubmitForm] in
  let s := fst (sys_run (Some "t0k") (Some "ana@example.com") sys_init evs) in
  sys_pending s = true /\
  snd (sys_step (Some "t0k") (Some "ana@example.com") s SubmitForm) <>
    CallSetPassword "ana@example.com" "t0k" "segredo".
Proof.
  intros evs s. split; [reflexivity|].
  apply (no_double_submit (Some "t0k") (Some "ana@example.com") evs SubmitForm "ana@example.com" "t0k" "segredo").
  reflexivity.
Defined.
