(* ===== verification/Avatar.v ===== *)
(** * Avatar: the upload middleware of POST /api/users/me/avatar

    Models src/Backend/src/middlewares/uploadAvatar.js, the multer
    instance [uploadAvatar] that routes/userRoutes.js puts in front of
    [uploadAvatarController] as [uploadAvatar.single("avatar")]:
    - [extname] is Node's [path.extname], the loop of
      lib/path.js written out over the characters of the name;
    - [avatar_filename] is the [filename] callback,
      [`${req.user.id}-${Date.now()}-${Math.round(Math.random() * 1e9)}${ext}`],
      with the clock and the random draw as inputs;
    - [fileFilter] and multer's check of the field name (a file under
      another field, or a second file, is [LIMIT_UNEXPECTED_FILE]);
    - [single_avatar] runs them over the parts of the request in order
      and stores the accepted file under uploads/avatars, the directory
      [express.static] serves at /uploads.

    The disk is the list of paths stored under uploads/; multer's removal
    of the files of a failed request is the state left unchanged.

    [extname] is library code (Node's lib/path.js), not code of the
    repository; it is written out because the stored name's extension,
    which decides the type [express.static] serves the avatar with,
    depends on it.  The theorem: the name the callback builds keeps the
    original name's extension, as [path.extname] reads it back, and that
    extension is the reference one ([extname_ref]). *)

From S2P Require Import Prelude Schema Permission StockModel Products Frontend.

Open Scope Z_scope.
Open Scope est_scope.

(** ** path.extname *)

(** The variables of the loop: [startDot], [startPart], [end],
    [matchedSlash] and [preDotState]. *)
Record ext_state := mkExtState {
  startDot : Z;
  startPart : Z;
  end_ : Z;
  matchedSlash : bool;
  preDotState : Z
}.

Definition ext_init : ext_state := mkExtState (-1) 0 (-1) true 0.

Definition slash : Ascii.ascii := Ascii.ascii_of_nat 47.
Definition dot : Ascii.ascii := Ascii.ascii_of_nat 46.

(** [for (let i = path.length - 1; i >= 0; --i)]: [cs] holds the
    characters at [i], [i - 1], ..., [0]. *)
Fixpoint extname_loop (cs : list Ascii.ascii) (i : Z) (st : ext_state) : ext_state :=
  match cs with
  | [] => st
  | c :: cs' =>
      if Ascii.eqb c slash then
        if negb (matchedSlash st)
        then mkExtState (startDot st) (i + 1) (end_ st) (matchedSlash st) (preDotState st)
        else extname_loop cs' (i - 1) st
      else
        let st1 := if end_ st =? -1
                   then mkExtState (startDot st) (startPart st) (i + 1) false (preDotState st)
                   else st in
        let st2 :=
          if Ascii.eqb c dot then
            if startDot st1 =? -1
            then mkExtState i (startPart st1) (end_ st1) (matchedSlash st1) (preDotState st1)
            else if negb (preDotState st1 =? 1)
            then mkExtState (startDot st1) (startPart st1) (end_ st1) (matchedSlash st1) 1
            else st1
          else if negb (startDot st1 =? -1)
          then mkExtState (startDot st1) (startPart st1) (end_ st1) (matchedSlash st1) (-1)
          else st1 in
        extname_loop cs' (i - 1) st2
  end.

(** [path.slice(start, end)] *)
Definition slice (s : string) (start stop : Z) : string :=
  String.substring (Z.to_nat start) (Z.to_nat (stop - start)) s.

Definition extname (path : string) : string :=
  let st := extname_loop (rev (String.list_ascii_of_string path))
                         (Z.of_nat (String.length path) - 1) ext_init in
  if (startDot st =? -1) || (end_ st =? -1) || (preDotState st =? 0) ||
     ((preDotState st =? 1) && (startDot st =? end_ st - 1) && (startDot st =? startPart st + 1))
  then ""
  else slice path (startDot st) (end_ st).

(** The reference the loop implements on a name without "/" (what
    browsers send as a file's name): the part from the last dot to the
    end, except when there is no dot, when the only dot is the first
    character (".bashrc"), and for "..". *)
Fixpoint last_index (c : Ascii.ascii) (s : string) : option nat :=
  match s with
  | EmptyString => None
  | String x s' =>
      match last_index c s' with
      | Some k => Some (S k)
      | None => if Ascii.eqb x c then Some 0%nat else None
      end
  end.

Definition extname_ref (s : string) : string :=
  match last_index dot s with
  | None | Some O => ""
  | Some k => if String.eqb s ".." then "" else String.substring k (String.length s - k) s
  end.

Definition has_slash (s : string) : bool :=
  existsb (fun c => Ascii.eqb c slash) (String.list_ascii_of_string s).

(** ** The storage and the filter *)

(** The [filename] callback: [now] is [Date.now()], [draw] is
    [Math.round(Math.random() * 1e9)]. *)
Definition avatar_filename (user_id now draw : Z) (originalname : string) : string :=
  js_string_Z user_id +:+ "-" +:+ (js_string_Z now +:+ "-" +:+ js_string_Z draw) +:+ extname originalname.

(** [s.startsWith(prefix)] *)
Definition startsWith (s prefix : string) : bool := String.prefix prefix s.

(** [fileFilter]: [Some e] is [cb(new Error(...))]. *)
Definition fileFilter (f : form_file) : option js_error :=
  if startsWith (ff_mimetype f) "image/" then None
  else Some (plain_error "Arquivo precisa ser uma imagem.").

(** multer's [wrappedFileFilter] for [.single("avatar")]: one file is
    allowed under the field "avatar", and anything else is
    [new MulterError("LIMIT_UNEXPECTED_FILE")], whose message is
    "Unexpected field" and which carries [code] but no [statusCode]. *)
Definition unexpected_field : js_error := mkError None "Unexpected field" (Some "LIMIT_UNEXPECTED_FILE").

(** The disk under uploads/. *)
Definition disk : Type := list string.

(** The parts of the request in order, with the number of "avatar" files
    still allowed; [Ok (Some name)] is [req.file.filename]. *)
Fixpoint single_loop (filesLeft : nat) (user_id now draw : Z) (parts : list form_file)
    : outcome js_error (option string) :=
  match parts with
  | [] => Ok None
  | f :: rest =>
      if negb (String.eqb (ff_field f) "avatar") then Err unexpected_field
      else match filesLeft with
           | O => Err unexpected_field
           | S k =>
               match fileFilter f with
               | Some e => Err e
               | None =>
                   match single_loop k user_id now draw rest with
                   | Ok _ => Ok (Some (avatar_filename user_id now draw (ff_originalname f)))
                   | Err e => Err e
                   end
               end
           end
  end.

(** [uploadAvatar.single("avatar")] on a request body: a JSON body is not
    multipart and passes with no file; an accepted file is written to
    uploads/avatars/<filename>. *)
Definition single_avatar (user_id now draw : Z) (body : option req_body) (d : disk)
    : outcome js_error (option string) * disk :=
  match body with
  | Some (BodyForm parts) =>
      match single_loop 1 user_id now draw parts with
      | Ok (Some name) => (Ok (Some name), d ++ ["avatars/" +:+ name])
      | r => (r, d)
      end
  | _ => (Ok None, d)
  end.

(** ** Lemmas *)

Lemma prefix_app p t : String.prefix p (p +:+ t) = true.
Proof.
  induction p as [|c p IH]; [by destruct t|]. rewrite append_cons. simpl.
  destruct (Ascii.ascii_dec c c); [exact IH|done].
Qed.

(** One image under the field "avatar" is stored under its generated
    name. *)
Lemma single_avatar_image user_id now draw orig m d :
  single_avatar user_id now draw (Some (BodyForm [mkFormFile "avatar" orig ("image/" +:+ m)])) d =
  (Ok (Some (avatar_filename user_id now draw orig)), d ++ ["avatars/" +:+ avatar_filename user_id now draw orig]).
Proof. unfold single_avatar, single_loop, fileFilter, startsWith. simpl. by rewrite prefix_app. Qed.

(** A file that is not an image is refused with the filter's error, and
    nothing is stored. *)
Lemma single_avatar_not_image user_id now draw orig mime d :
  startsWith mime "image/" = false ->
  single_avatar user_id now draw (Some (BodyForm [mkFormFile "avatar" orig mime])) d =
  (Err (plain_error "Arquivo precisa ser uma imagem."), d).
Proof. intros Hm. unfold single_avatar, single_loop, fileFilter. simpl. by rewrite Hm. Qed.

(** The errors of the middleware carry no status code and a message. *)
Lemma single_loop_err n user_id now draw parts err :
  single_loop n user_id now draw parts = Err err -> statusCode err = None /\ message err <> "".
Proof.
  revert n. induction parts as [|f rest IH]; intros n; destruct n as [|k]; simpl;
    try (intros H; inversion H; fail).
  - destruct (negb _); intros [= <-]; split; [reflexivity|discriminate|reflexivity|discriminate].
  - destruct (negb _); [intros [= <-]; split; [reflexivity|discriminate]|].
    unfold fileFilter. destruct (startsWith _ _); [|intros [= <-]; split; [reflexivity|discriminate]].
    destruct (single_loop k _ _ _ rest) eqn:Hl; [intros H; inversion H|]. intros [= <-]. by apply (IH k).
Qed.

Lemma single_avatar_err user_id now draw body d err d' :
  single_avatar user_id now draw body d = (Err err, d') -> statusCode err = None /\ message err <> "" /\ d' = d.
Proof.
  unfold single_avatar. destruct body as [[v|parts]|]; try discriminate.
  destruct (single_loop 1 _ _ _ parts) as [[name|]|e'] eqn:Hl; try discriminate.
  intros [= -> <-]. destruct (single_loop_err _ _ _ _ _ _ Hl). split_and!; done.
Qed.

(** ** The loop of path.extname against its reference *)

Local Ltac of_nat_neq :=
  repeat match goal with |- context [Z.of_nat ?n =? -1] =>
    rewrite (proj2 (Z.eqb_neq (Z.of_nat n) (-1))) by lia end.

Lemma extname_loop_app xs ys i st :
  Forall (fun c => c <> slash) xs ->
  extname_loop (xs ++ ys) i st = extname_loop ys (i - Z.of_nat (length xs)) (extname_loop xs i st).
Proof.
  intros Hx. revert i st. induction Hx as [|c xs Hc Hx IH]; intros i st; simpl.
  - f_equal; lia.
  - apply Ascii.eqb_neq in Hc. rewrite Hc, IH. f_equal; lia.
Qed.

Lemma extname_loop_nodot xs i st :
  Forall (fun c => c <> slash /\ c <> dot) xs -> startDot st = -1 -> end_ st <> -1 ->
  extname_loop xs i st = st.
Proof.
  intros Hx. revert i. induction Hx as [|c xs [Hs Hd] Hx IH]; intros i Hsd He; simpl; [done|].
  apply Ascii.eqb_neq in Hs, Hd. rewrite Hs, Hd, Hsd. apply Z.eqb_neq in He. rewrite He. simpl.
  rewrite Hsd. simpl. apply IH; [done|by apply Z.eqb_neq].
Qed.

Lemma extname_loop_nodot_start xs i st :
  Forall (fun c => c <> slash /\ c <> dot) xs -> startDot st = -1 ->
  startDot (extname_loop xs i st) = -1.
Proof.
  intros Hx. revert i st. induction Hx as [|c xs [Hs Hd] Hx IH]; intros i st Hsd; simpl; [done|].
  apply Ascii.eqb_neq in Hs, Hd. rewrite Hs, Hd. apply IH.
  destruct (end_ st =? -1); simpl; by rewrite Hsd.
Qed.

Lemma extname_loop_post c xs i :
  Forall (fun c => c <> slash /\ c <> dot) (c :: xs) -> 0 <= i ->
  extname_loop (c :: xs) i ext_init = mkExtState (-1) 0 (i + 1) false 0.
Proof.
  intros Hx Hi. inversion Hx as [|? ? [Hs Hd] Hx']; subst. simpl.
  apply Ascii.eqb_neq in Hs, Hd. rewrite Hs, Hd. simpl.
  apply extname_loop_nodot; [done|done|simpl; lia].
Qed.

Lemma extname_loop_pre ys i st :
  Forall (fun c => c <> slash) ys -> startDot st <> -1 -> end_ st <> -1 ->
  extname_loop ys i st =
  mkExtState (startDot st) (startPart st) (end_ st) (matchedSlash st)
    (match ys with [] => preDotState st | _ :: _ => if Ascii.eqb (List.last ys dot) dot then 1 else -1 end).
Proof.
  intros Hy. revert i st. induction Hy as [|c ys Hc Hy IH]; intros i st Hsd He; simpl.
  - by destruct st.
  - apply Ascii.eqb_neq in Hc. rewrite Hc. apply Z.eqb_neq in He, Hsd. rewrite He, Hsd. simpl.
    set (st2 := mkExtState (startDot st) (startPart st) (end_ st) (matchedSlash st)
                  (if Ascii.eqb c dot then 1 else -1)).
    transitivity (extname_loop ys (i - 1) st2).
    { unfold st2. destruct (Ascii.eqb c dot); [|done].
      destruct (preDotState st =? 1) eqn:Hp; [|done]. apply Z.eqb_eq in Hp. by destruct st; simpl in *; subst. }
    rewrite IH by (simpl; by apply Z.eqb_neq). simpl.
    destruct ys; [done|]. reflexivity.
Qed.

Lemma last_index_spec l :
  match last_index dot (String.string_of_list_ascii l) with
  | None => Forall (fun c => c <> dot) l
  | Some k => exists pre post, l = pre ++ dot :: post /\ length pre = k /\ Forall (fun c => c <> dot) post
  end.
Proof.
  induction l as [|x l IH]; simpl; [done|].
  destruct (last_index dot (String.string_of_list_ascii l)) as [k|].
  - destruct IH as (pre & post & -> & <- & Hp). by exists (x :: pre), post.
  - destruct (Ascii.eqb_spec x dot) as [->|Hx]; [by exists [], l|by constructor].
Qed.

Lemma string_length_of_list l : String.length (String.string_of_list_ascii l) = length l.
Proof. induction l; simpl; auto. Qed.

Lemma has_slash_false l :
  has_slash (String.string_of_list_ascii l) = false -> Forall (fun c => c <> slash) l.
Proof.
  unfold has_slash. rewrite String.list_ascii_of_string_of_list_ascii.
  induction l as [|c l IH]; simpl; [done|]. intros [Hc Hl]%orb_false_iff.
  constructor; [by apply Ascii.eqb_neq|auto].
Qed.

Lemma pre_dot_state pre :
  match rev pre with [] => 0 | _ :: _ => if Ascii.eqb (List.last (rev pre) dot) dot then 1 else -1 end =
  match pre with [] => 0 | p0 :: _ => if Ascii.eqb p0 dot then 1 else -1 end.
Proof. destruct pre as [|p0 pre']; [done|]. simpl. rewrite last_last. by destruct (rev pre'). Qed.

Lemma extname_loop_split pre post :
  Forall (fun c => c <> slash) (pre ++ dot :: post) -> Forall (fun c => c <> dot) post ->
  extname_loop (rev (pre ++ dot :: post)) (Z.of_nat (length (pre ++ dot :: post)) - 1) ext_init =
  mkExtState (Z.of_nat (length pre)) 0 (Z.of_nat (length (pre ++ dot :: post))) false
    (match pre with [] => 0 | p0 :: _ => if Ascii.eqb p0 dot then 1 else -1 end).
Proof.
  intros Hs Hd. apply Forall_app in Hs as [Hpre Hs]. inversion Hs as [|? ? _ Hpost]; subst.
  rewrite rev_app_distr, length_app. cbn [rev length]. rewrite <- app_assoc.
  rewrite extname_loop_app by (by apply Forall_rev).
  assert (Hmid : extname_loop (rev post) (Z.of_nat (length pre + S (length post)) - 1) ext_init =
     if post is [] then ext_init else mkExtState (-1) 0 (Z.of_nat (length pre + S (length post))) false 0).
  { destruct (rev post) as [|c xs] eqn:Er.
    - apply (f_equal (@rev _)) in Er. rewrite rev_involutive in Er. by subst.
    - rewrite extname_loop_post; [|rewrite <- Er; apply Forall_rev, Forall_and; split; done|lia].
      destruct post; [done|]. f_equal. lia. }
  rewrite Hmid, length_rev. cbn [app extname_loop].
  change (Ascii.eqb dot slash) with false. change (Ascii.eqb dot dot) with true. cbv iota beta.
  destruct post as [|q post]; simpl;
    of_nat_neq; simpl;
    (rewrite extname_loop_pre; [|by apply Forall_rev|simpl; lia..]); simpl;
    f_equal; try lia; apply pre_dot_state.
Qed.

(** Node's [path.extname] loop against its reference.
    On every name without "/", the backwards scan of [extname] (the
    state machine over [startDot], [end], [preDotState]) returns exactly
    [extname_ref]: the text from the last dot to the end, or "" when the
    name has no dot, starts with its only dot, or is "..". *)
Theorem extname_ref_equiv s : has_slash s = false -> extname s = extname_ref s.
Proof.
  rewrite <- (String.string_of_list_ascii_of_string s). generalize (String.list_ascii_of_string s) as l.
  intros l Hs%has_slash_false.
  destruct (decide (l = [dot; dot])) as [->|Hne]; [reflexivity|].
  unfold extname, extname_ref. rewrite String.list_ascii_of_string_of_list_ascii, string_length_of_list.
  pose proof (last_index_spec l) as Hl.
  destruct (last_index dot (String.string_of_list_ascii l)) as [k|].
  - destruct Hl as (pre & post & -> & <- & Hpost).
    rewrite extname_loop_split by done. cbn [startDot end_ preDotState startPart].
    destruct pre as [|p0 pre']; [done|]. rewrite length_app. cbn [length].
    rewrite (proj2 (String.eqb_neq _ "..")); cycle 1.
    { intros He. apply Hne. rewrite <- (String.list_ascii_of_string_of_list_ascii (_ ++ _)), He. done. }
    unfold slice. rewrite !Nat2Z.id.
    replace (S (length pre') + S (length post) - S (length pre'))%nat with (S (length post)) by lia.
    replace (Z.to_nat _) with (S (length post)) by lia. of_nat_neq.
    destruct (Ascii.eqb p0 dot) eqn:Hp; [|done].
    destruct (Z.eqb_spec (Z.of_nat (S (length pre'))) (Z.of_nat (S (length pre') + S (length post)) - 1)),
      (Z.eqb_spec (Z.of_nat (S (length pre'))) (0 + 1)); try done.
    exfalso. apply Hne. apply Ascii.eqb_eq in Hp. subst.
    destruct pre', post; simpl in *; done || lia.
  - rewrite extname_loop_nodot_start; [done| |done].
    apply Forall_rev, Forall_and. by split.
Qed.

(** ** The stored name keeps the upload's extension *)

Lemma uint_string_plain u :
  Forall (fun c => c <> dot /\ c <> slash) (String.list_ascii_of_string (uint_string u)).
Proof. induction u; cbn; constructor; try done; split; intros E; cbv in E; discriminate. Qed.

(** [String(n)] has no "." and no "/". *)
Lemma js_string_Z_plain z :
  Forall (fun c => c <> dot /\ c <> slash) (String.list_ascii_of_string (js_string_Z z)).
Proof.
  unfold js_string_Z. destruct (z <? 0); [|apply uint_string_plain].
  constructor; [split; intros E; cbv in E; discriminate|apply uint_string_plain].
Qed.

Lemma has_slash_of_Forall l : Forall (fun c => c <> slash) l -> has_slash (String.string_of_list_ascii l) = false.
Proof.
  unfold has_slash. rewrite String.list_ascii_of_string_of_list_ascii.
  induction 1 as [|c l Hc _ IH]; [done|]. cbn. apply Ascii.eqb_neq in Hc. by rewrite Hc, IH.
Qed.

Lemma last_index_none l : Forall (fun c => c <> dot) l -> last_index dot (String.string_of_list_ascii l) = None.
Proof. induction 1 as [|c l Hc _ IH]; [done|]. cbn. rewrite IH. apply Ascii.eqb_neq in Hc. by rewrite Hc. Qed.

Lemma last_index_last xs post :
  Forall (fun c => c <> dot) post -> last_index dot (String.string_of_list_ascii (xs ++ dot :: post)) = Some (length xs).
Proof.
  intros Hp. induction xs as [|x xs IH]; cbn.
  - rewrite last_index_none by done. by rewrite Ascii.eqb_refl.
  - by rewrite IH.
Qed.

Lemma substring_suffix xs ys :
  String.substring (length xs) (length (xs ++ ys) - length xs) (String.string_of_list_ascii (xs ++ ys)) =
  String.string_of_list_ascii ys.
Proof.
  induction xs as [|x xs IH]; cbn.
  - rewrite Nat.sub_0_r. induction ys as [|y ys IHy]; cbn; [done|]. by rewrite IHy.
  - exact IH.
Qed.

(** The reference extension of a name without "/" is empty or a dot
    followed by neither "." nor "/". *)
Lemma extname_ref_shape l :
  Forall (fun c => c <> slash) l ->
  extname_ref (String.string_of_list_ascii l) = "" \/
  exists post, Forall (fun c => c <> dot /\ c <> slash) post /\
               extname_ref (String.string_of_list_ascii l) = String.string_of_list_ascii (dot :: post).
Proof.
  intros Hs. unfold extname_ref. pose proof (last_index_spec l) as Hl.
  destruct (last_index dot (String.string_of_list_ascii l)) as [[|k]|]; [by left| |by left].
  destruct (String.eqb _ ".."); [by left|right].
  destruct Hl as (pre & post & -> & Hk & Hp). exists post. split.
  - apply Forall_app in Hs as [_ Hs]. inversion Hs as [|? ? _ Hs']; subst.
    apply Forall_and; split; done.
  - rewrite string_length_of_list, <- Hk. apply substring_suffix.
Qed.

(** A non-empty prefix without dots in front of an extension leaves it
    the extension. *)
Lemma extname_ref_after_plain pl E :
  pl <> [] -> Forall (fun c => c <> dot) pl ->
  (E = "" \/ exists post, Forall (fun c => c <> dot /\ c <> slash) post /\ E = String.string_of_list_ascii (dot :: post)) ->
  extname_ref (String.string_of_list_ascii (pl ++ String.list_ascii_of_string E)) = E.
Proof.
  intros Hne Hpl [->|(post & Hp & ->)].
  - cbn [String.list_ascii_of_string]. rewrite app_nil_r. unfold extname_ref. by rewrite last_index_none.
  - rewrite String.list_ascii_of_string_of_list_ascii. unfold extname_ref.
    rewrite last_index_last by (eapply Forall_impl; [exact Hp|]; by intros ? []).
    destruct pl as [|c pl']; [done|]. cbn [length].
    rewrite (proj2 (String.eqb_neq _ "..")).
    + rewrite string_length_of_list. exact (substring_suffix (c :: pl') (dot :: post)).
    + intros E. apply (f_equal String.list_ascii_of_string) in E.
      rewrite String.list_ascii_of_string_of_list_ascii in E. cbn in E. injection E as Hc _.
      inversion Hpl as [|? ? Hd _]. apply Hd. rewrite Hc. reflexivity.
Qed.

(** ** Theorems *)

(** C28 (roundtrip): the [filename] callback keeps the upload's
    extension.  For an original name without "/", the stored name
    [`${req.user.id}-${unique}${ext}`] has, as [path.extname] reads it,
    the extension of the original name, so [express.static] serves the
    avatar with the type of the uploaded file; and that extension is the
    reference one: the text from the last dot, or "" when the name has
    no dot, starts with its only dot, or is "..". *)
Theorem avatar_filename_keeps_extension user_id now draw orig :
  has_slash orig = false ->
  extname (avatar_filename user_id now draw orig) = extname orig /\ extname orig = extname_ref orig.
Proof.
  intros Hs. assert (He : extname orig = extname_ref orig) by (by apply extname_ref_equiv).
  split; [|done].
  set (P := js_string_Z user_id +:+ "-" +:+ (js_string_Z now +:+ "-" +:+ js_string_Z draw)).
  set (E := extname_ref orig).
  assert (HP : Forall (fun c => c <> dot /\ c <> slash) (String.list_ascii_of_string P)).
  { unfold P. rewrite !list_ascii_app. cbn [String.list_ascii_of_string app].
    assert (Hm : Ascii.ascii_of_nat 45 <> dot /\ Ascii.ascii_of_nat 45 <> slash) by (split; intros Q; cbv in Q; discriminate).
    apply Forall_app; split; [apply js_string_Z_plain|]. constructor; [exact Hm|].
    apply Forall_app; split; [apply js_string_Z_plain|]. constructor; [exact Hm|apply js_string_Z_plain]. }
  assert (Hne : String.list_ascii_of_string P <> []).
  { unfold P. rewrite !list_ascii_app. cbn [String.list_ascii_of_string app].
    intros Q. apply app_eq_nil in Q as [_ Q]. discriminate. }
  assert (Hf : avatar_filename user_id now draw orig =
               String.string_of_list_ascii (String.list_ascii_of_string P ++ String.list_ascii_of_string E)).
  { rewrite <- (String.string_of_list_ascii_of_string (avatar_filename _ _ _ _)). f_equal.
    unfold avatar_filename, P, E. rewrite He, !list_ascii_app. by rewrite <- !app_assoc. }
  assert (HE : E = "" \/ exists post, Forall (fun c => c <> dot /\ c <> slash) post /\
                                      E = String.string_of_list_ascii (dot :: post)).
  { rewrite <- (String.string_of_list_ascii_of_string orig) in Hs.
    pose proof (extname_ref_shape _ (has_slash_false _ Hs)) as HE.
    by rewrite String.string_of_list_ascii_of_string in HE. }
  rewrite Hf, extname_ref_equiv; cycle 1.
  { apply has_slash_of_Forall, Forall_app. split; [eapply Forall_impl; [exact HP|]; by intros ? []|].
    destruct HE as [->|(post & Hp & ->)]; [constructor|].
    rewrite String.list_ascii_of_string_of_list_ascii. constructor; [intros Q; cbv in Q; discriminate|].
    eapply Forall_impl; [exact Hp|]. by intros ? []. }
  rewrite He. fold E. apply extname_ref_after_plain; [done| |done]. eapply Forall_impl; [exact HP|]. by intros ? [].
Qed.

(** The hypothesis holds for "foto.perfil.png", stored by user 7 at
    time 1000 with draw 42 as "7-1000-42.png". *)
Lemma avatar_filename_keeps_extension_witness :
  has_slash "foto.perfil.png" = false /\
  extname (avatar_filename 7 1000 42 "foto.perfil.png") = extname "foto.perfil.png" /\
  extname "foto.perfil.png" = extname_ref "foto.perfil.png".
Proof. split; [reflexivity|apply avatar_filename_keeps_extension; reflexivity]. Defined.
