(* ===== verification/Http.v ===== *)
(** * Http: the Express application and its routers

    Models src/Backend/src/app.js and the nine routers under
    src/Backend/src/routes: the table of routes in the order Express tries
    them ([routes], every [app.use(prefix, router)] unfolded into the
    router's [router.METHOD(path, ...handlers)]), the matching of a request
    line against it ([dispatch]: the path without its query, split at the
    slashes, literal segments compared case-insensitively, [:id] taking one
    non-empty segment, one trailing slash allowed; [express.static]
    answering only for files that exist), and the middleware chain in front
    of each handler ([authRequired], [requireRole], [requireMinRole],
    [uploadAvatar.single("avatar")]).

    The application answers a request with a [node_reply]: every handler
    answers ([answered]) except the signing handler, whose promise that it
    does not await can end the process ([Crashed]); when, relative to the
    handler's own I/O, that promise settles is the request's input
    [env_settle].

    [verifyToken] (utils/jwt.js, not in the repository) is a parameter:
    the principal a token decodes to, if any.  HEAD requests and the
    [cors] and [morgan] middlewares (headers and logging) are not
    modelled. *)

From S2P Require Import Prelude Schema Permission StockModel OsService Reports ExitOrderController Catalog StockController Products Dashboard Users Frontend Avatar.

Open Scope Z_scope.
Open Scope est_scope.

(** ** Paths *)

Definition qmark : Ascii.ascii := Ascii.ascii_of_nat 63.
Definition space : Ascii.ascii := Ascii.ascii_of_nat 32.

(** The path of a URL: everything before the first [?]. *)
Fixpoint pathname (s : string) : string :=
  match s with
  | EmptyString => EmptyString
  | String c s' => if Ascii.eqb c qmark then EmptyString else String c (pathname s')
  end.

(** The segments of an absolute path, without the one trailing slash
    path-to-regexp allows when [strict] is off. *)
Definition segments (p : string) : option (list string) :=
  match p with
  | String c rest =>
      if Ascii.eqb c slash then
        let segs := split_on slash rest in
        Some (match last segs with
              | Some EmptyString => removelast segs
              | _ => segs
              end)
      else None
  | EmptyString => None
  end.

(** Express routes case-insensitively: upper-case ASCII letters are
    lowered before a literal segment is compared. *)
Definition ascii_lower (c : Ascii.ascii) : Ascii.ascii :=
  let n := Ascii.nat_of_ascii c in
  if ((65 <=? n) && (n <=? 90))%nat then Ascii.ascii_of_nat (n + 32) else c.

Fixpoint string_lower (s : string) : string :=
  match s with
  | EmptyString => EmptyString
  | String c s' => String (ascii_lower c) (string_lower s')
  end.

(** ** Route patterns *)

(** A segment of a route path: a literal or a [:name] parameter. *)
Inductive pseg := Lit (s : string) | Param (name : string).

(** [Some params] when the segments match the pattern. *)
Fixpoint match_segs (pat : list pseg) (segs : list string) : option (list (string * string)) :=
  match pat, segs with
  | [], [] => Some []
  | Lit l :: pat', s :: segs' =>
      if String.eqb (string_lower s) l then match_segs pat' segs' else None
  | Param n :: pat', s :: segs' =>
      if String.eqb s EmptyString then None
      else option_map (fun ps => (n, s) :: ps) (match_segs pat' segs')
  | _, _ => None
  end.

(** [express.static(dir)] mounted at a prefix: the rest of the path names
    the file. *)
Fixpoint strip_prefix (pat : list string) (segs : list string) : option (list string) :=
  match pat, segs with
  | [], rest => Some rest
  | l :: pat', s :: segs' => if String.eqb (string_lower s) l then strip_prefix pat' segs' else None
  | _, _ => None
  end.

(** ** The table *)

(** The handlers the routes end in. *)
Inductive endpoint :=
| ERoot
| ERegister | ELogin | EInvite | ESetPassword
| EBarcode | EListProducts | ECreateProduct | EUpdateProduct | EDeleteProduct
| ECreateWarehouse | EListWarehouses | EUpdateWarehouse | EDeleteWarehouse
| EStockEntry | EStockEntryBatch | EStockExit
| EStockReport | EMovementReport
| EGetOwnProfile | EUpdateOwnProfile | EUploadAvatar
| EListUsers | ECreateUser | EUpdateUser | EDeleteUser
| EListExitOrders | ESignExitOrder
| EDashboard
| EListUnits | ECreateUnit | EUpdateUnit | EDeleteUnit.

#[export] Instance endpoint_eq_dec : EqDecision endpoint.
Proof. solve_decision. Defined.

(** The middlewares in front of a handler. *)
Inductive gate :=
| GAuth                        (** [authRequired] *)
| GRole (roles : list string)  (** [requireRole(...roles)] *)
| GMinRole (minRole : string)  (** [requireMinRole(minRole)] *)
| GAvatar.                     (** [uploadAvatar.single("avatar")] *)

(** A layer of the application: a route, or a static directory. *)
Inductive layer :=
| Route (meth : string) (pat : list pseg) (gates : list gate) (e : endpoint)
| Static (prefix : list string) (dir : string).

Definition auth_roles (roles : list string) : list gate := [GAuth; GRole roles].
Definition ADMINS : list string := ["admin"; "super_admin"].
Definition MANAGERS : list string := ["admin"; "super_admin"; "supervisor"].

(** [app.use(prefix, router)]: the router's routes under the prefix. *)
Definition mount (prefix : list string) (rs : list (string * list pseg * list gate * endpoint)) : list layer :=
  map (fun '(m, p, g, e) => Route m (map Lit prefix ++ p) g e) rs.

Definition authRoutes : list (string * list pseg * list gate * endpoint) :=
  [("POST", [Lit "register"], auth_roles ADMINS, ERegister);
   ("POST", [Lit "login"], [], ELogin);
   ("POST", [Lit "invite"], auth_roles ADMINS, EInvite);
   ("POST", [Lit "set-password"], [], ESetPassword)].

Definition productRoutes : list (string * list pseg * list gate * endpoint) :=
  [("GET", [Lit "barcode"], [GAuth], EBarcode);
   ("GET", [], auth_roles MANAGERS, EListProducts);
   ("POST", [], auth_roles MANAGERS, ECreateProduct);
   ("PUT", [Param "id"], auth_roles MANAGERS, EUpdateProduct);
   ("DELETE", [Param "id"], auth_roles MANAGERS, EDeleteProduct)].

Definition warehouseRoutes : list (string * list pseg * list gate * endpoint) :=
  [("POST", [], [GAuth], ECreateWarehouse);
   ("GET", [], [GAuth], EListWarehouses);
   ("PUT", [Param "id"], [GAuth], EUpdateWarehouse);
   ("DELETE", [Param "id"], [GAuth], EDeleteWarehouse)].

Definition stockRoutes : list (string * list pseg * list gate * endpoint) :=
  [("POST", [Lit "entrada"], auth_roles MANAGERS, EStockEntry);
   ("POST", [Lit "entrada"; Lit "lote"], auth_roles MANAGERS, EStockEntryBatch);
   ("POST", [Lit "saida"], auth_roles MANAGERS, EStockExit)].

Definition reportRoutes : list (string * list pseg * list gate * endpoint) :=
  [("GET", [Lit "estoque"], [GAuth], EStockReport);
   ("GET", [Lit "movimentacoes"], [GAuth], EMovementReport)].

Definition userRoutes : list (string * list pseg * list gate * endpoint) :=
  [("GET", [Lit "me"], [GAuth], EGetOwnProfile);
   ("PUT", [Lit "me"; Lit "profile"], [GAuth], EUpdateOwnProfile);
   ("POST", [Lit "me"; Lit "avatar"], [GAuth; GAvatar], EUploadAvatar);
   ("GET", [], auth_roles MANAGERS, EListUsers);
   ("POST", [], auth_roles ADMINS, ECreateUser);
   ("PUT", [Param "id"], auth_roles ADMINS, EUpdateUser);
   ("DELETE", [Param "id"], auth_roles ADMINS, EDeleteUser)].

Definition exitOrderRoutes : list (string * list pseg * list gate * endpoint) :=
  [("GET", [], [GAuth], EListExitOrders);
   ("POST", [Param "id"; Lit "assinar"], [GAuth], ESignExitOrder)].

Definition dashboardRoutes : list (string * list pseg * list gate * endpoint) :=
  [("GET", [Lit "resumo"], [GAuth], EDashboard)].

(** [requireMinRole("admin", "super_admin")]: only the first argument is
    a parameter of [requireMinRole]. *)
Definition unitRoutes : list (string * list pseg * list gate * endpoint) :=
  [("GET", [], [GAuth], EListUnits);
   ("POST", [], [GAuth; GMinRole "admin"], ECreateUnit);
   ("PUT", [Param "id"], [GAuth; GMinRole "admin"], EUpdateUnit);
   ("DELETE", [Param "id"], [GAuth; GMinRole "admin"], EDeleteUnit)].

(** app.js, lines 23-39, in order. *)
Definition routes : list layer :=
  [Route "GET" [] [] ERoot] ++
  mount ["api"; "auth"] authRoutes ++
  mount ["api"; "produtos"] productRoutes ++
  mount ["api"; "estoques"] warehouseRoutes ++
  mount ["api"; "estoque"] stockRoutes ++
  mount ["api"; "relatorios"] reportRoutes ++
  mount ["api"; "users"] userRoutes ++
  [Static ["files"] "storage"] ++
  mount ["api"; "assinaturas"] exitOrderRoutes ++
  mount ["api"; "os-saida"] exitOrderRoutes ++
  mount ["api"; "dashboard"] dashboardRoutes ++
  mount ["api"; "unidades"] unitRoutes ++
  [Static ["uploads"] "uploads"].

(** ** Dispatch *)

(** Where a request ends: a route's gates and handler with the route
    parameters, a file served by [express.static], or Express's final
    404 when no layer answers. *)
Inductive target :=
| ToHandler (gates : list gate) (e : endpoint) (params : list (string * string))
| ToFile (dir : string) (file : string).

(** [file_exists dir path] says whether [express.static(dir)] finds a
    file; a missing file calls [next()]. *)
Fixpoint dispatch_in (file_exists : string -> string -> bool) (meth : string) (segs : list string)
    (ls : list layer) : option target :=
  match ls with
  | [] => None
  | Route m pat gs e :: ls' =>
      match (if String.eqb m meth then match_segs pat segs else None) with
      | Some ps => Some (ToHandler gs e ps)
      | None => dispatch_in file_exists meth segs ls'
      end
  | Static pre dir :: ls' =>
      match (if String.eqb meth "GET" then strip_prefix pre segs else None) with
      | Some rest =>
          let file := String.concat "/" rest in
          if file_exists dir file then Some (ToFile dir file) else dispatch_in file_exists meth segs ls'
      | None => dispatch_in file_exists meth segs ls'
      end
  end.

Definition dispatch (file_exists : string -> string -> bool) (meth url : string) : option target :=
  match segments (pathname url) with
  | Some segs => dispatch_in file_exists meth segs routes
  | None => None
  end.

(** Express's final handler: 404 with an HTML page, which has no JSON
    body. *)
Definition express_404 : reply := mkReply 404 JEnd.

(** ** The request *)

(** What reaches the server: the method, the URL without the origin,
    the headers and the body. *)
Record http_request := mkHttpRequest {
  rq_method : string;
  rq_url : string;
  rq_headers : list (string * string);
  rq_body : option req_body
}.

(** [API_URL] is the server's origin: the fetch to [`${API_URL}${path}`]
    reaches the server with the URL [path]. *)
Fixpoint strip_origin (origin url : string) : option string :=
  match origin, url with
  | EmptyString, _ => Some url
  | String c o, String c' u => if Ascii.eqb c c' then strip_origin o u else None
  | String _ _, EmptyString => None
  end.

Definition to_server (API_URL : string) (f : fetch_call) : option http_request :=
  option_map (fun path => mkHttpRequest (f_method f) path (f_headers f) (f_body f))
             (strip_origin API_URL (f_url f)).

(** [req.headers[name]]: Node lower-cases the names of the headers. *)
Definition req_header (name : string) (hs : list (string * string)) : option string :=
  option_map snd (find (fun kv => String.eqb (string_lower kv.1) name) (rev hs)).

(** [req.body] after [express.json()]: the parsed object when the body is
    JSON and declared so, [{}] otherwise (a [FormData] carries no text
    field here). *)
Definition req_body_json (r : http_request) : jvalue :=
  match rq_body r, req_header "content-type" (rq_headers r) with
  | Some (BodyJson v), Some ct => if String.eqb (string_lower ct) "application/json" then v else JVObj []
  | _, _ => JVObj []
  end.

(** ** Fields of [req.body] *)

(** [body.k]: the last of duplicate keys wins, as in [JSON.parse]. *)
Definition field (k : string) (v : jvalue) : option jvalue :=
  match v with
  | JVObj fs => option_map snd (find (fun kv => String.eqb kv.1 k) (rev fs))
  | _ => None
  end.

(** The decodings below give [None] for a JSON shape the models of the
    handlers do not take (a number where a string is read, ...). *)
Definition opt_str (k : string) (v : jvalue) : option (option string) :=
  match field k v with
  | None | Some JVNull => Some None
  | Some (JVStr s) => Some (Some s)
  | Some _ => None
  end.

Definition req_str (k : string) (v : jvalue) : option string :=
  match field k v with Some (JVStr s) => Some s | _ => None end.

Definition opt_num (k : string) (v : jvalue) : option (option Z) :=
  match field k v with
  | None | Some JVNull => Some None
  | Some (JVNum n) => Some (Some n)
  | Some _ => None
  end.

Definition req_num (k : string) (v : jvalue) : option Z :=
  match field k v with Some (JVNum n) => Some n | _ => None end.

Definition js_num (k : string) (v : jvalue) : option (jsfield Z) :=
  match field k v with
  | None => Some Undefined
  | Some JVNull => Some Null
  | Some (JVNum n) => Some (Defined n)
  | Some _ => None
  end.

Definition js_str (k : string) (v : jvalue) : option (jsfield string) :=
  match field k v with
  | None => Some Undefined
  | Some JVNull => Some Null
  | Some (JVStr s) => Some (Defined s)
  | Some _ => None
  end.

Definition item_of (v : jvalue) : option item :=
  n1 ← req_num "product_id" v; n2 ← req_num "quantity" v; Some (mkItem n1 n2).

(** [Array.isArray(items)]: a non-array is [None], which the handlers
    answer 400 like an empty array. *)
Definition items_of (v : jvalue) : option (option (list item)) :=
  match field "items" v with
  | Some (JVArr xs) => option_map Some (mapM item_of xs)
  | _ => Some None
  end.

(** [Number(req.params.id)] of a decimal string. *)
Definition parse_Z (s : string) : option Z :=
  match s with
  | String c s' =>
      if Ascii.eqb c (Ascii.ascii_of_nat 45)
      then option_map (fun u => - Z.of_N (N.of_uint u)) (string_uint s')
      else option_map (fun u => Z.of_N (N.of_uint u)) (string_uint s)
  | EmptyString => None
  end.

Definition param_id (ps : list (string * string)) : option Z :=
  s ← option_map snd (find (fun kv => String.eqb kv.1 "id") ps); parse_Z s.

(** [req.query.k]: absent, or the one decoded value. *)
Definition query_str (k : string) (url : string) : option (option string) :=
  match search_of url with
  | None => Some None
  | Some q =>
      match filter (fun kv => String.eqb kv.1 k) (query_pairs q) with
      | [] => Some None
      | [(_, v)] => Some (Some v)
      | _ => None
      end
  end.

(** ** Middlewares and handlers *)

(** What a request takes from outside: [Date.now()], the draw of
    [Math.round(Math.random() * 1e9)], the token of
    [crypto.randomBytes(32).toString("hex")], and the turn of its handler
    after which a promise the handler does not await settles
    ([ExitOrderController.signExitOrderController]). *)
Record env := mkEnv {
  env_now : Z;
  env_draw : Z;
  env_token : string;
  env_settle : nat
}.

(** The server's state: the database session and the files under
    uploads/. *)
Record server := mkServer {
  srv_session : session;
  srv_disk : disk
}.

Section Serve.
Context (collate : string -> string -> comparison) (like : string -> string -> bool).
Context `{Crypto} `{Renderer} `{PathLib} (cwd : string) (month_of : Z -> Z).
Context (verifyToken : string -> option principal) (storage_exists : string -> bool).

(** [authRequired]: the principal, or the 401 it answers. *)
Definition authRequired (hs : list (string * string)) : principal + reply :=
  match req_header "authorization" hs with
  | Some h =>
      if startsWith h "Bearer " then
        match verifyToken (default EmptyString (nth_error (split_on space h) 1)) with
        | Some u => inl u
        | None => inr (mkReply 401 (JError "Token inválido ou expirado"))
        end
      else inr (mkReply 401 (JError "Token não fornecido"))
  | None => inr (mkReply 401 (JError "Token não fornecido"))
  end.

(** The chain of middlewares: [inl] is the reply a middleware sends (an
    error passed to [next(err)] goes to [errorHandler]), [inr] the
    [req.user] and [req.file.filename] the handler sees.  [GAvatar]
    follows [GAuth] on every route ([gates_avatar_after_auth]); without a
    user the [filename] callback's [req.user.id] would throw. *)
Fixpoint run_gates (gs : list gate) (r : http_request) (e : env) (user : option principal)
    (file : option string) (d : disk) : (reply + option principal * option string) * disk :=
  match gs with
  | [] => (inr (user, file), d)
  | GAuth :: gs' =>
      match authRequired (rq_headers r) with
      | inl u => run_gates gs' r e (Some u) file d
      | inr rep => (inl rep, d)
      end
  | GRole roles :: gs' =>
      match requireRole roles user with
      | Some rep => (inl rep, d)
      | None => run_gates gs' r e user file d
      end
  | GMinRole m :: gs' =>
      match requireMinRole m user with
      | Some rep => (inl rep, d)
      | None => run_gates gs' r e user file d
      end
  | GAvatar :: gs' =>
      match user with
      | None => (inl (errorHandler (plain_error "Cannot read properties of undefined (reading 'id')")), d)
      | Some u =>
          match single_avatar (u_id u) (env_now e) (env_draw e) (rq_body r) d with
          | (Ok f, d') => run_gates gs' r e user f d'
          | (Err err, d') => (inl (errorHandler err), d')
          end
      end
  end.

(** The handler of each endpoint applied to what it reads from the
    request; [None] when the request's JSON has a shape the handler's
    model does not take. *)
Definition handler (ep : endpoint) (r : http_request) (ps : list (string * string))
    (user : option principal) (file : option string) (e : env) : option (session -> node_reply * session) :=
  let b := req_body_json r in
  match ep with
  | ERoot => Some (answered (fun s => (json (JMessage "API de Estoque OK"), s)))
  | ERegister =>
      u ← user; name ← req_str "name" b; email ← req_str "email" b;
      password ← opt_str "password" b; role ← opt_str "role" b;
      Some (answered (register collate u name email password role))
  | ELogin =>
      email ← req_str "email" b; password ← req_str "password" b; Some (answered (login collate email password))
  | EInvite => email ← req_str "email" b; Some (answered (inviteUser collate email (env_token e) (env_now e)))
  | ESetPassword =>
      email ← req_str "email" b; token ← req_str "token" b; password ← req_str "password" b;
      Some (answered (setPassword collate email token password (env_now e)))
  | EBarcode =>
      u ← user; barcode ← query_str "barcode" (rq_url r); Some (answered (getProductByBarcodeController collate u barcode))
  | EListProducts => u ← user; q ← query_str "q" (rq_url r); Some (answered (listProductsController collate like u q))
  | ECreateProduct =>
      name ← opt_str "name" b; unit ← opt_str "unit" b; w ← opt_num "warehouse_id" b;
      barcode ← opt_str "barcode" b; description ← opt_str "description" b;
      Some (answered (createProductController name unit w barcode description))
  | EUpdateProduct =>
      id ← param_id ps; name ← opt_str "name" b; unit ← opt_str "unit" b;
      barcode ← opt_str "barcode" b; description ← opt_str "description" b;
      Some (answered (updateProductController id name unit barcode description))
  | EDeleteProduct => id ← param_id ps; Some (answered (deleteProductController id))
  | ECreateWarehouse =>
      u ← user; name ← opt_str "name" b; description ← opt_str "description" b; unit_id ← opt_num "unit_id" b;
      Some (answered (Warehouses.createWarehouseController u name description unit_id))
  | EListWarehouses => u ← user; Some (answered (Warehouses.listWarehousesController collate u))
  | EUpdateWarehouse =>
      u ← user; id ← param_id ps; name ← opt_str "name" b; description ← js_str "description" b;
      unit_id ← js_num "unit_id" b; Some (answered (Warehouses.updateWarehouseController u id name description unit_id))
  | EDeleteWarehouse => id ← param_id ps; Some (answered (Warehouses.deleteWarehouseController id))
  | EStockEntry =>
      u ← user; p ← req_num "product_id" b; w ← req_num "warehouse_id" b; q ← req_num "quantity" b;
      description ← opt_str "description" b;
      Some (answered (stockEntryController u (mkEntryRequest p w q description)))
  | EStockEntryBatch =>
      u ← user; w ← req_num "warehouse_id" b; items ← items_of b; description ← opt_str "description" b;
      Some (answered (stockEntryBatchController u (mkBatchRequest w items description)))
  | EStockExit =>
      u ← user; w ← req_num "warehouse_id" b; items ← items_of b; description ← opt_str "description" b;
      client_name ← req_str "client_name" b; client_document ← opt_str "client_document" b;
      Some (answered (stockExitController cwd u (mkExitRequest w items description client_name client_document)))
  | EStockReport => u ← user; Some (answered (stockReportController collate u))
  | EMovementReport => u ← user; Some (answered (movementReportController u))
  | EGetOwnProfile => u ← user; Some (answered (getOwnProfileController u))
  | EUpdateOwnProfile =>
      u ← user; name ← opt_str "name" b; email ← opt_str "email" b; password ← opt_str "password" b;
      Some (answered (updateOwnProfileController u name email password))
  | EUploadAvatar => u ← user; Some (answered (uploadAvatarController u file))
  | EListUsers => u ← user; Some (answered (listUsersController u))
  | ECreateUser =>
      name ← req_str "name" b; email ← req_str "email" b; role ← opt_str "role" b;
      password ← opt_str "password" b; unit_id ← opt_num "unit_id" b; warehouse_id ← opt_num "warehouse_id" b;
      matricula ← opt_str "matricula" b;
      Some (answered (createUserController collate name email role password unit_id warehouse_id matricula))
  | EUpdateUser =>
      u ← user; id ← param_id ps; name ← opt_str "name" b; email ← opt_str "email" b; role ← opt_str "role" b;
      unit_id ← js_num "unit_id" b; warehouse_id ← js_num "warehouse_id" b; password ← opt_str "password" b;
      matricula ← js_str "matricula" b;
      Some (answered (updateUserController u id name email role unit_id warehouse_id password matricula))
  | EDeleteUser => id ← param_id ps; Some (answered (deleteUserController id))
  | EListExitOrders => u ← user; Some (answered (listExitOrdersController cwd u))
  | ESignExitOrder =>
      u ← user; id ← param_id ps; url ← opt_str "signatureDataUrl" b;
      Some (signExitOrderController cwd (env_settle e) u id url)
  | EDashboard => u ← user; Some (answered (dashboardSummaryController month_of u))
  | EListUnits => u ← user; Some (answered (Units.listUnitsController collate u))
  | ECreateUnit =>
      name ← opt_str "name" b; description ← opt_str "description" b; Some (answered (Units.createUnitController name description))
  | EUpdateUnit =>
      id ← param_id ps; name ← opt_str "name" b; description ← opt_str "description" b;
      Some (answered (Units.updateUnitController id name description))
  | EDeleteUnit => id ← param_id ps; Some (answered (Units.deleteUnitController id))
  end.

(** [express.static] serves the files under storage/ (the PDFs) and
    uploads/ (the avatars). *)
Definition file_exists (d : disk) (dir file : string) : bool :=
  if String.eqb dir "uploads" then existsb (String.eqb file) d else storage_exists file.

(** The application on one request: [None] only where a handler's model
    does not take the request's JSON. *)
Definition app (r : http_request) (e : env) (st : server) : option (node_reply * server) :=
  match dispatch (file_exists (srv_disk st)) (rq_method r) (rq_url r) with
  | None => Some (Answered express_404, st)
  | Some (ToFile dir file) => Some (Answered (mkReply 200 (JObject (dir, file))), st)
  | Some (ToHandler gs ep ps) =>
      match run_gates gs r e None None (srv_disk st) with
      | (inl rep, d') => Some (Answered rep, mkServer (srv_session st) d')
      | (inr (user, file), d') =>
          h ← handler ep r ps user file e;
          let '(rep, s') := h (srv_session st) in Some (rep, mkServer s' d')
      end
  end.

(** A call of the client's [api] object served: [request] sends the
    [fetch], the application answers it. *)
Definition call_server (API_URL : string) (token : option string) (c : api_call) (e : env) (st : server)
    : option (node_reply * server) :=
  r ← to_server API_URL (api_fetch API_URL token c); app r e st.

End Serve.

#[export] Instance pseg_eq_dec : EqDecision pseg.
Proof. solve_decision. Defined.

#[export] Instance gate_eq_dec : EqDecision gate.
Proof. solve_decision. Defined.

(** ** The invitation link *)

(** authController.js, [inviteUser]: [`${baseUrl}/ativar?token=${token}&email=${encodeURIComponent(email)}`]. *)
Definition invite_link (baseUrl token email : string) : string :=
  baseUrl +:+ ("/ativar?token=" +:+ (token +:+ ("&email=" +:+ encodeURIComponent email))).

Definition amp : Ascii.ascii := Ascii.ascii_of_nat 38.

(** The handlers any caller reaches without a token. *)
Definition public (ep : endpoint) : bool :=
  bool_decide (ep = ERoot \/ ep = ELogin \/ ep = ESetPassword).

(** A route is gated when its handler is public or its first middleware
    is [authRequired]; [GAvatar] never comes before [GAuth]. *)
Definition layer_gated (l : layer) : bool :=
  match l with
  | Route _ _ gs ep => public ep || bool_decide (head gs = Some GAuth)
  | Static _ _ => true
  end.

Definition avatar_after_auth (l : layer) : bool :=
  match l with
  | Route _ _ gs _ => bool_decide (GAvatar ∉ gs) || bool_decide (head gs = Some GAuth)
  | Static _ _ => true
  end.

(** ** The client's calls seen from the server *)

(** An absolute path from its segments, the last one not followed by a
    slash. *)
Fixpoint join_path (segs : list string) : string :=
  match segs with
  | [] => EmptyString
  | [x] => "/" +:+ x
  | x :: rest => "/" +:+ x +:+ join_path rest
  end.

Fixpoint all_chars (p : Ascii.ascii -> bool) (s : string) : bool :=
  match s with
  | EmptyString => true
  | String c s' => p c && all_chars p s'
  end.

(** A segment a route can read: not empty, without [/] or [?]. *)
Definition seg_ok (s : string) : bool :=
  negb (String.eqb s EmptyString) &&
  all_chars (fun c => negb (Ascii.eqb c slash) && negb (Ascii.eqb c qmark)) s.

(** The characters of [String(n)]: digits and the minus sign. *)
Definition num_char (c : Ascii.ascii) : bool :=
  let n := Ascii.nat_of_ascii c in (n =? 45)%nat || ((48 <=? n) && (n <=? 57))%nat.

(** The handler each function of the client's [api] object is written
    for, by the name of the function and the route of the server. *)
Definition api_endpoint (c : api_call) : endpoint :=
  match c with
  | ApiLogin _ _ => ELogin
  | ApiUpdateMyProfile _ => EUpdateOwnProfile
  | ApiSetPassword _ _ _ => ESetPassword
  | ApiGetMyProfile => EGetOwnProfile
  | ApiGetProducts | ApiGetProductsByWarehouse _ | ApiSearchProducts _ => EListProducts
  | ApiInviteUser _ => EInvite
  | ApiCreateProduct _ => ECreateProduct
  | ApiUpdateProduct _ _ => EUpdateProduct
  | ApiDeleteProduct _ => EDeleteProduct
  | ApiUploadAvatar _ => EUploadAvatar
  | ApiGetUsers | ApiListUsers => EListUsers
  | ApiStockEntryBatch _ => EStockEntryBatch
  | ApiFindProductByBarcode _ => EBarcode
  | ApiGetWarehouses => EListWarehouses
  | ApiCreateWarehouse _ => ECreateWarehouse
  | ApiUpdateWarehouse _ _ => EUpdateWarehouse
  | ApiDeleteWarehouse _ => EDeleteWarehouse
  | ApiGetUnits => EListUnits
  | ApiCreateUnit _ => ECreateUnit
  | ApiUpdateUnit _ _ => EUpdateUnit
  | ApiDeleteUnit _ => EDeleteUnit
  | ApiCreateUser _ => ECreateUser
  | ApiUpdateUser _ _ => EUpdateUser
  | ApiDeleteUser _ => EDeleteUser
  | ApiStockEntry _ => EStockEntry
  | ApiStockExit _ => EStockExit
  | ApiStockReport => EStockReport
  | ApiMovementReport => EMovementReport
  | ApiDashboardSummary => EDashboard
  | ApiListExitOrders => EListExitOrders
  | ApiSignExitOrder _ _ => ESignExitOrder
  end.

(** The method each call sends. *)
Definition api_method (c : api_call) : string := default "GET" (opt_method (api_request c).2).

(** The id a call puts in its path. *)
Definition api_id (c : api_call) : option Z :=
  match c with
  | ApiUpdateProduct id _ | ApiDeleteProduct id | ApiUpdateWarehouse id _ | ApiDeleteWarehouse id
  | ApiUpdateUnit id _ | ApiDeleteUnit id | ApiUpdateUser id _ | ApiDeleteUser id
  | ApiSignExitOrder id _ => Some id
  | _ => None
  end.

(** The segments of the path each call requests, and its query. *)
Definition api_segs (c : api_call) : list string :=
  match c with
  | ApiLogin _ _ => ["api"; "auth"; "login"]
  | ApiUpdateMyProfile _ => ["api"; "users"; "me"; "profile"]
  | ApiSetPassword _ _ _ => ["api"; "auth"; "set-password"]
  | ApiGetMyProfile => ["api"; "users"; "me"]
  | ApiGetProducts | ApiGetProductsByWarehouse _ | ApiSearchProducts _ | ApiCreateProduct _ => ["api"; "produtos"]
  | ApiInviteUser _ => ["api"; "auth"; "invite"]
  | ApiUpdateProduct id _ | ApiDeleteProduct id => ["api"; "produtos"; js_string_Z id]
  | ApiUploadAvatar _ => ["api"; "users"; "me"; "avatar"]
  | ApiGetUsers | ApiListUsers | ApiCreateUser _ => ["api"; "users"]
  | ApiStockEntryBatch _ => ["api"; "estoque"; "entrada"; "lote"]
  | ApiFindProductByBarcode _ => ["api"; "produtos"; "barcode"]
  | ApiGetWarehouses | ApiCreateWarehouse _ => ["api"; "estoques"]
  | ApiUpdateWarehouse id _ | ApiDeleteWarehouse id => ["api"; "estoques"; js_string_Z id]
  | ApiGetUnits | ApiCreateUnit _ => ["api"; "unidades"]
  | ApiUpdateUnit id _ | ApiDeleteUnit id => ["api"; "unidades"; js_string_Z id]
  | ApiUpdateUser id _ | ApiDeleteUser id => ["api"; "users"; js_string_Z id]
  | ApiStockEntry _ => ["api"; "estoque"; "entrada"]
  | ApiStockExit _ => ["api"; "estoque"; "saida"]
  | ApiStockReport => ["api"; "relatorios"; "estoque"]
  | ApiMovementReport => ["api"; "relatorios"; "movimentacoes"]
  | ApiDashboardSummary => ["api"; "dashboard"; "resumo"]
  | ApiListExitOrders => ["api"; "os-saida"]
  | ApiSignExitOrder id _ => ["api"; "os-saida"; js_string_Z id; "assinar"]
  end.

Definition api_query (c : api_call) : option string :=
  match c with
  | ApiGetProductsByWarehouse w => Some ("warehouse_id=" +:+ js_string_Z w)
  | ApiSearchProducts q => Some ("q=" +:+ encodeURIComponent q)
  | ApiFindProductByBarcode b => Some ("barcode=" +:+ encodeURIComponent b)
  | _ => None
  end.

(** The route parameters the call fills. *)
Definition api_params (c : api_call) : list (string * string) :=
  match c with
  | ApiUpdateProduct id _ | ApiDeleteProduct id | ApiUpdateWarehouse id _ | ApiDeleteWarehouse id
  | ApiUpdateUnit id _ | ApiDeleteUnit id | ApiUpdateUser id _ | ApiDeleteUser id
  | ApiSignExitOrder id _ => [("id", js_string_Z id)]
  | _ => []
  end.

(** ** Example collaborators *)

Definition demo_pathlib : PathLib := {| path_relative _ to := to |}.

Definition demo_admin : principal := mkPrincipal 9 "Caio" "admin" (Some 1) None.

(** A token store that knows one token. *)
Definition demo_verify (t : string) : option principal :=
  if String.eqb t "adm" then Some demo_admin else None.

Definition demo_server : server := mkServer demo_session [].

Definition demo_env (now : Z) : env := mkEnv now 42 "t0k" 0.

(** ** Lemmas on the table *)

Lemma dispatch_in_route fe m segs ls gs ep ps :
  dispatch_in fe m segs ls = Some (ToHandler gs ep ps) -> exists meth pat, Route meth pat gs ep ∈ ls.
Proof.
  induction ls as [|l ls IH]; [done|]. simpl.
  destruct l as [meth pat gs' ep'|pre dir].
  - destruct (if String.eqb meth m then match_segs pat segs else None) eqn:Hm.
    + intros [= <- <-]. exists meth, pat. by left.
    + intros H. destruct (IH H) as (meth' & pat' & Hin). exists meth', pat'. by right.
  - destruct (if String.eqb m "GET" then strip_prefix pre segs else None);
      [destruct (fe dir _)|]; intros H; try discriminate;
      destruct (IH H) as (meth' & pat' & Hin); exists meth', pat'; by right.
Qed.

Lemma dispatch_route fe m url gs ep ps :
  dispatch fe m url = Some (ToHandler gs ep ps) -> exists meth pat, Route meth pat gs ep ∈ routes.
Proof. unfold dispatch. destruct (segments _); [apply dispatch_in_route|done]. Qed.

Lemma routes_gated : forallb layer_gated routes = true.
Proof. reflexivity. Qed.

Lemma gates_avatar_after_auth : forallb avatar_after_auth routes = true.
Proof. reflexivity. Qed.

(** A handler that is not public sits behind [authRequired]. *)
Lemma dispatch_gated fe m url gs ep ps :
  dispatch fe m url = Some (ToHandler gs ep ps) -> public ep = false -> head gs = Some GAuth.
Proof.
  intros Hd Hp. destruct (dispatch_route _ _ _ _ _ _ Hd) as (meth & pat & Hin).
  pose proof routes_gated as Hg. rewrite forallb_forall in Hg.
  specialize (Hg _ (proj1 (list_elem_of_In _ _) Hin)). simpl in Hg. rewrite Hp in Hg.
  by apply bool_decide_eq_true in Hg.
Qed.

(** ** Lemmas on paths *)

Lemma all_chars_app p s t : all_chars p (s +:+ t) = all_chars p s && all_chars p t.
Proof. induction s as [|c s IH]; [done|]. simpl. rewrite IH. apply andb_assoc. Qed.

Lemma pathname_clean s t :
  all_chars (fun c => negb (Ascii.eqb c qmark)) s = true -> pathname (s +:+ t) = s +:+ pathname t.
Proof.
  induction s as [|c s IH]; [done|]. simpl. intros [Hc Hs]%andb_prop.
  apply negb_true_iff in Hc. rewrite Hc, append_cons. f_equal. by apply IH.
Qed.

Lemma split_on_clean sep s :
  all_chars (fun c => negb (Ascii.eqb c sep)) s = true -> split_on sep s = [s].
Proof.
  induction s as [|c s IH]; [done|]. simpl. intros [Hc Hs]%andb_prop.
  apply negb_true_iff in Hc. by rewrite Hc, IH.
Qed.

Lemma split_on_clean_sep sep s t :
  all_chars (fun c => negb (Ascii.eqb c sep)) s = true ->
  split_on sep (s +:+ String sep t) = s :: split_on sep t.
Proof.
  induction s as [|c s IH]; simpl.
  - by rewrite Ascii.eqb_refl.
  - intros [Hc Hs]%andb_prop. apply negb_true_iff in Hc. by rewrite Hc, IH.
Qed.

Lemma seg_ok_chars s :
  seg_ok s = true ->
  s <> EmptyString /\ all_chars (fun c => negb (Ascii.eqb c slash)) s = true /\
  all_chars (fun c => negb (Ascii.eqb c qmark)) s = true.
Proof.
  unfold seg_ok. intros [Hn Hs]%andb_prop. apply negb_true_iff, String.eqb_neq in Hn.
  split; [done|]. clear Hn. induction s as [|c s IH]; [done|]. simpl in *.
  apply andb_prop in Hs as [Hc Hs]. apply andb_prop in Hc as [H1 H2].
  rewrite H1, H2. simpl. by apply IH.
Qed.

Lemma str_app_nil_r s : s +:+ EmptyString = s.
Proof. induction s as [|c s IH]; [done|]. by rewrite append_cons, IH. Qed.

Lemma str_app_assoc s t u : (s +:+ t) +:+ u = s +:+ (t +:+ u).
Proof. induction s as [|c s IH]; [done|]. by rewrite !append_cons, IH. Qed.

Lemma join_path_cons x rest : join_path (x :: rest) = String slash (x +:+ join_path rest).
Proof. destruct rest; simpl; [by rewrite str_app_nil_r|done]. Qed.

Lemma pathname_join segs q :
  forallb seg_ok segs = true -> (q = EmptyString \/ exists q', q = String qmark q') ->
  pathname (join_path segs +:+ q) = join_path segs.
Proof.
  intros Hs Hq. induction segs as [|x rest IH].
  - simpl. destruct Hq as [->|[q' ->]]; rewrite append_nil_l; [done|]. simpl. by rewrite ?Ascii.eqb_refl.
  - simpl in Hs. apply andb_prop in Hs as [Hx Hr]. destruct (seg_ok_chars _ Hx) as (_ & _ & Hq').
    rewrite join_path_cons. simpl. rewrite str_app_assoc, pathname_clean by done. by rewrite IH.
Qed.

Lemma split_join x rest :
  forallb seg_ok (x :: rest) = true -> split_on slash (x +:+ join_path rest) = x :: rest.
Proof.
  revert x. induction rest as [|y rest IH]; intros x Hs; simpl in Hs;
    apply andb_prop in Hs as [Hx Hr]; destruct (seg_ok_chars _ Hx) as (_ & Hsl & _).
  - rewrite str_app_nil_r. by apply split_on_clean.
  - rewrite join_path_cons, split_on_clean_sep by done. f_equal. by apply IH.
Qed.

(** The path of segments a route can read is read back as those
    segments, whatever query follows it. *)
Lemma segments_join segs q :
  segs <> [] -> forallb seg_ok segs = true -> (q = EmptyString \/ exists q', q = String qmark q') ->
  segments (pathname (join_path segs +:+ q)) = Some segs.
Proof.
  intros Hne Hs Hq. rewrite pathname_join by done.
  destruct segs as [|x rest]; [done|]. rewrite join_path_cons. simpl. rewrite ?Ascii.eqb_refl.
  rewrite split_join by done. f_equal.
  destruct (last (x :: rest)) as [l|] eqn:Hl; [|done].
  assert (Hin : l ∈ x :: rest) by (apply last_Some_elem_of; exact Hl).
  assert (seg_ok l = true) as Hok.
  { apply forallb_forall with (x := l) in Hs; [done|]. by apply list_elem_of_In. }
  destruct (seg_ok_chars _ Hok) as (Hne' & _ & _). by destruct l.
Qed.

(** ** Lemmas on the decimal string of an id *)

Lemma uint_string_num u : all_chars num_char (uint_string u) = true.
Proof. induction u; simpl; rewrite ?IHu; reflexivity. Qed.

Lemma uint_string_N_nonempty n : uint_string (N.to_uint n) <> EmptyString.
Proof.
  destruct (N.to_uint n) eqn:Hu; try (simpl; discriminate). intros _.
  pose proof Hu as Hu'. apply (f_equal N.of_uint) in Hu. rewrite DecimalN.Unsigned.of_to in Hu.
  simpl in Hu. subst. discriminate Hu'.
Qed.

Lemma js_string_Z_num z : all_chars num_char (js_string_Z z) = true /\ js_string_Z z <> EmptyString.
Proof.
  unfold js_string_Z. destruct (z <? 0).
  - split; [simpl; apply uint_string_num|discriminate].
  - split; [apply uint_string_num|apply uint_string_N_nonempty].
Qed.

Lemma num_char_lower c : num_char c = true -> ascii_lower c = c.
Proof.
  unfold num_char, ascii_lower. intros Hc.
  destruct ((65 <=? _) && _)%nat eqn:Hl; [|done].
  apply andb_prop in Hl as [H1 H2]. apply Nat.leb_le in H1, H2.
  apply orb_prop in Hc as [Hc|Hc]; [apply Nat.eqb_eq in Hc; lia|].
  apply andb_prop in Hc as [H3 H4]. apply Nat.leb_le in H3, H4. lia.
Qed.

Lemma num_char_clean c : num_char c = true -> negb (Ascii.eqb c slash) && negb (Ascii.eqb c qmark) = true.
Proof.
  intros Hc. destruct (Ascii.eqb_spec c slash) as [->|]; [discriminate|].
  destruct (Ascii.eqb_spec c qmark) as [->|]; [discriminate|done].
Qed.

Lemma num_string_lower s : all_chars num_char s = true -> string_lower s = s.
Proof.
  induction s as [|c s IH]; [done|]. simpl. intros [Hc Hs]%andb_prop.
  by rewrite num_char_lower, IH.
Qed.

Lemma num_seg_ok s : all_chars num_char s = true -> s <> EmptyString -> seg_ok s = true.
Proof.
  intros Hs Hne. unfold seg_ok. destruct (String.eqb_spec s EmptyString); [done|]. simpl.
  clear Hne n. induction s as [|c s IH]; [done|]. simpl in *.
  apply andb_prop in Hs as [Hc Hs]. by rewrite num_char_clean, IH.
Qed.

(** A decimal string never equals a literal that starts with a
    lower-case letter. *)
Lemma num_neq_word s c l :
  all_chars num_char s = true -> (97 <= Ascii.nat_of_ascii c <= 122)%nat ->
  String.eqb s (String c l) = false.
Proof.
  destruct s as [|c' s]; [done|]. simpl. intros [Hc _]%andb_prop Hl.
  destruct (Ascii.eqb_spec c' c) as [->|]; [|done]. exfalso.
  unfold num_char in Hc. apply orb_prop in Hc as [Hc|Hc]; [apply Nat.eqb_eq in Hc; lia|].
  apply andb_prop in Hc as [H3 H4]. apply Nat.leb_le in H3, H4. lia.
Qed.

(** ** Lemmas on the client's calls *)

Lemma strip_origin_app o p : strip_origin o (o +:+ p) = Some p.
Proof. induction o as [|c o IH]; [by destruct p|]. simpl. by rewrite Ascii.eqb_refl. Qed.

Lemma api_path c :
  (api_request c).1 = match api_query c with
                      | None => join_path (api_segs c)
                      | Some q => join_path (api_segs c) +:+ String qmark q
                      end.
Proof. destruct c; reflexivity. Qed.

Lemma api_segs_ok c : api_segs c <> [] /\ forallb seg_ok (api_segs c) = true.
Proof.
  destruct c; split; try done; try reflexivity;
    match goal with id : Z |- _ =>
      destruct (js_string_Z_num id) as [HX HXne]; simpl; by rewrite (num_seg_ok _ HX HXne) end.
Qed.

Lemma api_segments c : segments (pathname (api_request c).1) = Some (api_segs c).
Proof.
  destruct (api_segs_ok c) as [Hne Hok]. rewrite api_path. destruct (api_query c) as [q|].
  - apply segments_join; [done|done|]. right. by eexists.
  - rewrite <- (str_app_nil_r (join_path _)). apply segments_join; auto.
Qed.

(** The comparisons of a decimal segment with the literals of the table. *)
Ltac num_seg :=
  match goal with HX : all_chars num_char ?X = true, HXne : ?X <> EmptyString |- _ =>
    rewrite ?(num_string_lower X HX);
    repeat (rewrite (num_neq_word X _ _ HX) by (vm_compute; lia));
    destruct (String.eqb_spec X EmptyString); [done|]
  end.

Lemma api_dispatch_in fe c :
  exists gs, dispatch_in fe (api_method c) (api_segs c) routes = Some (ToHandler gs (api_endpoint c) (api_params c)).
Proof.
  destruct c; try (eexists; reflexivity);
  match goal with id : Z |- _ =>
    destruct (js_string_Z_num id) as [HX HXne]; cbn [api_segs api_params api_endpoint];
    generalize dependent (js_string_Z id); intros X HX HXne; simpl; num_seg; simpl; eexists; reflexivity end.
Qed.

Lemma parse_Z_uint u : u <> Decimal.Nil -> parse_Z (uint_string u) = Some (Z.of_N (N.of_uint u)).
Proof. destruct u; intros Hu; [done|..]; simpl; rewrite string_uint_uint_string; reflexivity. Qed.

Lemma parse_Z_js_string z : parse_Z (js_string_Z z) = Some z.
Proof.
  unfold js_string_Z. destruct (Z.ltb_spec z 0).
  - unfold parse_Z. simpl. rewrite string_uint_uint_string. simpl. rewrite DecimalN.Unsigned.of_to. f_equal. lia.
  - rewrite parse_Z_uint.
    + rewrite DecimalN.Unsigned.of_to. f_equal. lia.
    + intros Hu. apply (uint_string_N_nonempty (Z.to_N z)). by rewrite Hu.
Qed.

Lemma api_param_id c : param_id (api_params c) = api_id c.
Proof. destruct c; unfold param_id; cbn -[parse_Z js_string_Z]; rewrite ?parse_Z_js_string; reflexivity. Qed.

(** ** Lemmas on the invitation link *)

Lemma search_of_clean s t :
  all_chars (fun c => negb (Ascii.eqb c qmark)) s = true -> search_of (s +:+ String qmark t) = Some t.
Proof.
  unfold qmark. induction s as [|c s IH].
  - by rewrite append_nil_l.
  - rewrite append_cons. cbn [search_of all_chars]. intros [Hc Hs]%andb_prop. apply negb_true_iff in Hc. by rewrite Hc, IH.
Qed.

Lemma unreserved_not_amp c : uri_unreserved c = true -> negb (Ascii.eqb c amp) = true.
Proof. intros Hc. destruct (Ascii.eqb_spec c amp) as [->|]; [discriminate|done]. Qed.

Lemma hex_digit_not_amp d : (d < 16)%nat -> negb (Ascii.eqb (hex_digit d) amp) = true.
Proof. intros Hd. do 16 (destruct d as [|d]; [reflexivity|]). lia. Qed.

Lemma encode_no_amp s : all_chars (fun c => negb (Ascii.eqb c amp)) (encodeURIComponent s) = true.
Proof.
  induction s as [|c s IH]; [done|]. cbn [encodeURIComponent].
  pose proof (Ascii.nat_ascii_bounded c) as Hb.
  assert (Ha : (Ascii.nat_of_ascii c / 16 < 16)%nat) by (apply Nat.Div0.div_lt_upper_bound; lia).
  assert (Hm : (Ascii.nat_of_ascii c mod 16 < 16)%nat) by (apply Nat.mod_upper_bound; lia).
  remember (Ascii.nat_of_ascii c / 16)%nat as a. remember (Ascii.nat_of_ascii c mod 16)%nat as b.
  destruct (uri_unreserved c) eqn:Hu; simpl; [by rewrite unreserved_not_amp, IH|].
  by rewrite !hex_digit_not_amp, IH.
Qed.

Lemma unreserved_no_amp s :
  all_chars uri_unreserved s = true -> all_chars (fun c => negb (Ascii.eqb c amp)) s = true.
Proof.
  induction s as [|c s IH]; [done|]. simpl. intros [Hc Hs]%andb_prop.
  by rewrite unreserved_not_amp, IH.
Qed.

Lemma form_decode_unreserved s : all_chars uri_unreserved s = true -> form_decode s = s.
Proof.
  induction s as [|c s IH]; [done|]. simpl. intros [Hc Hs]%andb_prop.
  destruct (unreserved_plain c Hc) as [H1 H2]. simpl in H1, H2. rewrite H1, H2. by rewrite IH.
Qed.

Lemma invite_link_lands baseUrl tk email :
  all_chars uri_unreserved tk = true ->
  exists path search, strip_origin baseUrl (invite_link baseUrl tk email) = Some path /\
    App None (pathname path) = Show PActivate /\ search_of path = Some search /\
    params_get search "token" = Some tk /\ params_get search "email" = Some email.
Proof.
  intros Htk. unfold invite_link. rewrite strip_origin_app. eexists _, _. split; [reflexivity|].
  change ("/ativar?token=" +:+ ?r) with ("/ativar" +:+ String qmark ("token=" +:+ r)).
  rewrite pathname_clean, search_of_clean by reflexivity.
  split; [reflexivity|]. split; [reflexivity|].
  unfold params_get, query_pairs.
  replace ("token=" +:+ (tk +:+ ("&email=" +:+ encodeURIComponent email)))
    with (("token=" +:+ tk) +:+ String amp ("email=" +:+ encodeURIComponent email))
    by (rewrite str_app_assoc; reflexivity).
  rewrite (split_on_clean_sep amp); [|rewrite all_chars_app, (unreserved_no_amp _ Htk); reflexivity].
  rewrite (split_on_clean amp) by (rewrite all_chars_app, encode_no_amp; reflexivity).
  rewrite !append_cons, !append_nil_l. simpl.
  by rewrite form_decode_unreserved, form_decode_encode.
Qed.

(** ** Lemmas on avatar files *)

Lemma all_chars_impl (p q : Ascii.ascii -> bool) s :
  (forall c, p c = true -> q c = true) -> all_chars p s = true -> all_chars q s = true.
Proof.
  intros Hpq. induction s as [|c s IH]; [done|]. simpl. intros [Hc Hs]%andb_prop.
  by rewrite Hpq, IH.
Qed.

Definition clean_char (c : Ascii.ascii) : bool := negb (Ascii.eqb c slash) && negb (Ascii.eqb c qmark).

Lemma unreserved_clean c : uri_unreserved c = true -> clean_char c = true.
Proof.
  intros Hc. unfold clean_char. destruct (Ascii.eqb_spec c slash) as [->|]; [discriminate|].
  destruct (Ascii.eqb_spec c qmark) as [->|]; [discriminate|done].
Qed.

Lemma seg_ok_clean s : s <> EmptyString -> all_chars clean_char s = true -> seg_ok s = true.
Proof. intros Hne Hs. unfold seg_ok. apply String.eqb_neq in Hne. by rewrite Hne. Qed.

(** The name multer gives an avatar is a path segment when the
    extension of the uploaded file's name has unreserved characters only. *)
Lemma avatar_filename_ok id now draw orig :
  all_chars uri_unreserved (extname orig) = true -> seg_ok (avatar_filename id now draw orig) = true.
Proof.
  intros He. destruct (js_string_Z_num id) as [Hi Hine].
  destruct (js_string_Z_num now) as [Hn _]. destruct (js_string_Z_num draw) as [Hd _].
  apply seg_ok_clean.
  - unfold avatar_filename. destruct (js_string_Z id); [done|]. rewrite append_cons. discriminate.
  - unfold avatar_filename. rewrite !all_chars_app.
    rewrite !(all_chars_impl num_char clean_char) by (done || exact num_char_clean).
    by rewrite (all_chars_impl _ _ _ unreserved_clean He).
Qed.

(** The URL [uploadAvatarController] answers is served by
    [express.static] from uploads/ once the file is on the disk. *)
Lemma dispatch_avatar fe name :
  seg_ok name = true -> fe "uploads" ("avatars/" +:+ name) = true ->
  dispatch fe "GET" ("/uploads/avatars/" +:+ name) = Some (ToFile "uploads" ("avatars/" +:+ name)).
Proof.
  intros Hok Hfe. unfold dispatch.
  change ("/uploads/avatars/" +:+ name) with (join_path ["uploads"; "avatars"; name]).
  rewrite <- (str_app_nil_r (join_path _)), segments_join; [|done|simpl; by rewrite Hok|by left].
  simpl. change ("avatars" +:+ "/" +:+ name) with ("avatars/" +:+ name). by rewrite Hfe.
Qed.

(** The replies the middlewares send. *)
Definition refusal (rep : reply) : Prop :=
  (status rep = 401 \/ status rep = 403 \/ status rep = 500) /\
  exists m, payload rep = JError m /\ m <> "".

Lemma refusal_error e : statusCode e = None -> message e <> "" -> refusal (errorHandler e).
Proof.
  intros Hc Hm. unfold errorHandler. rewrite Hc. apply String.eqb_neq in Hm. rewrite Hm.
  split; [by right; right|]. eexists; split; [done|]. by apply String.eqb_neq.
Qed.

Lemma refusal_role roles user rep : requireRole roles user = Some rep -> refusal rep.
Proof.
  unfold requireRole. destruct user; [destruct (existsb _ _)|]; intros; simplify_eq;
    (split; [auto|eexists; split; [done|discriminate]]).
Qed.

Lemma refusal_min_role m user rep : requireMinRole m user = Some rep -> refusal rep.
Proof.
  unfold requireMinRole. destruct user; [destruct (js_lt _ _)|]; intros; simplify_eq;
    (split; [auto|eexists; split; [done|discriminate]]).
Qed.

Lemma refusal_request_result rep :
  refusal rep -> exists m, payload rep = JError m /\ m <> "" /\ request_result rep = Err m.
Proof.
  intros [Hs (m & Hp & Hm)]. exists m. split_and!; [done|done|].
  unfold request_result. rewrite Hp.
  replace ((200 <=? status rep) && (status rep <? 300)) with false by (destruct Hs as [->|[->| ->]]; reflexivity).
  apply String.eqb_neq in Hm. by rewrite Hm.
Qed.

Section ServeLemmas.
Context (collate : string -> string -> comparison) (like : string -> string -> bool).
Context `{Crypto} `{Renderer} `{PathLib} (cwd : string) (month_of : Z -> Z).
Context (verifyToken : string -> option principal) (storage_exists : string -> bool).

Lemma authRequired_reply hs rep :
  authRequired verifyToken hs = inr rep -> exists m, rep = mkReply 401 (JError m) /\ m <> "".
Proof.
  unfold authRequired. repeat case_match; intros; simplify_eq; eexists; split; done.
Qed.

(** A [Bearer] header whose token has no space and verifies. *)
Lemma authRequired_bearer hs tok u :
  req_header "authorization" hs = Some ("Bearer " +:+ tok) ->
  all_chars (fun c => negb (Ascii.eqb c space)) tok = true ->
  verifyToken tok = Some u -> authRequired verifyToken hs = inl u.
Proof.
  intros Hh Hs Hv. unfold authRequired, startsWith. rewrite Hh, prefix_app.
  change ("Bearer " +:+ tok) with ("Bearer" +:+ String space tok).
  rewrite split_on_clean_sep by reflexivity. rewrite split_on_clean by done. simpl. by rewrite Hv.
Qed.

(** The header [request] sets for a stored token, as the server reads it. *)
Lemma api_fetch_authorization API_URL tok c :
  tok <> "" -> req_header "authorization" (f_headers (api_fetch API_URL (Some tok) c)) = Some ("Bearer " +:+ tok).
Proof.
  intros Ht. rewrite api_fetch_headers_eq. apply String.eqb_neq in Ht. rewrite Ht.
  unfold req_header. destruct (opt_body (api_request c).2) as [[]|]; reflexivity.
Qed.

Lemma login_run email pw s v h :
  find (email_is collate email) (rows (users (sdb s))) = Some v ->
  us_password_hash v = Some h -> h <> "" -> comparePassword pw h = true ->
  exists lr : login_reply, login collate email pw s = (json (JObject lr), s).
Proof.
  intros Hf Hh Hne Hc. unfold login, try_next, bind, findUserByEmail, read_db, ret. simpl.
  rewrite Hf, Hh. apply String.eqb_neq in Hne. rewrite Hne, Hc. simpl. by eexists.
Qed.

Lemma to_server_api API_URL token c :
  to_server API_URL (api_fetch API_URL token c) =
  Some (mkHttpRequest (api_method c) (api_request c).1 (f_headers (api_fetch API_URL token c)) (opt_body (api_request c).2)).
Proof. unfold to_server. unfold api_fetch at 2. unfold request_fetch at 1. simpl. rewrite strip_origin_app. reflexivity. Qed.
Lemma call_invite API_URL tok adm email e st u :
  verifyToken tok = Some adm -> u_role adm = "admin" \/ u_role adm = "super_admin" ->
  tok <> "" -> all_chars (fun c => negb (Ascii.eqb c space)) tok = true ->
  find (email_is collate email) (rows (users (sdb (srv_session st)))) = Some u ->
  js_truthy_password (us_password_hash u) = false ->
  call_server collate like cwd month_of verifyToken storage_exists API_URL (Some tok) (ApiInviteUser email) e st =
    Some (Answered (json (JObject ("Convite gerado", env_token e, email))),
          mkServer (snd (inviteUser collate email (env_token e) (env_now e) (srv_session st))) (srv_disk st)).
Proof.
  intros Hv Hr Hne Hs Hf Hp. unfold call_server. rewrite to_server_api.
  remember (f_headers (api_fetch API_URL (Some tok) (ApiInviteUser email))) as hs eqn:Hhs.
  assert (Ha : req_header "authorization" hs = Some ("Bearer " +:+ tok)) by (subst; by apply api_fetch_authorization).
  assert (Hc : req_header "content-type" hs = Some "application/json").
  { subst. rewrite api_fetch_headers_eq. apply String.eqb_neq in Hne. rewrite Hne. reflexivity. }
  clear Hhs. simpl. unfold app. simpl. rewrite (authRequired_bearer _ _ _ Ha Hs Hv).
  destruct Hr as [Hr|Hr]; rewrite Hr; simpl; unfold req_body_json; simpl; rewrite Hc; simpl;
    rewrite (inviteUser_run collate email _ _ _ u Hf Hp); reflexivity.
Qed.
Lemma call_setPassword API_URL email tk pw e st :
  call_server collate like cwd month_of verifyToken storage_exists API_URL None (ApiSetPassword email tk pw) e st =
  Some (Answered (setPassword collate email tk pw (env_now e) (srv_session st)).1,
        mkServer (setPassword collate email tk pw (env_now e) (srv_session st)).2 (srv_disk st)).
Proof. unfold call_server. rewrite to_server_api. simpl. unfold app. simpl. by destruct (setPassword _ _ _ _ _ _). Qed.
Lemma call_login API_URL email pw e st :
  call_server collate like cwd month_of verifyToken storage_exists API_URL None (ApiLogin email pw) e st =
  Some (Answered (login collate email pw (srv_session st)).1,
        mkServer (login collate email pw (srv_session st)).2 (srv_disk st)).
Proof. unfold call_server. rewrite to_server_api. simpl. unfold app. simpl. by destruct (login _ _ _ _). Qed.

Lemma dispatch_upload fe :
  dispatch fe "POST" "/api/users/me/avatar" = Some (ToHandler [GAuth; GAvatar] EUploadAvatar []).
Proof. reflexivity. Qed.

Lemma call_upload API_URL tok usr orig m e st :
  verifyToken tok = Some usr -> tok <> "" -> all_chars (fun c => negb (Ascii.eqb c space)) tok = true ->
  call_server collate like cwd month_of verifyToken storage_exists API_URL (Some tok)
    (ApiUploadAvatar [mkFormFile "avatar" orig ("image/" +:+ m)]) e st =
  let name := avatar_filename (u_id usr) (env_now e) (env_draw e) orig in
  Some (Answered (uploadAvatarController usr (Some name) (srv_session st)).1,
        mkServer (uploadAvatarController usr (Some name) (srv_session st)).2
                 (srv_disk st ++ ["avatars/" +:+ name])).
Proof.
  intros Hv Hne Hs. unfold call_server. rewrite to_server_api.
  remember (f_headers (api_fetch API_URL (Some tok) (ApiUploadAvatar [mkFormFile "avatar" orig ("image/" +:+ m)])))
    as hs eqn:Hhs.
  assert (Ha : req_header "authorization" hs = Some ("Bearer " +:+ tok)) by (subst; by apply api_fetch_authorization).
  clear Hhs. simpl. unfold app. rewrite dispatch_upload. cbn [run_gates rq_headers rq_body].
  rewrite (authRequired_bearer _ _ _ Ha Hs Hv), single_avatar_image. simpl.
  reflexivity.
Qed.

Lemma call_upload_not_image API_URL tok usr orig mime e st :
  verifyToken tok = Some usr -> tok <> "" -> all_chars (fun c => negb (Ascii.eqb c space)) tok = true ->
  startsWith mime "image/" = false ->
  call_server collate like cwd month_of verifyToken storage_exists API_URL (Some tok)
    (ApiUploadAvatar [mkFormFile "avatar" orig mime]) e st =
  Some (Answered (mkReply 500 (JError "Arquivo precisa ser uma imagem.")), st).
Proof.
  intros Hv Hne Hs Hm. unfold call_server. rewrite to_server_api.
  remember (f_headers (api_fetch API_URL (Some tok) (ApiUploadAvatar [mkFormFile "avatar" orig mime])))
    as hs eqn:Hhs.
  assert (Ha : req_header "authorization" hs = Some ("Bearer " +:+ tok)) by (subst; by apply api_fetch_authorization).
  clear Hhs. simpl. unfold app. rewrite dispatch_upload. cbn [run_gates rq_headers rq_body].
  rewrite (authRequired_bearer _ _ _ Ha Hs Hv), single_avatar_not_image by done. simpl.
  by destruct st.
Qed.

Lemma run_gates_refusal gs r e user file d rep d' :
  run_gates verifyToken gs r e user file d = (inl rep, d') -> refusal rep.
Proof.
  revert user file d. induction gs as [|g gs IH]; intros user file d; simpl; [done|].
  destruct g as [|roles|m|].
  - destruct (authRequired verifyToken _) as [u|rp] eqn:Ha; [apply IH|].
    intros [= <- _]. destruct (authRequired_reply _ _ Ha) as (m & -> & Hm).
    split; [auto|by eexists].
  - destruct (requireRole roles user) eqn:Hr; [intros [= <- _]; by eapply refusal_role|apply IH].
  - destruct (requireMinRole m user) eqn:Hr; [intros [= <- _]; by eapply refusal_min_role|apply IH].
  - destruct user as [u|]; [|intros [= <- _]; apply refusal_error; [done|discriminate]].
    destruct (single_avatar _ _ _ _ _) as [[f|err] d''] eqn:Hs; [apply IH|].
    intros [= <- _]. destruct (single_avatar_err _ _ _ _ _ _ _ Hs) as (Hc & Hm & _).
    by apply refusal_error.
Qed.

Lemma run_gates_auth_fails gs r e d rep :
  head gs = Some GAuth -> authRequired verifyToken (rq_headers r) = inr rep ->
  run_gates verifyToken gs r e None None d = (inl rep, d).
Proof. destruct gs as [|[] gs]; intros [=] Ha. simpl. by rewrite Ha. Qed.

End ServeLemmas.

Section ServeTheorems.
Context (collate : string -> string -> comparison) (like : string -> string -> bool).
Context `{Crypto} `{Renderer} `{PathLib} (cwd : string) (month_of : Z -> Z).
Context (verifyToken : string -> option principal) (storage_exists : string -> bool).

(** C7 (safety) No handler but the root, login and set-password runs
    without a valid token: a request that reaches any other route and
    whose [Authorization] header is missing, is not [Bearer ...] or does
    not verify is answered 401 with an error message by [authRequired],
    and leaves the database and the disk as they were. *)
Theorem app_requires_token r e st gs ep ps :
  dispatch (file_exists storage_exists (srv_disk st)) (rq_method r) (rq_url r) = Some (ToHandler gs ep ps) ->
  public ep = false ->
  (forall u, authRequired verifyToken (rq_headers r) <> inl u) ->
  exists m, app collate like cwd month_of verifyToken storage_exists r e st = Some (Answered (mkReply 401 (JError m)), st) /\
            m <> "".
Proof.
  intros Hd Hp Ha. destruct (authRequired verifyToken (rq_headers r)) as [u|rep] eqn:Har;
    [by destruct (Ha u)|].
  destruct (authRequired_reply _ _ _ Har) as (m & -> & Hm). exists m. split; [|done].
  unfold app. rewrite Hd. rewrite (run_gates_auth_fails verifyToken gs r e _ _ (dispatch_gated _ _ _ _ _ _ Hd Hp) Har).
  by destruct st.
Qed.


(** C5 (liveness) An invited account can always be activated and used,
    through the client and the server together: an administrator's
    [api.inviteUser] passes [authRequired] and [requireRole] and stores
    the invitation; the link it answers opens the activation page with
    the token and the e-mail; the form, filled with a password of six
    characters or more typed twice, calls [api.setPassword], which the
    server accepts before the expiry, so the page navigates to /login,
    which the router shows; and [api.login] with that password then
    answers 200 with the session. *)
Theorem activation_end_to_end API_URL baseUrl admin_tok adm email pw h e1 e2 e3 st u :
  verifyToken admin_tok = Some adm -> u_role adm = "admin" \/ u_role adm = "super_admin" ->
  admin_tok <> "" -> all_chars (fun c => negb (Ascii.eqb c space)) admin_tok = true ->
  find (email_is collate email) (rows (users (sdb (srv_session st)))) = Some u ->
  js_truthy_password (us_password_hash u) = false -> email <> "" ->
  env_token e1 <> "" -> all_chars uri_unreserved (env_token e1) = true ->
  (6 <= String.length pw)%nat -> hashPassword pw = Some h -> h <> "" -> comparePassword pw h = true ->
  env_now e2 <= env_now e1 + INVITE_TTL ->
  exists st1 st2 st3 path search r2 (lr : login_reply),
    call_server collate like cwd month_of verifyToken storage_exists API_URL (Some admin_tok) (ApiInviteUser email) e1 st =
      Some (Answered (json (JObject ("Convite gerado", env_token e1, email))), st1) /\
    strip_origin baseUrl (invite_link baseUrl (env_token e1) email) = Some path /\
    App None (pathname path) = Show PActivate /\ search_of path = Some search /\
    handleSubmit (params_get search "token") (params_get search "email") pw pw = SubmitCall email (env_token e1) pw /\
    call_server collate like cwd month_of verifyToken storage_exists API_URL None (ApiSetPassword email (env_token e1) pw) e2 st1 =
      Some (Answered r2, st2) /\
    after_setPassword (request_result r2) = inl "/login" /\
    resolve 3 None "/login" = Some ("/login", PLogin) /\
    call_server collate like cwd month_of verifyToken storage_exists API_URL None (ApiLogin email pw) e3 st2 =
      Some (Answered (json (JObject lr)), st3).
Proof.
  intros Hv Hr Hne Hs Hf Hp Hem Htk Htu Hl Hh Hhne Hc Hn.
  set (s1 := (inviteUser collate email (env_token e1) (env_now e1) (srv_session st)).2).
  set (s2 := (setPassword collate email (env_token e1) pw (env_now e2) s1).2).
  exists (mkServer s1 (srv_disk st)), (mkServer s2 (srv_disk st)).
  rewrite (call_invite collate like cwd month_of verifyToken storage_exists _ _ _ _ _ _ _ Hv Hr Hne Hs Hf Hp).
  rewrite call_setPassword, call_login. simpl.
  destruct (invite_link_lands baseUrl _ email Htu) as (path & search & Hpath & Happ & Hsearch & Ht & He).
  set (v := with_invite (Some (sha256 (env_token e1))) (Some (env_now e1 + INVITE_TTL)) u).
  pose proof (invite_find collate email (Some (sha256 (env_token e1))) (Some (env_now e1 + INVITE_TTL)) _ u Hf) as Hf1.
  assert (Hs1 : s1 = (inviteUser collate email (env_token e1) (env_now e1) (srv_session st)).2) by done.
  rewrite (inviteUser_run collate email _ _ _ u Hf Hp) in Hs1. simpl in Hs1.
  assert (Hf1' : find (email_is collate email) (rows (users (sdb s1))) = Some v) by (rewrite Hs1; exact Hf1).
  pose proof (setPassword_run collate email (env_token e1) pw (env_now e2) s1 v h (env_now e1 + INVITE_TTL)
                Hf1' eq_refl eq_refl ltac:(lia) Hh) as Hs2.
  pose proof (update_find_by_id collate email (with_password_cleared h) _ v (email_is_cleared collate email h) Hf1) as Hf2.
  assert (Hf3 : find (email_is collate email) (rows (users (sdb s2))) = Some (with_password_cleared h v)).
  { unfold s2. rewrite Hs2. simpl. rewrite Hs1. exact Hf2. }
  destruct (login_run collate email pw s2 _ h Hf3 eq_refl Hhne Hc) as [lr Hlr]. rewrite Hlr.
  eexists _, path, search, (setPassword collate email (env_token e1) pw (env_now e2) s1).1, lr.
  split_and!; try reflexivity; try eassumption.
  - rewrite Ht, He. by apply handleSubmit_call_iff.
  - by rewrite Hs2.
Qed.


(** Avatar upload, from the client's [api.uploadAvatar]
    through [authRequired], multer and [uploadAvatarController]: an image
    sent under the field "avatar" is stored as uploads/avatars/<id>-<now>-<draw><ext>,
    the reply carries the URL /uploads/avatars/<name>, the caller's
    [avatar_url] is set to it, and a GET of that URL is then served by
    [express.static] from the stored file (for an extension of unreserved
    characters); a file whose type is not image/... is refused by the
    filter's plain [Error], which [errorHandler] answers 500, and nothing
    is stored or written. *)
Theorem avatar_upload_served API_URL tok usr orig m mime e st :
  verifyToken tok = Some usr -> tok <> "" -> all_chars (fun c => negb (Ascii.eqb c space)) tok = true ->
  all_chars uri_unreserved (extname orig) = true ->
  let name := avatar_filename (u_id usr) (env_now e) (env_draw e) orig in
  (exists st', call_server collate like cwd month_of verifyToken storage_exists API_URL (Some tok)
                 (ApiUploadAvatar [mkFormFile "avatar" orig ("image/" +:+ m)]) e st =
               Some (Answered (json (JObject ("/uploads/avatars/" +:+ name))), st') /\
     srv_disk st' = srv_disk st ++ ["avatars/" +:+ name] /\
     option_map us_avatar_url (find (fun x => us_id x =? u_id usr) (rows (users (sdb (srv_session st'))))) =
       option_map (fun _ => Some ("/uploads/avatars/" +:+ name))
                  (find (fun x => us_id x =? u_id usr) (rows (users (sdb (srv_session st))))) /\
     dispatch (file_exists storage_exists (srv_disk st')) "GET" ("/uploads/avatars/" +:+ name) =
       Some (ToFile "uploads" ("avatars/" +:+ name))) /\
  (startsWith mime "image/" = false ->
   call_server collate like cwd month_of verifyToken storage_exists API_URL (Some tok)
     (ApiUploadAvatar [mkFormFile "avatar" orig mime]) e st =
   Some (Answered (mkReply 500 (JError "Arquivo precisa ser uma imagem.")), st)).
Proof.
  intros Hv Hne Hs He name. split; [|intros; by apply (call_upload_not_image collate like cwd month_of verifyToken storage_exists _ _ usr)].
  rewrite (call_upload collate like cwd month_of verifyToken storage_exists _ _ _ _ _ _ _ Hv Hne Hs). simpl.
  eexists. split_and!; [reflexivity|reflexivity| |].
  - simpl. rewrite find_update_where by done.
    destruct (find _ _) as [x|] eqn:Hx; [|done]. simpl.
    apply find_some in Hx as [_ Hx]. by rewrite Hx.
  - apply dispatch_avatar; [by apply avatar_filename_ok|].
    unfold file_exists. simpl. rewrite existsb_app. simpl. by rewrite String.eqb_refl, orb_true_r.
Qed.


(** Every refusal of the middleware chain has the shape the
    client expects: [authRequired], [requireRole], [requireMinRole] and
    multer (through [errorHandler]) answer 401, 403 or 500 with a JSON
    body [{ error }] whose message is not empty, so the client's
    [request] throws an [Error] carrying that very message. *)
Theorem gates_refusal_type gs r e user file d rep d' :
  run_gates verifyToken gs r e user file d = (inl rep, d') ->
  (status rep = 401 \/ status rep = 403 \/ status rep = 500) /\
  exists m, payload rep = JError m /\ m <> "" /\ request_result rep = Err m.
Proof.
  intros Hg. pose proof (run_gates_refusal verifyToken _ _ _ _ _ _ _ _ Hg) as Hr.
  split; [apply Hr|]. by apply refusal_request_result.
Qed.

End ServeTheorems.
(** The invitation link works: the link [inviteUser]
    answers, opened in the browser, lands on /ativar, which the
    signed-out router shows as the activation page, and the page's
    [URLSearchParams] read back exactly the token and the e-mail the
    server put in it (the e-mail through [encodeURIComponent] and back),
    for every e-mail and every token of unreserved characters, as the hex
    string of [randomBytes] is. *)
Theorem invite_link_roundtrip baseUrl tk email :
  all_chars uri_unreserved tk = true ->
  exists path search, strip_origin baseUrl (invite_link baseUrl tk email) = Some path /\
    App None (pathname path) = Show PActivate /\ search_of path = Some search /\
    params_get search "token" = Some tk /\ params_get search "email" = Some email.
Proof. apply invite_link_lands. Qed.



(** C6 (refinement) The client and the server agree on every call: each
    function of the [api] object, whatever its arguments, the stored
    token and the server's origin [API_URL], sends a request that reaches
    the server with the function's method and is routed to the handler
    the function is written for ([api_endpoint]), past the right gates,
    and the handler reads back from the path the very id the call put in
    it. *)
Theorem api_calls_reach_handlers API_URL token c fe :
  exists r gs, to_server API_URL (api_fetch API_URL token c) = Some r /\
    rq_method r = api_method c /\
    dispatch fe (rq_method r) (rq_url r) = Some (ToHandler gs (api_endpoint c) (api_params c)) /\
    param_id (api_params c) = api_id c.
Proof.
  unfold api_fetch, request_fetch, to_server. simpl. rewrite strip_origin_app. simpl.
  destruct (api_dispatch_in fe c) as [gs Hd]. eexists _, gs. split_and!; [done|done| |apply api_param_id].
  unfold dispatch. simpl. rewrite api_segments. exact Hd.
Qed.

(** ** Witnesses on the example database *)

#[local] Existing Instance demo_crypto.
#[local] Existing Instance finishing_renderer.
#[local] Existing Instance demo_pathlib.

Lemma app_requires_token_witness :
  exists m, app String.compare (fun _ _ => true) "/srv" (fun t => t) demo_verify (fun _ => false)
              (mkHttpRequest "GET" "/api/users/me" [] None) (demo_env 1000) demo_server =
            Some (Answered (mkReply 401 (JError m)), demo_server) /\ m <> "".
Proof.
  apply (app_requires_token String.compare (fun _ _ => true) "/srv" (fun t => t) demo_verify (fun _ => false)
           (mkHttpRequest "GET" "/api/users/me" [] None) (demo_env 1000) demo_server [GAuth] EGetOwnProfile []);
    [reflexivity|reflexivity|intros u Hu; discriminate Hu].
Defined.

Lemma invite_link_roundtrip_witness :
  exists path search, strip_origin "http://app" (invite_link "http://app" "ab12" "ana+1@example.com") = Some path /\
    App None (pathname path) = Show PActivate /\ search_of path = Some search /\
    params_get search "token" = Some "ab12" /\ params_get search "email" = Some "ana+1@example.com".
Proof. apply invite_link_roundtrip. reflexivity. Defined.

Lemma gates_refusal_type_witness :
  let rep := mkReply 401 (JError "Token não fornecido") in
  run_gates demo_verify [GAuth; GRole ADMINS] (mkHttpRequest "POST" "/api/auth/invite" [] None)
    (demo_env 1000) None None [] = (inl rep, []) /\
  ((status rep = 401 \/ status rep = 403 \/ status rep = 500) /\
   exists m, payload rep = JError m /\ m <> "" /\ request_result rep = Err m).
Proof.
  intros rep. split; [reflexivity|].
  apply (gates_refusal_type demo_verify [GAuth; GRole ADMINS] (mkHttpRequest "POST" "/api/auth/invite" [] None)
           (demo_env 1000) None None [] rep []). reflexivity.
Defined.

Lemma avatar_upload_served_witness :
  let name := avatar_filename 9 1000 42 "me.png" in
  (exists st', call_server String.compare (fun _ _ => true) "/srv" (fun t => t) demo_verify (fun _ => false)
                 "http://api" (Some "adm") (ApiUploadAvatar [mkFormFile "avatar" "me.png" ("image/" +:+ "png")])
                 (demo_env 1000) demo_server =
               Some (Answered (json (JObject ("/uploads/avatars/" +:+ name))), st') /\
     srv_disk st' = srv_disk demo_server ++ ["avatars/" +:+ name] /\
     option_map us_avatar_url (find (fun x => us_id x =? 9) (rows (users (sdb (srv_session st'))))) =
       option_map (fun _ => Some ("/uploads/avatars/" +:+ name))
                  (find (fun x => us_id x =? 9) (rows (users (sdb (srv_session demo_server))))) /\
     dispatch (file_exists (fun _ => false) (srv_disk st')) "GET" ("/uploads/avatars/" +:+ name) =
       Some (ToFile "uploads" ("avatars/" +:+ name))) /\
  (startsWith "text/plain" "image/" = false ->
   call_server String.compare (fun _ _ => true) "/srv" (fun t => t) demo_verify (fun _ => false)
     "http://api" (Some "adm") (ApiUploadAvatar [mkFormFile "avatar" "me.png" "text/plain"]) (demo_env 1000) demo_server =
   Some (Answered (mkReply 500 (JError "Arquivo precisa ser uma imagem.")), demo_server)).
Proof.
  apply (avatar_upload_served String.compare (fun _ _ => true) "/srv" (fun t => t) demo_verify (fun _ => false)
           "http://api" "adm" demo_admin "me.png" "png" "text/plain" (demo_env 1000) demo_server);
    [reflexivity|discriminate|reflexivity|reflexivity].
Defined.

Lemma activation_end_to_end_witness :
  exists st1 st2 st3 path search r2 (lr : login_reply),
    call_server String.compare (fun _ _ => true) "/srv" (fun t => t) demo_verify (fun _ => false)
      "http://api" (Some "adm") (ApiInviteUser "ana@example.com") (demo_env 1000) demo_server =
      Some (Answered (json (JObject ("Convite gerado", "t0k", "ana@example.com"))), st1) /\
    strip_origin "http://app" (invite_link "http://app" "t0k" "ana@example.com") = Some path /\
    App None (pathname path) = Show PActivate /\ search_of path = Some search /\
    handleSubmit (params_get search "token") (params_get search "email") "segredo" "segredo" =
      SubmitCall "ana@example.com" "t0k" "segredo" /\
    call_server String.compare (fun _ _ => true) "/srv" (fun t => t) demo_verify (fun _ => false)
      "http://api" None (ApiSetPassword "ana@example.com" "t0k" "segredo") (demo_env 2000) st1 = Some (Answered r2, st2) /\
    after_setPassword (request_result r2) = inl "/login" /\
    resolve 3 None "/login" = Some ("/login", PLogin) /\
    call_server String.compare (fun _ _ => true) "/srv" (fun t => t) demo_verify (fun _ => false)
      "http://api" None (ApiLogin "ana@example.com" "segredo") (demo_env 3000) st2 = Some (Answered (json (JObject lr)), st3).
Proof.
  apply (activation_end_to_end String.compare (fun _ _ => true) "/srv" (fun t => t) demo_verify (fun _ => false)
           "http://api" "http://app" "adm" demo_admin "ana@example.com" "segredo" (demo_bcrypt "segredo")
           (demo_env 1000) (demo_env 2000) (demo_env 3000) demo_server demo_ana);
    try reflexivity; try discriminate; try (by left); unfold INVITE_TTL; simpl; lia.
Defined.
