(* ===== verification/Interleaving.v ===== *)
(** * Interleaving: two exits, or two entries, on two connections

    Each request of [stockExitController] takes its own connection from
    the pool ([pool.getConnection()]) and runs, per item, [decreaseStock]
    then [registerMovement] in its transaction.  [getCurrentStock] is a
    plain [SELECT] (no [FOR UPDATE]); the [UPDATE stock SET quantity = ?
    WHERE id = ?] writes the value the transaction computed from what it
    read.  Under InnoDB, a second transaction's UPDATE of the same row
    waits for the first one's COMMIT and then writes its own value.

    An exit item is thus two phases on the shared database: its read
    ([ERead i]: [getCurrentStock]) and its write ([EWrite i]: the guard on
    the read quantity, the UPDATE and the INSERT of the movement, then
    COMMIT).  [run_schedule] runs a schedule of these events of a list of
    one-item exits ([txn]).  [exit_write_code] shows that a read followed
    at once by its write is the code's step; the theorems compare the
    serial schedule with the one where both reads come first: the second
    write overwrites the first (a lost update), both exits pass their
    guard even when together they take more than the balance, and the
    ledger invariant of [Ledger] breaks.

    Entries ([stockEntryController]: [upsertStock] then
    [registerMovement]) have the same two phases ([entry_write]); when the
    pair has no row yet, two entries whose reads come first both take the
    INSERT branch, and the second fails on the balances' unique key on
    [(product_id, warehouse_id)] (the spec's layout: the repository has
    no schema), so one of the two entries is lost to a 500.  Batches of several items,
    with the row locks and the rollback, are modelled in [Batches]. *)

From S2P Require Import Prelude Schema Permission StockModel Ledger.

Open Scope Z_scope.
Open Scope est_scope.

(** One exit of one item: the caller, the pair, the quantity, the
    description. *)
Record txn := mkTxn {
  tx_user : principal;
  tx_product : Z;
  tx_warehouse : Z;
  tx_quantity : Z;
  tx_description : option string
}.

Inductive event := ERead (i : nat) | EWrite (i : nat).

(** The write phase from the row [cur] the transaction read: the UPDATE
    to [cur.quantity - quantity], then the SAIDA movement. *)
Definition exit_on_read (t : txn) (cur : stock_row) (d : db) : db :=
  let new_qty := st_quantity cur - tx_quantity t in
  movements_after_insert (tx_product t) (tx_warehouse t) (Some (u_id (tx_user t))) SAIDA
    (tx_quantity t) (st_quantity cur) new_qty (tx_description t)
    (stock_after_update (st_id cur) new_qty d).

(** The guards of [decreaseStock] on what was read; a failing guard
    throws and the transaction rolls back, writing nothing. *)
Definition exit_write (t : txn) (cur : option stock_row) (d : db) : db :=
  match cur with
  | None => d
  | Some c => if tx_quantity t >? st_quantity c then d else exit_on_read t c d
  end.

(** The write phase of an entry ([upsertStock] then [registerMovement])
    from what its read returned: the INSERT of a row holding the quantity
    when there was none, else the UPDATE to the read quantity plus the
    entry; then the ENTRADA movement.  The INSERT fails on the balances'
    unique key when the pair has a committed row by then
    ([StockModel.dup_entry]): the transaction rolls back, writing
    nothing, and the request answers 500. *)
Definition entry_write (t : txn) (cur : option stock_row) (d : db) : db :=
  match cur with
  | None =>
      match find_stock (tx_product t) (tx_warehouse t) d with
      | Some _ => d
      | None =>
          movements_after_insert (tx_product t) (tx_warehouse t) (Some (u_id (tx_user t))) ENTRADA
            (tx_quantity t) 0 (tx_quantity t) (tx_description t)
            (stock_after_insert (tx_product t) (tx_warehouse t) (tx_quantity t) d)
      end
  | Some c =>
      let new_qty := st_quantity c + tx_quantity t in
      movements_after_insert (tx_product t) (tx_warehouse t) (Some (u_id (tx_user t))) ENTRADA
        (tx_quantity t) (st_quantity c) new_qty (tx_description t)
        (stock_after_update (st_id c) new_qty d)
  end.

(** A schedule of the read and write phases of one-item transactions
    whose write phase is [write] ([exit_write] or [entry_write]). *)
Fixpoint run_schedule (write : txn -> option stock_row -> db -> db) (txns : list txn)
    (reads : nat -> option stock_row) (sch : list event) (d : db) : db :=
  match sch with
  | [] => d
  | ERead i :: rest =>
      match txns !! i with
      | Some t =>
          run_schedule write txns
            (fun j => if Nat.eqb j i then find_stock (tx_product t) (tx_warehouse t) d else reads j)
            rest d
      | None => run_schedule write txns reads rest d
      end
  | EWrite i :: rest =>
      match txns !! i with
      | Some t => run_schedule write txns reads rest (write t (reads i) d)
      | None => run_schedule write txns reads rest d
      end
  end.

(** The code's step for one exit item: [decreaseStock] then
    [registerMovement]. *)
Definition exit_step (t : txn) : St Z :=
  ch <- decreaseStock (tx_product t) (tx_warehouse t) (tx_quantity t) ;;
  registerMovement (tx_product t) (tx_warehouse t) (Some (u_id (tx_user t))) SAIDA
    (tx_quantity t) (previous_qty ch) (new_qty ch) (tx_description t).

(** The code's step for one entry of [stockEntryController]:
    [upsertStock] then [registerMovement]. *)
Definition entry_step (t : txn) : St Z :=
  ch <- upsertStock (tx_product t) (tx_warehouse t) (tx_quantity t) ;;
  registerMovement (tx_product t) (tx_warehouse t) (Some (u_id (tx_user t))) ENTRADA
    (tx_quantity t) (previous_qty ch) (new_qty ch) (tx_description t).

Definition serial : list event := [ERead 0; EWrite 0; ERead 1; EWrite 1].
Definition reads_first : list event := [ERead 0; ERead 1; EWrite 0; EWrite 1].

(** Two supervisors taking 4 and 7 (or 5) of the 10 units of product 1
    in warehouse 1 of [demo_db]. *)

Definition tx_ana : txn := mkTxn (mkPrincipal 7 "Ana" "supervisor" (Some 1) None) 1 1 4 None.
Definition tx_caio : txn := mkTxn (mkPrincipal 9 "Caio" "supervisor" (Some 1) None) 1 1 7 None.
Definition tx_caio_small : txn :=
  mkTxn (mkPrincipal 9 "Caio" "supervisor" (Some 1) None) 1 1 5 None.

(** ** Lemmas *)

(** A read then its write is the code's step: the state it leaves on
    success, and the unchanged state on either error. *)
Lemma exit_write_code t s :
  sdb (snd (exit_step t s)) =
  exit_write t (find_stock (tx_product t) (tx_warehouse t) (sdb s)) (sdb s).
Proof.
  unfold exit_step, bind. rewrite decreaseStock_run.
  destruct (find_stock _ _ _) as [c|]; [|done]. simpl.
  by destruct (tx_quantity t >? st_quantity c).
Qed.

(** The write phase of [t] from a read [c] of the row that [d] holds for
    its pair as [c'] (the same row, perhaps with another quantity). *)
Lemma find_stock_exit_on_read t c c' d :
  find_stock (tx_product t) (tx_warehouse t) d = Some c' -> st_id c' = st_id c ->
  find_stock (tx_product t) (tx_warehouse t) (exit_on_read t c d) =
    Some (with_quantity (st_quantity c - tx_quantity t) c').
Proof.
  intros Hf Hid.
  change (find_stock (tx_product t) (tx_warehouse t)
            (stock_after_update (st_id c) (st_quantity c - tx_quantity t) d) =
          Some (with_quantity (st_quantity c - tx_quantity t) c')).
  rewrite find_stock_update, Hf. simpl. by rewrite Hid, Z.eqb_refl.
Qed.

Lemma balance_exit_on_read t c c' d :
  find_stock (tx_product t) (tx_warehouse t) d = Some c' -> st_id c' = st_id c ->
  balance (exit_on_read t c d) (tx_product t) (tx_warehouse t) =
    Some (st_quantity c - tx_quantity t).
Proof. intros Hf Hid. unfold balance. by rewrite (find_stock_exit_on_read t c c' d Hf Hid). Qed.

(** A write phase from the current row keeps the ledger invariant and
    the well-formedness of [stock]. *)
Lemma exit_on_read_ok t c d :
  ledger_ok d -> stock_wf d -> find_stock (tx_product t) (tx_warehouse t) d = Some c ->
  ledger_ok (exit_on_read t c d) /\ stock_wf (exit_on_read t c d).
Proof.
  intros Hl Hwf Hf.
  assert (Hwf' : stock_wf (exit_on_read t c d)) by (apply stock_wf_update, Hwf).
  split; [|done].
  apply (ledger_ok_step d _ (tx_product t) (tx_warehouse t)
    (mkMovement (next_id (movements d)) (tx_product t) (tx_warehouse t)
       (js_or_null_id (Some (u_id (tx_user t)))) SAIDA (tx_quantity t) (st_quantity c)
       (st_quantity c - tx_quantity t) (tx_description t) (clock d))); try done.
  - apply Hwf'.
  - unfold balance. by rewrite Hf.
  - by apply (balance_exit_on_read t c c).
  - intros p' w' Hne. unfold exit_on_read. rewrite balance_movements_after_insert.
    by apply (balance_update_other (tx_product t) (tx_warehouse t)).
Qed.

(** The net of the pair after a write phase. *)
Lemma net_exit_on_read t c d :
  net (exit_on_read t c d) (tx_product t) (tx_warehouse t) =
    net d (tx_product t) (tx_warehouse t) - tx_quantity t.
Proof.
  unfold net. rewrite (pair_movements_snoc d _ _ _
    (mkMovement (next_id (movements d)) (tx_product t) (tx_warehouse t)
       (js_or_null_id (Some (u_id (tx_user t)))) SAIDA (tx_quantity t) (st_quantity c)
       (st_quantity c - tx_quantity t) (tx_description t) (clock d))) by reflexivity.
  unfold of_pair. simpl. rewrite !Z.eqb_refl. simpl. rewrite sumZ_app. simpl.
  unfold signed. simpl. lia.
Qed.

(** A read then its write is the code's step of an entry. *)
Lemma entry_write_code t s :
  sdb (snd (entry_step t s)) =
  entry_write t (find_stock (tx_product t) (tx_warehouse t) (sdb s)) (sdb s).
Proof.
  unfold entry_step, bind. rewrite upsertStock_run.
  destruct (find_stock _ _ _) as [c|] eqn:E; [reflexivity|]. cbn [entry_write]. by rewrite E.
Qed.

(** After the INSERT of a pair that had no row, the pair's row is the
    new one. *)
Lemma find_stock_entry_insert t d :
  find_stock (tx_product t) (tx_warehouse t) d = None ->
  find_stock (tx_product t) (tx_warehouse t) (entry_write t None d) =
    Some (mkStock (next_id (stock d)) (tx_product t) (tx_warehouse t) (tx_quantity t)).
Proof.
  intros Hn. cbn [entry_write]. rewrite Hn. unfold find_stock in *. cbn.
  rewrite find_app_None by done. cbn. unfold stock_key. cbn. by rewrite !Z.eqb_refl.
Qed.

(** ** Theorems *)

Section TwoExits.
Context (t1 t2 : txn) (d : db) (p w b : Z) (c : stock_row).
Hypothesis Hp1 : tx_product t1 = p.
Hypothesis Hw1 : tx_warehouse t1 = w.
Hypothesis Hp2 : tx_product t2 = p.
Hypothesis Hw2 : tx_warehouse t2 = w.
Hypothesis Hc : find_stock p w d = Some c.

Lemma reads_first_run :
  tx_quantity t1 <= st_quantity c -> tx_quantity t2 <= st_quantity c ->
  run_schedule exit_write [t1; t2] (fun _ => None) reads_first d = exit_on_read t2 c (exit_on_read t1 c d).
Proof.
  intros Hq1 Hq2. simpl. rewrite Hp1, Hw1, Hp2, Hw2, Hc. simpl.
  destruct (Z.gtb_spec (tx_quantity t1) (st_quantity c)); [lia|].
  destruct (Z.gtb_spec (tx_quantity t2) (st_quantity c)); [lia|]. done.
Qed.

(** C16: the lost update.  Two exits of positive quantities [q1], [q2]
    on the same pair, each at most the balance [b], whose reads both come
    before the first write: both pass the guard (even when [q1 + q2 >
    b]), both movements are appended, and the balance ends at [b - q2]:
    the first exit is overwritten.  The net of the pair's movements is
    [b - q1 - q2], so the ledger invariant, which held before, is
    broken. *)
Theorem exits_lost_update :
  ledger_ok d -> st_quantity c = b ->
  0 < tx_quantity t1 <= b -> 0 < tx_quantity t2 <= b ->
  let d' := run_schedule exit_write [t1; t2] (fun _ => None) reads_first d in
  balance d' p w = Some (b - tx_quantity t2) /\
  net d' p w = b - tx_quantity t1 - tx_quantity t2 /\
  rows (movements d') = rows (movements d) ++
    [mkMovement (next_id (movements d)) p w (js_or_null_id (Some (u_id (tx_user t1)))) SAIDA
       (tx_quantity t1) b (b - tx_quantity t1) (tx_description t1) (clock d);
     mkMovement (next_id (movements d) + 1) p w (js_or_null_id (Some (u_id (tx_user t2))))
       SAIDA (tx_quantity t2) b (b - tx_quantity t2) (tx_description t2) (clock d)] /\
  ~ ledger_ok d'.
Proof.
  intros Hl Hb Hq1 Hq2 d'. subst b.
  assert (Hd' : d' = exit_on_read t2 c (exit_on_read t1 c d)) by (apply reads_first_run; lia).
  assert (Hbal : balance d' p w = Some (st_quantity c - tx_quantity t2)).
  { rewrite Hd', <- Hp2, <- Hw2.
    apply (balance_exit_on_read t2 c (with_quantity (st_quantity c - tx_quantity t1) c)); [|done].
    rewrite Hp2, Hw2, <- Hp1, <- Hw1. apply find_stock_exit_on_read; [|done].
    by rewrite Hp1, Hw1. }
  assert (Hnet : net d' p w = st_quantity c - tx_quantity t1 - tx_quantity t2).
  { rewrite Hd', <- Hp2, <- Hw2, net_exit_on_read, Hp2, Hw2, <- Hp1, <- Hw1, net_exit_on_read.
    destruct (ledger_ok_pair d (tx_product t1) (tx_warehouse t1) Hl) as [Hn _].
    rewrite <- Hn, Hp1, Hw1. unfold balance. rewrite Hc. simpl. lia. }
  split_and!; [done|done| |].
  - rewrite Hd'. simpl. by rewrite <- app_assoc, Hp1, Hw1, Hp2, Hw2.
  - intros Hl'. destruct (ledger_ok_pair d' p w Hl') as [Hn _].
    rewrite Hbal, Hnet in Hn. simpl in Hn. lia.
Qed.

(** The serial schedule is the code's two steps one after the other;
    it keeps the ledger invariant and, when the second exit fits the
    balance the first one left, ends at [b - q1 - q2]. *)
Theorem exits_serial :
  ledger_ok d -> stock_wf d -> st_quantity c = b ->
  0 < tx_quantity t1 -> 0 < tx_quantity t2 -> tx_quantity t1 + tx_quantity t2 <= b ->
  forall snap,
  let d' := run_schedule exit_write [t1; t2] (fun _ => None) serial d in
  d' = sdb (snd (bind (exit_step t1) (fun _ => exit_step t2) (mkSession d snap))) /\
  balance d' p w = Some (b - tx_quantity t1 - tx_quantity t2) /\ ledger_ok d'.
Proof.
  intros Hl Hwf Hb Hq1 Hq2 Hsum snap d'. subst b.
  assert (Hd1 : exit_write t1 (find_stock p w d) d = exit_on_read t1 c d).
  { rewrite Hc. simpl. destruct (Z.gtb_spec (tx_quantity t1) (st_quantity c)); [lia|done]. }
  assert (Hf0 : find_stock (tx_product t1) (tx_warehouse t1) d = Some c) by by rewrite Hp1, Hw1.
  assert (Hf1 : find_stock p w (exit_on_read t1 c d) =
                Some (with_quantity (st_quantity c - tx_quantity t1) c)).
  { rewrite <- Hp1, <- Hw1. by apply find_stock_exit_on_read. }
  assert (Hrun : d' = exit_on_read t2 (with_quantity (st_quantity c - tx_quantity t1) c)
                        (exit_on_read t1 c d)).
  { subst d'. simpl. rewrite Hp1, Hw1, Hd1, Hp2, Hw2, Hf1. simpl.
    destruct (Z.gtb_spec (tx_quantity t2) (st_quantity c - tx_quantity t1)); [lia|done]. }
  split_and!.
  - unfold bind at 1. destruct (exit_step t1 (mkSession d snap)) as [[i|e] s1] eqn:E1.
    + pose proof (exit_write_code t1 (mkSession d snap)) as H1. rewrite E1 in H1. simpl in H1.
      rewrite exit_write_code, H1, Hp1, Hw1, Hd1, Hp2, Hw2, Hf1, Hrun. simpl.
      destruct (Z.gtb_spec (tx_quantity t2) (st_quantity c - tx_quantity t1)); [lia|done].
    + exfalso. revert E1. unfold exit_step, bind. rewrite decreaseStock_run, Hp1, Hw1. simpl.
      rewrite Hc. destruct (Z.gtb_spec (tx_quantity t1) (st_quantity c)); [lia|done].
  - rewrite Hrun, <- Hp2, <- Hw2.
    rewrite (balance_exit_on_read t2 _ (with_quantity (st_quantity c - tx_quantity t1) c))
      by (done || by rewrite Hp2, Hw2).
    simpl. f_equal; lia.
  - destruct (exit_on_read_ok t1 c d Hl Hwf Hf0) as [Hl1 Hwf1].
    rewrite Hrun. apply exit_on_read_ok; [done|done|]. by rewrite Hp2, Hw2.
Qed.
End TwoExits.

Section TwoEntries.
Context (t1 t2 : txn) (d : db) (p w : Z).
Hypothesis Hp1 : tx_product t1 = p.
Hypothesis Hw1 : tx_warehouse t1 = w.
Hypothesis Hp2 : tx_product t2 = p.
Hypothesis Hw2 : tx_warehouse t2 = w.

(** C18: concurrent first entries lose one entry.  Two entries of a
    pair that has no balance row yet, whose reads ([getCurrentStock], a
    plain SELECT) both come before the first write, both take the INSERT
    branch of [upsertStock]; the second INSERT meets the first's row on
    the balances' unique key and fails, its transaction rolls back and its
    request answers 500: the database is what the first entry alone
    leaves, with the first quantity as balance, where the serial schedule
    records both entries. *)
Theorem entries_duplicate_fails :
  find_stock p w d = None ->
  let d' := run_schedule entry_write [t1; t2] (fun _ => None) reads_first d in
  let ds := run_schedule entry_write [t1; t2] (fun _ => None) serial d in
  d' = entry_write t1 None d /\ balance d' p w = Some (tx_quantity t1) /\
  balance ds p w = Some (tx_quantity t1 + tx_quantity t2).
Proof.
  intros Hn d' ds. subst p w.
  assert (H1 := find_stock_entry_insert t1 d Hn).
  assert (Hd : d' = entry_write t1 None d).
  { subst d'. unfold reads_first. cbn -[entry_write find_stock]. rewrite Hp2, Hw2, Hn.
    unfold entry_write at 1. by rewrite Hp2, Hw2, H1. }
  split_and!; [exact Hd| |].
  - rewrite Hd. unfold balance. by rewrite H1.
  - subst ds. unfold serial. cbn -[entry_write find_stock]. rewrite Hn, Hp2, Hw2, H1.
    unfold entry_write at 1. rewrite balance_movements_after_insert.
    exact (balance_update_same _ _ _ _ _ H1).
Qed.
End TwoEntries.

(** ** Witnesses *)

Lemma exits_lost_update_witness :
  let d' := run_schedule exit_write [tx_ana; tx_caio] (fun _ => None) reads_first demo_db in
  balance d' 1 1 = Some (10 - 7) /\ net d' 1 1 = 10 - 4 - 7 /\
  rows (movements d') = rows (movements demo_db) ++
    [mkMovement 2 1 1 (Some 7) SAIDA 4 10 (10 - 4) None 100;
     mkMovement (2 + 1) 1 1 (Some 9) SAIDA 7 10 (10 - 7) None 100] /\
  ~ ledger_ok d'.
Proof.
  apply (exits_lost_update tx_ana tx_caio demo_db 1 1 10 (mkStock 1 1 1 10));
    try reflexivity; try decide_prop; simpl; lia.
Defined.

Lemma exits_serial_witness :
  let d' := run_schedule exit_write [tx_ana; tx_caio_small] (fun _ => None) serial demo_db in
  d' = sdb (snd (bind (exit_step tx_ana) (fun _ => exit_step tx_caio_small) demo_session)) /\
  balance d' 1 1 = Some (10 - 4 - 5) /\ ledger_ok d'.
Proof.
  apply (exits_serial tx_ana tx_caio_small demo_db 1 1 10 (mkStock 1 1 1 10));
    try reflexivity; try decide_prop; simpl; lia.
Defined.

(** Two first entries of product 2 in warehouse 1 of [demo_db], which has
    no row for that pair. *)
Lemma entries_duplicate_fails_witness :
  let t1 := mkTxn (mkPrincipal 7 "Ana" "supervisor" (Some 1) None) 2 1 3 None in
  let t2 := mkTxn (mkPrincipal 9 "Caio" "supervisor" (Some 1) None) 2 1 5 None in
  find_stock 2 1 demo_db = None /\
  (let d' := run_schedule entry_write [t1; t2] (fun _ => None) reads_first demo_db in
   let ds := run_schedule entry_write [t1; t2] (fun _ => None) serial demo_db in
   d' = entry_write t1 None demo_db /\ balance d' 2 1 = Some 3 /\ balance ds 2 1 = Some (3 + 5)).
Proof.
  intros t1 t2. split; [reflexivity|].
  apply (entries_duplicate_fails t1 t2 demo_db 2 1); reflexivity.
Defined.
