(* ===== verification/Batches.v ===== *)
(** * Batches: concurrent batch exits under InnoDB

    [stockExitController] (src/Backend/src/controllers/stockController.js,
    lines 98-149) takes a connection of its own from the pool, BEGINs, and
    for each item of [items] runs [decreaseStock] (a plain [SELECT] of the
    row of the pair, the guards, [UPDATE stock SET quantity = ? WHERE id =
    ?]) and [registerMovement] (an [INSERT] into [stock_movements]), then
    COMMITs; any throw goes to the [catch], which rolls back.  Several
    requests run at once, one transaction each, their statements
    interleaved by the server.

    This file models that interleaving at the grain of the statements,
    with the semantics InnoDB gives them at its default isolation level
    (REPEATABLE READ):
    - a plain [SELECT] is a consistent read: it sees the database as of
      the transaction's first read (its read view, [ts_snap]), except for
      the rows the transaction itself changed, which it sees as they are
      now ([read_view]);
    - an [UPDATE] takes an exclusive lock on the row, held until COMMIT or
      ROLLBACK; an [UPDATE] of a row another running transaction holds
      waits ([ts_waiting]);
    - a wait that closes a cycle of waits is a deadlock, detected at once:
      one transaction of the cycle, the victim, is rolled back and its
      statement fails with [ER_LOCK_DEADLOCK].  The victim is the
      requester unless the holder of the requested row weighs less
      ([trx_weight]: undo records plus row locks), the rule of
      [DeadlockChecker::select_victim];
    - a ROLLBACK restores the rows the transaction updated from its undo
      log ([ts_undo]) and deletes the movements it inserted ([ts_movs]);
      the AUTO_INCREMENT counters keep their values.
    The [INSERT] of a movement at the end of the primary key takes no lock
    another exit waits for, so each item's write phase (the UPDATE and the
    INSERT) is one step.  [txn_step] is one statement of one transaction;
    [run_batches] runs a schedule.  The permission check and the items
    guard run before BEGIN (on the pool) and are the handler's
    ([StockController.stockExitController]); here the batches have passed
    them. *)

From S2P Require Import Prelude Schema Permission StockModel Ledger StockController Interleaving.

Open Scope Z_scope.
Open Scope est_scope.

(** ** Transactions *)

(** The part of the request body the transaction uses, and the caller. *)
Record batch := mkBatch {
  bt_user : principal;
  bt_warehouse : Z;
  bt_items : list item;
  bt_description : option string
}.

Inductive tstatus :=
| Running
| Committed
| RolledBack (e : js_error).

(** A transaction: the index of the item the [for] loop is at, what
    [getCurrentStock] answered for it (once read), the read view, the undo
    log ([(row id, quantity before)], newest first), [movementIds], the
    row whose lock it waits for, its status. *)
Record tstate := mkTs {
  ts_pc : nat;
  ts_read : option (option stock_row);
  ts_snap : option db;
  ts_undo : list (Z * Z);
  ts_movs : list Z;
  ts_waiting : option Z;
  ts_status : tstatus
}.

Definition ts_init : tstate := mkTs 0 None None [] [] None Running.

Record world := mkWorld {
  w_db : db;
  w_txns : list tstate
}.

Definition init_world (d : db) (bs : list batch) : world := mkWorld d (map (fun _ => ts_init) bs).

(** The error the [UPDATE] of a deadlock victim rejects with (mysql2's
    error: no [statusCode]). *)
Definition deadlock_error : js_error :=
  mkError None "Deadlock found when trying to get lock; try restarting transaction"
    (Some "ER_LOCK_DEADLOCK").

(** ** Reads *)

Definition in_undo (undo : list (Z * Z)) (id : Z) : bool := existsb (fun u => fst u =? id) undo.

(** The quantity the row [id] holds now. *)
Definition row_quantity (id : Z) (d : db) : Z :=
  match find (fun r => st_id r =? id) (rows (stock d)) with
  | Some r => st_quantity r
  | None => 0
  end.

(** A row of the read view: as of the snapshot, or as it is now when the
    transaction updated it. *)
Definition own_version (undo : list (Z * Z)) (cur : db) (r : stock_row) : stock_row :=
  if in_undo undo (st_id r) then with_quantity (row_quantity (st_id r) cur) r else r.

Definition read_view (snap cur : db) (undo : list (Z * Z)) : db :=
  set_stock (mkTable (map (own_version undo cur) (rows (stock snap))) (next_id (stock snap))) snap.

(** ** Locks and deadlocks *)

(** A running transaction holds the lock of every row it updated. *)
Definition holds (t : tstate) (id : Z) : bool :=
  match ts_status t with Running => in_undo (ts_undo t) id | _ => false end.

Fixpoint holder_from (k i : nat) (ts : list tstate) (id : Z) : option nat :=
  match ts with
  | [] => None
  | t :: ts' => if negb (Nat.eqb k i) && holds t id then Some k else holder_from (S k) i ts' id
  end.

(** The transaction other than [i] holding the lock of row [id]. *)
Definition lock_holder (ts : list tstate) (i : nat) (id : Z) : option nat := holder_from 0 i ts id.

(** Does the chain of waits from [j] reach [i]: [j] waits for a row
    whose holder is [i], or waits for one whose holder's chain does. *)
Fixpoint waits_for (fuel : nat) (ts : list tstate) (j i : nat) : bool :=
  match fuel with
  | O => false
  | S f =>
      match ts !! j with
      | Some t =>
          match ts_waiting t with
          | Some id =>
              match lock_holder ts j id with
              | Some k => Nat.eqb k i || waits_for f ts k i
              | None => false
              end
          | None => false
          end
      | None => false
      end
  end.

(** [TRX_WEIGHT]: undo records (one per UPDATE and one per INSERT) plus
    row locks (one per UPDATE). *)
Definition trx_weight (t : tstate) : nat :=
  length (ts_undo t) + length (ts_movs t) + length (ts_undo t).

(** ** Writes, commit and rollback *)

Definition set_txn (i : nat) (t : tstate) (w : world) : world :=
  mkWorld (w_db w) (<[i := t]> (w_txns w)).

(** The write phase of item [it] from the row [c] read: the UPDATE to
    [c.quantity - quantity] and the SAIDA movement ([exit_on_read]); the
    undo log records the quantity the row held. *)
Definition item_txn (b : batch) (it : item) : txn :=
  mkTxn (bt_user b) (item_product_id it) (bt_warehouse b) (item_quantity it) (bt_description b).

Definition txn_write (b : batch) (it : item) (c : stock_row) (t : tstate) (d : db) : db * tstate :=
  (exit_on_read (item_txn b it) c d,
   mkTs (S (ts_pc t)) None (ts_snap t) ((st_id c, row_quantity (st_id c) d) :: ts_undo t)
        (ts_movs t ++ [next_id (movements d)]) None Running).

Definition undo_rows (undo : list (Z * Z)) (d : db) : db :=
  fold_left (fun d u => stock_after_update (fst u) (snd u) d) undo d.

Definition delete_movements (ids : list Z) (d : db) : db :=
  set_movements (mkTable (List.filter (fun m => negb (existsb (Z.eqb (mv_id m)) ids)) (rows (movements d)))
                         (next_id (movements d))) d.

(** ROLLBACK of transaction [i] with the error its statement throws. *)
Definition abort (i : nat) (e : js_error) (w : world) : world :=
  match w_txns w !! i with
  | Some t =>
      mkWorld (delete_movements (ts_movs t) (undo_rows (ts_undo t) (w_db w)))
              (<[i := mkTs (ts_pc t) (ts_read t) (ts_snap t) [] [] None (RolledBack e)]> (w_txns w))
  | None => w
  end.

Definition grant (i : nat) (b : batch) (it : item) (c : stock_row) (w : world) : world :=
  match w_txns w !! i with
  | Some t => let '(d', t') := txn_write b it c t (w_db w) in mkWorld d' (<[i := t']> (w_txns w))
  | None => w
  end.

(** One statement of transaction [i]. *)
Definition txn_step (bs : list batch) (i : nat) (w : world) : world :=
  match bs !! i, w_txns w !! i with
  | Some b, Some t =>
      match ts_status t with
      | Running =>
          match bt_items b !! ts_pc t with
          | None =>                                           (* await conn.commit() *)
              set_txn i (mkTs (ts_pc t) (ts_read t) (ts_snap t) [] (ts_movs t) None Committed) w
          | Some it =>
              match ts_read t with
              | None =>                                       (* getCurrentStock *)
                  let snap := default (w_db w) (ts_snap t) in
                  set_txn i (mkTs (ts_pc t)
                               (Some (find_stock (item_product_id it) (bt_warehouse b)
                                        (read_view snap (w_db w) (ts_undo t))))
                               (Some snap) (ts_undo t) (ts_movs t) None Running) w
              | Some None => abort i (plain_error "Não há estoque para esse produto nesse local") w
              | Some (Some c) =>
                  if item_quantity it >? st_quantity c
                  then abort i (http_error 400 "Quantidade maior que o estoque disponível") w
                  else match lock_holder (w_txns w) i (st_id c) with
                       | None => grant i b it c w
                       | Some j =>
                           if waits_for (length (w_txns w)) (w_txns w) j i then
                             match w_txns w !! j with
                             | Some tj =>
                                 if Nat.leb (trx_weight t) (trx_weight tj)
                                 then abort i deadlock_error w
                                 else grant i b it c (abort j deadlock_error w)
                             | None => w
                             end
                           else set_txn i (mkTs (ts_pc t) (ts_read t) (ts_snap t) (ts_undo t)
                                              (ts_movs t) (Some (st_id c)) Running) w
                       end
              end
          end
      | _ => w
      end
  | _, _ => w
  end.

(** A schedule: the transaction of each statement, in order. *)
Fixpoint run_batches (bs : list batch) (sch : list nat) (w : world) : world :=
  match sch with
  | [] => w
  | i :: rest => run_batches bs rest (txn_step bs i w)
  end.

(** Two batches on one warehouse taking two products in opposite
    orders, each read and write phase alternating with the other's. *)
Definition opposite_schedule : list nat := [0; 1; 0; 1; 0; 1; 0; 1; 0; 0]%nat.

(** What stays true while one batch runs alone from [d0], at the top of
    the [for] loop with the database at [dk]: its read view shows [dk];
    row ids are distinct; undoing its log gives back the rows of [d0];
    the movement table is that of [d0] followed by its movements, whose
    ids are at or above [d0]'s counter; the other tables are [d0]'s. *)
Definition solo_inv (d0 dk : db) (t : tstate) : Prop :=
  map (own_version (ts_undo t) dk) (rows (stock (default dk (ts_snap t)))) = rows (stock dk) /\
  NoDup (map st_id (rows (stock dk))) /\
  rows (stock (undo_rows (ts_undo t) dk)) = rows (stock d0) /\
  (exists L, rows (movements dk) = rows (movements d0) ++ L /\ map mv_id L = ts_movs t) /\
  Forall (fun i => next_id (movements d0) <= i) (ts_movs t) /\
  next_id (movements d0) <= next_id (movements dk) /\
  Forall (fun m => mv_id m < next_id (movements d0)) (rows (movements d0)) /\
  units dk = units d0 /\ warehouses dk = warehouses d0 /\ products dk = products d0 /\
  exit_orders dk = exit_orders d0 /\ users dk = users d0.

(** No balance is negative; a transaction's undo log holds only
    quantities a row had. *)
Definition stock_nonneg (d : db) : Prop := Forall (fun r => 0 <= st_quantity r) (rows (stock d)).

Definition world_nonneg (w : world) : Prop :=
  stock_nonneg (w_db w) /\ Forall (fun t => Forall (fun u => 0 <= snd u) (ts_undo t)) (w_txns w).

(** ** Lemmas *)

(** *** Each statement in closed form *)

Section Steps.
Context (bs : list batch) (i : nat) (w : world) (b : batch) (t : tstate).
Hypotheses (Hb : bs !! i = Some b) (Ht : w_txns w !! i = Some t) (Hrun : ts_status t = Running).

Lemma step_commit :
  bt_items b !! ts_pc t = None ->
  txn_step bs i w = set_txn i (mkTs (ts_pc t) (ts_read t) (ts_snap t) [] (ts_movs t) None Committed) w.
Proof. intros Hi. unfold txn_step. by rewrite Hb, Ht, Hrun, Hi. Qed.

Lemma step_read it :
  bt_items b !! ts_pc t = Some it -> ts_read t = None ->
  txn_step bs i w =
  set_txn i (mkTs (ts_pc t)
               (Some (find_stock (item_product_id it) (bt_warehouse b)
                        (read_view (default (w_db w) (ts_snap t)) (w_db w) (ts_undo t))))
               (Some (default (w_db w) (ts_snap t))) (ts_undo t) (ts_movs t) None Running) w.
Proof. intros Hi Hr. unfold txn_step. by rewrite Hb, Ht, Hrun, Hi, Hr. Qed.

Lemma step_no_row it :
  bt_items b !! ts_pc t = Some it -> ts_read t = Some None ->
  txn_step bs i w = abort i (plain_error "Não há estoque para esse produto nesse local") w.
Proof. intros Hi Hr. unfold txn_step. by rewrite Hb, Ht, Hrun, Hi, Hr. Qed.

Lemma step_guard it c :
  bt_items b !! ts_pc t = Some it -> ts_read t = Some (Some c) -> st_quantity c < item_quantity it ->
  txn_step bs i w = abort i (http_error 400 "Quantidade maior que o estoque disponível") w.
Proof.
  intros Hi Hr Hq. unfold txn_step. rewrite Hb, Ht, Hrun, Hi, Hr.
  by replace (item_quantity it >? st_quantity c) with true by lia.
Qed.

Section Write.
Context (it : item) (c : stock_row).
Hypotheses (Hi : bt_items b !! ts_pc t = Some it) (Hr : ts_read t = Some (Some c))
  (Hq : item_quantity it <= st_quantity c).

Lemma step_write :
  txn_step bs i w =
  match lock_holder (w_txns w) i (st_id c) with
  | None => grant i b it c w
  | Some j =>
      if waits_for (length (w_txns w)) (w_txns w) j i then
        match w_txns w !! j with
        | Some tj =>
            if Nat.leb (trx_weight t) (trx_weight tj)
            then abort i deadlock_error w
            else grant i b it c (abort j deadlock_error w)
        | None => w
        end
      else set_txn i (mkTs (ts_pc t) (ts_read t) (ts_snap t) (ts_undo t) (ts_movs t) (Some (st_id c)) Running) w
  end.
Proof.
  unfold txn_step. rewrite Hb, Ht, Hrun, Hi, Hr.
  by replace (item_quantity it >? st_quantity c) with false by lia.
Qed.

Lemma step_grant :
  lock_holder (w_txns w) i (st_id c) = None -> txn_step bs i w = grant i b it c w.
Proof. intros Hl. by rewrite step_write, Hl. Qed.

Lemma step_wait j :
  lock_holder (w_txns w) i (st_id c) = Some j ->
  waits_for (length (w_txns w)) (w_txns w) j i = false ->
  txn_step bs i w =
  set_txn i (mkTs (ts_pc t) (ts_read t) (ts_snap t) (ts_undo t) (ts_movs t) (Some (st_id c)) Running) w.
Proof. intros Hl Hw. by rewrite step_write, Hl, Hw. Qed.

(** A wait that closes a cycle: the requester is the victim unless the
    holder weighs less. *)
Lemma step_deadlock j tj :
  lock_holder (w_txns w) i (st_id c) = Some j ->
  waits_for (length (w_txns w)) (w_txns w) j i = true ->
  w_txns w !! j = Some tj -> (trx_weight t <= trx_weight tj)%nat ->
  txn_step bs i w = abort i deadlock_error w.
Proof.
  intros Hl Hw Hj Hle. rewrite step_write, Hl, Hw, Hj.
  by replace (Nat.leb (trx_weight t) (trx_weight tj)) with true by (symmetry; apply Nat.leb_le; lia).
Qed.

End Write.
End Steps.

(** *** Reads *)

Lemma find_stock_read_view p w s c u :
  find_stock p w (read_view s c u) = option_map (own_version u c) (find_stock p w s).
Proof.
  unfold find_stock, read_view. simpl. apply find_map_preserve.
  intros r. unfold own_version. by destruct (in_undo u (st_id r)).
Qed.

Lemma own_version_fresh u c r : in_undo u (st_id r) = false -> own_version u c r = r.
Proof. unfold own_version. by intros ->. Qed.

(** *** What a rollback and a write leave in each table *)

Lemma run_batches_cons bs i rest w :
  run_batches bs (i :: rest) w = run_batches bs rest (txn_step bs i w).
Proof. reflexivity. Qed.

Lemma undo_rows_other u d :
  movements (undo_rows u d) = movements d /\ clock (undo_rows u d) = clock d /\
  units (undo_rows u d) = units d /\ warehouses (undo_rows u d) = warehouses d /\
  products (undo_rows u d) = products d /\ exit_orders (undo_rows u d) = exit_orders d /\
  users (undo_rows u d) = users d.
Proof. revert d. induction u as [|x u IH]; intros d; [done|]. apply (IH (stock_after_update _ _ d)). Qed.

Lemma movements_exit_on_read t c d :
  movements (exit_on_read t c d) =
  mkTable (rows (movements d) ++
             [mkMovement (next_id (movements d)) (tx_product t) (tx_warehouse t)
                (js_or_null_id (Some (u_id (tx_user t)))) SAIDA (tx_quantity t) (st_quantity c)
                (st_quantity c - tx_quantity t) (tx_description t) (clock d)])
          (next_id (movements d) + 1).
Proof. reflexivity. Qed.

(** Two UPDATEs of one row's quantity: the second wins. *)
Lemma stock_after_update_twice id q q' d :
  stock (stock_after_update id q (stock_after_update id q' d)) = stock (stock_after_update id q d).
Proof.
  unfold stock_after_update, tbl_update, update_where. simpl. f_equal.
  rewrite map_map. apply map_ext. intros r. by destruct (st_id r =? id) eqn:E; simpl; rewrite ?E.
Qed.

(** Deleting ids at or above the counter of [d] leaves the rows of [d]. *)
Lemma filter_fresh_ids (l : list movement) n ids :
  Forall (fun m => mv_id m < n) l -> Forall (fun i => n <= i) ids ->
  List.filter (fun m => negb (existsb (Z.eqb (mv_id m)) ids)) l = l.
Proof.
  intros Hl Hi. induction Hl as [|m l Hm Hl IH]; [done|]. simpl. rewrite IH.
  replace (existsb (Z.eqb (mv_id m)) ids) with false; [done|].
  symmetry. apply not_true_iff_false. rewrite existsb_exists. intros [i [Hin Heq]].
  apply Z.eqb_eq in Heq. rewrite List.Forall_forall in Hi. specialize (Hi i Hin). lia.
Qed.

Lemma stock_exit_on_read t c d :
  stock (exit_on_read t c d) = stock (stock_after_update (st_id c) (st_quantity c - tx_quantity t) d).
Proof. reflexivity. Qed.

(** An UPDATE of a row after other UPDATEs of it: only its own value
    stays. *)
Lemma stock_after_update_absorb id q q' x y :
  stock x = stock (stock_after_update id q' y) ->
  stock (stock_after_update id q x) = stock (stock_after_update id q y).
Proof.
  intros H. rewrite <- (stock_after_update_twice id q q' y).
  unfold stock_after_update in *. cbn [stock set_stock] in *. by rewrite H.
Qed.

(** *** Undo log and read view *)

Lemma row_quantity_update_same c q d :
  In c (rows (stock d)) -> row_quantity (st_id c) (stock_after_update (st_id c) q d) = q.
Proof.
  intros Hin. unfold row_quantity, stock_after_update, tbl_update, update_where. simpl.
  rewrite find_map_preserve by (intros r; cbn; destruct (st_id r =? st_id c) eqn:E; cbn; by rewrite ?E).
  destruct (find (fun r => st_id r =? st_id c) (rows (stock d))) as [r|] eqn:E.
  - apply find_some in E as [_ E]. simpl. by rewrite E.
  - eapply find_none in E; [|exact Hin]. by rewrite Z.eqb_refl in E.
Qed.

Lemma row_quantity_update_other id id' q d :
  id <> id' -> row_quantity id (stock_after_update id' q d) = row_quantity id d.
Proof.
  intros Hne. unfold row_quantity, stock_after_update, tbl_update, update_where. simpl.
  rewrite find_map_preserve by (intros r; cbn; by destruct (st_id r =? id')).
  destruct (find (fun r => st_id r =? id) (rows (stock d))) as [r|] eqn:E; [|done].
  apply find_some in E as [_ E]. apply Z.eqb_eq in E. simpl.
  by replace (st_id r =? id') with false by (symmetry; apply Z.eqb_neq; lia).
Qed.

Lemma st_id_update id q d :
  map st_id (rows (stock (stock_after_update id q d))) = map st_id (rows (stock d)).
Proof.
  unfold stock_after_update, tbl_update, update_where. simpl. rewrite map_map.
  apply map_ext. intros r. by destruct (st_id r =? id).
Qed.

(** With distinct ids, writing back the quantity a row holds changes
    nothing. *)
Lemma stock_after_update_current id d :
  NoDup (map st_id (rows (stock d))) -> stock (stock_after_update id (row_quantity id d) d) = stock d.
Proof.
  intros Hnd. destruct d as [? ? ? [l n] ? ? ? ?]. cbn in *.
  unfold stock_after_update, tbl_update, update_where, row_quantity. cbn. f_equal.
  rewrite <- (map_id l) at 2. apply map_ext_in. intros r Hr.
  destruct (st_id r =? id) eqn:E; [|done]. apply Z.eqb_eq in E.
  destruct (find (fun r => st_id r =? id) l) as [r'|] eqn:F.
  - apply find_some in F as [Hr' F]. apply Z.eqb_eq in F.
    rewrite (NoDup_map_in_inj st_id l r' r Hnd Hr' Hr) by lia. by destruct r.
  - eapply find_none in F; [|exact Hr]. by rewrite E, Z.eqb_refl in F.
Qed.

Lemma undo_rows_stock u x y :
  stock x = stock y -> stock (undo_rows u x) = stock (undo_rows u y).
Proof.
  revert x y. induction u as [|[id q] u IH]; intros x y H; [done|]. apply IH.
  unfold stock_after_update. cbn. by rewrite H.
Qed.

(** The movements of a batch are the ones its rollback deletes. *)
Lemma filter_own_ids (L : list movement) :
  List.filter (fun m => negb (existsb (Z.eqb (mv_id m)) (map mv_id L))) L = [].
Proof.
  induction L as [|m L IH]; [done|]. cbn. rewrite Z.eqb_refl. cbn.
  rewrite <- IH. apply filter_ext_in. intros m' Hm'.
  destruct (mv_id m' =? mv_id m) eqn:E; [|done]. cbn.
  replace (existsb (Z.eqb (mv_id m')) (map mv_id L)) with true; [done|].
  symmetry. apply existsb_exists. exists (mv_id m'). split; [apply in_map, Hm'|apply Z.eqb_refl].
Qed.

(** A statement of a transaction that has ended changes nothing. *)
Lemma run_batches_ended bs n w t :
  w_txns w !! 0%nat = Some t -> ts_status t <> Running ->
  run_batches bs (repeat 0%nat n) w = w.
Proof.
  intros Ht Hs. induction n as [|n IH]; [done|]. cbn [repeat].
  rewrite run_batches_cons. unfold txn_step at 1. rewrite Ht.
  destruct (bs !! 0%nat); [|done]. by destruct (ts_status t).
Qed.

(** Before its first UPDATE a transaction's view is its snapshot. *)
Lemma own_version_nil d l : map (own_version [] d) l = l.
Proof. induction l as [|r l IH]; [done|]. cbn. by rewrite IH. Qed.

Lemma st_id_own_version u d r : st_id (own_version u d r) = st_id r.
Proof. unfold own_version. by destruct (in_undo u (st_id r)). Qed.

Lemma with_quantity_twice q q' r : with_quantity q (with_quantity q' r) = with_quantity q r.
Proof. reflexivity. Qed.

(** A read through a view that shows [dk] reads [dk]. *)
Lemma read_view_current snap dk u p w :
  map (own_version u dk) (rows (stock snap)) = rows (stock dk) ->
  find_stock p w (read_view snap dk u) = find_stock p w dk.
Proof. intros H. unfold find_stock, read_view. cbn. by rewrite H. Qed.

(** The view keeps showing the current rows after the transaction's own
    UPDATE, which enters its undo log. *)
Lemma view_update snap dk u c q rq :
  In c (rows (stock dk)) -> map (own_version u dk) (rows (stock snap)) = rows (stock dk) ->
  map (own_version ((st_id c, rq) :: u) (stock_after_update (st_id c) q dk)) (rows (stock snap)) =
  rows (stock (stock_after_update (st_id c) q dk)).
Proof.
  intros Hin H. unfold stock_after_update at 2. cbn [stock set_stock rows tbl_update].
  unfold update_where. rewrite <- H, map_map. apply map_ext. intros r.
  rewrite st_id_own_version. unfold own_version at 1. unfold in_undo. cbn [existsb fst].
  destruct (st_id c =? st_id r) eqn:E1; cbn [orb].
  - apply Z.eqb_eq in E1. rewrite <- E1, Z.eqb_refl, row_quantity_update_same by exact Hin.
    unfold own_version. by destruct (in_undo u (st_id r)).
  - replace (st_id r =? st_id c) with false by (symmetry; apply Z.eqb_neq; apply Z.eqb_neq in E1; lia).
    rewrite row_quantity_update_other by (apply Z.eqb_neq in E1; lia). reflexivity.
Qed.

(** One item written by a batch running alone keeps [solo_inv]. *)
Lemma solo_inv_write d0 dk t b it c p w pc :
  solo_inv d0 dk t -> find_stock p w dk = Some c ->
  solo_inv d0 (exit_on_read (item_txn b it) c dk)
    (mkTs pc None (Some (default dk (ts_snap t))) ((st_id c, row_quantity (st_id c) dk) :: ts_undo t)
          (ts_movs t ++ [next_id (movements dk)]) None Running).
Proof.
  intros (HV & HN & HU & [L [HL HLm]] & Hge & Hle & Hlt & Hu & Hw & Hp & He & Hus) Hf.
  assert (Hin : In c (rows (stock dk))) by (apply find_some in Hf; apply Hf).
  split_and!; cbn [ts_undo ts_snap ts_movs default from_option id].
  - apply (view_update _ dk _ c _ _ Hin HV).
  - change (NoDup (map st_id (rows (stock (stock_after_update (st_id c)
              (st_quantity c - item_quantity it) dk))))). by rewrite st_id_update.
  - rewrite <- HU. cbn [undo_rows fold_left fst snd]. f_equal.
    apply undo_rows_stock. rewrite <- (stock_after_update_current (st_id c) dk HN).
    apply (stock_after_update_absorb _ _ (st_quantity c - item_quantity it)). reflexivity.
  - eexists. rewrite movements_exit_on_read. cbn [rows]. rewrite HL, <- List.app_assoc.
    split; [reflexivity|]. by rewrite map_app, HLm.
  - apply List.Forall_app. split; [done|]. constructor; [lia|done].
  - rewrite movements_exit_on_read. cbn [next_id]. lia.
  - done.
  - exact Hu.
  - exact Hw.
  - exact Hp.
  - exact He.
  - exact Hus.
Qed.

(** The rollback of a batch running alone gives back the rows of [d0]. *)
Lemma solo_abort_rows d0 dk t :
  solo_inv d0 dk t -> db_rows_eq (delete_movements (ts_movs t) (undo_rows (ts_undo t) dk)) d0.
Proof.
  intros (_ & _ & HU & [L [HL HLm]] & Hge & _ & Hlt & Hu & Hw & Hp & He & Hus).
  destruct (undo_rows_other (ts_undo t) dk) as (Hm & _ & H1 & H2 & H3 & H4 & H5).
  unfold delete_movements, db_rows_eq. cbn [units warehouses products stock movements exit_orders users
    set_movements rows].
  rewrite H1, H2, H3, H4, H5, Hu, Hw, Hp, He, Hus, Hm, HL, List.filter_app, <- HLm, filter_own_ids, app_nil_r.
  split_and!; try done. apply (filter_fresh_ids _ (next_id (movements d0))); [done|]. by rewrite HLm.
Qed.

Lemma set_txn_solo t t' d : set_txn 0 t' (mkWorld d [t]) = mkWorld d [t'].
Proof. reflexivity. Qed.

Lemma solo_inv_read d0 dk t pc r wt st :
  solo_inv d0 dk t ->
  solo_inv d0 dk (mkTs pc r (Some (default dk (ts_snap t))) (ts_undo t) (ts_movs t) wt st).
Proof. done. Qed.

(** A batch running alone that fails rolls back to the rows it started
    from and stays rolled back. *)
Lemma solo_abort bs d0 dk t e n :
  solo_inv d0 dk t ->
  let w := run_batches bs (repeat 0%nat n) (abort 0 e (mkWorld dk [t])) in
  db_rows_eq (w_db w) d0 /\ map ts_status (w_txns w) = [RolledBack e].
Proof.
  intros Hinv w. subst w. cbn [abort w_txns lookup list_lookup w_db].
  rewrite (run_batches_ended _ _ _ (mkTs (ts_pc t) (ts_read t) (ts_snap t) [] [] None (RolledBack e)))
    by done.
  split; [by apply solo_abort_rows|done].
Qed.

(** The loop of a batch running alone, from item [length done]: two
    statements per item and the COMMIT do what [exit_loop] does on the
    session, and a throw ends in the rollback to the rows of [d0]. *)
Lemma solo_loop b d0 rest : forall done dk t s,
  bt_items b = done ++ rest -> ts_pc t = length done -> ts_read t = None ->
  ts_status t = Running -> sdb s = dk -> solo_inv d0 dk t ->
  let w := run_batches [b] (repeat 0%nat (2 * length rest + 1)) (mkWorld dk [t]) in
  match exit_loop (bt_user b) (bt_warehouse b) (bt_description b) rest (ts_movs t) s with
  | (Ok ids, s') => w_db w = sdb s' /\ map ts_status (w_txns w) = [Committed] /\
                    map ts_movs (w_txns w) = [ids]
  | (Err e, _) => db_rows_eq (w_db w) d0 /\ map ts_status (w_txns w) = [RolledBack e]
  end.
Proof.
  induction rest as [|it rest IH]; intros done dk t s Hitems Hpc Hr Hs Hsdb Hinv w; subst w.
  - rewrite app_nil_r in Hitems. cbn [length Nat.mul repeat Nat.add].
    rewrite run_batches_cons, (step_commit [b] 0 (mkWorld dk [t]) b t eq_refl eq_refl Hs)
      by (rewrite Hitems, Hpc; apply lookup_ge_None_2; lia).
    cbn. by split_and!.
  - replace (2 * length (it :: rest) + 1)%nat with (S (S (2 * length rest + 1))) by (cbn; lia).
    cbn [repeat]. rewrite !run_batches_cons.
    assert (Hit : bt_items b !! ts_pc t = Some it) by (rewrite Hitems, Hpc; by apply list_lookup_middle).
    rewrite (step_read [b] 0 (mkWorld dk [t]) b t eq_refl eq_refl Hs it Hit Hr).
    rewrite read_view_current by apply Hinv.
    cbn [exit_loop]. unfold bind at 1. rewrite decreaseStock_run, Hsdb.
    rewrite set_txn_solo. cbn [w_db].
    apply (solo_inv_read _ _ _ (ts_pc t) (Some (find_stock (item_product_id it) (bt_warehouse b) dk))
             None Running) in Hinv.
    destruct (find_stock (item_product_id it) (bt_warehouse b) dk) as [c|] eqn:Hf.
    + destruct (item_quantity it >? st_quantity c) eqn:Hq.
      * match goal with |- context [txn_step _ _ (mkWorld ?x [?y])] =>
          rewrite (step_guard [b] 0 (mkWorld x [y]) b y eq_refl eq_refl eq_refl it c Hit eq_refl) by lia end.
        by apply solo_abort.
      * match goal with |- context [txn_step _ _ (mkWorld ?x [?y])] =>
          rewrite (step_grant [b] 0 (mkWorld x [y]) b y eq_refl eq_refl eq_refl it c Hit eq_refl)
            by (lia || reflexivity) end.
        unfold bind. rewrite registerMovement_run. cbn [grant txn_write w_txns lookup list_lookup w_db
          insert list_insert ts_pc ts_snap ts_undo ts_movs].
        refine (IH (done ++ [it]) (exit_on_read (item_txn b it) c dk)
                  (mkTs (S (ts_pc t)) None (Some (default dk (ts_snap t)))
                     ((st_id c, row_quantity (st_id c) dk) :: ts_undo t)
                     (ts_movs t ++ [next_id (movements dk)]) None Running)
                  (mkSession (exit_on_read (item_txn b it) c dk) (snapshot s)) _ _ _ _ _ _);
          cbn [ts_pc ts_read ts_status ts_movs sdb]; try done.
        -- by rewrite Hitems, <- List.app_assoc.
        -- rewrite length_app, Hpc. cbn. lia.
        -- by apply solo_inv_write with (p := item_product_id it) (w := bt_warehouse b).
    + match goal with |- context [txn_step _ _ (mkWorld ?x [?y])] =>
        rewrite (step_no_row [b] 0 (mkWorld x [y]) b y eq_refl eq_refl eq_refl it Hit eq_refl) end. by apply solo_abort.
Qed.

(** *** Balances stay non-negative *)

Lemma row_quantity_nonneg id d : stock_nonneg d -> 0 <= row_quantity id d.
Proof.
  unfold row_quantity. intros H. destruct (find _ _) as [r|] eqn:E; [|lia].
  apply find_some in E as [Hr _]. unfold stock_nonneg in H. rewrite List.Forall_forall in H. by apply H.
Qed.

Lemma stock_nonneg_update id q d : 0 <= q -> stock_nonneg d -> stock_nonneg (stock_after_update id q d).
Proof.
  intros Hq H. unfold stock_nonneg, stock_after_update, tbl_update, update_where. cbn.
  apply List.Forall_map. eapply List.Forall_impl; [|exact H]. intros r Hr. by destruct (st_id r =? id).
Qed.

Lemma undo_rows_nonneg u d :
  Forall (fun u => 0 <= snd u) u -> stock_nonneg d -> stock_nonneg (undo_rows u d).
Proof.
  intros Hu. revert d. induction Hu as [|x u Hx Hu IH]; intros d Hd; [done|].
  apply IH, stock_nonneg_update; done.
Qed.

Lemma set_txn_nonneg i t w :
  world_nonneg w -> Forall (fun u => 0 <= snd u) (ts_undo t) -> world_nonneg (set_txn i t w).
Proof. intros [Hd Ht] Hu. split; [done|]. by apply Forall_insert. Qed.

Lemma abort_nonneg i e w : world_nonneg w -> world_nonneg (abort i e w).
Proof.
  intros [Hd Ht]. unfold abort. destruct (w_txns w !! i) as [t|] eqn:E; [|done].
  split; [|by apply Forall_insert].
  apply undo_rows_nonneg; [|done]. rewrite Forall_lookup in Ht. by apply (Ht i).
Qed.

(** The guard of [decreaseStock] is what keeps the written balance
    non-negative. *)
Lemma grant_nonneg i b it c w :
  item_quantity it <= st_quantity c -> world_nonneg w -> world_nonneg (grant i b it c w).
Proof.
  intros Hq [Hd Ht]. unfold grant. destruct (w_txns w !! i) as [t|] eqn:E; [|done].
  cbn [txn_write]. split.
  - apply stock_nonneg_update; [cbn; lia|done].
  - apply Forall_insert; [done|]. constructor; [by apply row_quantity_nonneg|].
    rewrite Forall_lookup in Ht. by apply (Ht i).
Qed.

Lemma txn_step_nonneg bs i w : world_nonneg w -> world_nonneg (txn_step bs i w).
Proof.
  intros Hw. unfold txn_step.
  destruct (bs !! i) as [b|]; [|done]. destruct (w_txns w !! i) as [t|] eqn:Et; [|done].
  assert (Hu : Forall (fun u => 0 <= snd u) (ts_undo t))
    by (destruct Hw as [_ Ht]; rewrite Forall_lookup in Ht; by apply (Ht i)).
  repeat case_match; simplify_eq;
    try (by apply set_txn_nonneg); try (by apply abort_nonneg); try done.
  all: apply grant_nonneg; [lia|]; try done; by apply abort_nonneg.
Qed.

Lemma run_batches_nonneg bs sch w : world_nonneg w -> world_nonneg (run_batches bs sch w).
Proof.
  revert w. induction sch as [|i sch IH]; intros w Hw; [done|].
  rewrite run_batches_cons. by apply IH, txn_step_nonneg.
Qed.

(** *** Running a schedule on a symbolic database

    [batch_eval] runs the statements one at a time: it reduces the
    control of [txn_step] and rewrites with the facts in [rw] the reads,
    guards and lock tests it leaves open. *)

Ltac batch_eval_step rw :=
  rewrite run_batches_cons;
  cbn [txn_step set_txn grant abort txn_write lookup list_lookup insert list_insert ts_status ts_read
       ts_pc ts_undo ts_movs ts_waiting ts_snap w_db w_txns bt_items bt_warehouse item_product_id
       item_quantity lock_holder holder_from holds in_undo existsb waits_for trx_weight length Nat.eqb
       Nat.leb negb andb orb fst snd default app init_world map ts_init option_map own_version id
       from_option Nat.add];
  do 2 (unfold own_version, in_undo; cbn [existsb fst orb]; rw;
        cbn [txn_step set_txn grant abort txn_write lookup list_lookup insert list_insert ts_status
             ts_read ts_pc ts_undo ts_movs ts_waiting ts_snap w_db w_txns bt_items bt_warehouse
             item_product_id item_quantity lock_holder holder_from holds in_undo existsb waits_for
             trx_weight length Nat.eqb Nat.leb negb andb orb fst snd default app init_world map
             ts_init option_map own_version id from_option Nat.add]).

Section Opposite.
Context (d : db) (u1 u2 : principal) (wh a b q1 q2 q3 q4 : Z) (desc1 desc2 : option string)
  (ra rb : stock_row).
Hypotheses (Ha : find_stock a wh d = Some ra) (Hb : find_stock b wh d = Some rb)
  (Hid : st_id ra <> st_id rb)
  (Hq1 : q1 <= st_quantity ra) (Hq2 : q2 <= st_quantity rb)
  (Hq3 : q3 <= st_quantity rb) (Hq4 : q4 <= st_quantity ra).

Let b1 := mkBatch u1 wh [mkItem a q1; mkItem b q2] desc1.
Let b2 := mkBatch u2 wh [mkItem b q3; mkItem a q4] desc2.
Let d1 := exit_on_read (item_txn b1 (mkItem a q1)) ra d.
Let d3 := delete_movements [next_id (movements d1)]
            (undo_rows [(st_id rb, row_quantity (st_id rb) d1)]
               (exit_on_read (item_txn b2 (mkItem b q3)) rb d1)).

(** The schedule: both read their first item and write it; both read
    their second; the first batch waits for the row the second holds;
    the second then requests the row the first holds, closing the cycle,
    and being no heavier it is the victim; the first batch's UPDATE gets
    the lock and it commits. *)
Lemma opposite_run :
  run_batches [b1; b2] opposite_schedule (init_world d [b1; b2]) =
  mkWorld (exit_on_read (item_txn b1 (mkItem b q2)) rb d3)
    [mkTs 2 None (Some d) [] [next_id (movements d); next_id (movements d3)] None Committed;
     mkTs 1 (Some (Some ra)) (Some d) [] [] None (RolledBack deadlock_error)].
Proof.
  assert (E1 : (q1 >? st_quantity ra) = false) by lia.
  assert (E2 : (q2 >? st_quantity rb) = false) by lia.
  assert (E3 : (q3 >? st_quantity rb) = false) by lia.
  assert (E4 : (q4 >? st_quantity ra) = false) by lia.
  apply Z.eqb_neq in Hid as Hab.
  assert (Hba : (st_id rb =? st_id ra) = false) by (apply Z.eqb_neq; lia).
  unfold opposite_schedule, b1, b2, d3, d1.
  do 10 batch_eval_step
    ltac:(rewrite ?find_stock_read_view, ?Ha, ?Hb, ?E1, ?E2, ?E3, ?E4, ?Hab, ?Hba, ?Z.eqb_refl).
  reflexivity.
Qed.
End Opposite.

(** ** Theorems *)

(** C19 (error): two batch exits taking two products of one warehouse in
    opposite orders deadlock.  When both have read and written their
    first item and read their second, the first one's UPDATE waits for
    the row the second holds and the second's UPDATE closes the cycle;
    InnoDB rolls back the second (it weighs no more than the first) and
    its UPDATE rejects with [ER_LOCK_DEADLOCK], which [errorHandler]
    answers with a 500 and MySQL's message.  The first batch commits with
    what it would have done alone: the same stock table, its two SAIDA
    movements, the victim's movement deleted and its id skipped. *)
Theorem opposite_batches_deadlock d u1 u2 wh a b q1 q2 q3 q4 desc1 desc2 ra rb :
  movement_ids_ok d ->
  find_stock a wh d = Some ra -> find_stock b wh d = Some rb -> st_id ra <> st_id rb ->
  q1 <= st_quantity ra -> q2 <= st_quantity rb -> q3 <= st_quantity rb -> q4 <= st_quantity ra ->
  let b1 := mkBatch u1 wh [mkItem a q1; mkItem b q2] desc1 in
  let b2 := mkBatch u2 wh [mkItem b q3; mkItem a q4] desc2 in
  let w' := run_batches [b1; b2] opposite_schedule (init_world d [b1; b2]) in
  let m0 := next_id (movements d) in
  map ts_status (w_txns w') = [Committed; RolledBack deadlock_error] /\
  errorHandler deadlock_error =
    mkReply 500 (JError "Deadlock found when trying to get lock; try restarting transaction") /\
  map ts_movs (w_txns w') = [[m0; m0 + 2]; []] /\
  stock (w_db w') =
    stock (exit_on_read (item_txn b1 (mkItem b q2)) rb (exit_on_read (item_txn b1 (mkItem a q1)) ra d)) /\
  movements (w_db w') =
    mkTable (rows (movements d) ++
      [mkMovement m0 a wh (js_or_null_id (Some (u_id u1))) SAIDA q1 (st_quantity ra)
         (st_quantity ra - q1) desc1 (clock d);
       mkMovement (m0 + 2) b wh (js_or_null_id (Some (u_id u1))) SAIDA q2 (st_quantity rb)
         (st_quantity rb - q2) desc1 (clock d)])
      (m0 + 3).
Proof.
  intros [_ Hlt] Ha Hb Hid Hq1 Hq2 Hq3 Hq4 b1 b2 w' m0. subst w' m0 b1 b2.
  rewrite (opposite_run d u1 u2 wh a b q1 q2 q3 q4 desc1 desc2 ra rb Ha Hb Hid Hq1 Hq2 Hq3 Hq4).
  cbn [w_txns w_db map ts_status ts_movs].
  split_and!; try reflexivity.
  - cbn. by rewrite <- Z.add_assoc.
  - rewrite !stock_exit_on_read. eapply stock_after_update_absorb.
    apply (stock_after_update_absorb _ _ (st_quantity rb - q3)). reflexivity.
  - rewrite movements_exit_on_read.
    cbn [delete_movements undo_rows fold_left stock_after_update set_stock set_movements movements rows
         next_id clock fst snd].
    rewrite !movements_exit_on_read. cbn [rows next_id]. rewrite List.filter_app.
    rewrite (filter_fresh_ids _ (next_id (movements d) + 1)).
    + cbn. rewrite Z.eqb_refl. cbn. f_equal; [|lia]. rewrite app_nil_r, <- List.app_assoc.
      by replace (next_id (movements d) + 1 + 1) with (next_id (movements d) + 2) by lia.
    + apply List.Forall_app. split; [|constructor; [cbn; lia|done]].
      eapply List.Forall_impl; [|exact Hlt]. intros m. cbn. lia.
    + constructor; [lia|done].
Qed.

(** Ana takes 3 of product 1 then 4 of product 2 from warehouse 1 while
    Caio takes 5 of product 2 then 6 of product 1; both products have 10. *)
Lemma opposite_batches_deadlock_witness :
  let d := set_stock (mkTable [mkStock 1 1 1 10; mkStock 2 2 1 10] 3) demo_db in
  let ana := mkPrincipal 7 "Ana" "supervisor" (Some 1) None in
  let caio := mkPrincipal 9 "Caio" "supervisor" (Some 1) None in
  let w' := run_batches [mkBatch ana 1 [mkItem 1 3; mkItem 2 4] None; mkBatch caio 1 [mkItem 2 5; mkItem 1 6] None]
              opposite_schedule
              (init_world d [mkBatch ana 1 [mkItem 1 3; mkItem 2 4] None;
                             mkBatch caio 1 [mkItem 2 5; mkItem 1 6] None]) in
  map ts_status (w_txns w') = [Committed; RolledBack deadlock_error] /\
  map ts_movs (w_txns w') = [[2; 4]; []].
Proof.
  intros d ana caio w'.
  assert (Hm : movement_ids_ok d) by (apply (bool_decide_unpack _); vm_compute; reflexivity).
  destruct (opposite_batches_deadlock d ana caio 1 1 2 3 4 5 6 None None (mkStock 1 1 1 10)
              (mkStock 2 2 1 10) Hm eq_refl eq_refl ltac:(cbn; lia) ltac:(cbn; lia) ltac:(cbn; lia)
              ltac:(cbn; lia) ltac:(cbn; lia)) as (H1 & _ & H3 & _).
  split; [exact H1|exact H3].
Defined.

(** C3 (refinement): a batch exit running alone in the concurrent model
    does what the code's loop does on one connection.  Its statements
    (two per item: the [SELECT] and the UPDATE with the INSERT, then the
    COMMIT) leave the database [exit_loop] leaves and commit the movement
    ids it returns; when [exit_loop] throws, the transaction rolls back
    with that error and the rows are those it started from, as after the
    handler's [conn.rollback()]. *)
Theorem solo_exit_refines b d sn :
  stock_wf d -> movement_ids_ok d ->
  let w := run_batches [b] (repeat 0%nat (2 * length (bt_items b) + 1)) (init_world d [b]) in
  match exit_loop (bt_user b) (bt_warehouse b) (bt_description b) (bt_items b) [] (mkSession d sn) with
  | (Ok ids, s') => w_db w = sdb s' /\ map ts_status (w_txns w) = [Committed] /\
                    map ts_movs (w_txns w) = [ids]
  | (Err e, _) => db_rows_eq (w_db w) d /\ map ts_status (w_txns w) = [RolledBack e]
  end.
Proof.
  intros [Hnd _] [_ Hlt].
  apply (solo_loop b d (bt_items b) [] d ts_init (mkSession d sn)); try done.
  split_and!; cbn [ts_undo ts_snap ts_movs default from_option id undo_rows fold_left]; try done.
  - apply own_version_nil.
  - exists []. by rewrite app_nil_r.
Qed.

(** Ana takes 4 of product 1, then 1 of product 2, which has no row in
    warehouse 1: the loop throws at the second item and the batch rolls
    back its first UPDATE and movement. *)
Lemma solo_exit_refines_witness :
  let b := mkBatch (mkPrincipal 7 "Ana" "supervisor" (Some 1) None) 1 [mkItem 1 4; mkItem 2 1] None in
  let w := run_batches [b] (repeat 0%nat (2 * length (bt_items b) + 1)) (init_world demo_db [b]) in
  match exit_loop (bt_user b) (bt_warehouse b) (bt_description b) (bt_items b) [] (mkSession demo_db None) with
  | (Ok ids, s') => w_db w = sdb s' /\ map ts_status (w_txns w) = [Committed] /\
                    map ts_movs (w_txns w) = [ids]
  | (Err e, _) => db_rows_eq (w_db w) demo_db /\ map ts_status (w_txns w) = [RolledBack e]
  end.
Proof.
  intros b w. apply solo_exit_refines; apply (bool_decide_unpack _); vm_compute; reflexivity.
Defined.

(** C17 (safety): under every interleaving of any batch exits, no balance
    becomes negative: each UPDATE writes what its transaction read minus
    a quantity the guard of [decreaseStock] checked against that read, and
    a rollback writes back quantities the rows had. *)
Theorem batches_stock_nonneg bs sch d :
  stock_nonneg d -> stock_nonneg (w_db (run_batches bs sch (init_world d bs))).
Proof.
  intros Hd. apply run_batches_nonneg. split; [done|].
  apply List.Forall_map, List.Forall_forall. intros _ _. constructor.
Qed.

Lemma batches_stock_nonneg_witness :
  stock_nonneg (w_db (run_batches
    [mkBatch (mkPrincipal 7 "Ana" "supervisor" (Some 1) None) 1 [mkItem 1 6] None;
     mkBatch (mkPrincipal 9 "Caio" "supervisor" (Some 1) None) 1 [mkItem 1 7] None]
    [0; 1; 0; 1; 0; 1]%nat (init_world demo_db
      [mkBatch (mkPrincipal 7 "Ana" "supervisor" (Some 1) None) 1 [mkItem 1 6] None;
       mkBatch (mkPrincipal 9 "Caio" "supervisor" (Some 1) None) 1 [mkItem 1 7] None]))).
Proof. apply batches_stock_nonneg. repeat constructor; cbn; lia. Defined.
