(* ===== verification/Server.v ===== *)
(** * Server: the start-up of the back end

    Models src/Backend/src/server.js and the one read of [process.env]
    a handler makes at request time (authController.js, [inviteUser]):
    - the evaluation order of an ES module: the imported modules (dotenv,
      then app.js after the modules it imports, config/db.js among them)
      are evaluated before the body of server.js, so before
      [dotenv.config()];
    - [dotenv.config()], which adds the variables of the file .env that
      [process.env] does not already have (dotenv's default [override:
      false]): [process.env] is a [gmap] and the parsed file another, and
      the configured environment is their left-biased union;
    - [PORT = process.env.PORT || 4000] and
      [process.env.FRONTEND_URL || "http://localhost:5173"];
    - [start()]: the probe [pool.query("SELECT 1")], then
      [app.listen(PORT, cb)]; what throws before [start] returns (the
      probe, or [listen] rejecting the port number) is logged as a
      database error and ends the process with [process.exit(1)]; a port
      that cannot be bound is reported later by the server's ['error']
      event, which the [try] never sees: under Express 4 it is an
      uncaught exception that ends the process with code 1, under
      Express 5 it goes to the callback, which logs success while
      nothing listens ([Idle]);
    - the running process as a step relation: a listening process
      answers each request with the application of Http.v, or ends when
      a request brings it down (an unhandled rejection, [Uncaught]); an
      exited or idle one answers nothing.

    The outcome of the probe and of [listen] are inputs, as are the
    parsed .env file and the Express major version ([express5]); the
    console is the trace of events. *)

From S2P Require Import Prelude Schema Permission StockModel OsService ExitOrderController Products Users Frontend Avatar Http.

Open Scope Z_scope.
Open Scope est_scope.

(** ** Environment *)

(** [process.env]: names to string values. *)
Definition process_env : Type := gmap string string.

(** [dotenv.config()]: the parsed file fills in the names the process
    environment lacks. *)
Definition dotenv_config (parsed penv : process_env) : process_env := penv ∪ parsed.

(** [process.env.<name> || fallback] on a string fallback: an unset or
    empty variable is falsy. *)
Definition env_or (penv : process_env) (name fallback : string) : string :=
  match penv !! name with
  | Some v => if String.eqb v "" then fallback else v
  | None => fallback
  end.

(** The value of [PORT]: the variable's string, or the number 4000. *)
Inductive port_value :=
| PortString (s : string)
| PortNumber (n : Z).

Definition PORT (penv : process_env) : port_value :=
  match penv !! "PORT" with
  | Some v => if String.eqb v "" then PortNumber 4000 else PortString v
  | None => PortNumber 4000
  end.

(** [`${PORT}`] *)
Definition port_text (p : port_value) : string :=
  match p with
  | PortString s => s
  | PortNumber n => js_string_Z n
  end.

(** authController.js, [inviteUser]: the base of the activation link. *)
Definition frontend_url (penv : process_env) : string :=
  env_or penv "FRONTEND_URL" "http://localhost:5173".

(** ** The process *)

Inductive proc_event :=
| LoadModule (file : string) (seen : process_env) (** a module evaluated, with the environment it sees *)
| DotenvConfig (penv : process_env)              (** the environment after [dotenv.config()] *)
| Query (sql : string)
| Log (msg : string)
| LogError (msg : string) (err : js_error)      (** [console.error(msg, err)] *)
| Listen (p : port_value)
| Uncaught (err : js_error)        (** an uncaught exception or unhandled rejection, printed by Node *)
| Exit (code : Z)
| Served (r : http_request) (rep : reply).

Inductive proc :=
| Booting
| Listening (p : port_value) (st : server)
| Idle                                          (** alive, listening on no port *)
| Exited (code : Z).

(** What [app.listen(PORT, cb)] does with the port: it listens, it
    throws synchronously (a port that is not a valid port number), or it
    returns and the server later emits ['error'] (EADDRINUSE, EACCES). *)
Inductive listen_outcome :=
| ListenOk
| ListenThrows (err : js_error)
| ListenError (err : js_error).

Section Process.
(** [listen p] is what [app.listen] does with the port; [express5]
    tells whether [app.listen] registers its callback for the server's
    ['error'] event (Express 5) or not (Express 4: an ['error'] event
    with no listener is thrown as an uncaught exception, and the process
    exits with code 1); the repository pins no version.  [handle]
    answers a request, or ends the process (an unhandled rejection). *)
Context (listen : port_value -> listen_outcome) (express5 : bool)
        (handle : http_request -> env -> server -> option (node_reply * server)).

(** [start()]: the events it produces and the state it leaves.  The
    [try] only sees what is thrown before [start] returns. *)
Definition start (penv : process_env) (probe : option js_error) (st : server) : list proc_event * proc :=
  let fail err := [LogError "Erro ao conectar no banco:" err; Exit 1] in
  match probe with
  | Some err => (Query "SELECT 1" :: fail err, Exited 1)
  | None =>
      let p := PORT penv in
      match listen p with
      | ListenThrows err => ([Query "SELECT 1"; Log "Conectado ao MySQL."] ++ fail err, Exited 1)
      | ListenOk => ([Query "SELECT 1"; Log "Conectado ao MySQL."; Listen p;
                      Log ("Servidor rodando na porta " +:+ port_text p)], Listening p st)
      | ListenError err =>
          if express5
          then ([Query "SELECT 1"; Log "Conectado ao MySQL."; Log ("Servidor rodando na porta " +:+ port_text p)], Idle)
          else ([Query "SELECT 1"; Log "Conectado ao MySQL."; Uncaught err; Exit 1], Exited 1)
      end
  end.

(** The whole of server.js: the imports evaluated in post-order (the
    three files of the repository's graph that matter here), then the
    body. *)
Definition main (parsed penv0 : process_env) (probe : option js_error) (st : server)
    : list proc_event * proc :=
  let penv := dotenv_config parsed penv0 in
  let '(evs, q) := start penv probe st in
  ([LoadModule "dotenv" penv0; LoadModule "./config/db.js" penv0; LoadModule "./app.js" penv0;
    DotenvConfig penv] ++ evs, q).

(** The events of a request that ended the process: the reply, if the
    handler had sent it, then Node's report and exit code. *)
Definition crash_events (r : http_request) (sent : option reply) (err : js_error) : list proc_event :=
  match sent with Some rep => [Served r rep] | None => [] end ++ [Uncaught err; Exit 1].

Inductive step : proc -> list proc_event -> proc -> Prop :=
| step_boot parsed penv0 probe st :
    step Booting (main parsed penv0 probe st).1 (main parsed penv0 probe st).2
| step_serve p st r e rep st' :
    handle r e st = Some (Answered rep, st') ->
    step (Listening p st) [Served r rep] (Listening p st')
| step_crash p st r e sent err st' :
    handle r e st = Some (Crashed sent err, st') ->
    step (Listening p st) (crash_events r sent err) (Exited 1).

(** Runs of the process, with the concatenation of their traces. *)
Inductive run : proc -> list proc_event -> proc -> Prop :=
| run_refl q : run q [] q
| run_step q1 tr1 q2 tr2 q3 : step q1 tr1 q2 -> run q2 tr2 q3 -> run q1 (tr1 ++ tr2) q3.

End Process.

(** ** Lemmas *)

Section ProcessLemmas.
Context (listen : port_value -> listen_outcome) (express5 : bool)
        (handle : http_request -> env -> server -> option (node_reply * server)).

Lemma run_stuck q tr q' :
  (forall tr1 q1, ~ step listen express5 handle q tr1 q1) -> run listen express5 handle q tr q' -> tr = [] /\ q' = q.
Proof. intros Hn. inversion 1 as [|? ? ? ? ? Hs]; [done|]. by destruct (Hn _ _ Hs). Qed.

Lemma run_exited c tr q : run listen express5 handle (Exited c) tr q -> tr = [] /\ q = Exited c.
Proof. apply run_stuck. intros ? ? Hs. inversion Hs. Qed.

Lemma run_idle tr q : run listen express5 handle Idle tr q -> tr = [] /\ q = Idle.
Proof. apply run_stuck. intros ? ? Hs. inversion Hs. Qed.

(** The events of [main] before [start]'s. *)
Lemma main_eq parsed penv0 probe st :
  main listen express5 parsed penv0 probe st =
  ([LoadModule "dotenv" penv0; LoadModule "./config/db.js" penv0; LoadModule "./app.js" penv0;
    DotenvConfig (dotenv_config parsed penv0)] ++ (start listen express5 (dotenv_config parsed penv0) probe st).1,
   (start listen express5 (dotenv_config parsed penv0) probe st).2).
Proof. unfold main. by destruct (start _ _ _ _ _). Qed.

End ProcessLemmas.

(** [dotenv.config()] never overrides: a name of [process.env] keeps its
    value, and a name it lacks takes the file's. *)
Lemma dotenv_config_lookup parsed penv0 k :
  dotenv_config parsed penv0 !! k = match penv0 !! k with Some v => Some v | None => parsed !! k end.
Proof.
  unfold dotenv_config, process_env in *. rewrite lookup_union.
  destruct (penv0 !! k), (parsed !! k); reflexivity.
Qed.

(** ** Theorems *)

Section ProcessTheorems.
Context (listen : port_value -> listen_outcome) (express5 : bool)
        (handle : http_request -> env -> server -> option (node_reply * server)).

(** C9: start-up.  server.js ends listening on [PORT] of the configured
    environment exactly when the probe [SELECT 1] succeeds and
    [app.listen] binds the port.  When the probe fails, or [listen]
    throws synchronously, the [catch] logs the error under "Erro ao
    conectar no banco:" (even when it is [listen] that rejected the port)
    and the process exits with code 1.  When the port cannot be bound
    (the server's ['error'] event, after [start] returned), the [catch]
    sees nothing: under Express 4 Node reports the uncaught error and
    exits with code 1, without the database message; under Express 5
    the callback logs "Servidor rodando na porta ..." and the process
    stays up listening on nothing.  In no failing case is there a
    [Listen]. *)
Theorem start_up parsed penv0 probe st :
  let p := PORT (dotenv_config parsed penv0) in
  let evs := (main listen express5 parsed penv0 probe st).1 in
  let q := (main listen express5 parsed penv0 probe st).2 in
  ((q = Listening p st /\ Listen p ∈ evs) <-> (probe = None /\ listen p = ListenOk)) /\
  (forall err, probe = Some err \/ probe = None /\ listen p = ListenThrows err ->
   q = Exited 1 /\ last evs = Some (Exit 1) /\ (forall p', Listen p' ∉ evs) /\
   LogError "Erro ao conectar no banco:" err ∈ evs) /\
  (forall err, probe = None -> listen p = ListenError err ->
   (forall p', Listen p' ∉ evs) /\ (forall m e, LogError m e ∉ evs) /\
   (if express5 then q = Idle /\ Log ("Servidor rodando na porta " +:+ port_text p) ∈ evs
    else q = Exited 1 /\ Uncaught err ∈ evs /\ last evs = Some (Exit 1))).
Proof.
  intros p evs q. subst evs q. rewrite main_eq. cbn [fst snd]. unfold start. fold p.
  destruct probe as [e0|]; [|destruct (listen p) as [|e0|e0] eqn:Hl; [|..|destruct express5]];
    cbn [fst snd app]; split_and!; try done; try split; intros;
    repeat match goal with H : _ \/ _ |- _ => destruct H | H : _ /\ _ |- _ => destruct H end;
    simplify_eq; set_solver.
Qed.

(** A request is answered only by a process that has listened: in
    every run from the start of server.js, a [Served] event comes after
    a [Listen] in the trace. *)
Lemma served_after_listen tr q r rep :
  run listen express5 handle Booting tr q -> Served r rep ∈ tr -> exists p, Listen p ∈ tr.
Proof.
  inversion 1 as [|? tr1 q2 tr2 ? Hs Hr]; subst; [set_solver|]. inversion Hs as [parsed penv0 probe st| |]; subst.
  rewrite main_eq in Hr |- *. cbn [fst snd] in *. unfold start in Hr |- *.
  destruct probe as [e0|]; [|destruct (listen _) as [|e0|e0]; [|..|destruct express5]];
    cbn [app fst snd] in *;
    first [apply run_exited in Hr as [-> _] | apply run_idle in Hr as [-> _] | idtac];
    intros Hin; [set_solver|..|set_solver|set_solver|set_solver].
  exists (PORT (dotenv_config parsed penv0)). set_solver.
Qed.

End ProcessTheorems.

#[local] Existing Instance demo_crypto.
#[local] Existing Instance finishing_renderer.
#[local] Existing Instance demo_pathlib.

(** The application of Http.v as the process's handler, with the
    demonstration collaborators of Http.v. *)
Lemma served_after_listen_witness :
  let h := app String.compare (fun _ _ => true) "/srv" (fun t => t) demo_verify (fun _ => false) in
  let r := mkHttpRequest "GET" "/" [] None in
  exists tr q, run (fun _ => ListenOk) false h Booting tr q /\ Served r (json (JMessage "API de Estoque OK")) ∈ tr /\
    exists p, Listen p ∈ tr.
Proof.
  intros h r. eexists _, _.
  assert (Hr : run (fun _ => ListenOk) false h Booting
                 ((main (fun _ => ListenOk) false ∅ ∅ None demo_server).1 ++ ([Served r (json (JMessage "API de Estoque OK"))] ++ []))
                 (Listening (PORT (dotenv_config ∅ ∅)) demo_server)).
  { eapply run_step; [apply step_boot|]. eapply run_step; [apply step_serve with (e := demo_env 0); reflexivity|]. apply run_refl. }
  split; [exact Hr|]. split.
  - apply elem_of_app. right. by left.
  - apply (served_after_listen (fun _ => ListenOk) false h _ _ r (json (JMessage "API de Estoque OK")) Hr). apply elem_of_app. right. by left.
Defined.
